(* ===== verification/_CoqProject ===== *)
-Q . S2P
Prelude.v
JsString.v
Types.v
FlowBuilder.v
FlowGraph.v
FlowEngine.v
FlowValidate.v
FlowSerial.v
FlowSchema.v
FlowBuilderUI.v
DocStore.v
StoreApi.v
Auth.v
Routing.v
UserManagement.v
CompanyManagement.v
TradeManagement.v
ProductsServices.v
Quotes.v
Clients.v
Integrations.v
BusinessSettings.v
Dashboards.v
PlatformSettings.v
