(* ===== verification/Prelude.v ===== *)
(** * Quote Generation Hub: a verification development

    The program ([src/src]) is a React single-page application over
    Firebase.  Its parts: the data model ([types/index.ts]); the Firestore
    services ([services/firestore.service.ts]) and the demo authentication
    service ([services/auth.service.ts]); the authentication context
    ([contexts/AuthContext.tsx]) that holds the session; the router and
    its guard ([App.tsx], [components/auth/ProtectedRoute.tsx]) with the
    two layouts; the conversational flow builder
    ([components/admin/ConversationalFlowBuilder.tsx]); and the pages of
    the global admin (dashboard, trades, companies, users, platform
    settings) and of a trade company (dashboard, business settings,
    products, clients, quotes, integrations).  The pages read the session
    through the context, are reached through the router, and keep their
    own state; the services write the Firestore store; the flow execution
    engine is specified ([spec.md] 4.4) but not in the sources.

    ** Files, in dependency order
    - [Prelude] (this file): the notation [a === b] for JavaScript's [===]
      on decidable values, [map_where] for the [prev.map(x => c ? f(x) :
      x)] updates, keyed tables as stdpp [gmap]s ([tbl]), the [result]
      monad, the [reachable] states of a state machine with rule induction
      ([reachable_inv]), draining a queue of timers ([drain_fifo], the
      liveness argument of the pages), list lemmas, the hint databases
      [qh] and [qh_rw] and the tactics [qh_case] and [qh_auto].
    - [JsString]: the string and number built-ins the code calls
      ([toLowerCase], [includes], [split], [join], [padStart], [String(n)],
      [parseInt], [toFixed], [Math.round/floor/ceil], [new Date(...)]) with
      their round trips ([parseInt (String z) = z], zero padding).
    - [Types]: one Record per interface of [types/index.ts].
    - [FlowBuilder], [FlowGraph]: the builder component's state (its node
      array and selection) and every handler as a function on it; the
      spec's map-based flow graph that the builder refines.
    - [FlowEngine]: the spec's engine ([spec_modelled]) over the source's
      node, answer and action types.
    - [FlowValidate], [FlowSerial]: the spec's [validate] (dangling
      links, duplicate answer ids, reachable dead ends, with an executable
      reachability search) and [serialize]/[deserialize] to a JSON-like
      tree ([spec_modelled]); no source code validates or saves a flow.
    - [FlowSchema]: the schema of that tree, one per record of the flow
      types, and the class [Decodes] relating each decoder to its schema.
    - [FlowBuilderUI]: what the builder renders (node cards, palette,
      properties panel) and the events its rendered controls emit, each
      guarded by the control being on screen ([ui_step]).
    - [DocStore]: Firestore as a [gmap] from collection path to documents,
      its primitive operations with their failures, and every service
      method, one store operation per [await]; [generateQuoteNumber] also
      as a two-step thread whose interleavings are schedules.
    - [StoreApi]: the services' writing methods as one [call] type and
      [exec_all], any sequence of calls with whatever outcome.
    - [Auth]: [AuthService] and the [AuthContext] provider (session,
      [localStorage], toasts).
    - [Routing]: the route table, [ProtectedRoute], rendering a URL and
      following its redirects, the login page, and the layouts' menus
      with the sidebar's open flag and its links ([layout_step]).
    - One file per page ([UserManagement], [CompanyManagement],
      [TradeManagement], [ProductsServices], [Quotes], [Clients],
      [Integrations], [BusinessSettings], [Dashboards],
      [PlatformSettings]): the page's mock data, its React state as a
      Record, each handler as a function, what it renders (table rows,
      stats cards, dialog options, empty states), the page's events
      (clicks, keystrokes, timers firing) as an Inductive and
      [step]/[run].  A
      click reaches a handler only when the page renders that button; an
      [await] splits a handler into the click and a later timer event, so
      other events can come in between.

    ** What the theorems show
    - Builder: the array-based builder refines the map-based graph; node
      ids stay unique for distinct clock readings; the handlers' effects
      (delete, move, add answer) and where they break the spec (dangling
      links, ids that collide within one millisecond); through its
      interface the builder never links two nodes and its selection always
      names a node; the trade page's dialog always mounts the builder on
      its demonstration nodes, ignoring the template and losing edits.
    - Engine: every session returns a state or a typed error (the fuel
      [1 + bound * size] suffices because each entry of a node increments
      its visit count, which the loop bound caps); action semantics; error
      cases; visit counts stay within the bound.
    - Validation and serialization: the set-iteration search computes
      exactly the inductive reachability ([size g] rounds suffice, since
      each round before the fixpoint adds a node of [g]); [validate]
      reports nothing exactly when the spec's invariants hold; a builder
      delete yields a dangling-reference report; [deserialize] inverts
      [serialize] on every flow, and accepts exactly the trees of the
      flow schema.
    - Firestore services: create/getById round trip; update on a missing
      document; quote numbers issued in sequence, the race of two
      concurrent [generateQuoteNumber]s, the missing-settings failure;
      the undefined [company_id] rejections; ordering of [getAll]; no
      sequence of service calls creates a company's system settings, so
      a company without them never numbers a quote.
    - Authentication and routing: the context's login agrees with the
      service's; a reload restores the session user's identity and role
      but, through [JSON.stringify]/[JSON.parse], turns its [Date] fields
      into ISO strings; every URL renders within
      three steps (at most two redirects); layouts are shown only to their
      role; the login form's stale closure; a sidebar link closes the
      sidebar and is then the one highlighted item.
    - Pages: invariants of each page's reachable states (the user
      selection, the integration cards, one save in flight), interleavings
      (a sync landing after a disconnect), the select-all and shared
      dialog flags, links that lead to 404 pages ([/quotes/<id>], the
      dashboards' quick actions), the quote filter's TypeError, the markup
      read as a margin, and the settings preview agreeing with
      [generateQuoteNumber]'s format; the create dialogs' submit buttons
      that only close the dialog, a Clear Filters button that keeps the
      quote table empty, margin rules that no product inherits, and the
      stats cards' figures against the mock data; liveness: timer events
      alone finish every running save, test and sync, posting their
      toasts (the business settings' one save timer in the order set,
      the integrations' 2 s tests and 3 s syncs by due time, the event
      loop running the timer due first).

    ** Representation choices
    Money, percentages and rates are exact rationals [Q]: the theorems
    about prices are statements about the exact values, and [toFixed]
    rounds an exact decimal half up as the specification of
    [Number.prototype.toFixed] does; binary floating point rounding is not
    modelled.  Dates are milliseconds [N]; a local date-time string is
    read in a UTC browser, and [toISOString] writes one as the ECMAScript
    specification does for the years 1970 to 9999.  The clock
    ([Date.now()], [new Date()]), Firebase's generated ids and account
    creation are inputs of the operations that read them; the
    integrations page, whose timers have different delays, keeps the
    clock in its state and runs its timers by due time.

    ** Not modelled
    The Firebase SDK, React, react-dnd and react-hot-toast are libraries
    the sources only call: each call's observable effect is modelled where
    it is made.  Rendering, styling and icons carry no behaviour.  Unknown
    extra fields of a serialized flow (spec 4.1) have no place in the
    source's record types and are not kept.  [toLocaleString] and
    [toLocaleDateString] depend on the browser's locale and are not
    modelled.  [parseFloat] is taken as the value of the event that calls
    it. *)

From Stdlib Require Import Ascii.
From stdpp Require Export base list gmap strings.

(** * Notation

    JavaScript's strict equality on the string and enum values of the
    program is decidable equality read as a boolean. *)

Declare Scope qh_scope.
Delimit Scope qh_scope with qh.

Notation "a === b" := (bool_decide (a = b)) (at level 70, no associativity) : qh_scope.
Notation "a !== b" := (negb (bool_decide (a = b))) (at level 70, no associativity) : qh_scope.

Open Scope qh_scope.

(** * The [prev.map(x => cond(x) ? f(x) : x)] idiom

    Every React state update of the program that edits one element of an
    array in place is written this way. *)

Definition map_where {A} (p : A -> bool) (f : A -> A) (l : list A) : list A :=
  map (fun x => if p x then f x else x) l.

Create HintDb qh discriminated.
Create Rewrite HintDb qh_rw.

Section map_where.
Context {A : Type} (p : A -> bool) (f : A -> A).

Lemma length_map_where (l : list A) : length (map_where p f l) = length l.
  Proof. apply length_map. Qed.

Lemma map_where_id (l : list A) :
    Forall (fun x => p x = false) l -> map_where p f l = l.
  Proof. induction 1 as [|x l Hx _ IH]; simpl; [done|]. by rewrite Hx, IH. Qed.

  (** When [f] keeps the key of the element it edits, the keys of the
      array are unchanged. *)
Lemma map_where_keys {K} (key : A -> K) (l : list A) :
    (forall x, p x = true -> key (f x) = key x) ->
    map key (map_where p f l) = map key l.
  Proof.
    intros Hf. induction l as [|x l IH]; simpl; [done|].
    rewrite IH. destruct (p x) eqn:E; [by rewrite Hf|done].
  Qed.

Lemma elem_of_map_where (y : A) (l : list A) :
    y ∈ map_where p f l <-> exists x, x ∈ l /\ y = (if p x then f x else x).
  Proof. unfold map_where. rewrite list_elem_of_fmap. naive_solver. Qed.
Lemma find_map_where (l : list A) (x : A) :
    (forall y, p y = true -> p (f y) = true) ->
    find p l = Some x -> find p (map_where p f l) = Some (f x).
  Proof.
    intros Hf. induction l as [|y l IH]; simpl; [done|].
    destruct (p y) eqn:E; [intros [= ->]; by rewrite Hf|]. rewrite E. apply IH.
  Qed.
End map_where.

#[export] Hint Resolve length_map_where map_where_keys : qh.

(** * Keys of an array of records *)

Section keys.
Context {A K : Type} (key : A -> K).

Lemma NoDup_keys_filter (q : A -> bool) (l : list A) :
    NoDup (map key l) -> NoDup (map key (List.filter q l)).
  Proof.
    induction l as [|x l IH]; simpl; [done|].
    rewrite NoDup_cons. intros [Hx Hl]. destruct (q x); simpl; [|by apply IH].
    rewrite NoDup_cons. split; [|by apply IH].
    intros Hin. apply Hx. apply list_elem_of_fmap in Hin as (y & -> & Hy).
    apply list_elem_of_fmap. exists y. split; [done|].
    apply list_elem_of_In in Hy. apply filter_In in Hy as [Hy _].
    by apply list_elem_of_In.
  Qed.

Lemma NoDup_keys_snoc (l : list A) (x : A) :
    NoDup (map key l) -> key x ∉ map key l -> NoDup (map key (l ++ [x])).
  Proof.
    intros Hl Hx. rewrite map_app. apply NoDup_app. split_and!; [done| |].
    - intros k Hk Hk'. simpl in Hk'. apply list_elem_of_singleton in Hk'. by subst.
    - simpl. apply NoDup_singleton.
  Qed.

Lemma find_key_Some `{EqDecision K} (k : K) (l : list A) (x : A) :
    find (fun y => key y === k) l = Some x -> x ∈ l /\ key x = k.
  Proof.
    intros Hf. apply find_some in Hf as [Hin Hk].
    split; [by apply list_elem_of_In|]. by apply bool_decide_eq_true in Hk.
  Qed.

Lemma find_key_None `{EqDecision K} (k : K) (l : list A) :
    find (fun y => key y === k) l = None <-> k ∉ map key l.
  Proof.
    induction l as [|x l IH]; simpl.
    - split; [intros _; apply not_elem_of_nil|done].
    - case_bool_decide as Hk; rewrite not_elem_of_cons; [naive_solver|].
      rewrite IH. naive_solver.
  Qed.
End keys.

Lemma map_filter_comm {A B} (f : A -> B) (q : B -> bool) (l : list A) :
  map f (List.filter (fun x => q (f x)) l) = List.filter q (map f l).
Proof. induction l as [|x l IH]; simpl; [done|]. destruct (q (f x)); simpl; by rewrite IH. Qed.

#[export] Hint Resolve NoDup_keys_filter NoDup_keys_snoc : qh.

(** * An array of records read as a map from its key

    [tbl key val l] is the finite map the array [l] denotes, the first
    record of a key winning, as [Array.find] sees it. *)

Section tbl.
Context {A K V : Type} `{Countable K} (key : A -> K) (val : A -> V).

Definition tbl (l : list A) : gmap K V := list_to_map (map (fun c => (key c, val c)) l).

Lemma tbl_cons (c : A) (l : list A) : tbl (c :: l) = <[key c := val c]> (tbl l).
  Proof. done. Qed.

Lemma tbl_map_where (p : A -> bool) (f : A -> A) (g : V -> V) (k : K) (l : list A) :
    (forall c, p c = true <-> key c = k) -> (forall c, key (f c) = key c) ->
    (forall c, p c = true -> val (f c) = g (val c)) ->
    tbl (map_where p f l) = alter g k (tbl l).
  Proof.
    intros Hp Hk Hv. induction l as [|c l IH]; [symmetry; apply alter_empty|].
    change (map_where p f (c :: l)) with ((if p c then f c else c) :: map_where p f l).
    rewrite !tbl_cons, IH. destruct (p c) eqn:E.
    - pose proof (proj1 (Hp c) E) as Hc. rewrite Hk, Hv, Hc by done.
      by rewrite alter_insert_eq, insert_alter_eq.
    - assert (key c <> k) by (intros Hc; apply Hp in Hc; congruence).
      by rewrite insert_alter_ne, alter_insert_ne.
  Qed.

Lemma tbl_filter (k : K) (l : list A) :
    tbl (List.filter (fun c => key c !== k) l) = delete k (tbl l).
  Proof.
    induction l as [|c l IH]; [symmetry; apply delete_empty|].
    cbn [List.filter]. rewrite tbl_cons. case_bool_decide as Hc; cbn [negb].
    - rewrite IH, Hc. by rewrite delete_insert_eq.
    - rewrite tbl_cons, IH. by rewrite delete_insert_ne.
  Qed.

Lemma tbl_snoc (c : A) (l : list A) :
    key c ∉ map key l -> tbl (l ++ [c]) = <[key c := val c]> (tbl l).
  Proof.
    intros Hc. unfold tbl. rewrite map_app. apply list_to_map_snoc.
    by rewrite <- list_fmap_compose.
  Qed.

Lemma tbl_find (k : K) (l : list A) :
    tbl l !! k = val <$> find (fun c => key c === k) l.
  Proof.
    induction l as [|c l IH]; [done|]. cbn [find]. rewrite tbl_cons.
    case_bool_decide as Hc.
    - subst. by rewrite lookup_insert_eq.
    - by rewrite lookup_insert_ne.
  Qed.

Lemma elem_of_dom_tbl (k : K) (l : list A) : k ∈ dom (tbl l) <-> k ∈ map key l.
  Proof.
    induction l as [|c l IH].
    - unfold tbl; simpl. rewrite dom_empty_L. split; [set_solver|intros Hk%not_elem_of_nil; done].
    - rewrite tbl_cons, dom_insert_L, elem_of_union, elem_of_singleton. simpl.
      rewrite elem_of_cons, IH.
      naive_solver.
  Qed.
End tbl.

(** * Fallible operations

    A typed error or a value, with stdpp's monad notation
    [x ← c; k] and [mret]. *)

Inductive result (E A : Type) := Ok (a : A) | Err (e : E).
Arguments Ok {E A} a.
Arguments Err {E A} e.

#[export] Instance result_ret E : MRet (result E) := fun A a => Ok a.
#[export] Instance result_bind E : MBind (result E) :=
  fun A B f r => match r with Ok a => f a | Err e => Err e end.

Lemma bind_Ok {E A B} (a : A) (f : A -> result E B) : (Ok a ≫= f) = f a.
Proof. done. Qed.

Lemma bind_Err {E A B} (e : E) (f : A -> result E B) : (Err e ≫= f) = Err e.
Proof. done. Qed.

(** * Invariants of a left fold *)

Lemma foldl_invariant {A B} (P : B -> Prop) (Q : A -> Prop) (f : B -> A -> B) (l : list A) (b : B) :
  Forall Q l -> (forall b a, Q a -> P b -> P (f b a)) -> P b -> P (foldl f b l).
Proof. intros HQ Hf. revert b. induction HQ; intros b Hb; simpl; auto. Qed.

Lemma filter_none {A} (f : A -> bool) (l : list A) :
  (forall x, x ∈ l -> f x = false) -> List.filter f l = [].
Proof.
  induction l as [|x l IH]; intros H; simpl; [done|].
  rewrite H by set_solver. apply IH. set_solver.
Qed.

Lemma filter_all {A} (f : A -> bool) (l : list A) :
  (forall x, x ∈ l -> f x = true) -> List.filter f l = l.
Proof.
  induction l as [|x l IH]; intros H; simpl; [done|].
  rewrite H by set_solver. f_equal. apply IH. set_solver.
Qed.

Lemma elem_of_filter_In {A} (f : A -> bool) (l : list A) x : x ∈ List.filter f l <-> x ∈ l /\ f x = true.
Proof. rewrite !list_elem_of_In. apply filter_In. Qed.

Lemma NoDup_fmap_filter {A B} (g : A -> B) (f : A -> bool) (l : list A) :
  NoDup (g <$> l) -> NoDup (g <$> List.filter f l).
Proof.
  induction l as [|x l IH]; csimpl; [done|]. intros [Hx Hl]%NoDup_cons.
  destruct (f x); csimpl; [|auto]. constructor; [|auto].
  intros (y & Hy & [Hin _]%elem_of_filter_In)%list_elem_of_fmap. apply Hx.
  apply list_elem_of_fmap. eauto.
Qed.

Lemma filter_nil_iff {A} (f : A -> bool) (l : list A) :
  List.filter f l = [] <-> forall x, x ∈ l -> f x = false.
Proof.
  split; [|apply filter_none]. intros H x Hx. destruct (f x) eqn:E; [|done].
  assert (Hf : x ∈ List.filter f l) by (apply elem_of_filter_In; done).
  rewrite H in Hf. by apply not_elem_of_nil in Hf.
Qed.

Lemma fmap_nil_iff {A B} (f : A -> B) (l : list A) : f <$> l = [] <-> l = [].
Proof. split; [apply fmap_nil_inv|by intros ->]. Qed.

Lemma bind_nil_iff {A B} (f : A -> list B) (l : list A) :
  l ≫= f = [] <-> forall x, x ∈ l -> f x = [].
Proof.
  induction l as [|x l IH]; simpl; [split; [intros _ y Hy; by apply not_elem_of_nil in Hy|done]|].
  rewrite app_nil, IH. split.
  - intros [Hx Hl] y [->|Hy]%elem_of_cons; auto.
  - intros H. split; [apply H; by left|intros y Hy; apply H; by right].
Qed.

(** * Sums of measures over a list of keys *)

Lemma sum_list_fmap_le {A} (f : A -> nat) (b : nat) (l : list A) :
  Forall (fun x => f x <= b) l -> sum_list (f <$> l) <= length l * b.
Proof. induction 1; csimpl; lia. Qed.

Lemma sum_list_fmap_eq {A} (f f' : A -> nat) (l : list A) :
  (forall y, y ∈ l -> f' y = f y) -> sum_list (f' <$> l) = sum_list (f <$> l).
Proof.
  induction l as [|y l IH]; intros Hl; csimpl; [done|].
  rewrite Hl, IH; [done| |]; set_solver.
Qed.

Lemma sum_list_fmap_update `{EqDecision A} (f f' : A -> nat) (k : A) (l : list A) :
  NoDup l -> k ∈ l -> (forall x, x <> k -> f' x = f x) -> f' k + 1 = f k ->
  sum_list (f' <$> l) + 1 = sum_list (f <$> l).
Proof.
  intros Hnd Hk Hoth Hkk. induction Hnd as [|x l Hx Hnd IH]; [by apply not_elem_of_nil in Hk|].
  csimpl. apply elem_of_cons in Hk as [->|Hk].
  - rewrite (sum_list_fmap_eq f f' l); [lia|]. intros y Hy. apply Hoth. set_solver.
  - assert (x <> k) by set_solver. rewrite (Hoth x) by done. specialize (IH Hk). lia.
Qed.

(** * Reachable states of a page

    Every page of the program is a state machine: an event (a click, a
    keystroke, a timer firing) maps the page's state to the next one.  A
    state is reachable when some sequence of events leads to it from the
    initial state; an invariant is proved once by rule induction and then
    holds after every run. *)

Section reachable.
Context {S E : Type} (step : E -> S -> S) (init : S).

Inductive reachable : S -> Prop :=
  | reach_init : reachable init
  | reach_step (e : E) (s : S) : reachable s -> reachable (step e s).

Lemma reachable_run (es : list E) : reachable (foldl (fun s e => step e s) init es).
Proof.
  rewrite <-(reverse_involutive es). induction (reverse es) as [|e es' IH]; [constructor|].
  rewrite reverse_cons, foldl_app. simpl. by constructor.
Qed.

Lemma reachable_is_run (s : S) :
  reachable s -> exists es, s = foldl (fun s e => step e s) init es.
Proof.
  induction 1 as [|e s _ [es ->]]; [by exists []|].
  exists (es ++ [e]). by rewrite foldl_app.
Qed.

Lemma reachable_inv (P : S -> Prop) :
  P init -> (forall e s, reachable s -> P s -> P (step e s)) -> forall s, reachable s -> P s.
Proof. intros Hi Hs s Hr. induction Hr; eauto. Qed.

Lemma reachable_foldl (s : S) (es : list E) :
  reachable s -> reachable (foldl (fun s e => step e s) s es).
Proof. revert s. induction es as [|e es IH]; intros s Hs; simpl; [done|]. apply IH. by constructor. Qed.

End reachable.

#[export] Hint Constructors reachable : qh.

(** * Draining a queue of timers

    A page that keeps its running [await]s as a queue, and whose timer
    event resumes the oldest one, returns to idle by timer events alone:
    firing the oldest timer as many times as there are entries empties the
    queue, and what each resumption adds to an observation (the toasts)
    comes out in the order the entries were queued. *)
Section drain.
Context {S E P O : Type} (step : E -> S -> S) (fire : E)
        (pending : S -> list P) (obs : S -> list O) (out : P -> list O).
Hypothesis fire_pops : forall s p ps, pending s = p :: ps ->
  pending (step fire s) = ps /\ obs (step fire s) = obs s ++ out p.

Lemma drain_fifo (s : S) :
  pending (foldl (fun s e => step e s) s (replicate (length (pending s)) fire)) = [] /\
  obs (foldl (fun s e => step e s) s (replicate (length (pending s)) fire)) = obs s ++ (pending s ≫= out).
Proof.
  remember (pending s) as l eqn:Hl. revert s Hl.
  induction l as [|p ps IH]; intros s Hl; simpl; [by rewrite app_nil_r|].
  destruct (fire_pops s p ps (eq_sym Hl)) as [Hp Ho].
  destruct (IH (step fire s) (eq_sym Hp)) as [H1 H2]. split; [done|]. by rewrite H2, Ho, <-app_assoc.
Qed.
End drain.

(** * Tactics *)

(** [qh_case] splits on the boolean equality tests of the goal and of the
    hypotheses, turning each into the proposition it decides. *)
Ltac qh_case :=
  repeat first
    [ case_bool_decide
    | match goal with
      | H : bool_decide _ = true |- _ => apply bool_decide_eq_true in H
      | H : bool_decide _ = false |- _ => apply bool_decide_eq_false in H
      end ];
  simplify_eq/=.

Ltac qh_auto := eauto with qh.
