(* ===== verification/JsString.v ===== *)
(** * JavaScript string operations

    The string methods the program calls, on [String.string]:
    [toLowerCase] (on the ASCII letters), [includes], [startsWith],
    [padStart], [split(c)], [split(c)[0]], [join], [String(n)] for a
    non-negative integer, and the [a || b] default of an empty string;
    and [new Date('YYYY-MM-DD')] as milliseconds since the epoch.  The
    numbers the program prints into identifiers ([Date.now()], quote
    numbers) are [N]. *)

From Stdlib Require Import Ascii DecimalString DecimalN ZArith QArith Qround.
From S2P Require Import Prelude.

Module JsString.

Definition lower_ascii (c : ascii) : ascii :=
  let n := nat_of_ascii c in
  if (65 <=? n) && (n <=? 90) then ascii_of_nat (n + 32) else c.

(** [s.toLowerCase()] *)
Fixpoint toLowerCase (s : string) : string :=
  match s with
  | EmptyString => EmptyString
  | String c s' => String (lower_ascii c) (toLowerCase s')
  end.

(** [s.includes(t)]: [t] occurs in [s] at some position. *)
Fixpoint includes (s t : string) : bool :=
  String.prefix t s ||
  match s with
  | EmptyString => false
  | String _ s' => includes s' t
  end.

(** [s.startsWith(t)] *)
Definition startsWith (s t : string) : bool := String.prefix t s.

Fixpoint repeat_ascii (c : ascii) (n : nat) : string :=
  match n with
  | O => EmptyString
  | S n' => String c (repeat_ascii c n')
  end.

(** [s.padStart(len, c)] with a one-character pad: never truncates. *)
Definition padStart (s : string) (len : nat) (c : ascii) : string :=
  repeat_ascii c (len - String.length s) +:+ s.

(** [String(n)] for a non-negative integer [n]. *)
Definition string_of_N (n : N) : string := NilZero.string_of_uint (N.to_uint n).

(** The inverse, reading decimal digits (leading zeros allowed). *)
Definition N_of_string (s : string) : option N :=
  match NilZero.uint_of_string s with
  | Some d => Some (N.of_uint d)
  | None => None
  end.

Definition is_digit (c : ascii) : bool := (48 <=? nat_of_ascii c) && (nat_of_ascii c <=? 57).

Definition is_space (c : ascii) : bool :=
  (c === " "%char) || (nat_of_ascii c === 9) || (nat_of_ascii c === 10) || (nat_of_ascii c === 13).

(** The longest prefix of decimal digits. *)
Fixpoint digit_prefix (s : string) : string :=
  match s with
  | EmptyString => EmptyString
  | String c s' => if is_digit c then String c (digit_prefix s') else EmptyString
  end.

Fixpoint trim_start (s : string) : string :=
  match s with
  | EmptyString => EmptyString
  | String c s' => if is_space c then trim_start s' else s
  end.

(** [parseInt(s)] (radix 10): leading white space, an optional sign, then
    the longest run of digits; [NaN] ([None]) when there is no digit. *)
Definition parseInt (s : string) : option Z :=
  match trim_start s with
  | String "-"%char r => (fun n => (- Z.of_N n)%Z) <$> N_of_string (digit_prefix r)
  | String "+"%char r => Z.of_N <$> N_of_string (digit_prefix r)
  | t => Z.of_N <$> N_of_string (digit_prefix t)
  end.

(** [s.split(c)[0]]: the part of [s] before the first [c]. *)
Fixpoint split_first (c : ascii) (s : string) : string :=
  match s with
  | EmptyString => EmptyString
  | String a s' => if bool_decide (a = c) then EmptyString else String a (split_first c s')
  end.

(** [s || d] on a string: the empty string is falsy. *)
Definition or_default (s d : string) : string :=
  if bool_decide (s = EmptyString) then d else s.

(** [o || d] on an optional string: [undefined] and [''] are falsy. *)
Definition opt_or_default (o : option string) (d : string) : string :=
  match o with
  | Some s => or_default s d
  | None => d
  end.

(** The case-insensitive match every search box of the program uses:
    [field.toLowerCase().includes(term.toLowerCase())]. *)
Definition matches (field term : string) : bool :=
  includes (toLowerCase field) (toLowerCase term).

(** The same on an optional field: [field?.toLowerCase().includes(...)]
    is [undefined], hence falsy, when the field is absent. *)
Definition opt_matches (field : option string) (term : string) : bool :=
  match field with
  | Some f => matches f term
  | None => false
  end.

(** [s.split(c)] with a one-character separator: ['a  b'] gives
    [['a'; ''; 'b']] and [''] gives [['']]. *)
Fixpoint split_acc (c : ascii) (s cur : string) : list string :=
  match s with
  | EmptyString => [cur]
  | String a s' => if bool_decide (a = c) then cur :: split_acc c s' EmptyString else split_acc c s' (cur +:+ String a EmptyString)
  end.

Definition split (c : ascii) (s : string) : list string := split_acc c s EmptyString.

(** [parts.join(sep)] *)
Fixpoint join (sep : string) (parts : list string) : string :=
  match parts with
  | [] => EmptyString
  | [p] => p
  | p :: ps => p +:+ sep +:+ join sep ps
  end.

(** [s[0]] rendered by React: the first character, or nothing for the
    [undefined] of an empty string. *)
Definition first_char (s : string) : string :=
  match s with EmptyString => EmptyString | String a _ => String a EmptyString end.

(** [new Date('YYYY-MM-DD')]: midnight UTC of that day, in milliseconds
    (the civil-to-days conversion of the proleptic Gregorian calendar). *)
Definition days_from_civil (y m d : N) : N :=
  let y' := if (m <=? 2)%N then (y - 1)%N else y in
  let era := (y' / 400)%N in
  let yoe := (y' - era * 400)%N in
  let mp := if (2 <? m)%N then (m - 3)%N else (m + 9)%N in
  let doy := ((153 * mp + 2) / 5 + d - 1)%N in
  let doe := (yoe * 365 + yoe / 4 - yoe / 100 + doy)%N in
  (era * 146097 + doe - 719468)%N.

Definition date_utc (y m d : N) : N := (days_from_civil y m d * 86400000)%N.

(** [new Date('YYYY-MM-DDTHH:MM:00')], a local date-time, in a browser
    whose time zone is UTC. *)
Definition date_time (y m d h mi : N) : N := (date_utc y m d + (h * 60 + mi) * 60000)%N.

(** The days-to-civil conversion, the inverse of [days_from_civil]:
    (year, month, day) of a day number counted from 1970-01-01. *)
Definition civil_from_days (days : N) : N * N * N :=
  let z := (days + 719468)%N in
  let era := (z / 146097)%N in
  let doe := (z - era * 146097)%N in
  let yoe := ((doe - doe / 1460 + doe / 36524 - doe / 146096) / 365)%N in
  let doy := (doe - (365 * yoe + yoe / 4 - yoe / 100))%N in
  let mp := ((5 * doy + 2) / 153)%N in
  let d := (doy - (153 * mp + 2) / 5 + 1)%N in
  let m := if (mp <? 10)%N then (mp + 3)%N else (mp - 9)%N in
  let y := (yoe + era * 400)%N in
  ((if (m <=? 2)%N then (y + 1)%N else y), m, d).

Definition pad0 (n : N) (w : nat) : string := padStart (string_of_N n) w "0"%char.

(** [date.toISOString()]: [YYYY-MM-DDTHH:mm:ss.sssZ] in UTC, for the
    years 1970 to 9999 that a millisecond count [N] reaches before the
    six-digit year format. *)
Definition toISOString (t : N) : string :=
  let '(y, m, d) := civil_from_days (t / 86400000)%N in
  let ms := (t mod 86400000)%N in
  pad0 y 4 +:+ "-" +:+ pad0 m 2 +:+ "-" +:+ pad0 d 2 +:+ "T" +:+
  pad0 (ms / 3600000)%N 2 +:+ ":" +:+ pad0 (ms / 60000 mod 60)%N 2 +:+ ":" +:+
  pad0 (ms / 1000 mod 60)%N 2 +:+ "." +:+ pad0 (ms mod 1000)%N 3 +:+ "Z".

(** [Math.round(x)]: the nearest integer, halves rounded up. *)
Definition math_round (q : Q) : Z := Qfloor (q + (1 # 2)).

(** [Math.floor(x)] and [Math.ceil(x)]. *)
Definition math_floor (q : Q) : Z := Qfloor q.
Definition math_ceil (q : Q) : Z := Qceiling q.

(** [String(n)] for an integer. *)
Definition string_of_Z (z : Z) : string :=
  if (z <? 0)%Z then "-" +:+ string_of_N (Z.to_N (- z)) else string_of_N (Z.to_N z).

(** [x.toFixed(d)]: the sign, then [x] rounded half up at [d] decimals,
    with exactly [d] digits after the point. *)
Definition toFixed (q : Q) (d : nat) : string :=
  let sign := if Qlt_le_dec q 0 then "-" else EmptyString in
  let a := if Qlt_le_dec q 0 then - q else q in
  let scale := (10 ^ N.of_nat d)%N in
  let n := Z.to_N (Qfloor (a * inject_Z (Z.of_N scale) + (1 # 2))) in
  sign +:+ string_of_N (n / scale)%N +:+
  match d with
  | O => EmptyString
  | S _ => "." +:+ padStart (string_of_N (n mod scale)%N) d "0"
  end.

(** ** Lemmas *)

(** stdpp declares [String.append] [simpl never]; these are its two
    equations. *)
Lemma append_nil_l (s : string) : EmptyString +:+ s = s.
Proof. reflexivity. Qed.

Lemma append_cons (a : ascii) (s t : string) : String a s +:+ t = String a (s +:+ t).
Proof. reflexivity. Qed.

Lemma prefix_empty (s : string) : String.prefix EmptyString s = true.
Proof. by destruct s. Qed.

Lemma includes_empty (s : string) : includes s EmptyString = true.
Proof. destruct s; simpl; by rewrite ?prefix_empty. Qed.

Lemma toLowerCase_empty : toLowerCase EmptyString = EmptyString.
Proof. done. Qed.

(** An empty search term matches every field. *)
Lemma matches_empty (f : string) : matches f EmptyString = true.
Proof. apply includes_empty. Qed.

Lemma lower_ascii_idem (c : ascii) : lower_ascii (lower_ascii c) = lower_ascii c.
Proof.
  unfold lower_ascii. pose proof (nat_ascii_bounded c) as Hb.
  destruct ((65 <=? nat_of_ascii c) && (nat_of_ascii c <=? 90)) eqn:E; [|by rewrite E].
  apply andb_true_iff in E as [E1 E2]. apply Nat.leb_le in E1, E2.
  rewrite nat_ascii_embedding by lia.
  replace (nat_of_ascii c + 32 <=? 90) with false
    by (symmetry; apply Nat.leb_gt; lia).
  by rewrite andb_false_r.
Qed.

Lemma toLowerCase_idem (s : string) : toLowerCase (toLowerCase s) = toLowerCase s.
Proof. induction s; simpl; by rewrite ?lower_ascii_idem, ?IHs. Qed.

Lemma prefix_refl (s : string) : String.prefix s s = true.
Proof. induction s as [|a s IH]; simpl; [done|]. by destruct (ascii_dec a a). Qed.

Lemma prefix_app (s t : string) : String.prefix s (s +:+ t) = true.
Proof.
  induction s as [|a s IH]; rewrite ?append_nil_l, ?append_cons; [apply prefix_empty|].
  simpl. by destruct (ascii_dec a a).
Qed.

Lemma append_cancel_l (p a b : string) : p +:+ a = p +:+ b -> a = b.
Proof.
  induction p as [|c p IH]; rewrite ?append_nil_l, ?append_cons; [done|].
  intros H. injection H. apply IH.
Qed.

Lemma prefix_comparable (a b s : string) :
  String.prefix a s = true -> String.prefix b s = true ->
  String.prefix a b = true \/ String.prefix b a = true.
Proof.
  revert b s; induction a as [|x a IH]; intros b s Ha Hb; [left; apply prefix_empty|].
  destruct b as [|y b]; [right; apply prefix_empty|].
  destruct s as [|z s]; [done|]. simpl in *.
  destruct (ascii_dec x z), (ascii_dec y z); subst; try done.
  destruct (ascii_dec z z); [|done]. eauto.
Qed.

Lemma includes_prefix (s t : string) : String.prefix t s = true -> includes s t = true.
Proof. intros H. destruct s; cbn [includes]; by rewrite H. Qed.

(** [includes] finds a term wherever it occurs. *)
Lemma includes_app (a t b : string) : includes (a +:+ t +:+ b) t = true.
Proof.
  induction a as [|c a IH]; rewrite ?append_nil_l, ?append_cons.
  - apply includes_prefix. apply (prefix_app t b).
  - simpl. by rewrite IH, orb_true_r.
Qed.

Lemma includes_refl (s : string) : includes s s = true.
Proof. apply includes_prefix. apply prefix_refl. Qed.

(** Every field matches itself, whatever the case of either. *)
Lemma matches_refl (f : string) : matches f f = true.
Proof. apply includes_refl. Qed.

(** ** [String(n)] and its inverse *)

Lemma to_uint_not_nil (n : N) : N.to_uint n <> Decimal.Nil.
Proof.
  rewrite <- (Unsigned.of_to n), Unsigned.to_of.
  unfold Decimal.unorm. by destruct (Decimal.nzhead _).
Qed.

Lemma string_of_N_roundtrip (n : N) : N_of_string (string_of_N n) = Some n.
Proof.
  unfold N_of_string, string_of_N.
  rewrite NilZero.usu by apply to_uint_not_nil. by rewrite Unsigned.of_to.
Qed.

Lemma string_of_N_inj (n m : N) : string_of_N n = string_of_N m -> n = m.
Proof.
  intros H. pose proof (string_of_N_roundtrip n) as Hn.
  rewrite H, string_of_N_roundtrip in Hn. congruence.
Qed.

Lemma string_of_N_nonempty (n : N) : string_of_N n <> EmptyString.
Proof.
  intros H. pose proof (string_of_N_roundtrip n) as Hn.
  rewrite H in Hn. discriminate.
Qed.

Fixpoint zeros (k : nat) (d : Decimal.uint) : Decimal.uint :=
  match k with O => d | S k' => Decimal.D0 (zeros k' d) end.

Lemma uint_of_string_zeros (k : nat) (s : string) :
  NilEmpty.uint_of_string (repeat_ascii "0" k +:+ s) =
  option_map (zeros k) (NilEmpty.uint_of_string s).
Proof.
  induction k as [|k IH]; simpl; rewrite ?append_nil_l, ?append_cons.
  - by destruct (NilEmpty.uint_of_string s).
  - simpl. rewrite IH. by destruct (NilEmpty.uint_of_string s).
Qed.

Lemma of_uint_zeros (k : nat) (d : Decimal.uint) : N.of_uint (zeros k d) = N.of_uint d.
Proof.
  induction k as [|k IH]; simpl; [done|].
  rewrite <- IH. apply Unsigned.of_iff. done.
Qed.

Lemma N_of_string_zeros (k : nat) (s : string) :
  s <> EmptyString ->
  N_of_string (repeat_ascii "0" k +:+ s) = N_of_string s.
Proof.
  intros Hs. destruct s as [|a s]; [done|].
  assert (exists b r, repeat_ascii "0" k +:+ String a s = String b r) as (b & r & E).
  { destruct k; simpl; rewrite ?append_nil_l, ?append_cons; eauto. }
  unfold N_of_string, NilZero.uint_of_string. rewrite E, <- E, uint_of_string_zeros.
  destruct (NilEmpty.uint_of_string (String a s)); simpl; [|done].
  by rewrite of_uint_zeros.
Qed.

(** Zero-padding a number keeps it readable back. *)
Lemma padStart_roundtrip (n : N) (len : nat) :
  N_of_string (padStart (string_of_N n) len "0") = Some n.
Proof.
  unfold padStart. rewrite N_of_string_zeros by apply string_of_N_nonempty.
  apply string_of_N_roundtrip.
Qed.

Lemma length_repeat_ascii (c : ascii) (n : nat) : String.length (repeat_ascii c n) = n.
Proof. induction n; simpl; auto. Qed.

Lemma length_append (s t : string) : String.length (s +:+ t) = String.length s + String.length t.
Proof. induction s; rewrite ?append_nil_l, ?append_cons; simpl; auto. Qed.

Lemma length_padStart (s : string) (len : nat) (c : ascii) :
  String.length (padStart s len c) = Nat.max len (String.length s).
Proof. unfold padStart. rewrite length_append, length_repeat_ascii. lia. Qed.

Lemma prefix_app_l (t x s : string) : String.prefix (t +:+ x) s = true -> String.prefix t s = true.
Proof.
  revert s; induction t as [|a t IH]; intros s H; [apply prefix_empty|].
  rewrite append_cons in H. destruct s as [|b s]; [done|]. simpl in *.
  destruct (ascii_dec a b); [by apply IH|done].
Qed.

Lemma includes_app_l (s t x : string) : includes s (t +:+ x) = true -> includes s t = true.
Proof.
  induction s as [|b s IH]; cbn [includes].
  - intros H. apply orb_true_iff in H as [H|H]; [|done]. apply orb_true_iff. left. by eapply prefix_app_l.
  - intros [H|H]%orb_true_iff; apply orb_true_iff; [left; by eapply prefix_app_l|right; by apply IH].
Qed.

Lemma toLowerCase_app (s t : string) : toLowerCase (s +:+ t) = toLowerCase s +:+ toLowerCase t.
Proof. induction s as [|a s IH]; [done|]. rewrite !append_cons. simpl. by rewrite IH. Qed.

(** Typing more characters into a search box never makes a field match. *)
Lemma matches_app_l (f t x : string) : matches f (t +:+ x) = true -> matches f t = true.
Proof. unfold matches. rewrite toLowerCase_app. apply includes_app_l. Qed.

Lemma digit_prefix_uint (d : Decimal.uint) :
  digit_prefix (NilEmpty.string_of_uint d) = NilEmpty.string_of_uint d.
Proof. induction d; simpl; by rewrite ?IHd. Qed.

Lemma parseInt_string_of_N (n : N) : parseInt (string_of_N n) = Some (Z.of_N n).
Proof.
  assert (H : parseInt (string_of_N n) = Z.of_N <$> N_of_string (string_of_N n)).
  { unfold string_of_N. pose proof (to_uint_not_nil n) as Hn.
    destruct (N.to_uint n) eqn:E; [done|..];
      unfold parseInt; cbn [trim_start NilZero.string_of_uint is_space]; simpl;
      by rewrite digit_prefix_uint. }
  by rewrite H, string_of_N_roundtrip.
Qed.

(** [String(n)] read back by [parseInt] gives [n]. *)
Lemma parseInt_string_of_Z (z : Z) : parseInt (string_of_Z z) = Some z.
Proof.
  unfold string_of_Z. destruct (Z.ltb_spec z 0) as [Hz|Hz].
  - assert (H : parseInt ("-" +:+ string_of_N (Z.to_N (- z))) =
                (fun n => (- Z.of_N n)%Z) <$> N_of_string (string_of_N (Z.to_N (- z)))).
    { unfold string_of_N. pose proof (to_uint_not_nil (Z.to_N (- z))) as Hn.
      destruct (N.to_uint (Z.to_N (- z))); [done|..];
        unfold parseInt; simpl; by rewrite digit_prefix_uint. }
    rewrite H, string_of_N_roundtrip. simpl. f_equal. lia.
  - rewrite parseInt_string_of_N. f_equal. lia.
Qed.

(** A piece that has started to collect characters stays among the
    pieces [split] returns. *)
Lemma split_acc_nonempty (c : ascii) (s cur : string) :
  cur <> EmptyString -> exists x, x ∈ split_acc c s cur /\ x <> EmptyString.
Proof.
  revert cur; induction s as [|a s IH]; intros cur Hcur; simpl.
  - exists cur. split; [left|done].
  - case_bool_decide.
    + exists cur. split; [left|done].
    + apply IH. by destruct cur.
Qed.


(** [toISOString] on dates of the program's mock data. *)
Lemma toISOString_examples :
  toISOString (date_time 2024 6 1 9 15) = "2024-06-01T09:15:00.000Z" /\
  toISOString (date_utc 2000 2 29 + 86399999) = "2000-02-29T23:59:59.999Z" /\
  toISOString 0 = "1970-01-01T00:00:00.000Z".
Proof. vm_compute. repeat split. Qed.

End JsString.
