(* ===== verification/Types.v ===== *)
(** * The data model of [src/src/types/index.ts]

    One Module per interface, holding its Record [t] (field names as in
    the source), and one Inductive per string-literal union.  A JavaScript
    [Date] is a timestamp in milliseconds ([N]); a [number] that carries
    money, a percentage or a rate is an exact rational ([Q]); a field of
    type [any] is a [JsValue]; an optional field [x?: T] is [option T]. *)

From Stdlib Require Import QArith.
From S2P Require Import Prelude.

(** The values a field of type [any] holds in the program. *)
Inductive JsValue :=
  | VStr (s : string)
  | VNum (q : Q)
  | VBool (b : bool).

#[export] Instance Q_eq_dec : EqDecision Q.
Proof. intros [a b] [c d]. destruct (decide (a = c)), (decide (b = d)); [left|right..]; congruence. Defined.

#[export] Instance JsValue_eq_dec : EqDecision JsValue.
Proof. solve_decision. Defined.

Definition timestamp := N.

Inductive Role := global_app_admin | trade_company_user.

#[export] Instance Role_eq_dec : EqDecision Role.
Proof. solve_decision. Defined.

Module User.
Record t := mk {
    uid : string;
    email : string;
    name : string;
    role : Role;
    company_id : option string;
    created_at : timestamp;
    updated_at : timestamp }.
End User.

Module Trade.
Record t := mk {
    trade_id : string;
    name : string;
    description : string;
    is_active : bool;
    created_at : timestamp;
    updated_at : timestamp }.
End Trade.

Inductive DataType := dt_text | dt_number | dt_date | dt_boolean | dt_select | dt_multiselect.

Module QuoteField.
Record t := mk {
    field_id : string;
    name : string;
    dataType : DataType;
    category : string;
    description : option string;
    displayIfEmptyMessage : option string;
    is_globally_mandatory : bool;
    options : option (list string);
    created_at : timestamp;
    updated_at : timestamp }.
End QuoteField.

Inductive TemplateType := standard_form | conversational_flow.

#[export] Instance TemplateType_eq_dec : EqDecision TemplateType.
Proof. solve_decision. Defined.

Module TradeTemplate.
Record t := mk {
    template_id : string;
    name : string;
    type : TemplateType;
    is_active : bool;
    created_at : timestamp;
    updated_at : timestamp }.
End TradeTemplate.

Inductive CompanyStatus := company_active | company_inactive.

#[export] Instance CompanyStatus_eq_dec : EqDecision CompanyStatus.
Proof. solve_decision. Defined.

Module Company.
Record t := mk {
    company_id : string;
    name : string;
    assigned_trades : list string;
    status : CompanyStatus;
    created_by : string;
    created_at : timestamp;
    updated_at : timestamp }.
End Company.

Module BusinessSettings.
Record t := mk {
    business_name : string;
    abn : string;
    logo_url : option string;
    address : string;
    phone : string;
    email : string;
    website : option string;
    terms_and_conditions : string;
    updated_at : timestamp }.
End BusinessSettings.

Module SystemSettings.
Record t := mk {
    quote_number_prefix : string;
    next_quote_number : N;
    date_format : string;
    currency_symbol : string;
    tax_rate : Q;
    tax_name : string;
    updated_at : timestamp }.
End SystemSettings.

Module Client.
Record t := mk {
    client_id : string;
    name : string;
    email : option string;
    phone : option string;
    address : string;
    contact_person : option string;
    crm_id : option string;
    notes : option string;
    created_at : timestamp;
    updated_at : timestamp }.
End Client.

Inductive ProductType := material | labour | service | equipment.

#[export] Instance ProductType_eq_dec : EqDecision ProductType.
Proof. solve_decision. Defined.

Module ProductService.
Record t := mk {
    product_id : string;
    sku : string;
    name : string;
    description : option string;
    type : ProductType;
    category : string;
    base_cost : Q;
    unit_of_measure : string;
    default_margin_percentage : Q;
    is_active : bool;
    created_at : timestamp;
    updated_at : timestamp }.
End ProductService.

Module MarginRule.
Record t := mk {
    category : string;
    margin_percentage : Q }.
End MarginRule.

Inductive RebateType := fixed_amount | percentage.

Module Rebate.
Record t := mk {
    rebate_id : string;
    name : string;
    type : RebateType;
    amount : option Q;
    percentage : option Q;
    applies_to_category : option string;
    applies_to_sku : option string;
    conditions : option string;
    external_rule_source : option string;
    is_active : bool;
    created_at : timestamp;
    updated_at : timestamp }.
End Rebate.

Module LineItemRaw.
Record t := mk {
    product_id : string;
    sku : string;
    name : string;
    quantity : Q;
    notes : option string }.
End LineItemRaw.

Module LineItemProcessed.
Record t := mk {
    product_id : string;
    sku : string;
    name : string;
    description : option string;
    quantity : Q;
    unit_of_measure : string;
    base_cost : Q;
    margin_percentage : Q;
    is_margin_overridden : bool;
    unit_selling_price : Q;
    line_total : Q;
    category : string;
    type : string;
    notes : option string }.
End LineItemProcessed.

Module CalculatedSummary.
Record rebate_applied := mk_rebate_applied {
    ra_rebate_id : string;
    ra_name : string;
    ra_amount : Q }.
Record margin_summary := mk_margin_summary {
    total_cost : Q;
    total_margin : Q;
    overall_margin_percentage : Q }.
Record t := mk {
    subtotal_before_discounts : Q;
    discount_amount : Q;
    subtotal_after_discounts : Q;
    rebates_applied : list rebate_applied;
    total_rebates : Q;
    subtotal_after_rebates : Q;
    tax_amount : Q;
    final_total_amount : Q;
    margin : margin_summary }.
End CalculatedSummary.

Inductive ExportStatus := export_success | export_failed | export_pending.

Module ExportEvent.
Record t := mk {
    export_id : string;
    exported_at : timestamp;
    external_system : string;
    status : ExportStatus;
    error_message : option string }.
End ExportEvent.

Inductive QuoteStatus := draft | calculated | exported | accepted | rejected.

#[export] Instance QuoteStatus_eq_dec : EqDecision QuoteStatus.
Proof. solve_decision. Defined.

Module Quote.
Record t := mk {
    quote_id : string;
    quote_number : string;
    customer_id : string;
    customer_name : string;
    status : QuoteStatus;
    trade_id : string;
    template_id : string;
    raw_data_fields : list (string * JsValue);
    line_items_raw : list LineItemRaw.t;
    line_items_processed : option (list LineItemProcessed.t);
    calculated_summary : option CalculatedSummary.t;
    export_history : list ExportEvent.t;
    created_at : timestamp;
    updated_at : timestamp;
    expires_at : option timestamp }.
End Quote.

(** ** Conversational flow types *)

Inductive NodeType := question | action | end_node.

#[export] Instance NodeType_eq_dec : EqDecision NodeType.
Proof. solve_decision. Defined.

Inductive ActionType := populate_field | add_line_item | go_to_node | end_flow.

#[export] Instance ActionType_eq_dec : EqDecision ActionType.
Proof. solve_decision. Defined.

Module FlowAction.
Record t := mk {
    action_type : ActionType;
    field_id : option string;
    value : option JsValue;
    product_id : option string;
    quantity : option Q;
    next_node_id : option string }.
End FlowAction.

Module FlowAnswer.
Record t := mk {
    answer_id : string;
    text : string;
    value : JsValue;
    next_node_id : option string;
    actions : option (list FlowAction.t) }.
End FlowAnswer.

Module FlowNode.
Record t := mk {
    node_id : string;
    type : NodeType;
    question : option string;
    field_id : option string;
    answers : option (list FlowAnswer.t);
    actions : option (list FlowAction.t) }.
End FlowNode.

Module ConversationalFlow.
Record t := mk {
    flow_id : string;
    name : string;
    trade_id : string;
    start_node_id : string;
    nodes : list FlowNode.t;
    is_active : bool;
    created_at : timestamp;
    updated_at : timestamp }.
End ConversationalFlow.
