(* ===== verification/FlowBuilder.v ===== *)
(** * The conversational flow builder

    [src/src/components/admin/ConversationalFlowBuilder.tsx].  The React
    component keeps two pieces of state, [nodes : CanvasNode[]] and
    [selectedNode : string | null]; every event handler is a function
    from the state (and the clock [Date.now()] where the handler reads it)
    to the next state.  The properties panel's handlers compute the new
    answer list from the selected node and hand it to [handleUpdateNode],
    exactly as the component wires them. *)

From Stdlib Require Import ZArith QArith.
From S2P Require Import Prelude JsString Types.

Module FlowBuilder.

(** [interface CanvasNode extends FlowNode { x: number; y: number }] *)
Module CanvasNode.
Record t := mk { node : FlowNode.t; x : Z; y : Z }.
End CanvasNode.

Definition cid (c : CanvasNode.t) : string := FlowNode.node_id (CanvasNode.node c).

Record state := mk_state {
  nodes : list CanvasNode.t;
  selectedNode : option string }.

(** [Partial<FlowNode>]: a field is overwritten when it is present in the
    update, whatever its value ([{...node, ...updates}]). *)
Module NodeUpdate.
Record t := mk {
    node_id : option string;
    type : option NodeType;
    question : option (option string);
    field_id : option (option string);
    answers : option (option (list FlowAnswer.t));
    actions : option (option (list FlowAction.t)) }.
Definition empty : t := mk None None None None None None.
End NodeUpdate.

Definition merge_node (n : FlowNode.t) (u : NodeUpdate.t) : FlowNode.t :=
  FlowNode.mk
    (default (FlowNode.node_id n) (NodeUpdate.node_id u))
    (default (FlowNode.type n) (NodeUpdate.type u))
    (default (FlowNode.question n) (NodeUpdate.question u))
    (default (FlowNode.field_id n) (NodeUpdate.field_id u))
    (default (FlowNode.answers n) (NodeUpdate.answers u))
    (default (FlowNode.actions n) (NodeUpdate.actions u)).

(** [Partial<FlowAnswer>] and [{...answer, ...updates}] *)
Module AnswerUpdate.
Record t := mk {
    answer_id : option string;
    text : option string;
    value : option JsValue;
    next_node_id : option (option string);
    actions : option (option (list FlowAction.t)) }.
End AnswerUpdate.

Definition merge_answer (a : FlowAnswer.t) (u : AnswerUpdate.t) : FlowAnswer.t :=
  FlowAnswer.mk
    (default (FlowAnswer.answer_id a) (AnswerUpdate.answer_id u))
    (default (FlowAnswer.text a) (AnswerUpdate.text u))
    (default (FlowAnswer.value a) (AnswerUpdate.value u))
    (default (FlowAnswer.next_node_id a) (AnswerUpdate.next_node_id u))
    (default (FlowAnswer.actions a) (AnswerUpdate.actions u)).

(** ** The initial state: the two demonstration nodes *)

Definition start_answers : list FlowAnswer.t :=
  [ FlowAnswer.mk "residential" "Residential" (VStr "residential") (Some "location") None;
    FlowAnswer.mk "commercial" "Commercial" (VStr "commercial") (Some "location") None ].

Definition initial_state : state :=
  mk_state
    [ CanvasNode.mk
        (FlowNode.mk "start" question
           (Some "Welcome! What type of project are you planning?") None
           (Some start_answers) None) 100 100;
      CanvasNode.mk
        (FlowNode.mk "location" question (Some "What is the project location?") None
           (Some []) None) 400 200 ]
    None.

(** ** Handlers of [ConversationalFlowBuilder] *)

Definition handleNodeSelect (nodeId : string) (st : state) : state :=
  mk_state (nodes st) (Some nodeId).

Definition handleNodeMove (nodeId : string) (x y : Z) (st : state) : state :=
  mk_state
    (map_where (fun c => cid c === nodeId) (fun c => CanvasNode.mk (CanvasNode.node c) x y) (nodes st))
    (selectedNode st).

(** [`node_${Date.now()}`] *)
Definition node_key (now : N) : string := "node_" +:+ JsString.string_of_N now.

(** The node [handleNodeAdd] creates. *)
Definition new_node (type : NodeType) (x y : Z) (now : N) : CanvasNode.t :=
  CanvasNode.mk
    (FlowNode.mk (node_key now) type
       (if type === question then Some "New Question" else None) None
       (if type === question then Some [] else None)
       (if type === action then Some [] else None))
    x y.

Definition handleNodeAdd (type : NodeType) (x y : Z) (now : N) (st : state) : state :=
  let n := new_node type x y now in
  mk_state (nodes st ++ [n]) (Some (cid n)).

Definition handleNodeDelete (nodeId : string) (st : state) : state :=
  mk_state
    (List.filter (fun c => cid c !== nodeId) (nodes st))
    (if selectedNode st === Some nodeId then None else selectedNode st).

Definition handleUpdateNode (nodeId : string) (u : NodeUpdate.t) (st : state) : state :=
  mk_state
    (map_where (fun c => cid c === nodeId)
       (fun c => CanvasNode.mk (merge_node (CanvasNode.node c) u) (CanvasNode.x c) (CanvasNode.y c))
       (nodes st))
    (selectedNode st).

(** [nodes.find(node => node.node_id === selectedNode)] *)
Definition selectedNodeData (st : state) : option CanvasNode.t :=
  match selectedNode st with
  | Some s => find (fun c => cid c === s) (nodes st)
  | None => None
  end.

(** ** The canvas: dropping an item

    A palette item carries a node type, a dragged node its id; the drop
    position is centred on the 192x100 card. Nothing happens when the
    browser gives no pointer offset or no canvas rectangle. *)

Inductive DragItem :=
  | PaletteItem (nodeType : NodeType)
  | NodeItem (id : string).

Definition canvas_drop (item : DragItem) (clientOffset canvasRect : option (Z * Z))
    (now : N) (st : state) : state :=
  match clientOffset, canvasRect with
  | Some (cx, cy), Some (rect_left, rect_top) =>
      let x := (cx - rect_left)%Z in
      let y := (cy - rect_top)%Z in
      match item with
      | PaletteItem t => handleNodeAdd t (x - 96) (y - 50) now st
      | NodeItem id => handleNodeMove id (x - 96) (y - 50) st
      end
  | _, _ => st
  end.

(** The arrows the canvas draws: one per answer whose [next_node_id]
    names a node of the canvas; an answer pointing elsewhere is skipped. *)
Definition node_connections (all : list CanvasNode.t) (c : CanvasNode.t) : list (string * string * string) :=
  omap (fun a =>
          match FlowAnswer.next_node_id a with
          | Some t =>
              match find (fun n => cid n === t) all with
              | Some _ => Some (cid c, FlowAnswer.answer_id a, t)
              | None => None
              end
          | None => None
          end)
       (default [] (FlowNode.answers (CanvasNode.node c))).

Definition connections (st : state) : list (string * string * string) :=
  mjoin (map (node_connections (nodes st)) (nodes st)).

(** ** The properties panel

    The panel shows the selected node; its handlers read that node's
    answers and call [handleUpdateNode] with the new list.  With no node
    selected it shows a hint and has no handlers. *)

(** [`answer_${Date.now()}`] *)
Definition answer_key (now : N) : string := "answer_" +:+ JsString.string_of_N now.

Definition new_answer (now : N) : FlowAnswer.t :=
  FlowAnswer.mk (answer_key now) "New Answer" (VStr "") None (Some []).

Definition set_answers (l : list FlowAnswer.t) : NodeUpdate.t :=
  NodeUpdate.mk None None None None (Some (Some l)) None.

Definition with_selected (f : FlowNode.t -> NodeUpdate.t) (st : state) : state :=
  match selectedNodeData st with
  | Some c => handleUpdateNode (cid c) (f (CanvasNode.node c)) st
  | None => st
  end.

(** The update each panel input sends for the node [n] it shows. *)
Definition question_update (value : string) (n : FlowNode.t) : NodeUpdate.t :=
  NodeUpdate.mk None None (Some (Some value)) None None None.

Definition add_answer_update (now : N) (n : FlowNode.t) : NodeUpdate.t :=
  set_answers (default [] (FlowNode.answers n) ++ [new_answer now]).

Definition update_answer_update (answerId : string) (u : AnswerUpdate.t) (n : FlowNode.t) : NodeUpdate.t :=
  set_answers
    (default [] (map_where (fun a => FlowAnswer.answer_id a === answerId)
                   (fun a => merge_answer a u) <$> FlowNode.answers n)).

Definition delete_answer_update (answerId : string) (n : FlowNode.t) : NodeUpdate.t :=
  set_answers
    (default [] (List.filter (fun a => FlowAnswer.answer_id a !== answerId) <$> FlowNode.answers n)).

Definition handleQuestionChange (value : string) (st : state) : state :=
  with_selected (question_update value) st.

Definition handleAddAnswer (now : N) (st : state) : state :=
  with_selected (add_answer_update now) st.

Definition handleUpdateAnswer (answerId : string) (u : AnswerUpdate.t) (st : state) : state :=
  with_selected (update_answer_update answerId u) st.

Definition handleDeleteAnswer (answerId : string) (st : state) : state :=
  with_selected (delete_answer_update answerId) st.

(** The node card: its title is [node.question || node.node_id]. *)
Definition node_title (n : FlowNode.t) : string :=
  JsString.opt_or_default (FlowNode.question n) (FlowNode.node_id n).

(** ** The builder as an event loop

    The events the component reacts to, as its JSX wires them: canvas
    clicks, drops and delete buttons, and the property panel's inputs
    ([handleUpdateNode] is only reached through the panel). *)

Inductive event :=
  | Select (id : string)
  | Move (id : string) (x y : Z)
  | Add (type : NodeType) (x y : Z) (now : N)
  | Delete (id : string)
  | QuestionChange (value : string)
  | AddAnswer (now : N)
  | UpdateAnswer (answerId : string) (u : AnswerUpdate.t)
  | DeleteAnswer (answerId : string)
  | Drop (item : DragItem) (clientOffset canvasRect : option (Z * Z)) (now : N).

Definition step (e : event) (st : state) : state :=
  match e with
  | Select id => handleNodeSelect id st
  | Move id x y => handleNodeMove id x y st
  | Add t x y now => handleNodeAdd t x y now st
  | Delete id => handleNodeDelete id st
  | QuestionChange v => handleQuestionChange v st
  | AddAnswer now => handleAddAnswer now st
  | UpdateAnswer a u => handleUpdateAnswer a u st
  | DeleteAnswer a => handleDeleteAnswer a st
  | Drop item off rect now => canvas_drop item off rect now st
  end.

Definition run (es : list event) (st : state) : state :=
  fold_left (fun s e => step e s) es st.

(** The clock readings that may become node ids. *)
Definition node_times (e : event) : list N :=
  match e with
  | Add _ _ _ now => [now]
  | Drop (PaletteItem _) _ _ now => [now]
  | _ => []
  end.

Definition ids (st : state) : list string := map cid (nodes st).

(** The builder's well-formedness: node ids are unique. *)
Definition wf (st : state) : Prop := NoDup (ids st).

(** ** Generated identifiers *)

Lemma node_key_inj (t t' : N) : node_key t = node_key t' -> t = t'.
Proof. unfold node_key. intros H. by apply JsString.string_of_N_inj, (JsString.append_cancel_l "node_"). Qed.

Lemma node_key_not_demo (t : N) : node_key t <> "start" /\ node_key t <> "location".
Proof. unfold node_key. rewrite !JsString.append_cons. split; discriminate. Qed.

(** ** How each handler changes the list of node ids *)

Lemma ids_handleNodeMove id x y st : ids (handleNodeMove id x y st) = ids st.
Proof. unfold ids. by apply map_where_keys. Qed.

Lemma ids_handleUpdateNode id u st :
  NodeUpdate.node_id u = None -> ids (handleUpdateNode id u st) = ids st.
Proof. intros Hu. unfold ids. apply map_where_keys. intros c _. unfold cid. simpl. by rewrite Hu. Qed.

Lemma ids_handleNodeAdd t x y now st : ids (handleNodeAdd t x y now st) = ids st ++ [node_key now].
Proof. unfold ids. simpl. by rewrite map_app. Qed.

Lemma ids_handleNodeDelete id st :
  ids (handleNodeDelete id st) = List.filter (fun k => k !== id) (ids st).
Proof. exact (map_filter_comm cid (fun k => k !== id) (nodes st)). Qed.

Lemma ids_with_selected f st :
  (forall n, NodeUpdate.node_id (f n) = None) -> ids (with_selected f st) = ids st.
Proof. intros Hf. unfold with_selected. destruct (selectedNodeData st); [|done]. by apply ids_handleUpdateNode. Qed.

#[local] Hint Resolve ids_handleNodeMove ids_handleNodeAdd : qh.

(** ** The invariant behind unique ids

    Every id is a demonstration id or [node_t] for a clock reading [t]
    already consumed. *)

Definition ids_from (used : list N) (st : state) : Prop :=
  wf st /\ forall k, k ∈ ids st -> k = "start" \/ k = "location" \/ exists t, t ∈ used /\ k = node_key t.

Lemma ids_from_same used used' st st' :
  ids st' = ids st -> (forall t, t ∈ used -> t ∈ used') -> ids_from used st -> ids_from used' st'.
Proof. unfold ids_from, wf. intros -> Hu [Hnd Hk]. split; [done|]. intros k Hin. naive_solver. Qed.

Lemma ids_from_add t x y now used st :
  now ∉ used -> ids_from used st -> ids_from (now :: used) (handleNodeAdd t x y now st).
Proof.
  unfold ids_from, wf. rewrite ids_handleNodeAdd. intros Hnow [Hnd Hk]. split.
  - apply NoDup_app. split_and!; [done| |apply NoDup_singleton].
    intros k Hin ->%list_elem_of_singleton.
    destruct (Hk _ Hin) as [H|[H|(t' & Ht' & H)]];
      [by apply (node_key_not_demo now)|by apply (node_key_not_demo now)|].
    apply node_key_inj in H as ->. done.
  - intros k [Hin| ->%list_elem_of_singleton]%elem_of_app.
    + destruct (Hk _ Hin) as [?|[?|(t' & ? & ?)]]; [by left|by right; left|].
      right; right. exists t'. split; [by apply elem_of_cons; right|done].
    + right; right. exists now. split; [by apply elem_of_cons; left|done].
Qed.

Lemma ids_from_delete id used st : ids_from used st -> ids_from used (handleNodeDelete id st).
Proof.
  unfold ids_from, wf. intros [Hnd Hk]. split; [by apply NoDup_keys_filter|].
  intros k Hin. apply Hk. rewrite ids_handleNodeDelete in Hin.
  apply list_elem_of_In, filter_In in Hin as [Hin _]. by apply list_elem_of_In.
Qed.

Lemma step_ids_from e used st :
  (forall t, t ∈ node_times e -> t ∉ used) -> ids_from used st -> ids_from (node_times e ++ used) (step e st).
Proof.
  intros Hfresh Hst. assert (Hsame : forall st', ids st' = ids st -> ids_from (node_times e ++ used) st')
    by (intros st' Heq; eapply ids_from_same; [done| |done]; set_solver).
  destruct e as [id|id x y|t x y now|id|v|now|a u|a|item off rect now]; simpl in *.
  - by apply Hsame.
  - by apply Hsame, ids_handleNodeMove.
  - apply ids_from_add; [set_solver|done].
  - by apply ids_from_delete.
  - by apply Hsame, ids_with_selected.
  - by apply Hsame, ids_with_selected.
  - by apply Hsame, ids_with_selected.
  - by apply Hsame, ids_with_selected.
  - unfold canvas_drop. destruct off as [[cx cy]|], rect as [[l r]|], item; simpl in Hfresh |- *.
    1: apply ids_from_add; [set_solver|done].
    1: eapply ids_from_same; [apply ids_handleNodeMove| |done]; set_solver.
    all: eapply ids_from_same; [done| |done]; set_solver.
Qed.

Definition all_node_times (es : list event) : list N := mjoin (map node_times es).

Lemma run_ids_from es : forall used st,
  NoDup (all_node_times es) -> (forall t, t ∈ all_node_times es -> t ∉ used) ->
  ids_from used st -> exists used', ids_from used' (run es st).
Proof.
  induction es as [|e es IH]; intros used st Hnd Hfresh Hst; simpl; [by eauto|].
  unfold all_node_times in *. simpl in *. apply NoDup_app in Hnd as (Hnd1 & Hdisj & Hnd2).
  apply (IH (node_times e ++ used)); [done| |].
  - intros t Ht [Hin|Hin]%elem_of_app; [by eapply Hdisj|]. apply (Hfresh t); [|done].
    apply elem_of_app. by right.
  - apply step_ids_from; [|done]. intros t Ht. apply Hfresh, elem_of_app. by left.
Qed.

Lemma ids_from_initial : ids_from [] initial_state.
Proof.
  split; [by apply NoDup_ListNoDup; repeat constructor; simpl; intuition discriminate|].
  intros k Hk. cbn in Hk. set_solver.
Qed.

(** The panel edits the selected node in place: the node the panel
    shows next is the merge of the update into it. *)
Lemma selectedNodeData_with_selected f st c :
  selectedNodeData st = Some c -> NodeUpdate.node_id (f (CanvasNode.node c)) = None ->
  selectedNodeData (with_selected f st) =
    Some (CanvasNode.mk (merge_node (CanvasNode.node c) (f (CanvasNode.node c))) (CanvasNode.x c) (CanvasNode.y c)).
Proof.
  intros Hsel Hid. unfold with_selected. rewrite Hsel. unfold selectedNodeData in *. simpl.
  destruct (selectedNode st) as [s|]; [|done].
  destruct (find_key_Some cid s (nodes st) c Hsel) as [_ Hs]. rewrite Hs.
  apply (find_map_where (fun c0 => cid c0 === s)
    (fun c0 => CanvasNode.mk (merge_node (CanvasNode.node c0) (f (CanvasNode.node c)))
                 (CanvasNode.x c0) (CanvasNode.y c0)) (nodes st) c); [|done].
  intros y Hy. unfold cid in *. simpl. by rewrite Hid.
Qed.

Lemma answers_merge_set_answers n l : FlowNode.answers (merge_node n (set_answers l)) = Some l.
Proof. done. Qed.

Lemma handleNodeDelete_gone id st : id ∉ ids (handleNodeDelete id st).
Proof.
  rewrite ids_handleNodeDelete. intros Hin%list_elem_of_In. apply filter_In in Hin as [_ Hin].
  by rewrite bool_decide_eq_true_2 in Hin.
Qed.

Lemma handleNodeDelete_keeps id st c :
  c ∈ nodes st -> cid c <> id -> c ∈ nodes (handleNodeDelete id st).
Proof.
  intros Hc Hne. apply list_elem_of_In, filter_In. split; [by apply list_elem_of_In|].
  by rewrite bool_decide_eq_false_2.
Qed.

Lemma handleAddAnswer_selected now st c :
  selectedNodeData st = Some c ->
  selectedNodeData (handleAddAnswer now st) =
    Some (CanvasNode.mk (merge_node (CanvasNode.node c) (add_answer_update now (CanvasNode.node c)))
            (CanvasNode.x c) (CanvasNode.y c)).
Proof. intros Hsel. by apply selectedNodeData_with_selected. Qed.

(** ** Theorems *)

Lemma panel_updates_keep_id v now a u a' n :
  NodeUpdate.node_id (question_update v n) = None /\
  NodeUpdate.node_id (add_answer_update now n) = None /\
  NodeUpdate.node_id (update_answer_update a u n) = None /\
  NodeUpdate.node_id (delete_answer_update a' n) = None.
Proof. done. Qed.

(** C2: node ids stay unique over any sequence of builder events, as
    long as the clock readings that name new nodes are pairwise distinct. *)
Theorem builder_ids_unique (es : list event) :
  NoDup (all_node_times es) -> wf (run es initial_state).
Proof.
  intros Hnd. destruct (run_ids_from es [] initial_state Hnd) as [used [Hwf _]];
    [set_solver|apply ids_from_initial|done].
Qed.

Lemma builder_ids_unique_witness :
  NoDup (all_node_times [Add question 10 10 5; Delete "start"; Add action 20 20 7]) /\
  wf (run [Add question 10 10 5; Delete "start"; Add action 20 20 7] initial_state).
Proof.
  assert (H : NoDup (all_node_times [Add question 10 10 5; Delete "start"; Add action 20 20 7]))
    by (vm_compute; repeat constructor; set_solver).
  split; [exact H|]. apply builder_ids_unique. exact H.
Defined.

(** C13: two nodes added within the same millisecond get the same id
    [node_<now>]: the builder's ids are then no longer unique. *)
Theorem handleNodeAdd_same_millisecond t1 t2 x1 y1 x2 y2 now st :
  ~ wf (handleNodeAdd t2 x2 y2 now (handleNodeAdd t1 x1 y1 now st)).
Proof.
  unfold wf. rewrite !ids_handleNodeAdd, <- app_assoc. intros H.
  apply NoDup_app in H as (_ & _ & H). simpl in H. apply NoDup_cons in H as [H _]. set_solver.
Qed.

(** C3: deleting a node removes every node with that id, keeps every
    other node as it was, and clears the selection when it was the
    deleted node. *)
Theorem handleNodeDelete_spec id st :
  (id ∉ ids (handleNodeDelete id st)) /\
  (forall c, c ∈ nodes st -> cid c <> id -> c ∈ nodes (handleNodeDelete id st)) /\
  selectedNode (handleNodeDelete id st) = (if decide (selectedNode st = Some id) then None else selectedNode st).
Proof.
  split_and!; [apply handleNodeDelete_gone|apply handleNodeDelete_keeps|].
  simpl. by case_bool_decide; case_decide.
Qed.

(** every arrow the canvas draws joins two nodes of the canvas. *)
Theorem connections_exist st s a t :
  (s, a, t) ∈ connections st -> s ∈ ids st /\ t ∈ ids st.
Proof.
  unfold connections, node_connections. intros (l & Hl & Hls)%list_elem_of_join.
  apply list_elem_of_fmap in Hls as (c & -> & Hc).
  apply list_elem_of_omap in Hl as (ans & _ & Hans).
  destruct (FlowAnswer.next_node_id ans) as [t'|]; [|done].
  destruct (find (fun n => cid n === t') (nodes st)) as [n|] eqn:Hf; [|done].
  injection Hans as <- <- <-. apply find_key_Some in Hf as [Hn <-].
  split; apply list_elem_of_fmap; eauto.
Qed.

Lemma connections_exist_witness :
  ("start", "residential", "location") ∈ connections initial_state /\
  "start" ∈ ids initial_state /\ "location" ∈ ids initial_state.
Proof.
  assert (H : ("start", "residential", "location") ∈ connections initial_state)
    by (apply (bool_decide_unpack _); vm_compute; reflexivity).
  split; [exact H|]. apply (connections_exist initial_state _ _ _ H).
Defined.

(** moving a node on the canvas changes its position and nothing of
    the flow: the node records are unchanged and the target now sits at
    [(x, y)]. *)
Theorem handleNodeMove_spec id x y st :
  map CanvasNode.node (nodes (handleNodeMove id x y st)) = map CanvasNode.node (nodes st) /\
  (forall c, c ∈ nodes (handleNodeMove id x y st) -> cid c = id -> CanvasNode.x c = x /\ CanvasNode.y c = y) /\
  selectedNode (handleNodeMove id x y st) = selectedNode st.
Proof.
  split_and!; [by apply map_where_keys| |done].
  intros c (c0 & _ & ->)%elem_of_map_where. case_bool_decide; [done|]. intros; congruence.
Qed.

(** "Add Answer" appends one fresh answer [answer_<now>] to the
    selected node and leaves its id, type, question and position alone. *)
Theorem handleAddAnswer_spec now st c :
  selectedNodeData st = Some c ->
  exists c', selectedNodeData (handleAddAnswer now st) = Some c' /\
    FlowNode.answers (CanvasNode.node c') =
      Some (default [] (FlowNode.answers (CanvasNode.node c)) ++ [new_answer now]) /\
    cid c' = cid c /\ FlowNode.type (CanvasNode.node c') = FlowNode.type (CanvasNode.node c) /\
    FlowNode.question (CanvasNode.node c') = FlowNode.question (CanvasNode.node c) /\
    (CanvasNode.x c', CanvasNode.y c') = (CanvasNode.x c, CanvasNode.y c).
Proof.
  intros Hsel. rewrite (handleAddAnswer_selected now st c Hsel). by eexists.
Qed.

Lemma handleAddAnswer_spec_witness :
  exists c, selectedNodeData (handleNodeSelect "location" initial_state) = Some c /\
  exists c', selectedNodeData (handleAddAnswer 42 (handleNodeSelect "location" initial_state)) = Some c' /\
    FlowNode.answers (CanvasNode.node c') =
      Some (default [] (FlowNode.answers (CanvasNode.node c)) ++ [new_answer 42]) /\
    cid c' = cid c /\ FlowNode.type (CanvasNode.node c') = FlowNode.type (CanvasNode.node c) /\
    FlowNode.question (CanvasNode.node c') = FlowNode.question (CanvasNode.node c) /\
    (CanvasNode.x c', CanvasNode.y c') = (CanvasNode.x c, CanvasNode.y c).
Proof.
  eexists. assert (H : selectedNodeData (handleNodeSelect "location" initial_state) = Some _)
    by (vm_compute; reflexivity).
  split; [exact H|]. apply (handleAddAnswer_spec 42 _ _ H).
Defined.

(** two answers added within the same millisecond share the id
    [answer_<now>], so the node's answer ids are no longer unique. *)
Theorem handleAddAnswer_same_millisecond now st c :
  selectedNodeData st = Some c ->
  exists c', selectedNodeData (handleAddAnswer now (handleAddAnswer now st)) = Some c' /\
    ~ NoDup (map FlowAnswer.answer_id (default [] (FlowNode.answers (CanvasNode.node c')))).
Proof.
  intros Hsel. pose proof (handleAddAnswer_selected now st c Hsel) as H1.
  pose proof (handleAddAnswer_selected now _ _ H1) as H2.
  eexists. split; [exact H2|]. simpl. rewrite <- app_assoc, map_app.
  intros (_ & _ & Hnd)%NoDup_app. simpl in Hnd. apply NoDup_cons in Hnd as [Hnd _]. set_solver.
Qed.

Lemma handleAddAnswer_same_millisecond_witness :
  exists c, selectedNodeData (handleNodeSelect "location" initial_state) = Some c /\
  exists c', selectedNodeData (handleAddAnswer 7 (handleAddAnswer 7 (handleNodeSelect "location" initial_state))) = Some c' /\
    ~ NoDup (map FlowAnswer.answer_id (default [] (FlowNode.answers (CanvasNode.node c')))).
Proof.
  eexists. assert (H : selectedNodeData (handleNodeSelect "location" initial_state) = Some _)
    by (vm_compute; reflexivity).
  split; [exact H|]. apply (handleAddAnswer_same_millisecond 7 _ _ H).
Defined.

End FlowBuilder.
