(* ===== verification/FlowGraph.v ===== *)
(** * The flow graph the builder edits

    Spec §3 and §9 describe a flow as a map from node id to node, with the
    canvas positions in a side table from node id to position.  [abs]
    reads the builder's array of canvas nodes as that pair of maps (the
    first node of an id wins, as [Array.find] sees it), and each builder
    event is shown to act on it as the abstract operation [gstep]: the
    array-based component of [FlowBuilder] refines this map-based
    specification.  The abstract operations are a specification; they
    model no code of their own. *)

From Stdlib Require Import ZArith.
From S2P Require Import Prelude JsString Types FlowBuilder.

Module FlowGraph.
Import FlowBuilder.

Record t := mk {
  graph : gmap string FlowNode.t;
  layout : gmap string (Z * Z);
  selected : option string }.

Definition pos (c : CanvasNode.t) : Z * Z := (CanvasNode.x c, CanvasNode.y c).

Definition abs (st : state) : t :=
  mk (tbl cid CanvasNode.node (nodes st)) (tbl cid pos (nodes st)) (selectedNode st).

(** ** Abstract operations *)

Definition select (id : string) (g : t) : t := mk (graph g) (layout g) (Some id).

Definition move (id : string) (x y : Z) (g : t) : t :=
  mk (graph g) (alter (fun _ => (x, y)) id (layout g)) (selected g).

Definition add (id : string) (n : FlowNode.t) (x y : Z) (g : t) : t :=
  mk (<[id := n]> (graph g)) (<[id := (x, y)]> (layout g)) (Some id).

Definition remove (id : string) (g : t) : t :=
  mk (delete id (graph g)) (delete id (layout g))
     (if decide (selected g = Some id) then None else selected g).

(** Editing the selected node: the update is computed from the node as
    it is, then merged into it. *)
Definition edit (f : FlowNode.t -> NodeUpdate.t) (g : t) : t :=
  match selected g with
  | Some s =>
      match graph g !! s with
      | Some n => mk (alter (fun n' => merge_node n' (f n)) s (graph g)) (layout g) (selected g)
      | None => g
      end
  | None => g
  end.

Definition add_new (ty : NodeType) (x y : Z) (now : N) (g : t) : t :=
  add (node_key now) (CanvasNode.node (new_node ty x y now)) x y g.

Definition gstep (e : event) (g : t) : t :=
  match e with
  | Select id => select id g
  | Move id x y => move id x y g
  | Add ty x y now => add_new ty x y now g
  | Delete id => remove id g
  | QuestionChange v => edit (question_update v) g
  | AddAnswer now => edit (add_answer_update now) g
  | UpdateAnswer a u => edit (update_answer_update a u) g
  | DeleteAnswer a => edit (delete_answer_update a) g
  | Drop item off rect now =>
      match off, rect with
      | Some (cx, cy), Some (l, r) =>
          match item with
          | PaletteItem ty => add_new ty (cx - l - 96) (cy - r - 50) now g
          | NodeItem id => move id (cx - l - 96) (cy - r - 50) g
          end
      | _, _ => g
      end
  end.

Definition grun (es : list event) (g : t) : t := fold_left (fun g e => gstep e g) es g.

(** ** Each handler implements its abstract operation *)

Lemma abs_handleNodeSelect id st : abs (handleNodeSelect id st) = select id (abs st).
Proof. done. Qed.

Lemma abs_handleNodeMove id x y st : abs (handleNodeMove id x y st) = move id x y (abs st).
Proof.
  unfold abs, move; simpl. f_equal.
  - unfold tbl. f_equal. by apply (map_where_keys _ _ (fun c => (cid c, CanvasNode.node c))).
  - apply tbl_map_where; [|done|done]. intros c. by rewrite bool_decide_eq_true.
Qed.

Lemma abs_handleNodeAdd ty x y now st :
  node_key now ∉ ids st -> abs (handleNodeAdd ty x y now st) = add_new ty x y now (abs st).
Proof. intros Hf. unfold abs, add_new, add; simpl. by rewrite !tbl_snoc. Qed.

Lemma abs_handleNodeDelete id st : abs (handleNodeDelete id st) = remove id (abs st).
Proof.
  unfold abs, remove; simpl. rewrite !tbl_filter. f_equal.
  by case_bool_decide; case_decide.
Qed.

Lemma abs_with_selected f st :
  (forall n, NodeUpdate.node_id (f n) = None) -> abs (with_selected f st) = edit f (abs st).
Proof.
  intros Hf. unfold with_selected, selectedNodeData, edit, abs; simpl.
  destruct (selectedNode st) as [s|] eqn:Hs; simpl; [|by rewrite ?Hs]. rewrite tbl_find.
  destruct (find (fun c => cid c === s) (nodes st)) as [c|] eqn:Hc; simpl; rewrite Hs; [|done].
  destruct (find_key_Some cid s _ _ Hc) as [_ <-]. f_equal.
  - apply tbl_map_where; [|intros c0; unfold cid; simpl; by rewrite Hf|done].
    intros c0. by rewrite bool_decide_eq_true.
  - unfold tbl. f_equal. apply (map_where_keys _ _ (fun c => (cid c, pos c))).
    intros c0 _. unfold cid, pos; simpl. by rewrite Hf.
Qed.

Lemma fresh_node_key used st t :
  ids_from used st -> t ∉ used -> node_key t ∉ ids st.
Proof.
  intros [_ Hk] Ht Hin. destruct (Hk _ Hin) as [H|[H|(t' & Ht' & H)]];
    [by apply (node_key_not_demo t)|by apply (node_key_not_demo t)|].
  apply node_key_inj in H as ->. done.
Qed.

Lemma step_refines e used st :
  (forall t, t ∈ node_times e -> t ∉ used) -> ids_from used st ->
  abs (step e st) = gstep e (abs st).
Proof.
  intros Hfresh Hst. destruct e as [id|id x y|ty x y now|id|v|now|a u|a|item off rect now]; simpl.
  - apply abs_handleNodeSelect.
  - apply abs_handleNodeMove.
  - apply abs_handleNodeAdd. eapply fresh_node_key; [done|]. apply Hfresh. set_solver.
  - apply abs_handleNodeDelete.
  - by apply abs_with_selected.
  - by apply abs_with_selected.
  - by apply abs_with_selected.
  - by apply abs_with_selected.
  - unfold canvas_drop. destruct off as [[cx cy]|], rect as [[l r]|], item; simpl in *; try done.
    + apply abs_handleNodeAdd. eapply fresh_node_key; [done|]. apply Hfresh. set_solver.
    + apply abs_handleNodeMove.
Qed.

(** ** Refinement *)

Lemma run_refines es : forall used st,
  NoDup (all_node_times es) -> (forall t, t ∈ all_node_times es -> t ∉ used) ->
  ids_from used st -> abs (FlowBuilder.run es st) = grun es (abs st).
Proof.
  induction es as [|e es IH]; intros used st Hnd Hfresh Hst; simpl; [done|].
  unfold all_node_times in *. simpl in *. apply NoDup_app in Hnd as (Hnd1 & Hdisj & Hnd2).
  assert (He : forall t, t ∈ node_times e -> t ∉ used) by (intros t Ht; apply Hfresh, elem_of_app; by left).
  rewrite <- (step_refines e used st) by done.
  apply (IH (node_times e ++ used)); [done| |by apply step_ids_from].
  intros t Ht [Hin|Hin]%elem_of_app; [by eapply Hdisj|]. apply (Hfresh t); [|done].
  apply elem_of_app. by right.
Qed.

(** C1: the builder refines the map-based flow graph of the
    specification: after any sequence of events whose clock readings
    for new nodes are distinct, the builder's node array, read as a map
    from id to node and a map from id to position, is the abstract state
    the same events produce. *)
Theorem builder_refines_graph (es : list event) :
  NoDup (all_node_times es) -> abs (FlowBuilder.run es initial_state) = grun es (abs initial_state).
Proof. intros Hnd. apply (run_refines es []); [done|set_solver|apply ids_from_initial]. Qed.

Lemma builder_refines_graph_witness :
  NoDup (all_node_times [Add action 5 5 3; Select "location"; QuestionChange "Where?"]) /\
  abs (FlowBuilder.run [Add action 5 5 3; Select "location"; QuestionChange "Where?"] initial_state) =
  grun [Add action 5 5 3; Select "location"; QuestionChange "Where?"] (abs initial_state).
Proof.
  assert (H : NoDup (all_node_times [Add action 5 5 3; Select "location"; QuestionChange "Where?"]))
    by (vm_compute; repeat constructor; set_solver).
  split; [exact H|]. apply builder_refines_graph. exact H.
Defined.

End FlowGraph.
