(* ===== verification/FlowEngine.v ===== *)
(** * The flow execution engine (spec §4.4)

    The source declares the action types ([FlowAction.action_type]) but
    has no interpreter; the spec gives its contract, and this file models
    that contract over the source's own [FlowNode], [FlowAnswer] and
    [FlowAction] types.  The graph is the map from node id to node a
    [ConversationalFlow] denotes; the engine state is the spec's record
    (current node, collected fields and line items, visit counts,
    termination flag); each operation returns a value or a typed error.

    Entering a node counts a visit and fails with [LoopLimitExceeded]
    once a node's count would pass [bound] (1000 by default); entering an
    Action node runs its actions and follows its [GoToNode] jump, so a
    chain of Action nodes is walked without input.  The walk is a
    [Fixpoint] on fuel; [engine_fuel] is enough fuel, as the termination
    theorems show, because the visit counts bound the number of entries. *)

From Stdlib Require Import QArith.
From S2P Require Import Prelude JsString Types FlowBuilder FlowGraph.

Module FlowEngine.

Inductive EngineError :=
  | InvalidAnswerId
  | LoopLimitExceeded
  | FlowAlreadyTerminated
  | NotAQuestion
  | NodeNotFound (id : string)
  | ActionNodeWithNoExit (id : string)
  | MalformedAction
  | OutOfFuel.

Record state := mk {
  current_node_id : string;
  collected_fields : gmap string JsValue;
  collected_line_items : list (string * Q);
  visited_count : gmap string nat;
  terminated : bool }.

Definition init (start_node_id : string) : state := mk start_node_id ∅ [] ∅ false.

Definition visits (s : state) (id : string) : nat := default 0 (visited_count s !! id).

Definition set_field (f : string) (v : JsValue) (s : state) : state :=
  mk (current_node_id s) (<[f := v]> (collected_fields s)) (collected_line_items s)
     (visited_count s) (terminated s).

Definition add_item (p : string) (q : Q) (s : state) : state :=
  mk (current_node_id s) (collected_fields s) (collected_line_items s ++ [(p, q)])
     (visited_count s) (terminated s).

Definition set_current (id : string) (s : state) : state :=
  mk id (collected_fields s) (collected_line_items s) (visited_count s) (terminated s).

Definition set_terminated (s : state) : state :=
  mk (current_node_id s) (collected_fields s) (collected_line_items s) (visited_count s) true.

Definition visit (id : string) (n : nat) (s : state) : state :=
  mk id (collected_fields s) (collected_line_items s) (<[id := n]> (visited_count s)) (terminated s).

(** The graph of a flow: its nodes by id, the first of an id winning. *)
Definition flow_graph (f : ConversationalFlow.t) : gmap string FlowNode.t :=
  tbl FlowNode.node_id (fun n => n) (ConversationalFlow.nodes f).

(** Running an action list, in order.  [EndFlow] stops the list;
    [GoToNode] moves the current node at once and is remembered as the
    list's jump. *)
Fixpoint run_actions (acts : list FlowAction.t) (s : state) (jump : option string)
    : result EngineError (state * option string) :=
  match acts with
  | [] => Ok (s, jump)
  | a :: rest =>
      match FlowAction.action_type a with
      | populate_field =>
          match FlowAction.field_id a, FlowAction.value a with
          | Some f, Some v => run_actions rest (set_field f v s) jump
          | _, _ => Err MalformedAction
          end
      | add_line_item =>
          match FlowAction.product_id a, FlowAction.quantity a with
          | Some p, Some q => run_actions rest (add_item p q s) jump
          | _, _ => Err MalformedAction
          end
      | go_to_node =>
          match FlowAction.next_node_id a with
          | Some n => run_actions rest (set_current n s) (Some n)
          | None => Err MalformedAction
          end
      | end_flow => Ok (set_terminated s, jump)
      end
  end.

Section engine.
Context (g : gmap string FlowNode.t) (bound : nat).

(** Entering a node: count the visit, then stop at a Question node, end
    at an End node, or run an Action node and follow its jump. *)
Fixpoint enter (fuel : nat) (id : string) (s : state) : result EngineError state :=
  match fuel with
  | O => Err OutOfFuel
  | S fuel' =>
      match g !! id with
      | None => Err (NodeNotFound id)
      | Some node =>
          let n := S (visits s id) in
          if bound <? n then Err LoopLimitExceeded else
          let s1 := visit id n s in
          match FlowNode.type node with
          | question => Ok s1
          | end_node => Ok (set_terminated s1)
          | action =>
              '(s2, jump) ← run_actions (default [] (FlowNode.actions node)) s1 None;
              if terminated s2 then Ok s2 else
              match jump with
              | Some t => enter fuel' t s2
              | None => Err (ActionNodeWithNoExit id)
              end
          end
      end
  end.

(** [submit_answer(answer_id)] on the current Question node. *)
Definition submit_answer (fuel : nat) (answer_id : string) (s : state) : result EngineError state :=
  if terminated s then Err FlowAlreadyTerminated else
  match g !! current_node_id s with
  | None => Err (NodeNotFound (current_node_id s))
  | Some node =>
      if FlowNode.type node === question then
        match find (fun a => FlowAnswer.answer_id a === answer_id) (default [] (FlowNode.answers node)) with
        | None => Err InvalidAnswerId
        | Some a =>
            let s1 := match FlowNode.field_id node with
                      | Some f => set_field f (FlowAnswer.value a) s
                      | None => s
                      end in
            '(s2, _) ← run_actions (default [] (FlowAnswer.actions a)) s1 None;
            if terminated s2 then Ok s2 else
            match FlowAnswer.next_node_id a with
            | Some nxt => enter fuel nxt s2
            | None => Ok (set_terminated s2)
            end
        end
      else Err NotAQuestion
  end.

(** One more entry than visits can ever be counted. *)
Definition engine_fuel : nat := S (bound * size g).

Definition start (start_node_id : string) : result EngineError state :=
  enter engine_fuel start_node_id (init start_node_id).

Definition submit (answer_id : string) (s : state) : result EngineError state :=
  submit_answer engine_fuel answer_id s.

(** A session: start, then the answers in order, stopping at the first
    error. *)
Definition session (start_node_id : string) (answers : list string) : result EngineError state :=
  foldl (fun r a => s ← r; submit a s) (start start_node_id) answers.

End engine.

Definition default_bound : nat := 1000.

(** The states a session can be in: the state [start] returns, and
    every state a successful [submit] leads to from one of them. *)
Inductive reachable (g : gmap string FlowNode.t) (bound : nat) (st : string) : state -> Prop :=
  | reach_start s : start g bound st = Ok s -> reachable g bound st s
  | reach_submit s a s' :
      reachable g bound st s -> submit g bound a s = Ok s' -> reachable g bound st s'.

(** The action lists a well-formed Action node or answer carries that
    neither end the flow nor miss a payload, and what they do, read
    directly off the list. *)
Definition runs_through (a : FlowAction.t) : Prop :=
  match FlowAction.action_type a with
  | populate_field => is_Some (FlowAction.field_id a) /\ is_Some (FlowAction.value a)
  | add_line_item => is_Some (FlowAction.product_id a) /\ is_Some (FlowAction.quantity a)
  | go_to_node => is_Some (FlowAction.next_node_id a)
  | end_flow => False
  end.

Definition populate_of (a : FlowAction.t) : option (string * JsValue) :=
  if FlowAction.action_type a === populate_field then
    f ← FlowAction.field_id a; v ← FlowAction.value a; Some (f, v)
  else None.

Definition item_of (a : FlowAction.t) : option (string * Q) :=
  if FlowAction.action_type a === add_line_item then
    p ← FlowAction.product_id a; q ← FlowAction.quantity a; Some (p, q)
  else None.

Definition jump_step (j : option string) (a : FlowAction.t) : option string :=
  if FlowAction.action_type a === go_to_node then
    match FlowAction.next_node_id a with Some t => Some t | None => j end
  else j.

Definition populates (acts : list FlowAction.t) : list (string * JsValue) := omap populate_of acts.
Definition line_items (acts : list FlowAction.t) : list (string * Q) := omap item_of acts.
Definition last_jump (acts : list FlowAction.t) (j : option string) : option string := foldl jump_step j acts.

(** ** Visit counts and the potential that bounds the walk *)

(** Visit counts never pass the bound. *)
Definition inv (bound : nat) (s : state) : Prop := forall k, visits s k <= bound.

(** The entries still allowed: the sum over the graph's nodes of the
    visits left before the bound. *)
Definition potential (g : gmap string FlowNode.t) (bound : nat) (s : state) : nat :=
  sum_list ((fun k => bound - visits s k) <$> elements (dom g)).

Lemma run_actions_visits acts : forall s j s' j',
  run_actions acts s j = Ok (s', j') -> visited_count s' = visited_count s.
Proof.
  induction acts as [|a acts IH]; intros s j s' j' H; simpl in H; [by injection H as <- <-|].
  destruct (FlowAction.action_type a);
    repeat match type of H with
    | context [match ?x with _ => _ end] => destruct x
    end; try discriminate;
    first [by injection H as <- <- | by rewrite (IH _ _ _ _ H)].
Qed.

Lemma run_actions_no_fuel acts : forall s j, run_actions acts s j <> Err OutOfFuel.
Proof.
  induction acts as [|a acts IH]; intros s j; simpl; [done|].
  destruct (FlowAction.action_type a);
    repeat match goal with
    | |- context [match ?x with _ => _ end] => destruct x
    end; done.
Qed.

Lemma visits_visit id n s k :
  visits (visit id n s) k = if decide (k = id) then n else visits s k.
Proof. unfold visits, visit; simpl. case_decide; subst; by rewrite ?lookup_insert_eq, ?lookup_insert_ne. Qed.

Lemma potential_visit g bound s id :
  id ∈ dom g -> visits s id < bound ->
  potential g bound (visit id (S (visits s id)) s) + 1 = potential g bound s.
Proof.
  intros Hid Hlt. unfold potential.
  apply (sum_list_fmap_update _ _ id); [apply NoDup_elements|by apply elem_of_elements| |].
  - intros x Hx. by rewrite visits_visit, decide_False.
  - rewrite visits_visit, decide_True by done. lia.
Qed.

Lemma potential_same g bound s s' :
  visited_count s' = visited_count s -> potential g bound s' = potential g bound s.
Proof. intros H. unfold potential, visits. by rewrite H. Qed.

Lemma potential_le g bound s : potential g bound s <= bound * size g.
Proof.
  unfold potential. etrans; [apply (sum_list_fmap_le _ bound)|].
  - apply Forall_forall. intros x _. lia.
  - change (length (elements (dom g))) with (size (dom g)). rewrite size_dom. lia.
Qed.

#[local] Hint Resolve run_actions_no_fuel : qh.

(** Every entry consumes one unit of the potential, so fuel beyond it
    is never exhausted. *)
Lemma enter_fuel g bound fuel : forall id s,
  potential g bound s < fuel -> enter g bound fuel id s <> Err OutOfFuel.
Proof.
  induction fuel as [|fuel IH]; intros id s Hp; [lia|]. simpl.
  destruct (g !! id) as [node|] eqn:Hg; [|done].
  destruct (bound <? S (visits s id)) eqn:Hb; [done|]. apply Nat.ltb_ge in Hb.
  assert (Hpot : potential g bound (visit id (S (visits s id)) s) < fuel).
  { rewrite <- (potential_visit g bound s id) in Hp; [lia| |lia]. by apply elem_of_dom. }
  destruct (FlowNode.type node); [done| |done].
  destruct (run_actions _ _ None) as [[s2 jump]|e] eqn:Hr; simpl; [|intros [= ->]; by eapply run_actions_no_fuel].
  destruct (terminated s2); [done|]. destruct jump as [t|]; [|done].
  apply IH. rewrite (potential_same _ _ _ _ (run_actions_visits _ _ _ _ _ Hr)). done.
Qed.

Lemma enter_inv g bound fuel : forall id s s',
  inv bound s -> enter g bound fuel id s = Ok s' -> inv bound s'.
Proof.
  induction fuel as [|fuel IH]; intros id s s' Hs H; simpl in H; [done|].
  destruct (g !! id) as [node|]; [|done].
  destruct (bound <? S (visits s id)) eqn:Hb; [done|]. apply Nat.ltb_ge in Hb.
  assert (Hs1 : inv bound (visit id (S (visits s id)) s)).
  { intros k. rewrite visits_visit. case_decide; [lia|apply Hs]. }
  destruct (FlowNode.type node).
  - by injection H as <-.
  - destruct (run_actions _ _ None) as [[s2 jump]|e] eqn:Hr; simpl in H; [|done].
    assert (Hs2 : inv bound s2) by (intros k; unfold visits; rewrite (run_actions_visits _ _ _ _ _ Hr); apply Hs1).
    destruct (terminated s2); [by injection H as <-|]. destruct jump; [|done]. by eapply IH.
  - injection H as <-. apply Hs1.
Qed.

Lemma submit_answer_inv g bound fuel a s s' :
  inv bound s -> submit_answer g bound fuel a s = Ok s' -> inv bound s'.
Proof.
  intros Hs H. unfold submit_answer in H.
  destruct (terminated s); [done|]. destruct (g !! current_node_id s) as [node|]; [|done].
  case_bool_decide; [|done].
  destruct (find _ _) as [ans|]; [|done].
  set (s1 := match FlowNode.field_id node with Some f => set_field f (FlowAnswer.value ans) s | None => s end) in H.
  assert (Hs1 : inv bound s1) by (subst s1; destruct (FlowNode.field_id node); done).
  destruct (run_actions _ s1 None) as [[s2 jump]|e] eqn:Hr; simpl in H; [|done].
  assert (Hs2 : inv bound s2) by (intros k; unfold visits; rewrite (run_actions_visits _ _ _ _ _ Hr); apply Hs1).
  destruct (terminated s2); [by injection H as <-|].
  destruct (FlowAnswer.next_node_id ans); [by eapply enter_inv|]. by injection H as <-.
Qed.

Lemma enter_total g bound id s : enter g bound (engine_fuel g bound) id s <> Err OutOfFuel.
Proof. apply enter_fuel. pose proof (potential_le g bound s). unfold engine_fuel. lia. Qed.

Lemma submit_total g bound a s : submit g bound a s <> Err OutOfFuel.
Proof.
  unfold submit, submit_answer. destruct (terminated s); [done|].
  destruct (g !! current_node_id s) as [node|]; [|done]. case_bool_decide; [|done].
  destruct (find _ _) as [ans|]; [|done].
  destruct (run_actions _ _ None) as [[s2 jump]|e] eqn:Hr; simpl;
    [|intros [= ->]; by eapply run_actions_no_fuel].
  destruct (terminated s2); [done|]. destruct (FlowAnswer.next_node_id ans); [apply enter_total|done].
Qed.

Definition orelse (o j : option string) : option string :=
  match o with Some u => Some u | None => j end.

Lemma last_jump_orelse acts : forall j, last_jump acts j = orelse (last_jump acts None) j.
Proof.
  induction acts as [|a acts IH]; intros j; [done|].
  change (last_jump (a :: acts) j) with (last_jump acts (jump_step j a)).
  change (last_jump (a :: acts) None) with (last_jump acts (jump_step None a)).
  unfold jump_step. case_bool_decide; [|apply IH].
  destruct (FlowAction.next_node_id a) as [t|]; [|apply IH].
  rewrite (IH (Some t)). by destruct (last_jump acts None).
Qed.

(** A node that only jumps to [t]. *)
Definition jump_to (t : string) : FlowAction.t := FlowAction.mk go_to_node None None None None (Some t).

(** [ids] is a jump cycle of [g]: each of its ids is an Action node whose
    only action jumps to an id of [ids]. *)
Definition jump_cycle (g : gmap string FlowNode.t) (ids : list string) : Prop :=
  forall id, id ∈ ids -> exists node t, g !! id = Some node /\ FlowNode.type node = action /\
    FlowNode.actions node = Some [jump_to t] /\ t ∈ ids.

Lemma enter_jump_cycle g bound cyc fuel : forall id s,
  jump_cycle g cyc -> id ∈ cyc -> terminated s = false ->
  enter g bound fuel id s = Err LoopLimitExceeded \/ enter g bound fuel id s = Err OutOfFuel.
Proof.
  induction fuel as [|fuel IH]; intros id s HS Hid Hs; simpl; [by right|].
  destruct (HS id Hid) as (node & t & Hg & Ht & Ha & Hts). rewrite Hg, Ht, Ha.
  destruct (bound <? S (visits s id)); [by left|]. simpl. rewrite Hs. by apply IH.
Qed.

Lemma submit_answer_unknown g bound fuel a s node :
  terminated s = false -> g !! current_node_id s = Some node -> FlowNode.type node = question ->
  a ∉ FlowAnswer.answer_id <$> default [] (FlowNode.answers node) ->
  submit_answer g bound fuel a s = Err InvalidAnswerId.
Proof.
  unfold submit_answer. intros -> Hg Hq Ha. rewrite Hg, bool_decide_eq_true_2 by done.
  by rewrite (proj2 (find_key_None FlowAnswer.answer_id a _) Ha).
Qed.

(** A two-question flow: the spec's linear scenario. *)
Definition linear_flow : gmap string FlowNode.t :=
  <["Q1" := FlowNode.mk "Q1" question (Some "Residential or commercial?") (Some "project_type")
       (Some [FlowAnswer.mk "residential" "Residential" (VStr "residential") (Some "Q2") None]) None]>
  {["Q2" := FlowNode.mk "Q2" question (Some "Anything else?") None
       (Some [FlowAnswer.mk "no" "No" (VStr "no") None None]) None]}.

(** ** Theorems *)

(** C4: the engine always answers: starting a flow and every session
    of answers return a state or a typed error, never run out of fuel,
    whatever the graph (cycles included) and the bound. *)
Theorem session_total g bound st answers : session g bound st answers <> Err OutOfFuel.
Proof.
  unfold session. assert (Hs : start g bound st <> Err OutOfFuel) by apply enter_total.
  revert Hs. generalize (start g bound st). induction answers as [|a answers IH]; intros r Hr; simpl; [done|].
  apply IH. destruct r as [s|e]; simpl; [apply submit_total|done].
Qed.

(** C38: in every reachable state of a session, no node has been
    entered more often than the loop bound allows. *)
Theorem reachable_visits_bounded g bound st s :
  reachable g bound st s -> forall k, visits s k <= bound.
Proof.
  induction 1 as [s Hs|s a s' _ IH Hsub].
  - eapply enter_inv; [|exact Hs]. intros k. unfold visits; simpl. rewrite lookup_empty. simpl. lia.
  - by eapply submit_answer_inv.
Qed.

Lemma reachable_visits_bounded_witness :
  reachable linear_flow default_bound "Q1" (visit "Q1" 1 (init "Q1")) /\
  forall k, visits (visit "Q1" 1 (init "Q1")) k <= default_bound.
Proof.
  assert (H : reachable linear_flow default_bound "Q1" (visit "Q1" 1 (init "Q1")))
    by (apply reach_start; vm_compute; reflexivity).
  split; [exact H|]. apply (reachable_visits_bounded _ _ _ _ H).
Defined.

(** C39: a list of actions that neither ends the flow nor lacks a
    payload does what its entries say, in order: the populated fields
    are written in list order (the last write of a field wins), the line
    items are appended in order (duplicates kept), and the last
    [GoToNode] target becomes the current node. *)
Theorem run_actions_spec acts : forall s j,
  Forall runs_through acts ->
  run_actions acts s j =
    Ok (mk (default (current_node_id s) (last_jump acts None))
           (foldl (fun m fv => <[fv.1 := fv.2]> m) (collected_fields s) (populates acts))
           (collected_line_items s ++ line_items acts)
           (visited_count s) (terminated s),
        last_jump acts j).
Proof.
  induction acts as [|a acts IH]; intros s j Hall; [by rewrite app_nil_r; destruct s|].
  apply Forall_cons in Hall as [Ha Hall]. unfold runs_through in Ha.
  change (last_jump (a :: acts) ?j) with (last_jump acts (jump_step j a)).
  unfold populates, line_items; simpl; fold (populates acts) (line_items acts).
  unfold populate_of, item_of, jump_step.
  destruct (FlowAction.action_type a) eqn:Ht; simpl; try done.
  - destruct Ha as [[f ->] [v ->]]. simpl. rewrite IH by done. done.
  - destruct Ha as [[p ->] [q ->]]. simpl. rewrite IH by done. simpl. by rewrite <- app_assoc.
  - destruct Ha as [t ->]. rewrite IH by done. simpl.
    rewrite (last_jump_orelse acts (Some t)). by destruct (last_jump acts None).
Qed.

Lemma run_actions_spec_witness :
  Forall runs_through
    [FlowAction.mk populate_field (Some "f") (Some (VStr "1")) None None None;
     FlowAction.mk populate_field (Some "f") (Some (VStr "2")) None None None] /\
  run_actions
    [FlowAction.mk populate_field (Some "f") (Some (VStr "1")) None None None;
     FlowAction.mk populate_field (Some "f") (Some (VStr "2")) None None None] (init "q") None =
  Ok (mk (default (current_node_id (init "q")) (last_jump
    [FlowAction.mk populate_field (Some "f") (Some (VStr "1")) None None None;
     FlowAction.mk populate_field (Some "f") (Some (VStr "2")) None None None] None))
       (foldl (fun m fv => <[fv.1 := fv.2]> m) (collected_fields (init "q")) (populates
    [FlowAction.mk populate_field (Some "f") (Some (VStr "1")) None None None;
     FlowAction.mk populate_field (Some "f") (Some (VStr "2")) None None None]))
       (collected_line_items (init "q") ++ line_items
    [FlowAction.mk populate_field (Some "f") (Some (VStr "1")) None None None;
     FlowAction.mk populate_field (Some "f") (Some (VStr "2")) None None None])
       (visited_count (init "q")) (terminated (init "q")),
     last_jump
    [FlowAction.mk populate_field (Some "f") (Some (VStr "1")) None None None;
     FlowAction.mk populate_field (Some "f") (Some (VStr "2")) None None None] None).
Proof.
  assert (H : Forall runs_through
    [FlowAction.mk populate_field (Some "f") (Some (VStr "1")) None None None;
     FlowAction.mk populate_field (Some "f") (Some (VStr "2")) None None None])
    by (repeat constructor; simpl; eauto).
  split; [exact H|]. apply (run_actions_spec _ (init "q") None H).
Defined.

(** [EndFlow] ends the flow at once: whatever follows it in the
    list is not run, and the state the preceding actions produced is
    returned terminated. *)
Theorem run_actions_end_flow pre a post : forall s j,
  FlowAction.action_type a = end_flow ->
  run_actions (pre ++ a :: post) s j =
    match run_actions pre s j with
    | Ok (s', j') => Ok (set_terminated s', j')
    | Err e => Err e
    end.
Proof.
  induction pre as [|b pre IH]; intros s j Ha; simpl; [by rewrite Ha|].
  destruct (FlowAction.action_type b);
    repeat match goal with
    | |- context [match ?x with _ => _ end] =>
        lazymatch x with run_actions _ _ _ => fail | _ => destruct x end
    end; try done; by apply IH.
Qed.

Lemma run_actions_end_flow_witness :
  FlowAction.action_type (FlowAction.mk end_flow None None None None None) = end_flow /\
  run_actions ([FlowAction.mk add_line_item None None (Some "p1") (Some 2%Q) None] ++
               FlowAction.mk end_flow None None None None None ::
               [FlowAction.mk add_line_item None None (Some "p2") (Some 1%Q) None]) (init "a") None =
    match run_actions [FlowAction.mk add_line_item None None (Some "p1") (Some 2%Q) None] (init "a") None with
    | Ok (s', j') => Ok (set_terminated s', j')
    | Err e => Err e
    end.
Proof.
  assert (H : FlowAction.action_type (FlowAction.mk end_flow None None None None None) = end_flow) by reflexivity.
  split; [exact H|]. apply run_actions_end_flow. exact H.
Defined.

(** C37: a cycle of Action nodes that jump to one another without an
    [EndFlow] makes the engine stop with [LoopLimitExceeded], from any
    state and for any bound: it never hangs. *)
Theorem jump_cycle_loop_limit g bound cyc id s :
  jump_cycle g cyc -> id ∈ cyc -> terminated s = false -> enter g bound (engine_fuel g bound) id s = Err LoopLimitExceeded.
Proof.
  intros HS Hid Hs. destruct (enter_jump_cycle g bound cyc (engine_fuel g bound) id s HS Hid Hs) as [H|H]; [done|].
  by apply enter_total in H.
Qed.

Definition two_cycle : gmap string FlowNode.t :=
  <["A" := FlowNode.mk "A" action None None None (Some [jump_to "B"])]>
  {["B" := FlowNode.mk "B" action None None None (Some [jump_to "A"])]}.

Lemma jump_cycle_loop_limit_witness :
  jump_cycle two_cycle ["A"; "B"] /\ "A" ∈ ["A"; "B"] /\ terminated (init "A") = false /\
  enter two_cycle default_bound (engine_fuel two_cycle default_bound) "A" (init "A") = Err LoopLimitExceeded.
Proof.
  assert (HS : jump_cycle two_cycle ["A"; "B"]).
  { intros id Hid. apply elem_of_cons in Hid as [->|Hid].
    - eexists _, "B". split_and!; [reflexivity|reflexivity|reflexivity|set_solver].
    - apply list_elem_of_singleton in Hid as ->.
      eexists _, "A". split_and!; [reflexivity|reflexivity|reflexivity|set_solver]. }
  assert (Hid : "A" ∈ ["A"; "B"]) by set_solver.
  assert (Hs : terminated (init "A") = false) by reflexivity.
  split_and!; [exact HS|exact Hid|exact Hs|]. apply (jump_cycle_loop_limit _ _ _ _ _ HS Hid Hs).
Defined.

(** C40: the error paths of [submit_answer]: a terminated flow refuses
    every answer, a current node that is not a Question refuses it, and
    an answer id the current Question does not offer is refused with
    [InvalidAnswerId]; in each case the caller's state is left as it was. *)
Theorem submit_answer_errors g bound fuel a s :
  (terminated s = true -> submit_answer g bound fuel a s = Err FlowAlreadyTerminated) /\
  (forall node, terminated s = false -> g !! current_node_id s = Some node ->
     FlowNode.type node <> question -> submit_answer g bound fuel a s = Err NotAQuestion) /\
  (forall node, terminated s = false -> g !! current_node_id s = Some node ->
     FlowNode.type node = question ->
     a ∉ FlowAnswer.answer_id <$> default [] (FlowNode.answers node) ->
     submit_answer g bound fuel a s = Err InvalidAnswerId).
Proof.
  unfold submit_answer. split_and!.
  - by intros ->.
  - intros node -> Hg Hq. rewrite Hg. by rewrite bool_decide_eq_false_2.
  - intros node. apply submit_answer_unknown.
Qed.

(** the spec's linear scenario: answering both questions ends the
    flow with [project_type = "residential"] collected and no line item. *)
Theorem linear_flow_scenario :
  exists s, session linear_flow default_bound "Q1" ["residential"; "no"] = Ok s /\
    terminated s = true /\ collected_fields s = {["project_type" := VStr "residential"]} /\
    collected_line_items s = [].
Proof.
  eexists. split; [vm_compute; reflexivity|].
  split_and!; apply (bool_decide_unpack _); vm_compute; reflexivity.
Qed.

(** The flow the builder opens with, read as the engine's graph. *)
Definition builder_demo_graph : gmap string FlowNode.t :=
  FlowGraph.graph (FlowGraph.abs FlowBuilder.initial_state).

(** the builder's demonstration flow is a dead end: after the first
    answer the engine waits at "What is the project location?", a
    Question without answers, where every answer id is refused, so the
    flow can never terminate (the spec's warning (b)). *)
Theorem builder_demo_flow_dead_end :
  exists s, session builder_demo_graph default_bound "start" ["residential"] = Ok s /\
    current_node_id s = "location" /\ terminated s = false /\
    forall a, submit builder_demo_graph default_bound a s = Err InvalidAnswerId.
Proof.
  eexists. split; [vm_compute; reflexivity|]. split_and!; [reflexivity|reflexivity|].
  intros a. eapply submit_answer_unknown; [reflexivity|vm_compute; reflexivity|reflexivity|].
  apply not_elem_of_nil.
Qed.

End FlowEngine.
