(* ===== verification/FlowValidate.v ===== *)
(** * Validation of a flow graph (spec §4.1 [validate])

    The sources have no validator: [validate] is modelled from the spec
    ([spec_modelled]) over the source's flow types and the engine's graph
    (node id to node).  It returns the issues of invariants (a)-(c) of §3:
    a [next_node_id] (of an answer or of a [GoToNode] action) or the
    [start_node_id] naming no node; a node whose answers share an
    [answer_id]; a Question node reachable from the start with neither
    answers nor fallback actions.  Reachability is an Inductive (the
    reference) and an executable iteration of the successor step on a
    [gset], [size g] times, which the theorems show computes it. *)

From S2P Require Import Prelude JsString Types FlowBuilder FlowGraph FlowEngine.

Module FlowValidate.

Abbreviation graph := (gmap string FlowNode.t).

Inductive IssueKind := DanglingReference | DuplicateAnswerId | UnreachableDeadEnd.

#[export] Instance IssueKind_eq_dec : EqDecision IssueKind.
Proof. solve_decision. Defined.

Record issue := mk_issue { kind : IssueKind; node_id : string; detail : string }.

#[export] Instance issue_eq_dec : EqDecision issue.
Proof. intros [a b c] [a' b' c']. destruct (decide (a = a')), (decide (b = b')), (decide (c = c')); [left|right..]; congruence. Defined.

(** The forward links of a node: its answers' [next_node_id]s and the
    targets of the [GoToNode] actions of its answers and of its own. *)
Definition action_targets (acts : list FlowAction.t) : list string :=
  omap (fun a => if FlowAction.action_type a === go_to_node then FlowAction.next_node_id a else None) acts.

Definition answer_targets (a : FlowAnswer.t) : list string :=
  option_list (FlowAnswer.next_node_id a) ++ action_targets (default [] (FlowAnswer.actions a)).

Definition node_targets (n : FlowNode.t) : list string :=
  (default [] (FlowNode.answers n) ≫= answer_targets) ++ action_targets (default [] (FlowNode.actions n)).

(** A Question with neither answers nor fallback actions. *)
Definition dead_end (n : FlowNode.t) : bool :=
  (FlowNode.type n === question) && (default [] (FlowNode.answers n) === []) &&
  (default [] (FlowNode.actions n) === []).

Definition answer_ids (n : FlowNode.t) : list string := FlowAnswer.answer_id <$> default [] (FlowNode.answers n).

(** The nodes reachable from the start, the reference definition. *)
Inductive reaches (g : graph) (start : string) : string -> Prop :=
  | reaches_start : is_Some (g !! start) -> reaches g start start
  | reaches_edge i n j :
      reaches g start i -> g !! i = Some n -> j ∈ node_targets n -> is_Some (g !! j) -> reaches g start j.

(** One step of the search: add every node a node of [s] links to. *)
Definition succ (g : graph) (s : gset string) : gset string :=
  s ∪ list_to_set (List.filter (fun j => bool_decide (j ∈ dom g))
                     (elements s ≫= fun i => default [] (node_targets <$> g !! i))).

Fixpoint iterate (g : graph) (k : nat) (s : gset string) : gset string :=
  match k with O => s | S k => succ g (iterate g k s) end.

Definition reach_set (g : graph) (start : string) : gset string :=
  iterate g (size g) (if bool_decide (start ∈ dom g) then {[start]} else ∅).

Definition dangling_issues (g : graph) (start : string) : list issue :=
  (if bool_decide (start ∈ dom g) then [] else [mk_issue DanglingReference start "start_node_id"]) ++
  (map_to_list g ≫= fun '(i, n) =>
     (fun t => mk_issue DanglingReference i t) <$> List.filter (fun t => bool_decide (t ∉ dom g)) (node_targets n)).

Definition duplicate_issues (g : graph) : list issue :=
  map_to_list g ≫= fun '(i, n) =>
    if bool_decide (NoDup (answer_ids n)) then [] else [mk_issue DuplicateAnswerId i "answer_id"].

Definition dead_end_issues (g : graph) (start : string) : list issue :=
  elements (reach_set g start) ≫= fun i =>
    match g !! i with
    | Some n => if dead_end n then [mk_issue UnreachableDeadEnd i "question without answers"] else []
    | None => []
    end.

Definition validate (g : graph) (start : string) : list issue :=
  dangling_issues g start ++ duplicate_issues g ++ dead_end_issues g start.

(** Invariants (a), (c) and (b) of the spec, as propositions. *)
Definition no_dangling (g : graph) (start : string) : Prop :=
  start ∈ dom g /\ forall i n, g !! i = Some n -> forall t, t ∈ node_targets n -> t ∈ dom g.

Definition unique_answers (g : graph) : Prop := forall i n, g !! i = Some n -> NoDup (answer_ids n).

Definition no_dead_end (g : graph) (start : string) : Prop :=
  forall i n, reaches g start i -> g !! i = Some n -> dead_end n = false.

(** ** The search computes reachability *)

Section search.
Context (g : graph) (start : string).

Lemma elem_of_succ (s : gset string) (j : string) :
  j ∈ succ g s <-> j ∈ s \/ exists i n, i ∈ s /\ g !! i = Some n /\ j ∈ node_targets n /\ j ∈ dom g.
Proof.
  unfold succ. rewrite elem_of_union, elem_of_list_to_set, elem_of_filter_In, list_elem_of_bind.
  setoid_rewrite elem_of_elements. rewrite bool_decide_eq_true. split.
  - intros [Hj|[(i & Hj & Hi) Hd]]; [by left|right].
    destruct (g !! i) as [n|] eqn:E; simpl in Hj; [|by apply not_elem_of_nil in Hj]. eauto 10.
  - intros [Hj|(i & n & Hi & E & Hj & Hd)]; [by left|right]. split; [|done].
    exists i. rewrite E. done.
Qed.

Lemma subseteq_succ (s : gset string) : s ⊆ succ g s.
Proof. intros x Hx. apply elem_of_succ. by left. Qed.

Lemma succ_dom (s : gset string) : s ⊆ dom g -> succ g s ⊆ dom g.
Proof. intros Hs x [Hx|(i & n & _ & _ & _ & Hd)]%elem_of_succ; [by apply Hs|done]. Qed.

Lemma iterate_dom (k : nat) (s : gset string) : s ⊆ dom g -> iterate g k s ⊆ dom g.
Proof. intros Hs. induction k as [|k IH]; simpl; [done|]. by apply succ_dom. Qed.

Lemma iterate_mono (k : nat) (s : gset string) : s ⊆ iterate g k s.
Proof. induction k as [|k IH]; simpl; [done|]. etrans; [exact IH|apply subseteq_succ]. Qed.

Lemma iterate_sound (k : nat) (s : gset string) :
  (forall x, x ∈ s -> reaches g start x) -> forall x, x ∈ iterate g k s -> reaches g start x.
Proof.
  intros Hs. induction k as [|k IH]; simpl; [done|].
  intros x [Hx|(i & n & Hi & E & Hj & Hd)]%elem_of_succ; [by apply IH|].
  eapply reaches_edge; [by apply IH|done|done|]. by apply elem_of_dom.
Qed.

(** Each round either adds a node or has reached the fixpoint. *)
Lemma iterate_progress (k : nat) (s : gset string) :
  k <= size (iterate g k s) \/ succ g (iterate g k s) ⊆ iterate g k s.
Proof.
  induction k as [|k IH]; simpl; [left; lia|].
  set (t := iterate g k s) in *.
  destruct (decide (succ g t ⊆ t)) as [Hfix|Hgrow].
  - right. assert (Ht : succ g t = t) by (apply set_eq; intros x; split; [apply Hfix|apply subseteq_succ]).
    by rewrite !Ht.
  - destruct IH as [IH|IH]; [|contradiction]. left.
    assert (size t < size (succ g t)); [|lia].
    apply subset_size. split; [apply subseteq_succ|done].
Qed.

Lemma iterate_fixpoint (s : gset string) :
  s ⊆ dom g -> succ g (iterate g (size g) s) ⊆ iterate g (size g) s.
Proof.
  intros Hs. destruct (iterate_progress (size g) s) as [Hk|Hfix]; [|done].
  pose proof (iterate_dom (size g) s Hs) as Hd.
  assert (Heq : iterate g (size g) s = dom g).
  { apply set_subseteq_size_eq; [done|]. rewrite size_dom. lia. }
  rewrite Heq. by apply succ_dom.
Qed.

Lemma start_set_dom : (if bool_decide (start ∈ dom g) then {[start]} else ∅ : gset string) ⊆ dom g.
Proof. case_bool_decide; set_solver. Qed.

End search.

(** ** Lemmas on the issue lists *)

Lemma dangling_issues_nil (g : graph) (start : string) :
  dangling_issues g start = [] <-> no_dangling g start.
Proof.
  unfold dangling_issues, no_dangling. rewrite app_nil, bind_nil_iff. split.
  - intros [Hs Hn]. split; [by case_bool_decide|]. intros i n Hi t Ht.
    specialize (Hn (i, n) (proj2 (elem_of_map_to_list g i n) Hi)). simpl in Hn.
    rewrite fmap_nil_iff, filter_nil_iff in Hn. specialize (Hn t Ht).
    apply bool_decide_eq_false in Hn. by destruct (decide (t ∈ dom g)).
  - intros [Hs Hn]. split; [by rewrite bool_decide_true|]. intros [i n] Hi.
    apply elem_of_map_to_list in Hi. simpl. rewrite fmap_nil_iff, filter_nil_iff.
    intros t Ht. apply bool_decide_eq_false. intros Hc. by apply Hc, (Hn i n).
Qed.

Lemma duplicate_issues_nil (g : graph) : duplicate_issues g = [] <-> unique_answers g.
Proof.
  unfold duplicate_issues, unique_answers. rewrite bind_nil_iff. split.
  - intros H i n Hi. specialize (H (i, n) (proj2 (elem_of_map_to_list g i n) Hi)). simpl in H.
    by case_bool_decide.
  - intros H [i n] Hi. apply elem_of_map_to_list in Hi. simpl. by rewrite bool_decide_true by eauto.
Qed.

(** *** Claims *)

(** C21: The search of [validate] computes reachability: a node is in
    [reach_set g start] exactly when it is reachable from the start
    node along answers' [next_node_id]s and [GoToNode] jumps, for every
    graph, cycles included; [size g] rounds are always enough. *)
Theorem reach_set_spec (g : graph) (start i : string) :
  i ∈ reach_set g start <-> reaches g start i.
Proof.
  unfold reach_set. split.
  - apply iterate_sound. case_bool_decide as Hs; [|set_solver].
    intros x ->%elem_of_singleton. constructor. by apply elem_of_dom.
  - pose proof (iterate_fixpoint g _ (start_set_dom g start)) as Hfix.
    induction 1 as [Hs|i n j Hi IH E Hj Hd].
    + apply (iterate_mono g (size g)). rewrite bool_decide_true by by apply elem_of_dom. set_solver.
    + apply Hfix, elem_of_succ. right. exists i, n. split_and!; try done. by apply elem_of_dom.
Qed.

(** C20: [validate] reports no issue exactly when the graph satisfies the
    spec's invariants: the start node and every forward link name a node
    (a), no node has two answers with one id (c), and no Question without
    answers or fallback actions is reachable from the start (b). *)
Theorem validate_nil_iff (g : graph) (start : string) :
  validate g start = [] <-> no_dangling g start /\ unique_answers g /\ no_dead_end g start.
Proof.
  unfold validate. rewrite !app_nil, dangling_issues_nil, duplicate_issues_nil.
  unfold dead_end_issues, no_dead_end. rewrite bind_nil_iff.
  setoid_rewrite elem_of_elements. setoid_rewrite reach_set_spec.
  assert (Hd : (forall x, reaches g start x -> match g !! x with
                 | Some n => if dead_end n then [mk_issue UnreachableDeadEnd x "question without answers"] else []
                 | None => [] end = []) <->
               (forall i n, reaches g start i -> g !! i = Some n -> dead_end n = false)).
  { split.
    - intros H i n Hi E. specialize (H i Hi). rewrite E in H. by destruct (dead_end n).
    - intros H x Hx. destruct (g !! x) as [n|] eqn:E; [|done]. by rewrite (H x n Hx E). }
  rewrite Hd. tauto.
Qed.

(** C19: Deleting a node in the builder breaks the spec's invariant (a),
    and [validate] says so: when another node links to the deleted one,
    the graph the builder holds afterwards gets a [DanglingReference]
    issue at the linking node naming the deleted id, whatever the start
    node. *)
Theorem delete_reports_dangling (st : FlowBuilder.state) (start i j : string) (n : FlowNode.t) :
  i <> j -> FlowGraph.graph (FlowGraph.abs st) !! i = Some n -> j ∈ node_targets n ->
  mk_issue DanglingReference i j ∈
    validate (FlowGraph.graph (FlowGraph.abs (FlowBuilder.handleNodeDelete j st))) start.
Proof.
  intros Hij Hi Hj. rewrite FlowGraph.abs_handleNodeDelete. simpl.
  unfold validate, dangling_issues. rewrite !elem_of_app. left. right.
  apply list_elem_of_bind. exists (i, n). split.
  - apply list_elem_of_fmap. exists j. split; [done|]. apply elem_of_filter_In. split; [done|].
    apply bool_decide_eq_true. rewrite dom_delete. set_solver.
  - apply elem_of_map_to_list. by rewrite lookup_delete_ne.
Qed.

Lemma delete_reports_dangling_witness :
  ("start" <> "location" /\
   exists n, FlowGraph.graph (FlowGraph.abs FlowBuilder.initial_state) !! "start" = Some n /\
             "location" ∈ node_targets n) /\
  mk_issue DanglingReference "start" "location" ∈
    validate (FlowGraph.graph (FlowGraph.abs (FlowBuilder.handleNodeDelete "location" FlowBuilder.initial_state))) "start".
Proof.
  assert (H : exists n, FlowGraph.graph (FlowGraph.abs FlowBuilder.initial_state) !! "start" = Some n /\
                        "location" ∈ node_targets n).
  { eexists. split; [vm_compute; reflexivity|]. apply (bool_decide_unpack _). vm_compute. reflexivity. }
  split; [split; [discriminate|exact H]|]. destruct H as (n & Hn & Ht).
  exact (delete_reports_dangling FlowBuilder.initial_state "start" "start" "location" n ltac:(discriminate) Hn Ht).
Defined.

End FlowValidate.
