(* ===== verification/FlowSerial.v ===== *)
(** * Serialization of a flow (spec §4.1 [serialize] / [deserialize])

    The sources persist nothing of a flow (the builder's "Save Flow"
    buttons have no handler), so the portable tree and the two functions
    are modelled from the spec ([spec_modelled]) over the source's
    [ConversationalFlow], [FlowNode], [FlowAnswer] and [FlowAction]
    types: a JSON-like tree whose objects carry the fields under their
    TypeScript names, an absent optional field ([x?: T]) being an absent
    key, the unions as their string literals and a [Date] as its
    milliseconds.  [deserialize] never fails other than with a
    [ParseError]. *)

From Stdlib Require Import QArith ZArith.
From S2P Require Import Prelude JsString Types.

Module FlowSerial.

Inductive tree :=
  | TStr (s : string)
  | TNum (q : Q)
  | TBool (b : bool)
  | TArr (l : list tree)
  | TObj (fields : list (string * tree)).

Inductive ParseError := parse_error (what : string).

(** ** Writing *)

Definition opt_field {A} (k : string) (o : option A) (f : A -> tree) : list (string * tree) :=
  match o with Some a => [(k, f a)] | None => [] end.

Definition ser_value (v : JsValue) : tree :=
  match v with VStr s => TStr s | VNum q => TNum q | VBool b => TBool b end.

Definition action_type_str (t : ActionType) : string :=
  match t with
  | populate_field => "populate_field" | add_line_item => "add_line_item"
  | go_to_node => "go_to_node" | end_flow => "end_flow"
  end.

Definition node_type_str (t : NodeType) : string :=
  match t with question => "question" | action => "action" | end_node => "end" end.

Definition ser_action (a : FlowAction.t) : tree :=
  TObj ([("action_type", TStr (action_type_str (FlowAction.action_type a)))] ++
        opt_field "field_id" (FlowAction.field_id a) TStr ++
        opt_field "value" (FlowAction.value a) ser_value ++
        opt_field "product_id" (FlowAction.product_id a) TStr ++
        opt_field "quantity" (FlowAction.quantity a) TNum ++
        opt_field "next_node_id" (FlowAction.next_node_id a) TStr).

Definition ser_answer (a : FlowAnswer.t) : tree :=
  TObj ([("answer_id", TStr (FlowAnswer.answer_id a)); ("text", TStr (FlowAnswer.text a));
         ("value", ser_value (FlowAnswer.value a))] ++
        opt_field "next_node_id" (FlowAnswer.next_node_id a) TStr ++
        opt_field "actions" (FlowAnswer.actions a) (fun l => TArr (ser_action <$> l))).

Definition ser_node (n : FlowNode.t) : tree :=
  TObj ([("node_id", TStr (FlowNode.node_id n)); ("type", TStr (node_type_str (FlowNode.type n)))] ++
        opt_field "question" (FlowNode.question n) TStr ++
        opt_field "field_id" (FlowNode.field_id n) TStr ++
        opt_field "answers" (FlowNode.answers n) (fun l => TArr (ser_answer <$> l)) ++
        opt_field "actions" (FlowNode.actions n) (fun l => TArr (ser_action <$> l))).

Definition ser_time (t : timestamp) : tree := TNum (inject_Z (Z.of_N t)).

Definition serialize (f : ConversationalFlow.t) : tree :=
  TObj [("flow_id", TStr (ConversationalFlow.flow_id f)); ("name", TStr (ConversationalFlow.name f));
        ("trade_id", TStr (ConversationalFlow.trade_id f));
        ("start_node_id", TStr (ConversationalFlow.start_node_id f));
        ("nodes", TArr (ser_node <$> ConversationalFlow.nodes f));
        ("is_active", TBool (ConversationalFlow.is_active f));
        ("created_at", ser_time (ConversationalFlow.created_at f));
        ("updated_at", ser_time (ConversationalFlow.updated_at f))].

(** ** Reading *)

Fixpoint get (k : string) (l : list (string * tree)) : option tree :=
  match l with
  | [] => None
  | (k', t) :: l => if k === k' then Some t else get k l
  end.

Definition get_str (t : tree) : option string := match t with TStr s => Some s | _ => None end.
Definition get_num (t : tree) : option Q := match t with TNum q => Some q | _ => None end.
Definition get_bool (t : tree) : option bool := match t with TBool b => Some b | _ => None end.
Definition get_arr (t : tree) : option (list tree) := match t with TArr l => Some l | _ => None end.
Definition get_obj (t : tree) : option (list (string * tree)) := match t with TObj l => Some l | _ => None end.

(** A required key, and an optional one: an absent key is [None], a
    present key of the wrong shape is an error. *)
Definition req {A} (k : string) (l : list (string * tree)) (d : tree -> option A) : option A :=
  get k l ≫= d.

Definition opt {A} (k : string) (l : list (string * tree)) (d : tree -> option A) : option (option A) :=
  match get k l with Some t => Some <$> d t | None => Some None end.

Definition des_value (t : tree) : option JsValue :=
  match t with TStr s => Some (VStr s) | TNum q => Some (VNum q) | TBool b => Some (VBool b) | _ => None end.

Definition des_action_type (s : string) : option ActionType :=
  if s === "populate_field" then Some populate_field
  else if s === "add_line_item" then Some add_line_item
  else if s === "go_to_node" then Some go_to_node
  else if s === "end_flow" then Some end_flow
  else None.

Definition des_node_type (s : string) : option NodeType :=
  if s === "question" then Some question
  else if s === "action" then Some action
  else if s === "end" then Some end_node
  else None.

Definition des_list {A} (d : tree -> option A) (t : tree) : option (list A) := get_arr t ≫= mapM d.

Definition des_action (t : tree) : option FlowAction.t :=
  l ← get_obj t;
  ty ← req "action_type" l (fun t => get_str t ≫= des_action_type);
  f ← opt "field_id" l get_str;
  v ← opt "value" l des_value;
  p ← opt "product_id" l get_str;
  q ← opt "quantity" l get_num;
  n ← opt "next_node_id" l get_str;
  Some (FlowAction.mk ty f v p q n).

Definition des_answer (t : tree) : option FlowAnswer.t :=
  l ← get_obj t;
  i ← req "answer_id" l get_str;
  x ← req "text" l get_str;
  v ← req "value" l des_value;
  n ← opt "next_node_id" l get_str;
  acts ← opt "actions" l (des_list des_action);
  Some (FlowAnswer.mk i x v n acts).

Definition des_node (t : tree) : option FlowNode.t :=
  l ← get_obj t;
  i ← req "node_id" l get_str;
  ty ← req "type" l (fun t => get_str t ≫= des_node_type);
  q ← opt "question" l get_str;
  f ← opt "field_id" l get_str;
  ans ← opt "answers" l (des_list des_answer);
  acts ← opt "actions" l (des_list des_action);
  Some (FlowNode.mk i ty q f ans acts).

(** A millisecond count: a non-negative integer. *)
Definition des_time (t : tree) : option timestamp :=
  q ← get_num t;
  if (Qden q =? 1)%positive && (0 <=? Qnum q)%Z then Some (Z.to_N (Qnum q)) else None.

Definition des_flow (t : tree) : option ConversationalFlow.t :=
  l ← get_obj t;
  i ← req "flow_id" l get_str;
  nm ← req "name" l get_str;
  tr ← req "trade_id" l get_str;
  st ← req "start_node_id" l get_str;
  ns ← req "nodes" l (des_list des_node);
  act ← req "is_active" l get_bool;
  c ← req "created_at" l des_time;
  u ← req "updated_at" l des_time;
  Some (ConversationalFlow.mk i nm tr st ns act c u).

Definition deserialize (t : tree) : result ParseError ConversationalFlow.t :=
  match des_flow t with Some f => Ok f | None => Err (parse_error "not a serialized flow") end.

(** ** Round trip *)

#[local] Arguments des_list {A} _ _ : simpl never.
#[local] Arguments des_time _ : simpl never.

Lemma des_list_ser {A} (d : tree -> option A) (s : A -> tree) (l : list A) :
  (forall x, d (s x) = Some x) -> des_list d (TArr (s <$> l)) = Some l.
Proof. intros H. exact (mapM_fmap_Some d s l H). Qed.

Lemma des_ser_action (a : FlowAction.t) : des_action (ser_action a) = Some a.
Proof. destruct a as [ty f v p q n]; destruct ty, f, v as [[]|], p, q, n; reflexivity. Qed.

Lemma des_ser_actions (l : list FlowAction.t) : des_list des_action (TArr (ser_action <$> l)) = Some l.
Proof. apply des_list_ser, des_ser_action. Qed.

Lemma des_ser_answer (a : FlowAnswer.t) : des_answer (ser_answer a) = Some a.
Proof.
  destruct a as [i x v n acts].
  destruct v, n, acts; unfold des_answer, ser_answer, opt, req; simpl; rewrite ?des_ser_actions; reflexivity.
Qed.

Lemma des_ser_node (n : FlowNode.t) : des_node (ser_node n) = Some n.
Proof.
  assert (Ha : forall l, des_list des_answer (TArr (ser_answer <$> l)) = Some l)
    by (intros; apply des_list_ser, des_ser_answer).
  destruct n as [i ty q f ans acts].
  destruct ty, q, f, ans, acts; unfold des_node, ser_node, opt, req; simpl; rewrite ?Ha, ?des_ser_actions;
    reflexivity.
Qed.

Lemma des_ser_time (t : timestamp) : des_time (ser_time t) = Some t.
Proof.
  unfold des_time, ser_time. simpl. rewrite (proj2 (Z.leb_le 0 (Z.of_N t)) (N2Z.is_nonneg t)).
  simpl. by rewrite N2Z.id.
Qed.

Lemma des_flow_serialize (f : ConversationalFlow.t) : des_flow (serialize f) = Some f.
Proof.
  assert (Hn : forall l, des_list des_node (TArr (ser_node <$> l)) = Some l)
    by (intros; apply des_list_ser, des_ser_node).
  destruct f as [i nm tr st ns act c u]. unfold des_flow, serialize, req. simpl.
  by rewrite Hn, !des_ser_time.
Qed.

(** C22: Serialization is lossless: reading back the tree [serialize]
    writes for a flow gives that flow, field for field, for every flow
    of the source's type (every node kind, every optional field present
    or absent, every action). *)
Theorem deserialize_serialize (f : ConversationalFlow.t) : deserialize (serialize f) = Ok f.
Proof. unfold deserialize. by rewrite des_flow_serialize. Qed.

End FlowSerial.
