(* ===== verification/FlowSchema.v ===== *)
(** * The schema of a serialized flow

    The types the portable tree of [FlowSerial] must have to be read
    back: a small schema language ([ty]) and its checker [has_type], with
    one schema per record of [types/index.ts] that a flow holds
    ([ConversationalFlow], [FlowNode], [FlowAnswer], [FlowAction]).  An
    object field is required or optional ([x?: T]); a [Date] is a
    non-negative integer of milliseconds; the [type] unions are the
    string literals the source declares.  Like [FlowSerial] this is
    modelled from the spec ([spec_modelled]).  The class [Decodes d T]
    says that decoder [d] succeeds exactly on the trees of type [T]; its
    instances, one per decoder of [FlowSerial], build up to the flow. *)

From Stdlib Require Import QArith ZArith.
From S2P Require Import Prelude JsString Types FlowSerial.

Module FlowSchema.
Import FlowSerial.

Inductive ty :=
  | TyStr | TyNum | TyNat | TyBool
  | TyValue                                   (** [any]: a string, number or boolean *)
  | TyEnum (cases : list string)              (** a union of string literals *)
  | TyArr (elem : ty)
  | TyObj (fields : list (string * bool * ty)).  (** key, required, type *)

(** A key is looked up as [deserialize] looks it up: its first occurrence. *)
Definition field_ok (chk : tree -> bool) (k : string) (required : bool) (l : list (string * tree)) : bool :=
  match get k l with Some v => chk v | None => negb required end.

Fixpoint has_type (T : ty) (t : tree) {struct T} : bool :=
  match T, t with
  | TyStr, TStr _ | TyNum, TNum _ | TyBool, TBool _ => true
  | TyNat, TNum q => (Qden q =? 1)%positive && (0 <=? Qnum q)%Z
  | TyValue, (TStr _ | TNum _ | TBool _) => true
  | TyEnum cs, TStr s => bool_decide (s ∈ cs)
  | TyArr T', TArr l => forallb (has_type T') l
  | TyObj fs, TObj l =>
      (fix fields (fs : list (string * bool * ty)) : bool :=
         match fs with
         | [] => true
         | (k, r, T') :: fs => field_ok (has_type T') k r l && fields fs
         end) fs
  | _, _ => false
  end.

Definition action_types : list string := ["populate_field"; "add_line_item"; "go_to_node"; "end_flow"].
Definition node_types : list string := ["question"; "action"; "end"].

Definition action_ty : ty :=
  TyObj [("action_type", true, TyEnum action_types); ("field_id", false, TyStr);
         ("value", false, TyValue); ("product_id", false, TyStr); ("quantity", false, TyNum);
         ("next_node_id", false, TyStr)].

Definition answer_ty : ty :=
  TyObj [("answer_id", true, TyStr); ("text", true, TyStr); ("value", true, TyValue);
         ("next_node_id", false, TyStr); ("actions", false, TyArr action_ty)].

Definition node_ty : ty :=
  TyObj [("node_id", true, TyStr); ("type", true, TyEnum node_types); ("question", false, TyStr);
         ("field_id", false, TyStr); ("answers", false, TyArr answer_ty); ("actions", false, TyArr action_ty)].

Definition flow_ty : ty :=
  TyObj [("flow_id", true, TyStr); ("name", true, TyStr); ("trade_id", true, TyStr);
         ("start_node_id", true, TyStr); ("nodes", true, TyArr node_ty); ("is_active", true, TyBool);
         ("created_at", true, TyNat); ("updated_at", true, TyNat)].

(** ** Decoders and their types *)

Class Decodes {A} (d : tree -> option A) (T : ty) :=
  decodes : forall v, is_Some (d v) <-> has_type T v = true.
#[global] Hint Mode Decodes - ! - : typeclass_instances.

Lemma has_type_obj fs l :
  has_type (TyObj fs) (TObj l) = forallb (fun '(k, r, T) => field_ok (has_type T) k r l) fs.
Proof. induction fs as [|[[k r] T] fs IH]; simpl; [done|]. by rewrite <-IH. Qed.

Lemma is_Some_Some_True {A} (x : A) : is_Some (Some x) <-> True.
Proof. split; [done|by eexists]. Qed.

Lemma bind_iff {A B} (x : option A) (f : A -> option B) (P : Prop) :
  (forall a, is_Some (f a) <-> P) -> (is_Some (x ≫= f) <-> is_Some x /\ P).
Proof.
  intros Hf. destruct x as [a|]; simpl; [rewrite Hf; naive_solver|].
  split; [by intros []|by intros [[] _]].
Qed.

Ltac chain_iff :=
  lazymatch goal with
  | |- is_Some (_ ≫= _) <-> _ => eapply iff_trans; [apply bind_iff; intros ?; chain_iff | reflexivity]
  | |- is_Some (Some _) <-> _ => apply is_Some_Some_True
  end.

(** [is_Some e <-> b = true] when [e] and [b] have been computed. *)
Ltac some_iff :=
  split; [intros [? ?]; try discriminate; done | intros ?; try discriminate; eexists; reflexivity].

(** A decoder of string literals succeeds exactly on the listed ones. *)
Ltac enum_iff :=
  repeat case_bool_decide; subst;
  (split; [intros _; set_solver|eexists; reflexivity]) ||
  (split; [intros []; discriminate|rewrite !elem_of_cons, elem_of_nil; naive_solver]).

Lemma req_ok {A} (d : tree -> option A) T `{!Decodes d T} k l :
  is_Some (req k l d) <-> field_ok (has_type T) k true l = true.
Proof. unfold req, field_ok. destruct (get k l); simpl; [apply decodes|some_iff]. Qed.

Lemma opt_ok {A} (d : tree -> option A) T `{!Decodes d T} k l :
  is_Some (opt k l d) <-> field_ok (has_type T) k false l = true.
Proof. unfold opt, field_ok. destruct (get k l); simpl; [by rewrite fmap_is_Some, decodes|some_iff]. Qed.

#[export] Instance get_str_decodes : Decodes get_str TyStr.
Proof. intros []; simpl; some_iff. Qed.

#[export] Instance get_num_decodes : Decodes get_num TyNum.
Proof. intros []; simpl; some_iff. Qed.

#[export] Instance get_bool_decodes : Decodes get_bool TyBool.
Proof. intros []; simpl; some_iff. Qed.

#[export] Instance des_value_decodes : Decodes des_value TyValue.
Proof. intros []; simpl; some_iff. Qed.

#[export] Instance des_time_decodes : Decodes des_time TyNat.
Proof.
  intros []; unfold des_time; simpl; try some_iff.
  destruct (_ && _); simpl; some_iff.
Qed.

#[export] Instance action_type_decodes : Decodes (fun t => get_str t ≫= des_action_type) (TyEnum action_types).
Proof.
  intros []; simpl; try some_iff. unfold des_action_type, action_types.
  rewrite bool_decide_eq_true. enum_iff.
Qed.

#[export] Instance node_type_decodes : Decodes (fun t => get_str t ≫= des_node_type) (TyEnum node_types).
Proof.
  intros []; simpl; try some_iff. unfold des_node_type, node_types.
  rewrite bool_decide_eq_true. enum_iff.
Qed.

#[export] Instance des_list_decodes {A} (d : tree -> option A) T `{!Decodes d T} : Decodes (des_list d) (TyArr T).
Proof.
  intros []; unfold des_list; simpl; try some_iff.
  rewrite mapM_is_Some, Forall_forall, forallb_forall.
  split; intros H x Hx; [apply (proj1 (decodes (d:=d) x))|apply (proj2 (decodes (d:=d) x))]; apply H, list_elem_of_In, Hx.
Qed.

(** A record decoder: the chain of its field decoders succeeds exactly
    when each field has its type. *)
Ltac record_decodes d T :=
  intros [| | | |l]; [unfold d; simpl; some_iff..|];
  etransitivity; [unfold d; simpl; chain_iff|];
  unfold T; rewrite has_type_obj; cbn [forallb];
  rewrite ?req_ok, ?opt_ok, !andb_true_iff; [|typeclasses eauto..]; tauto.

#[export] Instance des_action_decodes : Decodes des_action action_ty.
Proof. record_decodes des_action action_ty. Qed.

#[export] Instance des_answer_decodes : Decodes des_answer answer_ty.
Proof. record_decodes des_answer answer_ty. Qed.

#[export] Instance des_node_decodes : Decodes des_node node_ty.
Proof. record_decodes des_node node_ty. Qed.

#[export] Instance des_flow_decodes : Decodes des_flow flow_ty.
Proof. record_decodes des_flow flow_ty. Qed.

(** C23: The serialized form is typed: [serialize] writes a tree of the
    flow schema for every flow, and [deserialize] accepts a tree exactly
    when it has the flow schema (every required key present, every key
    present with the type of its field, the node and action kinds among
    the source's literals, the dates non-negative integers), whatever
    other keys the tree holds; on every other tree it returns a
    [ParseError]. *)
Theorem deserialize_typed :
  (forall t, (exists f, deserialize t = Ok f) <-> has_type flow_ty t = true) /\
  (forall f, has_type flow_ty (serialize f) = true).
Proof.
  assert (H : forall t, (exists f, deserialize t = Ok f) <-> has_type flow_ty t = true).
  { intros t. rewrite <-(decodes (d:=des_flow) t). unfold deserialize.
    destruct (des_flow t) as [a|]; split; intros [f Hf]; try discriminate; by exists a. }
  split; [done|]. intros f. apply H. exists f. unfold deserialize. by rewrite des_flow_serialize.
Qed.

End FlowSchema.
