(* ===== verification/FlowBuilderUI.v ===== *)
(** * What the flow builder renders and the events it can emit

    [src/src/components/admin/ConversationalFlowBuilder.tsx] beyond its
    handlers: the node card ([FlowNodeComponent]), the palette, the
    toolbar title, the properties panel ([NodePropertiesPanel]) and the
    events that rendered controls send.  A card can be clicked, dragged or
    deleted only when it is on the canvas; the panel's inputs exist only
    for a selected Question node and its answers.  Two selects of the
    panel, "Link to Quote Field" and "Next Node", have no change handler
    and emit nothing; the toolbar's Save, Export, Import, Reset and zoom
    buttons have no handler either.  [ui_step] is the builder seen through
    its interface; the theorems are about the states it can reach. *)

From Stdlib Require Import ZArith QArith.
From S2P Require Import Prelude JsString Types FlowBuilder FlowValidate FlowSerial.

Module FlowBuilderUI.
Import FlowBuilder.

(** ** The node card *)

Inductive Icon := MessageSquare | Play | Square.

#[export] Instance Icon_eq_dec : EqDecision Icon.
Proof. solve_decision. Defined.

(** [getNodeIcon] and [getNodeColor] switch on [node.type]; their
    [default] branches are unreachable for a [NodeType]. *)
Definition getNodeIcon (t : NodeType) : Icon :=
  match t with question => MessageSquare | action => Play | end_node => Square end.

Definition getNodeColor (t : NodeType) : string :=
  match t with question => "bg-blue-500" | action => "bg-green-500" | end_node => "bg-red-500" end.

(** [{node.answers.length} answer{node.answers.length !== 1 ? 's' : ''}],
    shown when [node.answers && node.answers.length > 0]. *)
Definition answers_label (n : FlowNode.t) : option string :=
  match FlowNode.answers n with
  | Some (_ :: _ as l) =>
      Some (JsString.string_of_N (N.of_nat (length l)) +:+ " answer" +:+ (if length l =? 1 then "" else "s"))
  | _ => None
  end.

Record card := mk_card {
  card_left : Z; card_top : Z;
  card_selected : bool;           (** [ring-2 ring-blue-500] *)
  card_color : string;
  card_icon : Icon;
  card_badge : string;            (** [{node.type}] *)
  card_title : string;
  card_answers : option string }.

Definition node_card (selectedNode : option string) (c : CanvasNode.t) : card :=
  let n := CanvasNode.node c in
  mk_card (CanvasNode.x c) (CanvasNode.y c) (selectedNode === Some (cid c))
    (getNodeColor (FlowNode.type n)) (getNodeIcon (FlowNode.type n))
    (FlowSerial.node_type_str (FlowNode.type n)) (node_title n) (answers_label n).

(** The canvas draws one card per node, in array order. *)
Definition cards (st : state) : list card := node_card (selectedNode st) <$> nodes st.

(** ** Palette and toolbar *)

(** The three [PaletteItem]s: the type each drags, its label, its colour. *)
Definition palette : list (NodeType * string * string) :=
  [(question, "Question", "bg-blue-500"); (action, "Action", "bg-green-500"); (end_node, "End", "bg-red-500")].

(** [{template ? template.name : 'New Flow'}] *)
Definition toolbar_title (template : option TradeTemplate.t) : string :=
  match template with Some t => TradeTemplate.name t | None => "New Flow" end.

(** ** The properties panel *)

(** [answer.value || ''] on the [any]-typed value. *)
Definition js_truthy (v : JsValue) : bool :=
  match v with
  | VStr s => s !== ""
  | VNum q => negb (Qeq_bool q 0)
  | VBool b => b
  end.

Definition value_or_empty (v : JsValue) : JsValue := if js_truthy v then v else VStr "".

Record answer_card := mk_answer_card {
  ac_title : string;              (** [Answer {index + 1}] *)
  ac_text : string;
  ac_value : JsValue;
  ac_next : string }.             (** [answer.next_node_id || ''] *)

Definition answer_card_of (i : nat) (a : FlowAnswer.t) : answer_card :=
  mk_answer_card ("Answer " +:+ JsString.string_of_N (N.of_nat (S i))) (FlowAnswer.text a)
    (value_or_empty (FlowAnswer.value a)) (JsString.opt_or_default (FlowAnswer.next_node_id a) "").

Inductive panel :=
  | PanelHint                     (** "Select a node to edit its properties" *)
  | PanelNode (type : NodeType)
      (question_text : option string)   (** the Question Text box, Question nodes only *)
      (field : string)                  (** [node.field_id || ''] *)
      (answers : option (list answer_card)).  (** Answer Options, Question nodes only *)

Definition panel_view (st : state) : panel :=
  match selectedNodeData st with
  | None => PanelHint
  | Some c =>
      let n := CanvasNode.node c in
      let q := FlowNode.type n === question in
      PanelNode (FlowNode.type n)
        (if q then Some (JsString.opt_or_default (FlowNode.question n) "") else None)
        (JsString.opt_or_default (FlowNode.field_id n) "")
        (if q then Some (imap answer_card_of (default [] (FlowNode.answers n))) else None)
  end.

(** ** The events the rendered builder emits *)

Inductive ui_event :=
  | ClickCard (id : string)        (** the card's [onClick]: [onSelect(node.node_id)] *)
  | ClickTrash (id : string)       (** [e.stopPropagation(); onDelete(node.node_id)] *)
  | DropPalette (t : NodeType) (clientOffset canvasRect : option (Z * Z)) (now : N)
  | DropCard (id : string) (clientOffset canvasRect : option (Z * Z))
  | TypeQuestion (value : string)
  | ClickAddAnswer (now : N)
  | ClickDeleteAnswer (answerId : string)
  | TypeAnswerText (answerId : string) (value : string)
  | TypeAnswerValue (answerId : string) (value : string).

(** The selected node when the panel shows a Question node. *)
Definition panel_question (st : state) : option FlowNode.t :=
  match selectedNodeData st with
  | Some c => if FlowNode.type (CanvasNode.node c) === question then Some (CanvasNode.node c) else None
  | None => None
  end.

Definition shows_answer (st : state) (answerId : string) : bool :=
  match panel_question st with
  | Some n => bool_decide (answerId ∈ FlowValidate.answer_ids n)
  | None => false
  end.

(** Whether the control that sends the event is on the screen. *)
Definition enabled (e : ui_event) (st : state) : bool :=
  match e with
  | ClickCard id | ClickTrash id | DropCard id _ _ => bool_decide (id ∈ ids st)
  | DropPalette _ _ _ _ => true
  | TypeQuestion _ | ClickAddAnswer _ => bool_decide (is_Some (panel_question st))
  | ClickDeleteAnswer a | TypeAnswerText a _ | TypeAnswerValue a _ => shows_answer st a
  end.

(** The handler event each control sends; the answer inputs send
    [{ text: e.target.value }] and [{ value: e.target.value }]. *)
Definition to_event (e : ui_event) : event :=
  match e with
  | ClickCard id => Select id
  | ClickTrash id => Delete id
  | DropPalette t off rect now => Drop (PaletteItem t) off rect now
  | DropCard id off rect => Drop (NodeItem id) off rect 0
  | TypeQuestion v => QuestionChange v
  | ClickAddAnswer now => AddAnswer now
  | ClickDeleteAnswer a => DeleteAnswer a
  | TypeAnswerText a v => UpdateAnswer a (AnswerUpdate.mk None (Some v) None None None)
  | TypeAnswerValue a v => UpdateAnswer a (AnswerUpdate.mk None None (Some (VStr v)) None None)
  end.

Definition ui_step (e : ui_event) (st : state) : state :=
  if enabled e st then step (to_event e) st else st.

Definition ui_run (es : list ui_event) (st : state) : state := foldl (fun s e => ui_step e s) st es.

(** The links of the builder's nodes, as the validator reads them. *)
Definition links (st : state) : list (string * string) :=
  nodes st ≫= fun c => pair (cid c) <$> FlowValidate.node_targets (CanvasNode.node c).

(** ** What the interface cannot change

    A node is [node_ok] when each of its links is the demonstration link
    of the start node. *)
Definition node_ok (c : CanvasNode.t) : Prop :=
  forall t, t ∈ FlowValidate.node_targets (CanvasNode.node c) -> cid c = "start" /\ t = "location".

Definition sel_ok (st : state) : Prop := forall s, selectedNode st = Some s -> s ∈ ids st.

Definition ui_inv (st : state) : Prop := sel_ok st /\ Forall node_ok (nodes st).

(** The answers [l] link nowhere the answers [l0] do not. *)
Definition answers_sub (l l0 : list FlowAnswer.t) : Prop :=
  forall a, a ∈ l -> FlowValidate.answer_targets a = [] \/
                     exists b, b ∈ l0 /\ FlowValidate.answer_targets a = FlowValidate.answer_targets b.

(** A panel update links nowhere the edited node or the shown node do not. *)
Definition update_sub (f : FlowNode.t -> NodeUpdate.t) : Prop :=
  forall n n' t, t ∈ FlowValidate.node_targets (merge_node n' (f n)) ->
                 t ∈ FlowValidate.node_targets n' \/ t ∈ FlowValidate.node_targets n.

Lemma answers_sub_targets l l0 t :
  answers_sub l l0 -> t ∈ l ≫= FlowValidate.answer_targets -> t ∈ l0 ≫= FlowValidate.answer_targets.
Proof.
  intros Hs (a & Ht & Ha)%list_elem_of_bind. apply list_elem_of_bind.
  destruct (Hs a Ha) as [Hn|(b & Hb & Heq)]; [rewrite Hn in Ht; by apply not_elem_of_nil in Ht|]. exists b. by rewrite <-Heq.
Qed.

Lemma set_answers_sub (g : FlowNode.t -> list FlowAnswer.t) :
  (forall n, answers_sub (g n) (default [] (FlowNode.answers n))) ->
  update_sub (fun n => set_answers (g n)).
Proof.
  intros Hg n n' t. unfold FlowValidate.node_targets. simpl. rewrite !elem_of_app.
  intros [Ht|Ht]; [right; left; by eapply answers_sub_targets|by left; right].
Qed.

Lemma question_update_sub v : update_sub (question_update v).
Proof. intros n n' t Ht. left. exact Ht. Qed.

Lemma add_answer_update_sub now : update_sub (add_answer_update now).
Proof.
  apply (set_answers_sub (fun n => default [] (FlowNode.answers n) ++ [new_answer now])).
  intros n a [Ha|Ha]%elem_of_app; [right; by exists a|left; apply list_elem_of_singleton in Ha; by subst].
Qed.

Lemma update_answer_update_sub a u :
  AnswerUpdate.next_node_id u = None -> AnswerUpdate.actions u = None ->
  update_sub (update_answer_update a u).
Proof.
  intros Hn Hac.
  apply (set_answers_sub (fun n => default [] (map_where (fun b => FlowAnswer.answer_id b === a)
                                                 (fun b => merge_answer b u) <$> FlowNode.answers n))).
  intros n b Hb. right. destruct (FlowNode.answers n) as [l|]; [|by apply not_elem_of_nil in Hb].
  apply elem_of_map_where in Hb as (b0 & Hb0 & ->). exists b0. split; [done|].
  destruct (_ === a); [|done]. destruct b0. unfold merge_answer, FlowValidate.answer_targets. simpl.
  by rewrite Hn, Hac.
Qed.

Lemma delete_answer_update_sub a : update_sub (delete_answer_update a).
Proof.
  apply (set_answers_sub (fun n => default [] (List.filter (fun b => FlowAnswer.answer_id b !== a) <$>
                                                 FlowNode.answers n))).
  intros n b Hb. right. exists b. split; [|done].
  destruct (FlowNode.answers n) as [l|]; [by apply elem_of_filter_In in Hb as []|by apply not_elem_of_nil in Hb].
Qed.

Lemma selectedNodeData_elem st c : selectedNodeData st = Some c -> c ∈ nodes st /\ selectedNode st = Some (cid c).
Proof.
  unfold selectedNodeData. destruct (selectedNode st) as [s|]; [|done].
  intros [Hc Hs]%find_key_Some. by rewrite Hs.
Qed.

Lemma with_selected_inv f st :
  update_sub f -> (forall n, NodeUpdate.node_id (f n) = None) -> ui_inv st -> ui_inv (with_selected f st).
Proof.
  intros Hf Hid [Hsel Hn]. split.
  { intros s Hs. rewrite ids_with_selected by done. apply Hsel.
    unfold with_selected in Hs. by destruct (selectedNodeData st). }
  unfold with_selected. destruct (selectedNodeData st) as [c|] eqn:Ec; [|done].
  destruct (selectedNodeData_elem st c Ec) as [Hc _].
  apply Forall_forall. intros c' (c0 & Hc0 & ->)%elem_of_map_where.
  rewrite Forall_forall in Hn. destruct (cid c0 === cid c) eqn:E; [|by apply Hn].
  apply bool_decide_eq_true in E. intros t Ht. unfold cid in *. simpl in *. rewrite Hid. simpl.
  destruct (Hf _ _ _ Ht) as [H|H]; [by apply Hn|]. rewrite E. by apply (Hn c).
Qed.

Lemma new_node_targets t x y now : FlowValidate.node_targets (CanvasNode.node (new_node t x y now)) = [].
Proof. by destruct t. Qed.

Lemma new_node_ok t x y now : node_ok (new_node t x y now).
Proof. intros u. rewrite new_node_targets. intros Hu. by apply not_elem_of_nil in Hu. Qed.

Lemma ui_inv_initial : ui_inv initial_state.
Proof.
  split; [intros s [=]|].
  constructor; [|constructor; [|constructor]]; intros t Ht.
  - change (t ∈ ["location"; "location"]) in Ht. split; [reflexivity|]. set_solver.
  - change (t ∈ @nil string) in Ht. by apply not_elem_of_nil in Ht.
Qed.

Lemma ui_step_inv e st : ui_inv st -> ui_inv (ui_step e st).
Proof.
  intros Hi. unfold ui_step. destruct (enabled e st) eqn:He; [|done].
  destruct Hi as [Hsel Hn].
  destruct e as [id|id|t off rect now|id off rect|v|now|a|a v|a v]; simpl in He |- *.
  - split; [|done]. intros s [= <-]. by apply bool_decide_eq_true in He.
  - split.
    + intros s Hs. rewrite ids_handleNodeDelete. apply list_elem_of_In, filter_In.
      unfold handleNodeDelete in Hs. simpl in Hs. case_bool_decide as E; [done|].
      split; [apply list_elem_of_In; by apply Hsel|]. rewrite bool_decide_eq_false_2; [done|congruence].
    + rewrite Forall_forall in Hn |- *. intros c [Hc _]%elem_of_filter_In. by apply Hn.
  - unfold canvas_drop. destruct off as [[]|], rect as [[]|]; try done. split.
    + intros s [= <-]. rewrite ids_handleNodeAdd. apply elem_of_app. right. by apply list_elem_of_singleton.
    + apply Forall_app. split; [done|]. constructor; [apply new_node_ok|done].
  - unfold canvas_drop. destruct off as [[]|], rect as [[]|]; try done. split.
    + intros s Hs. rewrite ids_handleNodeMove. by apply Hsel.
    + apply Forall_forall. intros c' (c0 & Hc0 & ->)%elem_of_map_where. rewrite Forall_forall in Hn.
      destruct (_ === _); [|by apply Hn]. apply (Hn c0 Hc0).
  - apply with_selected_inv; [apply question_update_sub|done|done].
  - apply with_selected_inv; [apply add_answer_update_sub|done|done].
  - apply with_selected_inv; [apply delete_answer_update_sub|done|done].
  - apply with_selected_inv; [by apply update_answer_update_sub|done|done].
  - apply with_selected_inv; [by apply update_answer_update_sub|done|done].
Qed.

Lemma links_node_ok st :
  Forall node_ok (nodes st) -> forall l, l ∈ links st -> l = ("start", "location").
Proof.
  rewrite Forall_forall. intros Hn l (c & Hl & Hc)%list_elem_of_bind.
  apply list_elem_of_fmap in Hl as (t & -> & Ht). destruct (Hn c Hc t Ht) as [-> ->]. done.
Qed.

Lemma panel_hint_iff st : sel_ok st -> panel_view st = PanelHint <-> selectedNode st = None.
Proof.
  intros Hsel. unfold panel_view, selectedNodeData. destruct (selectedNode st) as [s|] eqn:Es; [|done].
  destruct (find _ _) eqn:Ef; [done|]. apply find_key_None in Ef. apply Hsel in Es.
  by apply Ef in Es.
Qed.

(** C24: Through its interface the builder never links two nodes and
    never loses track of its selection: in every state the rendered
    builder can reach from its initial state, the selected id names a node
    of the canvas, the properties panel shows a node exactly when one is
    selected, and every link of every node (answer [next_node_id]s and
    [GoToNode] targets) is one of the demonstration's two links from
    "start" to "location" ("Next Node" has no change handler). *)
Theorem ui_builder_invariant st :
  reachable ui_step initial_state st ->
  (forall s, selectedNode st = Some s -> s ∈ ids st) /\
  (panel_view st = PanelHint <-> selectedNode st = None) /\
  (forall l, l ∈ links st -> l = ("start", "location")).
Proof.
  intros Hr. destruct (reachable_inv ui_step initial_state ui_inv ui_inv_initial
                         (fun e s _ => ui_step_inv e s) st Hr) as [Hsel Hn].
  split; [done|]. split; [by apply panel_hint_iff|]. by apply links_node_ok.
Qed.

Lemma ui_builder_invariant_witness :
  let st := ui_run [DropPalette question (Some (300, 260)%Z) (Some (0, 0)%Z) 5; ClickAddAnswer 6;
                    TypeAnswerText "answer_6" "Yes"; ClickCard "start"] initial_state in
  reachable ui_step initial_state st /\
  ((forall s, selectedNode st = Some s -> s ∈ ids st) /\
   (panel_view st = PanelHint <-> selectedNode st = None) /\
   (forall l, l ∈ links st -> l = ("start", "location"))).
Proof.
  split; [apply reachable_run|]. apply ui_builder_invariant, reachable_run.
Defined.

End FlowBuilderUI.
