(* ===== verification/DocStore.v ===== *)
(** * The Firestore document store and the services over it

    [src/src/services/firestore.service.ts].  The store is a map from
    collection path to a map from document id to document, a document a
    map from field name to value.  Firestore's client calls the services
    make ([getDoc], [getDocs], [addDoc], [updateDoc], [deleteDoc],
    [query] with [where] and [orderBy], batched [set]) are modelled with
    the behaviour Firestore documents: [updateDoc] fails on a missing
    document, a write whose data holds [undefined] is rejected,
    [serverTimestamp()] is the commit time, [addDoc] picks a fresh id.
    Each [await] of a service is one store operation; a service method is
    the sequence of them, so concurrent calls are interleavings of these
    steps. *)

From Stdlib Require Import Ascii QArith.
From Stdlib Require Qcanon.
From stdpp Require Import sorting.
From S2P Require Import Prelude JsString Types.

Module DocStore.

(** Firestore values, as the services write them.  [FUndefined] is a
    JavaScript [undefined] placed in a write, which Firestore rejects. *)
Inductive FValue :=
  | FStr (s : string)
  | FNum (q : Q)
  | FBool (b : bool)
  | FTime (t : N)
  | FStrs (l : list string)
  | FUndefined.

#[export] Instance FValue_eq_dec : EqDecision FValue.
Proof. solve_decision. Defined.

Abbreviation Doc := (gmap string FValue).

(** A collection path ([trades], [companies/acme/clients], ...) to its
    documents. *)
Abbreviation Store := (gmap string (gmap string Doc)).

Inductive FireError :=
  | NoDocumentToUpdate (coll id : string)
  | UnsupportedUndefined (field : string)
  | MalformedDocument (coll id : string)
  | NotAString (field : string).

Definition coll_docs (st : Store) (coll : string) : gmap string Doc := default ∅ (st !! coll).

(** The fields of a write that hold [undefined]. *)
Definition undefined_fields (d : Doc) : list string :=
  (map_to_list d).*1 ≫= fun k => if d !! k === Some FUndefined then [k] else [].

Definition check_defined (d : Doc) : result FireError unit :=
  match undefined_fields d with
  | [] => Ok ()
  | k :: _ => Err (UnsupportedUndefined k)
  end.

(** [getDoc(doc(db, coll, id))]: the snapshot's data, if it exists. *)
Definition getDoc (st : Store) (coll id : string) : option Doc := coll_docs st coll !! id.

(** The documents of a collection, in no particular order. *)
Definition coll_list (st : Store) (coll : string) : list (string * Doc) := map_to_list (coll_docs st coll).

Definition put_doc (coll id : string) (d : Doc) (st : Store) : Store :=
  <[coll := <[id := d]> (coll_docs st coll)]> st.

(** [addDoc(collection(db, coll), data)] with the id Firestore draws. *)
Definition addDoc (coll fresh : string) (d : Doc) (st : Store) : result FireError (Store * string) :=
  _ ← check_defined d; Ok (put_doc coll fresh d st, fresh).

(** [setDoc] / [batch.set]: the document is replaced. *)
Definition setDoc (coll id : string) (d : Doc) (st : Store) : result FireError Store :=
  _ ← check_defined d; Ok (put_doc coll id d st).

(** [updateDoc(ref, data)]: the given fields overwrite those of an
    existing document; a missing document is an error. *)
Definition updateDoc (coll id : string) (d : Doc) (st : Store) : result FireError Store :=
  _ ← check_defined d;
  match getDoc st coll id with
  | Some old => Ok (put_doc coll id (d ∪ old) st)
  | None => Err (NoDocumentToUpdate coll id)
  end.

(** [deleteDoc(ref)]: deleting a missing document succeeds. *)
Definition deleteDoc (coll id : string) (st : Store) : Store :=
  <[coll := delete id (coll_docs st coll)]> st.

(** ** Ordering: [orderBy(field, dir)]

    Firestore orders values of different types by type (booleans, then
    numbers, then timestamps, then strings, then arrays) and values of one
    type naturally, strings by their UTF-8 bytes ([String.compare] on
    ASCII).  Documents tied on every [orderBy] field are ordered by their
    id, in the direction of the last clause.  An [orderBy] clause also
    drops the documents that lack its field. *)

Definition type_rank (v : FValue) : N :=
  match v with
  | FUndefined => 0 | FBool _ => 1 | FNum _ => 2 | FTime _ => 3 | FStr _ => 4 | FStrs _ => 5
  end.

Fixpoint strs_compare (l1 l2 : list string) : comparison :=
  match l1, l2 with
  | [], [] => Eq
  | [], _ => Lt
  | _, [] => Gt
  | s1 :: l1, s2 :: l2 =>
      match String.compare s1 s2 with Eq => strs_compare l1 l2 | c => c end
  end.

Definition fv_compare (v w : FValue) : comparison :=
  match v, w with
  | FBool a, FBool b => Bool.compare a b
  | FNum a, FNum b => Qcompare a b
  | FTime a, FTime b => N.compare a b
  | FStr a, FStr b => String.compare a b
  | FStrs a, FStrs b => strs_compare a b
  | _, _ => N.compare (type_rank v) (type_rank w)
  end.

Inductive Dir := asc | desc.

Definition directed (d : Dir) (c : comparison) : comparison :=
  match d with asc => c | desc => CompOpp c end.

(** Compare two documents on the [orderBy] clauses, then on their ids. *)
Fixpoint doc_compare (ord : list (string * Dir)) (last : Dir) (a b : string * Doc) : comparison :=
  match ord with
  | [] => directed last (String.compare a.1 b.1)
  | (f, d) :: ord =>
      match a.2 !! f, b.2 !! f with
      | Some v, Some w =>
          match directed d (fv_compare v w) with Eq => doc_compare ord last a b | c => c end
      | _, _ => doc_compare ord last a b
      end
  end.

Definition last_dir (ord : list (string * Dir)) : Dir := default asc (snd <$> last ord).

Definition doc_le (ord : list (string * Dir)) (a b : string * Doc) : Prop :=
  doc_compare ord (last_dir ord) a b <> Gt.

#[export] Instance doc_le_dec ord : RelDecision (doc_le ord).
Proof. intros a b. unfold doc_le. apply _. Defined.

Definition has_fields (ord : list (string * Dir)) (d : Doc) : bool :=
  forallb (fun fd => bool_decide (is_Some (d !! fd.1))) ord.

(** [where(field, op, value)] for the two operators the services use. *)
Inductive WhereOp := OpEq | OpArrayContains.

Definition where_holds (field : string) (op : WhereOp) (v : FValue) (d : Doc) : bool :=
  match op, d !! field with
  | OpEq, Some w => w === v
  | OpArrayContains, Some (FStrs l) =>
      match v with FStr s => bool_decide (s ∈ l) | _ => false end
  | _, _ => false
  end.

(** [query(collection(db, coll), where(...)..., orderBy(...)...)] *)
Definition run_query (st : Store) (coll : string) (conds : list (string * WhereOp * FValue))
    (ord : list (string * Dir)) : list (string * Doc) :=
  merge_sort (doc_le ord)
    (List.filter (fun p => forallb (fun c => where_holds c.1.1 c.1.2 c.2 p.2) conds
                           && has_fields ord p.2) (coll_list st coll)).

(** [getDocs(collection(db, coll))]: every document, by id. *)
Definition getDocs (st : Store) (coll : string) : list (string * Doc) := run_query st coll [] [].

(** [{ id: doc.id, ...doc.data() }]: the data's own [id] field, if any,
    wins over the document id (the spread comes last). *)
Definition with_id (key : string) (id : string) (d : Doc) : Doc := d ∪ {[key := FStr id]}.

(** [{ ...data, created_at: serverTimestamp(), updated_at: serverTimestamp() }] *)
Definition stamp_created (now : N) (d : Doc) : Doc :=
  <["updated_at" := FTime now]> (<["created_at" := FTime now]> d).

(** [{ ...data, updated_at: serverTimestamp() }] *)
Definition stamp_updated (now : N) (d : Doc) : Doc := <["updated_at" := FTime now]> d.

(** A Firestore number that is a non-negative integer. *)
Definition N_of_Q (q : Q) : option N :=
  let r := Qred q in
  if bool_decide (Qden r = 1%positive) && bool_decide (0 <= Qnum r)%Z then Some (Z.to_N (Qnum r)) else None.

Definition Q_of_N (n : N) : Q := Z.of_N n # 1.

(** The two fields of a [SystemSettings] document the quote counter uses. *)
Definition decode_counter (d : Doc) : option (string * N) :=
  match d !! "quote_number_prefix", d !! "next_quote_number" with
  | Some (FStr p), Some (FNum q) => (fun n => (p, n)) <$> N_of_Q q
  | _, _ => None
  end.

(** [`${prefix}${String(nextNumber).padStart(6, '0')}`] *)
Definition quote_number (prefix : string) (n : N) : string :=
  prefix +:+ JsString.padStart (JsString.string_of_N n) 6 "0"%char.

Definition quote_status_str (s : QuoteStatus) : string :=
  match s with
  | draft => "draft" | calculated => "calculated" | exported => "exported"
  | accepted => "accepted" | rejected => "rejected"
  end.

(** ** The generic service

    [BaseFirestoreService<T>] over collection [coll]; the company-scoped
    services repeat its methods over their own path with their own id
    field ([client_id], [product_id], ...), so the section takes both.
    [now] is the commit time [serverTimestamp()] resolves to and [fresh]
    the id [addDoc] draws. *)
Module Crud.
Section crud.
Context (coll key : string).

Definition read_all (docs : list (string * Doc)) : list Doc :=
  (fun p => with_id key p.1 p.2) <$> docs.

Definition getAll (st : Store) : list Doc := read_all (getDocs st coll).

Definition getById (st : Store) (id : string) : option Doc := with_id key id <$> getDoc st coll id.

Definition create (data : Doc) (now : N) (fresh : string) (st : Store) : result FireError (Store * string) :=
  addDoc coll fresh (stamp_created now data) st.

Definition update (id : string) (data : Doc) (now : N) (st : Store) : result FireError Store :=
  updateDoc coll id (stamp_updated now data) st.

Definition delete (id : string) (st : Store) : Store := deleteDoc coll id st.

Definition getWhere (field : string) (op : WhereOp) (v : FValue) (st : Store) : list Doc :=
  read_all (run_query st coll [(field, op, v)] []).

(** What [subscribe]'s callback receives for a state of the store. *)
Definition subscribe (st : Store) : list Doc :=
  read_all (run_query st coll [] [("created_at", desc)]).

End crud.
End Crud.

(** [a[0] || null] on an array of objects (objects are truthy). *)
Definition first {A} (l : list A) : option A := head l.

Module TradeService.
Definition trades := "trades".
Definition quoteFields_path (tradeId : string) := "trades/" +:+ tradeId +:+ "/quoteFields".
Definition templates_path (tradeId : string) := "trades/" +:+ tradeId +:+ "/templates".

Definition getActiveTrades (st : Store) : list Doc := Crud.getWhere trades "id" "is_active" OpEq (FBool true) st.

Definition getQuoteFields (tradeId : string) (st : Store) : list Doc :=
  Crud.read_all "field_id" (run_query st (quoteFields_path tradeId) [] [("category", asc); ("name", asc)]).

Definition addQuoteField (tradeId : string) (field : Doc) (now : N) (fresh : string) (st : Store) :=
  addDoc (quoteFields_path tradeId) fresh (stamp_created now field) st.

Definition getTemplates (tradeId : string) (st : Store) : list Doc :=
  Crud.read_all "template_id" (run_query st (templates_path tradeId) [("is_active", OpEq, FBool true)] []).

Definition addTemplate (tradeId : string) (template : Doc) (now : N) (fresh : string) (st : Store) :=
  addDoc (templates_path tradeId) fresh (stamp_created now template) st.
End TradeService.

Definition settings_path (companyId : string) := "companies/" +:+ companyId +:+ "/settings".

Module CompanyService.
Definition companies := "companies".

Definition getByUserId (userId : string) (st : Store) : option Doc :=
  first (Crud.getWhere companies "id" "users" OpArrayContains (FStr userId) st).

Definition getActiveCompanies (st : Store) : list Doc :=
  Crud.getWhere companies "id" "status" OpEq (FStr "active") st.

Definition assignTrades (companyId : string) (tradeIds : list string) (now : N) (st : Store) :=
  Crud.update companies companyId {["assigned_trades" := FStrs tradeIds]} now st.

Definition getBusinessSettings (companyId : string) (st : Store) : option Doc :=
  getDoc st (settings_path companyId) "business".

Definition updateBusinessSettings (companyId : string) (settings : Doc) (now : N) (st : Store) :=
  updateDoc (settings_path companyId) "business" (stamp_updated now settings) st.

Definition getSystemSettings (companyId : string) (st : Store) : option Doc :=
  getDoc st (settings_path companyId) "system".

Definition updateSystemSettings (companyId : string) (settings : Doc) (now : N) (st : Store) :=
  updateDoc (settings_path companyId) "system" (stamp_updated now settings) st.
End CompanyService.

Module UserService.
Definition users := "users".

Definition getByEmail (email : string) (st : Store) : option Doc :=
  first (Crud.getWhere users "id" "email" OpEq (FStr email) st).

Definition getByCompany (companyId : string) (st : Store) : list Doc :=
  Crud.getWhere users "id" "company_id" OpEq (FStr companyId) st.

Definition getGlobalAdmins (st : Store) : list Doc :=
  Crud.getWhere users "id" "role" OpEq (FStr "global_app_admin") st.

(** [user_${Date.now()}_${Math.random().toString(36).substr(2, 9)}];
    [rnd] is the random part. *)
Definition new_uid (now : N) (rnd : string) : string :=
  "user_" +:+ JsString.string_of_N now +:+ "_" +:+ rnd.

(** The object literal: [company_id: companyId] is [undefined] when the
    optional argument is omitted. *)
Definition user_literal (uid email name role : string) (companyId : option string) : Doc :=
  {[ "uid" := FStr uid; "email" := FStr email; "name" := FStr name; "role" := FStr role;
     "company_id" := match companyId with Some c => FStr c | None => FUndefined end ]}.

Definition createWithAuth (email name role : string) (companyId : option string)
    (now : N) (rnd fresh : string) (st : Store) : result FireError (Store * string) :=
  Crud.create users (user_literal (new_uid now rnd) email name role companyId) now fresh st.
End UserService.

Definition company_path (companyId sub : string) := "companies/" +:+ companyId +:+ "/" +:+ sub.

Module ClientService.
Section client.
Context (companyId : string).
Definition collectionPath := company_path companyId "clients".

Definition getAll (st : Store) : list Doc := Crud.getAll collectionPath "client_id" st.
Definition getById (st : Store) (clientId : string) : option Doc := Crud.getById collectionPath "client_id" st clientId.
Definition create (client : Doc) (now : N) (fresh : string) (st : Store) := Crud.create collectionPath client now fresh st.
Definition update (clientId : string) (client : Doc) (now : N) (st : Store) := Crud.update collectionPath clientId client now st.
Definition delete (clientId : string) (st : Store) : Store := Crud.delete collectionPath clientId st.

(** [client.name.toLowerCase().includes(term.toLowerCase()) ||
    client.email?.toLowerCase().includes(term.toLowerCase())]: reading
    [toLowerCase] of a field that is not a string throws. *)
Definition client_matches (term : string) (d : Doc) : result FireError bool :=
  match d !! "name" with
  | Some (FStr n) =>
      if JsString.matches n term then Ok true else
      match d !! "email" with
      | None => Ok false
      | Some (FStr e) => Ok (JsString.matches e term)
      | Some _ => Err (NotAString "email")
      end
  | _ => Err (NotAString "name")
  end.

Fixpoint search_in (term : string) (l : list Doc) : result FireError (list Doc) :=
  match l with
  | [] => Ok []
  | d :: l =>
      match client_matches term d with
      | Ok b => match search_in term l with Ok r => Ok (if b then d :: r else r) | Err e => Err e end
      | Err e => Err e
      end
  end.

Definition search (term : string) (st : Store) : result FireError (list Doc) := search_in term (getAll st).
End client.
End ClientService.

Module ProductServiceService.
Section product.
Context (companyId : string).
Definition collectionPath := company_path companyId "productsServices".

Definition getAll (st : Store) : list Doc :=
  Crud.read_all "product_id" (run_query st collectionPath [] [("category", asc); ("name", asc)]).

Definition getByCategory (category : string) (st : Store) : list Doc :=
  Crud.read_all "product_id"
    (run_query st collectionPath [("category", OpEq, FStr category); ("is_active", OpEq, FBool true)] []).

Definition create (product : Doc) (now : N) (fresh : string) (st : Store) := Crud.create collectionPath product now fresh st.
Definition update (productId : string) (product : Doc) (now : N) (st : Store) := Crud.update collectionPath productId product now st.
Definition delete (productId : string) (st : Store) : Store := Crud.delete collectionPath productId st.

Definition getMarginRules (st : Store) : option Doc := getDoc st (settings_path companyId) "marginRules".

Definition updateMarginRules (rules : Doc) (now : N) (st : Store) :=
  updateDoc (settings_path companyId) "marginRules" (stamp_updated now rules) st.
End product.
End ProductServiceService.

Module RebateService.
Section rebate.
Context (companyId : string).
Definition collectionPath := company_path companyId "rebates".

Definition getAll (st : Store) : list Doc :=
  Crud.read_all "rebate_id" (run_query st collectionPath [("is_active", OpEq, FBool true)] []).
Definition create (rebate : Doc) (now : N) (fresh : string) (st : Store) := Crud.create collectionPath rebate now fresh st.
Definition update (rebateId : string) (rebate : Doc) (now : N) (st : Store) := Crud.update collectionPath rebateId rebate now st.
End rebate.
End RebateService.

Module QuoteService.
Section quote.
Context (companyId : string).
Definition collectionPath := company_path companyId "quotes".

Definition getAll (st : Store) : list Doc :=
  Crud.read_all "quote_id" (run_query st collectionPath [] [("created_at", desc)]).

Definition getByStatus (status : QuoteStatus) (st : Store) : list Doc :=
  Crud.read_all "quote_id"
    (run_query st collectionPath [("status", OpEq, FStr (quote_status_str status))] [("created_at", desc)]).

Definition create (quote : Doc) (now : N) (fresh : string) (st : Store) := Crud.create collectionPath quote now fresh st.
Definition update (quoteId : string) (quote : Doc) (now : N) (st : Store) := Crud.update collectionPath quoteId quote now st.
Definition delete (quoteId : string) (st : Store) : Store := Crud.delete collectionPath quoteId st.

(** [generateQuoteNumber], one store operation per [await].  The first
    reads the settings document ([prefix] and [nextNumber] default to
    ['QTE-'] and 1 when it is missing); a document whose fields are not
    a string and a non-negative integer is outside the [SystemSettings]
    type the code casts it to, and is reported as malformed. *)
Definition read_counter (st : Store) : result FireError (string * N) :=
  match getDoc st (settings_path companyId) "system" with
  | Some d =>
      match decode_counter d with
      | Some pn => Ok pn
      | None => Err (MalformedDocument (settings_path companyId) "system")
      end
  | None => Ok ("QTE-", 1%N)
  end.

(** The second writes [next_quote_number: nextNumber + 1]. *)
Definition write_counter (n : N) (now : N) (st : Store) : result FireError Store :=
  updateDoc (settings_path companyId) "system"
    (stamp_updated now {["next_quote_number" := FNum (Q_of_N (n + 1))]}) st.

Definition generateQuoteNumber (now : N) (st : Store) : result FireError (Store * string) :=
  '(prefix, n) ← read_counter st;
  st' ← write_counter n now st;
  Ok (st', quote_number prefix n).

(** Concurrent calls: a call is a thread that has not started, has read
    the counter, or has finished with its result. *)
Inductive thread :=
  | Start
  | HasRead (prefix : string) (n : N)
  | Done (r : result FireError string).

Definition thread_step (now : N) (th : thread) (st : Store) : thread * Store :=
  match th with
  | Start =>
      match read_counter st with
      | Ok (prefix, n) => (HasRead prefix n, st)
      | Err e => (Done (Err e), st)
      end
  | HasRead prefix n =>
      match write_counter n now st with
      | Ok st' => (Done (Ok (quote_number prefix n)), st')
      | Err e => (Done (Err e), st)
      end
  | Done _ => (th, st)
  end.

(** A schedule lists which call takes its next step, and at what time. *)
Fixpoint interleave (sched : list (nat * N)) (ths : list thread) (st : Store) : list thread * Store :=
  match sched with
  | [] => (ths, st)
  | (i, now) :: sched =>
      match ths !! i with
      | Some th => let r := thread_step now th st in interleave sched (<[i := r.1]> ths) r.2
      | None => interleave sched ths st
      end
  end.
End quote.
End QuoteService.

Module DataSeedService.
Definition seed_writes (solar electrical acme admin companyUser : string) (now : N)
    : list (string * string * Doc) :=
  [ ("trades", solar, stamp_created now
       {[ "trade_id" := FStr "solar"; "name" := FStr "Solar Installation";
          "description" := FStr "Solar panel installation and maintenance services";
          "is_active" := FBool true ]});
    ("trades", electrical, stamp_created now
       {[ "trade_id" := FStr "electrical"; "name" := FStr "Electrical Services";
          "description" := FStr "General electrical work and repairs"; "is_active" := FBool true ]});
    ("companies", acme, stamp_created now
       {[ "company_id" := FStr "acme-electrical"; "name" := FStr "Acme Electrical Services";
          "assigned_trades" := FStrs ["electrical"; "solar"]; "status" := FStr "active";
          "created_by" := FStr "admin" ]});
    ("users", admin, stamp_created now
       {[ "uid" := FStr "demo-admin"; "email" := FStr "admin@quotehub.com"; "name" := FStr "Global Admin";
          "role" := FStr "global_app_admin" ]});
    ("users", companyUser, stamp_created now
       {[ "uid" := FStr "demo-company-user"; "email" := FStr "john@acmeelectrical.com";
          "name" := FStr "John Smith"; "role" := FStr "trade_company_user";
          "company_id" := FStr "acme-electrical" ]}) ].

(** [batch.commit()]: every write is checked, then all are applied. *)
Definition commit_batch (ws : list (string * string * Doc)) (st : Store) : result FireError Store :=
  _ ← mapM (fun w => check_defined w.2) ws;
  Ok (foldl (fun st w => put_doc w.1.1 w.1.2 w.2 st) st ws).

Definition seedInitialData (solar electrical acme admin companyUser : string) (now : N) (st : Store) :=
  commit_batch (seed_writes solar electrical acme admin companyUser now) st.
End DataSeedService.

(** ** Specification helpers *)

(** The quote counter of a company as the settings document holds it. *)
Definition counter (st : Store) (companyId : string) : option (string * N) :=
  getDoc st (settings_path companyId) "system" ≫= decode_counter.

(** Calls of [generateQuoteNumber] one after the other, at the given times. *)
Fixpoint generate_many (companyId : string) (times : list N) (st : Store)
    : result FireError (Store * list string) :=
  match times with
  | [] => Ok (st, [])
  | now :: times =>
      '(st1, q) ← QuoteService.generateQuoteNumber companyId now st;
      '(st2, qs) ← generate_many companyId times st1;
      Ok (st2, q :: qs)
  end.

(** No company document carries a [users] field (the [Company] type has
    none). *)
Definition no_users (st : Store) : Prop :=
  forall id d, getDoc st "companies" id = Some d -> d !! "users" = None.

(** The filter [ClientService.search] applies, on a client whose [name]
    is a string. *)
Definition client_pred (term : string) (d : Doc) : bool :=
  match d !! "name" with
  | Some (FStr n) =>
      JsString.matches n term ||
      match d !! "email" with Some (FStr e) => JsString.matches e term | _ => false end
  | _ => false
  end.

(** A client document as the [Client] type describes it: a string
    [name], and an [email] that is a string when present. *)
Definition client_shaped (d : Doc) : Prop :=
  (exists n, d !! "name" = Some (FStr n)) /\ (forall v, d !! "email" = Some v -> exists e, v = FStr e).

(** A company [acme] whose counter stands at 42 with prefix [ACME-]. *)
Definition demo_settings : Doc :=
  {[ "quote_number_prefix" := FStr "ACME-"; "next_quote_number" := FNum (Q_of_N 42) ]}.

Definition demo_store : Store := put_doc (settings_path "acme") "system" demo_settings ∅.

(** ** Lemmas on the store *)

(** A write holds no [undefined]. *)
Definition defined (d : Doc) : Prop := map_Forall (fun _ v => v <> FUndefined) d.

Lemma coll_docs_put c i d st c' :
  coll_docs (put_doc c i d st) c' = if decide (c = c') then <[i := d]> (coll_docs st c) else coll_docs st c'.
Proof.
  unfold coll_docs, put_doc. case_decide; subst; [by rewrite lookup_insert_eq|by rewrite lookup_insert_ne].
Qed.

Lemma getDoc_put c i d st c' i' :
  getDoc (put_doc c i d st) c' i' = if decide ((c, i) = (c', i')) then Some d else getDoc st c' i'.
Proof.
  unfold getDoc. rewrite coll_docs_put. repeat case_decide; simplify_eq.
  - by rewrite lookup_insert_eq.
  - rewrite lookup_insert_ne; congruence.
  - done.
Qed.

Lemma getDoc_delete c i st c' i' :
  getDoc (deleteDoc c i st) c' i' = if decide ((c, i) = (c', i')) then None else getDoc st c' i'.
Proof.
  unfold getDoc, deleteDoc, coll_docs. destruct (decide (c = c')) as [<-|Hc].
  - rewrite lookup_insert_eq; simpl. case_decide; simplify_eq.
    + by rewrite lookup_delete_eq.
    + rewrite lookup_delete_ne; congruence.
  - rewrite lookup_insert_ne by done. case_decide; congruence.
Qed.

Lemma elem_of_undefined_fields d k : k ∈ undefined_fields d <-> d !! k = Some FUndefined.
Proof.
  unfold undefined_fields. rewrite list_elem_of_bind. split.
  - intros (k' & Hk & Hin). case_bool_decide; set_solver.
  - intros Hk. exists k. rewrite bool_decide_eq_true_2 by done. split; [set_solver|].
    apply list_elem_of_fmap. exists (k, FUndefined). split; [done|]. by apply elem_of_map_to_list.
Qed.

Lemma check_defined_Ok d : check_defined d = Ok () <-> defined d.
Proof.
  unfold check_defined, defined. split.
  - intros H k v Hk ->. destruct (undefined_fields d) as [|k' ks] eqn:Hu; [|done].
    apply (not_elem_of_nil k). rewrite <- Hu. by apply elem_of_undefined_fields.
  - intros H. destruct (undefined_fields d) as [|k ks] eqn:Hu; [done|].
    assert (Hk : k ∈ undefined_fields d) by (rewrite Hu; set_solver).
    apply elem_of_undefined_fields in Hk. by destruct (H k FUndefined Hk).
Qed.

Lemma check_defined_Err d e : check_defined d = Err e ->
  exists k, e = UnsupportedUndefined k /\ d !! k = Some FUndefined.
Proof.
  unfold check_defined. destruct (undefined_fields d) as [|k ks] eqn:Hu; [done|]. intros [= <-].
  exists k. split; [done|]. apply elem_of_undefined_fields. rewrite Hu. set_solver.
Qed.

Lemma check_defined_undefined d k : d !! k = Some FUndefined -> exists k', check_defined d = Err (UnsupportedUndefined k').
Proof.
  intros Hk. destruct (check_defined d) as [[]|e] eqn:Hc.
  - apply check_defined_Ok in Hc. by destruct (Hc k FUndefined Hk).
  - apply check_defined_Err in Hc as (k' & -> & _). by exists k'.
Qed.

Lemma defined_singleton k v : v <> FUndefined -> defined {[k := v]}.
Proof. intros Hv. by apply map_Forall_singleton. Qed.

Lemma defined_insert d k v : defined d -> v <> FUndefined -> defined (<[k := v]> d).
Proof. intros Hd Hv. by apply map_Forall_insert_2. Qed.

Lemma defined_stamp_created now d : defined d -> defined (stamp_created now d).
Proof. intros Hd. unfold stamp_created. by repeat apply defined_insert. Qed.

Lemma defined_stamp_updated now d : defined d -> defined (stamp_updated now d).
Proof. intros Hd. unfold stamp_updated. by apply defined_insert. Qed.

#[export] Hint Resolve defined_singleton defined_insert defined_stamp_created defined_stamp_updated : qh.

Lemma addDoc_ok coll fresh d st : defined d -> addDoc coll fresh d st = Ok (put_doc coll fresh d st, fresh).
Proof. intros Hd. unfold addDoc. by rewrite (proj2 (check_defined_Ok d) Hd). Qed.

Lemma updateDoc_ok coll id d st : defined d ->
  updateDoc coll id d st =
    match getDoc st coll id with
    | Some old => Ok (put_doc coll id (d ∪ old) st)
    | None => Err (NoDocumentToUpdate coll id)
    end.
Proof. intros Hd. unfold updateDoc. by rewrite (proj2 (check_defined_Ok d) Hd). Qed.

Lemma addDoc_inv coll fresh d st st' id : addDoc coll fresh d st = Ok (st', id) ->
  defined d /\ st' = put_doc coll fresh d st /\ id = fresh.
Proof.
  unfold addDoc. destruct (check_defined d) as [[]|e] eqn:Hc; simpl; [|done].
  intros [= <- <-]. by apply check_defined_Ok in Hc.
Qed.

(** A created document read back: the two stamps win over the data, the
    data's fields win over the document id. *)
Lemma lookup_created_read key id now data k :
  with_id key id (stamp_created now data) !! k =
    if bool_decide (k = "created_at" \/ k = "updated_at") then Some (FTime now)
    else match data !! k with
         | Some v => Some v
         | None => if bool_decide (k = key) then Some (FStr id) else None
         end.
Proof.
  unfold with_id, stamp_created. rewrite lookup_union, !lookup_insert, lookup_singleton.
  destruct (decide ("updated_at" = k)) as [<-|H1].
  { rewrite bool_decide_true by (right; done). by destruct (decide (key = "updated_at")). }
  destruct (decide ("created_at" = k)) as [<-|H2].
  { rewrite bool_decide_true by (left; done). by destruct (decide (key = "created_at")). }
  rewrite bool_decide_false by naive_solver.
  destruct (decide (key = k)) as [<-|H3];
    [rewrite bool_decide_true by done|rewrite bool_decide_false by congruence]; by destruct (data !! _).
Qed.

(** An updated document: the update stamp wins, then the written fields,
    then the old ones. *)
Lemma lookup_updated (now : N) (data old : Doc) (k : string) :
  (stamp_updated now data ∪ old) !! k =
    if bool_decide (k = "updated_at") then Some (FTime now)
    else match data !! k with Some v => Some v | None => old !! k end.
Proof.
  unfold stamp_updated. rewrite lookup_union, lookup_insert.
  destruct (decide ("updated_at" = k)) as [<-|Hne].
  - rewrite bool_decide_true by done. by destruct (old !! "updated_at").
  - rewrite bool_decide_false by congruence. by destruct (data !! k), (old !! k).
Qed.

(** ** Ordering lemmas *)

Lemma strs_compare_antisym l1 l2 : strs_compare l1 l2 = CompOpp (strs_compare l2 l1).
Proof.
  revert l2; induction l1 as [|s1 l1 IH]; intros [|s2 l2]; simpl; try done.
  rewrite (String.compare_antisym s1 s2). destruct (String.compare s2 s1); simpl; auto.
Qed.

Lemma fv_compare_antisym v w : fv_compare v w = CompOpp (fv_compare w v).
Proof.
  destruct v, w; simpl; try reflexivity.
  - apply String.compare_antisym.
  - symmetry. apply Qcompare_antisym.
  - by destruct b, b0.
  - apply N.compare_antisym.
  - apply strs_compare_antisym.
Qed.

Lemma directed_antisym d c1 c2 : c1 = CompOpp c2 -> directed d c1 = CompOpp (directed d c2).
Proof. intros ->. destruct d; simpl; [done|]. by rewrite CompOpp_involutive. Qed.

Lemma doc_compare_antisym ord l a b : doc_compare ord l a b = CompOpp (doc_compare ord l b a).
Proof.
  induction ord as [|[f d] ord IH]; simpl.
  - apply directed_antisym, String.compare_antisym.
  - destruct (a.2 !! f) as [v|], (b.2 !! f) as [w|]; try done.
    rewrite (directed_antisym d _ _ (fv_compare_antisym v w)).
    destruct (directed d (fv_compare w v)); simpl; auto.
Qed.

#[export] Instance doc_le_total ord : Total (doc_le ord).
Proof.
  intros a b. unfold doc_le. rewrite (doc_compare_antisym ord _ a b).
  destruct (doc_compare ord _ b a); simpl; auto; by left.
Qed.

Lemma run_query_sorted st coll conds ord : Sorted (doc_le ord) (run_query st coll conds ord).
Proof. apply Sorted_merge_sort, _. Qed.

Lemma run_query_perm st coll conds ord :
  run_query st coll conds ord ≡ₚ
    List.filter (fun p => forallb (fun c => where_holds c.1.1 c.1.2 c.2 p.2) conds && has_fields ord p.2)
      (coll_list st coll).
Proof. apply merge_sort_Permutation. Qed.

Lemma Sorted_and {A} (R : relation A) (P : A -> Prop) l :
  Sorted R l -> Forall P l -> Sorted (fun a b => R a b /\ P a /\ P b) l.
Proof.
  induction 1 as [|a l Hl IH Hhd]; intros HP; [constructor|]. inversion HP as [|? ? Ha Hrest]; subst.
  constructor; [by apply IH|]. destruct Hhd as [|b l' Hab]; constructor.
  inversion Hrest; subst. auto.
Qed.

Lemma Forall_run_query_fields st coll conds ord :
  Forall (fun p => has_fields ord p.2 = true) (run_query st coll conds ord).
Proof.
  rewrite (run_query_perm st coll conds ord), Forall_forall. intros p Hp.
  apply list_elem_of_In, filter_In in Hp as [_ Hp]. by apply andb_prop in Hp as [_ ->].
Qed.

Lemma has_fields_lookup ord d f dir : has_fields ord d = true -> (f, dir) ∈ ord -> is_Some (d !! f).
Proof.
  unfold has_fields. rewrite forallb_forall. intros H Hin.
  apply list_elem_of_In, H in Hin. by apply bool_decide_eq_true in Hin.
Qed.

Lemma with_id_lookup key id d f : f <> key -> with_id key id d !! f = d !! f.
Proof.
  intros Hf. unfold with_id. destruct (d !! f) eqn:Hd.
  - by apply lookup_union_Some_l.
  - rewrite lookup_union_r by done. by rewrite lookup_singleton_ne.
Qed.

(** ** The quote counter *)

Lemma N_of_Q_of_N n : N_of_Q (Q_of_N n) = Some n.
Proof.
  unfold N_of_Q, Q_of_N. rewrite Qcanon.Qred_identity by (simpl; apply Z.gcd_1_r). simpl.
  rewrite bool_decide_eq_true_2 by lia. by rewrite N2Z.id.
Qed.

Lemma decode_counter_write d p n m now :
  decode_counter d = Some (p, n) ->
  decode_counter (stamp_updated now {["next_quote_number" := FNum (Q_of_N m)]} ∪ d) = Some (p, m).
Proof.
  unfold decode_counter, stamp_updated. intros H.
  destruct (d !! "quote_number_prefix") as [[]|] eqn:Hp; try done.
  destruct (d !! "next_quote_number") as [[]|]; try done.
  destruct (N_of_Q q) eqn:?; simplify_eq/=.
  rewrite !lookup_union. simplify_map_eq. destruct (d !! "next_quote_number"); simpl; by rewrite N_of_Q_of_N.
Qed.

Lemma read_counter_ok c st p n : counter st c = Some (p, n) -> QuoteService.read_counter c st = Ok (p, n).
Proof.
  unfold counter, QuoteService.read_counter. destruct (getDoc st _ _) as [d|]; simpl; [|done].
  by intros ->.
Qed.

Lemma counter_Some st c p n : counter st c = Some (p, n) ->
  exists d, getDoc st (settings_path c) "system" = Some d /\ decode_counter d = Some (p, n).
Proof. unfold counter. destruct (getDoc st _ _) as [d|]; simpl; [|done]. eauto. Qed.

Lemma write_counter_counter c st p n m now : counter st c = Some (p, n) ->
  exists st', QuoteService.write_counter c m now st = Ok st' /\ counter st' c = Some (p, (m + 1)%N) /\
    (forall c' i, (c', i) <> (settings_path c, "system") -> getDoc st' c' i = getDoc st c' i).
Proof.
  intros Hc. destruct (counter_Some _ _ _ _ Hc) as (d & Hd & Hdec).
  unfold QuoteService.write_counter. rewrite updateDoc_ok, Hd; [|by apply defined_stamp_updated, defined_singleton].
  eexists; split; [reflexivity|]. split.
  - unfold counter. rewrite getDoc_put, decide_True by done. simpl. by eapply decode_counter_write.
  - intros c' i Hne. rewrite getDoc_put, decide_False by congruence. done.
Qed.

(** The new store of one call, and its counter. *)
Lemma generate_ok c now st p n : counter st c = Some (p, n) ->
  exists st', QuoteService.generateQuoteNumber c now st = Ok (st', quote_number p n) /\
    counter st' c = Some (p, (n + 1)%N).
Proof.
  intros Hc. destruct (write_counter_counter c st p n n now Hc) as (st' & Hw & Hc' & _).
  unfold QuoteService.generateQuoteNumber. rewrite (read_counter_ok _ _ _ _ Hc); simpl.
  rewrite Hw. eauto.
Qed.

Lemma quote_number_inj p n m : quote_number p n = quote_number p m -> n = m.
Proof.
  unfold quote_number. intros H. apply JsString.append_cancel_l in H.
  apply (f_equal JsString.N_of_string) in H. rewrite !JsString.padStart_roundtrip in H. congruence.
Qed.

Lemma interleave_cons c i now sched ths st th :
  ths !! i = Some th ->
  QuoteService.interleave c ((i, now) :: sched) ths st =
    QuoteService.interleave c sched (<[i := (QuoteService.thread_step c now th st).1]> ths)
      (QuoteService.thread_step c now th st).2.
Proof. intros Hi. simpl. by rewrite Hi. Qed.

Lemma generate_many_cons c now times st :
  generate_many c (now :: times) st =
    '(st1, q) ← QuoteService.generateQuoteNumber c now st;
    '(st2, qs) ← generate_many c times st1; Ok (st2, q :: qs).
Proof. done. Qed.

Lemma elem_of_coll_list st coll p : p ∈ coll_list st coll <-> getDoc st coll p.1 = Some p.2.
Proof. destruct p. unfold coll_list, getDoc. apply elem_of_map_to_list. Qed.

Lemma run_query_none st coll conds ord :
  (forall id d, getDoc st coll id = Some d -> forallb (fun c => where_holds c.1.1 c.1.2 c.2 d) conds = false) ->
  run_query st coll conds ord = [].
Proof.
  intros Hn. apply Permutation_nil_r. rewrite run_query_perm.
  apply Permutation_refl', filter_none. intros [id d] Hin%elem_of_coll_list. simpl in Hin.
  simpl. by rewrite (Hn id d Hin).
Qed.

(** ** Properties of the services *)

(** C7: [create] stores the data under the id Firestore draws, and
    [getById] on that id reads back, field by field: [created_at] and
    [updated_at] at the commit time (the stamps are spread after the
    data, so they win), every other field of the data as written, and the
    service's id field holding the document id only when the data has no
    such field (the data is spread after [id: doc.id], so it wins); every
    other document of the store is unchanged. *)
Theorem create_getById coll key data now fresh st st' id :
  Crud.create coll data now fresh st = Ok (st', id) ->
  id = fresh /\
  (exists r, Crud.getById coll key st' id = Some r /\
   forall k, r !! k =
     if bool_decide (k = "created_at" \/ k = "updated_at") then Some (FTime now)
     else match data !! k with
          | Some v => Some v
          | None => if bool_decide (k = key) then Some (FStr id) else None
          end) /\
  (forall c i, (c, i) <> (coll, id) -> getDoc st' c i = getDoc st c i).
Proof.
  unfold Crud.create. intros (_ & -> & ->)%addDoc_inv. split; [done|]. split.
  - eexists. split; [unfold Crud.getById; by rewrite getDoc_put, decide_True|].
    intros k. apply lookup_created_read.
  - intros c i Hne. by rewrite getDoc_put, decide_False.
Qed.

Lemma create_getById_witness :
  Crud.create "trades" {["name" := FStr "Solar"]} 7 "t1" ∅ =
    Ok (put_doc "trades" "t1" (stamp_created 7 {["name" := FStr "Solar"]}) ∅, "t1") /\
  exists r, Crud.getById "trades" "id" (put_doc "trades" "t1" (stamp_created 7 {["name" := FStr "Solar"]}) ∅) "t1" = Some r /\
   forall k, r !! k =
     if bool_decide (k = "created_at" \/ k = "updated_at") then Some (FTime 7)
     else match ({["name" := FStr "Solar"]} : Doc) !! k with
          | Some v => Some v
          | None => if bool_decide (k = "id") then Some (FStr "t1") else None
          end.
Proof.
  assert (H : Crud.create "trades" {["name" := FStr "Solar"]} 7 "t1" ∅ =
                Ok (put_doc "trades" "t1" (stamp_created 7 {["name" := FStr "Solar"]}) ∅, "t1"))
    by (apply addDoc_ok, defined_stamp_created, defined_singleton; discriminate).
  split; [exact H|]. destruct (create_getById _ "id" _ _ _ _ _ _ H) as (_ & Hg & _). exact Hg.
Defined.

(** C8: [update] of a missing document fails with Firestore's "no document
    to update".  On an existing document it succeeds and the document
    then reads, field by field: [updated_at] at the commit time, every
    written field as written, every other field as it was; no other
    document changes. *)
Theorem update_spec coll id data now st :
  defined data ->
  (getDoc st coll id = None -> Crud.update coll id data now st = Err (NoDocumentToUpdate coll id)) /\
  (forall old, getDoc st coll id = Some old ->
   exists st', Crud.update coll id data now st = Ok st' /\
     (exists r, getDoc st' coll id = Some r /\
      forall k, r !! k =
        if bool_decide (k = "updated_at") then Some (FTime now)
        else match data !! k with Some v => Some v | None => old !! k end) /\
     (forall c i, (c, i) <> (coll, id) -> getDoc st' c i = getDoc st c i)).
Proof.
  intros Hd. unfold Crud.update. rewrite updateDoc_ok by qh_auto. split; [by intros ->|].
  intros old Hold. rewrite Hold. eexists. split; [done|]. split.
  - eexists. split; [by rewrite getDoc_put, decide_True|]. intros k. apply lookup_updated.
  - intros c i Hne. by rewrite getDoc_put, decide_False.
Qed.

Lemma update_spec_witness :
  defined {["name" := FStr "Solar"]} /\
  (getDoc (put_doc "trades" "t1" {["name" := FStr "Wind"; "active" := FBool true]} ∅) "trades" "t1" = None ->
   Crud.update "trades" "t1" {["name" := FStr "Solar"]} 9 (put_doc "trades" "t1" {["name" := FStr "Wind"; "active" := FBool true]} ∅) =
     Err (NoDocumentToUpdate "trades" "t1")) /\
  (forall old, getDoc (put_doc "trades" "t1" {["name" := FStr "Wind"; "active" := FBool true]} ∅) "trades" "t1" = Some old ->
   exists st', Crud.update "trades" "t1" {["name" := FStr "Solar"]} 9
                 (put_doc "trades" "t1" {["name" := FStr "Wind"; "active" := FBool true]} ∅) = Ok st' /\
     (exists r, getDoc st' "trades" "t1" = Some r /\
      forall k, r !! k =
        if bool_decide (k = "updated_at") then Some (FTime 9)
        else match ({["name" := FStr "Solar"]} : Doc) !! k with Some v => Some v | None => old !! k end) /\
     (forall c i, (c, i) <> ("trades", "t1") ->
        getDoc st' c i = getDoc (put_doc "trades" "t1" {["name" := FStr "Wind"; "active" := FBool true]} ∅) c i)).
Proof.
  assert (Hd : defined {["name" := FStr "Solar"]}) by (apply map_Forall_singleton; done).
  split; [exact Hd|]. exact (update_spec "trades" "t1" _ 9 _ Hd).
Defined.

Lemma generate_without_settings c now st :
  getDoc st (settings_path c) "system" = None ->
  QuoteService.generateQuoteNumber c now st = Err (NoDocumentToUpdate (settings_path c) "system").
Proof.
  intros Hn. unfold QuoteService.generateQuoteNumber, QuoteService.read_counter. rewrite Hn. simpl.
  unfold QuoteService.write_counter. rewrite updateDoc_ok, Hn; [reflexivity|].
  by apply defined_stamp_updated, defined_singleton.
Qed.

(** [generateQuoteNumber] on a company without a settings document
    fails: the final [updateDoc] has no document to update, so the
    defaults ['QTE-'] and 1 the code falls back to are never returned. *)
Theorem generateQuoteNumber_missing_settings c now st :
  getDoc st (settings_path c) "system" = None ->
  QuoteService.generateQuoteNumber c now st = Err (NoDocumentToUpdate (settings_path c) "system").
Proof. apply generate_without_settings. Qed.

Lemma generateQuoteNumber_missing_settings_witness :
  getDoc ∅ (settings_path "acme") "system" = None /\
  QuoteService.generateQuoteNumber "acme" 5 ∅ = Err (NoDocumentToUpdate (settings_path "acme") "system").
Proof. split; [reflexivity|]. apply generateQuoteNumber_missing_settings. reflexivity. Defined.

(** C5: calls of [generateQuoteNumber] made one after the other, from a
    counter at [n] with prefix [p], return [p] followed by [n], [n+1],
    ... padded to six digits, all distinct, and leave the counter
    advanced by the number of calls. *)
Theorem generateQuoteNumber_sequential c times st p n :
  counter st c = Some (p, n) ->
  exists st', generate_many c times st =
      Ok (st', (fun k => quote_number p (n + N.of_nat k)) <$> seq 0 (length times)) /\
    counter st' c = Some (p, (n + N.of_nat (length times))%N) /\
    NoDup ((fun k => quote_number p (n + N.of_nat k)) <$> seq 0 (length times)).
Proof.
  revert st n. induction times as [|now times IH]; intros st n Hc.
  - exists st. simpl. rewrite N.add_0_r. repeat split; [done|constructor].
  - destruct (generate_ok c now st p n Hc) as (st1 & Hg & Hc1).
    destruct (IH st1 (n + 1)%N Hc1) as (st2 & Hm & Hc2 & _).
    exists st2. rewrite generate_many_cons, Hg; simpl. rewrite Hm; simpl. split; [|split].
    + do 2 f_equal. rewrite N.add_0_r. f_equal. rewrite <- fmap_S_seq, <- list_fmap_compose.
      apply list_fmap_ext. intros ? k _. unfold compose. f_equal. lia.
    + rewrite Hc2. do 2 f_equal. lia.
    + change (NoDup ((fun k => quote_number p (n + N.of_nat k)) <$> seq 0 (S (length times)))).
      apply NoDup_fmap_2_strong; [|apply NoDup_seq].
      intros k1 k2 _ _ Heq%quote_number_inj. lia.
Qed.

Lemma generateQuoteNumber_sequential_witness :
  counter demo_store "acme" = Some ("ACME-", 42%N) /\
  exists st', generate_many "acme" [1; 2; 3]%N demo_store = Ok (st', ["ACME-000042"; "ACME-000043"; "ACME-000044"]).
Proof.
  assert (Hc : counter demo_store "acme" = Some ("ACME-", 42%N)) by reflexivity.
  split; [exact Hc|].
  destruct (generateQuoteNumber_sequential "acme" [1; 2; 3]%N demo_store "ACME-" 42 Hc) as (st' & Hm & _).
  exists st'. rewrite Hm. reflexivity.
Defined.

Lemma thread_step_start c now st p n : counter st c = Some (p, n) ->
  QuoteService.thread_step c now QuoteService.Start st = (QuoteService.HasRead p n, st).
Proof. intros Hc. unfold QuoteService.thread_step. rewrite (read_counter_ok _ _ _ _ Hc). reflexivity. Qed.

Lemma thread_step_write c now st st' p n :
  QuoteService.write_counter c n now st = Ok st' ->
  QuoteService.thread_step c now (QuoteService.HasRead p n) st = (QuoteService.Done (Ok (quote_number p n)), st').
Proof. intros Hw. unfold QuoteService.thread_step. rewrite Hw. reflexivity. Qed.

(** C6: the counter is read and written in two separate operations, so
    it is only right for calls that do not overlap.  Two calls whose reads
    both come before either write return the same quote number and advance
    the counter once; the same two calls run one after the other return
    [n] and [n + 1] and advance it twice. *)
Theorem generateQuoteNumber_race c st p n t0 t1 t2 t3 :
  counter st c = Some (p, n) ->
  (exists st', QuoteService.interleave c [(0, t0); (1, t1); (0, t2); (1, t3)]
                 [QuoteService.Start; QuoteService.Start] st =
      ([QuoteService.Done (Ok (quote_number p n)); QuoteService.Done (Ok (quote_number p n))], st') /\
    counter st' c = Some (p, (n + 1)%N)) /\
  (exists st', QuoteService.interleave c [(0, t0); (0, t1); (1, t2); (1, t3)]
                 [QuoteService.Start; QuoteService.Start] st =
      ([QuoteService.Done (Ok (quote_number p n)); QuoteService.Done (Ok (quote_number p (n + 1)))], st') /\
    counter st' c = Some (p, (n + 2)%N)).
Proof.
  intros Hc. split.
  - destruct (write_counter_counter c st p n n t2 Hc) as (st1 & Hw1 & Hc1 & _).
    destruct (write_counter_counter c st1 p (n + 1) n t3 Hc1) as (st2 & Hw2 & Hc2 & _).
    exists st2. split; [|done].
    erewrite interleave_cons by reflexivity. rewrite (thread_step_start _ _ _ _ _ Hc). cbn [fst snd].
    erewrite interleave_cons by reflexivity. rewrite (thread_step_start _ _ _ _ _ Hc). cbn [fst snd].
    erewrite interleave_cons by reflexivity. rewrite (thread_step_write _ _ _ _ _ _ Hw1). cbn [fst snd].
    erewrite interleave_cons by reflexivity. rewrite (thread_step_write _ _ _ _ _ _ Hw2). done.
  - destruct (write_counter_counter c st p n n t1 Hc) as (st1 & Hw1 & Hc1 & _).
    destruct (write_counter_counter c st1 p (n + 1) (n + 1) t3 Hc1) as (st2 & Hw2 & Hc2 & _).
    exists st2. split; [|rewrite Hc2; do 2 f_equal; lia].
    erewrite interleave_cons by reflexivity. rewrite (thread_step_start _ _ _ _ _ Hc). cbn [fst snd].
    erewrite interleave_cons by reflexivity. rewrite (thread_step_write _ _ _ _ _ _ Hw1). cbn [fst snd].
    erewrite interleave_cons by reflexivity. rewrite (thread_step_start _ _ _ _ _ Hc1). cbn [fst snd].
    erewrite interleave_cons by reflexivity. rewrite (thread_step_write _ _ _ _ _ _ Hw2). done.
Qed.

Lemma generateQuoteNumber_race_witness :
  counter demo_store "acme" = Some ("ACME-", 42%N) /\
  exists st', QuoteService.interleave "acme" [(0, 1%N); (1, 2%N); (0, 3%N); (1, 4%N)]
                [QuoteService.Start; QuoteService.Start] demo_store =
    ([QuoteService.Done (Ok "ACME-000042"); QuoteService.Done (Ok "ACME-000042")], st').
Proof.
  assert (Hc : counter demo_store "acme" = Some ("ACME-", 42%N)) by reflexivity.
  split; [exact Hc|].
  destruct (generateQuoteNumber_race "acme" demo_store "ACME-" 42 1 2 3 4 Hc) as [(st' & Hi & _) _].
  exists st'. exact Hi.
Defined.

(** C15: [createWithAuth] writes a user document with a generated [uid]
    field under the id [addDoc] draws, but when the optional [companyId]
    is omitted (a global administrator) the literal holds
    [company_id: undefined] and Firestore rejects the write. *)
Theorem createWithAuth_spec email name role co now rnd fresh st :
  UserService.createWithAuth email name role co now rnd fresh st =
    match co with
    | None => Err (UnsupportedUndefined "company_id")
    | Some c =>
        Ok (put_doc "users" fresh
              (stamp_created now (UserService.user_literal (UserService.new_uid now rnd) email name role (Some c))) st,
            fresh)
    end.
Proof.
  unfold UserService.createWithAuth, Crud.create. destruct co as [c|].
  - apply addDoc_ok, defined_stamp_created. unfold UserService.user_literal.
    repeat apply defined_insert; try done.
  - unfold addDoc. destruct (check_defined _) as [[]|e] eqn:Hc; simpl.
    + exfalso. apply check_defined_Ok in Hc. apply (Hc "company_id" FUndefined); [|done].
      unfold stamp_created, UserService.user_literal. by simplify_map_eq.
    + apply check_defined_Err in Hc as (k & -> & Hk). unfold stamp_created, UserService.user_literal in Hk.
      rewrite !lookup_insert_Some, lookup_singleton_Some in Hk. naive_solver.
Qed.

Lemma no_users_put c i d st : no_users st -> (c = "companies" -> d !! "users" = None) ->
  no_users (put_doc c i d st).
Proof.
  intros H Hd id d' Hg. rewrite getDoc_put in Hg. case_decide; simplify_eq; [by apply Hd|by eapply H].
Qed.

(** [getByUserId] looks for the user in a [users] array the company
    documents do not have: on a store whose companies have no such field,
    seeded with the demo data, it finds no company for any user. *)
Theorem getByUserId_seeded u solar electrical acme admin companyUser now st st' :
  no_users st ->
  DataSeedService.seedInitialData solar electrical acme admin companyUser now st = Ok st' ->
  CompanyService.getByUserId u st' = None.
Proof.
  intros Hst Hseed. unfold DataSeedService.seedInitialData, DataSeedService.commit_batch in Hseed.
  destruct (mapM _ _); simplify_eq/=.
  assert (Hnu : no_users (foldl (fun st w => put_doc w.1.1 w.1.2 w.2 st) st
                            (DataSeedService.seed_writes solar electrical acme admin companyUser now))).
  { apply (foldl_invariant _ (fun w => w.1.1 = "companies" -> w.2 !! "users" = None)); [|intros ? [[c i] d] Hw Hb; by apply no_users_put|done].
    repeat constructor; simpl; intros; unfold stamp_created; by simplify_map_eq. }
  unfold CompanyService.getByUserId, Crud.getWhere. rewrite run_query_none; [done|].
  intros id d Hd. simpl. by rewrite (Hnu id d Hd).
Qed.

Lemma getByUserId_seeded_witness :
  no_users ∅ /\
  exists st', DataSeedService.seedInitialData "s1" "e1" "a1" "u1" "u2" 0 ∅ = Ok st' /\
    CompanyService.getByUserId "demo-admin" st' = None.
Proof.
  assert (Hn : no_users ∅) by (intros id d Hd; discriminate Hd).
  split; [exact Hn|]. eexists. split; [reflexivity|].
  apply (getByUserId_seeded "demo-admin" "s1" "e1" "a1" "u1" "u2" 0 ∅); [exact Hn|reflexivity].
Defined.

(** [QuoteService.getAll] lists the company's quotes newest first
    ([orderBy('created_at', 'desc')]), each quote once, and only the
    quotes that have a [created_at] field: the [orderBy] drops the
    others. *)
Theorem quotes_getAll_newest_first c st :
  Sorted (fun a b => exists va vb, a !! "created_at" = Some va /\ b !! "created_at" = Some vb /\
                                   fv_compare va vb <> Lt) (QuoteService.getAll c st) /\
  QuoteService.getAll c st ≡ₚ
    (fun p => with_id "quote_id" p.1 p.2) <$>
      List.filter (fun p => bool_decide (is_Some (p.2 !! "created_at"))) (coll_list st (company_path c "quotes")).
Proof.
  unfold QuoteService.getAll, QuoteService.collectionPath, Crud.read_all. split.
  - eapply Sorted_fmap; [|apply Sorted_and; [apply run_query_sorted|apply Forall_run_query_fields]].
    intros [ia a] [ib b] (Hle & Ha & Hb); cbn [fst snd] in *.
    destruct (has_fields_lookup _ _ "created_at" desc Ha) as [va Hva]; [set_solver|].
    destruct (has_fields_lookup _ _ "created_at" desc Hb) as [vb Hvb]; [set_solver|].
    rewrite !with_id_lookup by done. exists va, vb. split; [done|]. split; [done|].
    unfold doc_le in Hle. simpl in Hle. rewrite Hva, Hvb in Hle. destruct (fv_compare va vb); simpl in *; congruence.
  - rewrite run_query_perm. f_equiv. apply Permutation_refl', filter_ext.
    intros [id d]. unfold has_fields. simpl. by rewrite andb_true_r.
Qed.

Lemma client_matches_shaped term d : client_shaped d ->
  ClientService.client_matches term d = Ok (client_pred term d).
Proof.
  intros [[n Hn] He]. unfold ClientService.client_matches, client_pred. rewrite Hn.
  destruct (JsString.matches n term); [done|]. simpl.
  destruct (d !! "email") as [v|] eqn:Hv; [|done]. destruct (He v eq_refl) as [e ->]. done.
Qed.

Lemma search_in_shaped term l : Forall client_shaped l ->
  ClientService.search_in term l = Ok (List.filter (client_pred term) l).
Proof.
  induction 1 as [|d l Hd Hl IH]; [done|]. simpl.
  rewrite (client_matches_shaped _ _ Hd), IH. done.
Qed.

(** on clients shaped as the [Client] type says, [search] keeps the
    clients whose name, or email when there is one, contains the term
    ignoring case, in the order [getAll] gives; the empty term keeps them
    all. *)
Theorem search_spec c term st :
  Forall client_shaped (ClientService.getAll c st) ->
  ClientService.search c term st = Ok (List.filter (client_pred term) (ClientService.getAll c st)) /\
  ClientService.search c "" st = Ok (ClientService.getAll c st).
Proof.
  intros Hs. unfold ClientService.search. rewrite !search_in_shaped by done. split; [done|].
  f_equal. apply filter_all. intros d Hd. apply Forall_forall with (x := d) in Hs; [|done].
  destruct Hs as [[n Hn] _]. unfold client_pred. rewrite Hn. by rewrite JsString.matches_empty.
Qed.

Lemma search_spec_witness :
  Forall client_shaped (ClientService.getAll "acme" demo_store) /\
  ClientService.search "acme" "" demo_store = Ok [].
Proof.
  assert (Hs : Forall client_shaped (ClientService.getAll "acme" demo_store)) by (vm_compute; constructor).
  split; [exact Hs|]. exact (proj2 (search_spec "acme" "" demo_store Hs)).
Defined.

End DocStore.
