(* ===== verification/StoreApi.v ===== *)
(** * The Firestore services as one API

    [src/src/services/firestore.service.ts] exports one instance (or
    constructor) per service; together their writing methods are every
    way the application changes the store.  [call] lists them, with the
    arguments each takes, and [exec] runs one with the definitions of
    [DocStore].  A call whose promise rejects leaves the store as it was:
    each is a single document operation, an atomic batch, or (for
    [generateQuoteNumber]) a read followed by one write.  [exec_all] runs
    a sequence of calls, whatever their outcome. *)

From Stdlib Require Import Ascii.
From S2P Require Import Prelude JsString Types DocStore.

Module StoreApi.
Import DocStore.

Inductive call :=
  | TradeCreate (data : Doc) (now : N) (fresh : string)
  | TradeUpdate (id : string) (data : Doc) (now : N)
  | TradeDelete (id : string)
  | AddQuoteField (tradeId : string) (field : Doc) (now : N) (fresh : string)
  | AddTemplate (tradeId : string) (template : Doc) (now : N) (fresh : string)
  | CompanyCreate (data : Doc) (now : N) (fresh : string)
  | CompanyUpdate (id : string) (data : Doc) (now : N)
  | CompanyDelete (id : string)
  | AssignTrades (companyId : string) (tradeIds : list string) (now : N)
  | UpdateBusinessSettings (companyId : string) (settings : Doc) (now : N)
  | UpdateSystemSettings (companyId : string) (settings : Doc) (now : N)
  | UserCreate (data : Doc) (now : N) (fresh : string)
  | UserUpdate (id : string) (data : Doc) (now : N)
  | UserDelete (id : string)
  | CreateWithAuth (email name role : string) (companyId : option string) (now : N) (rnd fresh : string)
  | ClientCreate (companyId : string) (client : Doc) (now : N) (fresh : string)
  | ClientUpdate (companyId clientId : string) (client : Doc) (now : N)
  | ClientDelete (companyId clientId : string)
  | ProductCreate (companyId : string) (product : Doc) (now : N) (fresh : string)
  | ProductUpdate (companyId productId : string) (product : Doc) (now : N)
  | ProductDelete (companyId productId : string)
  | UpdateMarginRules (companyId : string) (rules : Doc) (now : N)
  | RebateCreate (companyId : string) (rebate : Doc) (now : N) (fresh : string)
  | RebateUpdate (companyId rebateId : string) (rebate : Doc) (now : N)
  | QuoteCreate (companyId : string) (quote : Doc) (now : N) (fresh : string)
  | QuoteUpdate (companyId quoteId : string) (quote : Doc) (now : N)
  | QuoteDelete (companyId quoteId : string)
  | GenerateQuoteNumber (companyId : string) (now : N)
  | SeedInitialData (solar electrical acme admin companyUser : string) (now : N).

(** The store after a call that also returns an id or a string. *)
Definition drop_result {A} (r : result FireError (Store * A)) : result FireError Store :=
  p ← r; Ok p.1.

Definition exec (c : call) (st : Store) : result FireError Store :=
  match c with
  | TradeCreate d now f => drop_result (Crud.create TradeService.trades d now f st)
  | TradeUpdate i d now => Crud.update TradeService.trades i d now st
  | TradeDelete i => Ok (Crud.delete TradeService.trades i st)
  | AddQuoteField t d now f => drop_result (TradeService.addQuoteField t d now f st)
  | AddTemplate t d now f => drop_result (TradeService.addTemplate t d now f st)
  | CompanyCreate d now f => drop_result (Crud.create CompanyService.companies d now f st)
  | CompanyUpdate i d now => Crud.update CompanyService.companies i d now st
  | CompanyDelete i => Ok (Crud.delete CompanyService.companies i st)
  | AssignTrades c ts now => CompanyService.assignTrades c ts now st
  | UpdateBusinessSettings c d now => CompanyService.updateBusinessSettings c d now st
  | UpdateSystemSettings c d now => CompanyService.updateSystemSettings c d now st
  | UserCreate d now f => drop_result (Crud.create UserService.users d now f st)
  | UserUpdate i d now => Crud.update UserService.users i d now st
  | UserDelete i => Ok (Crud.delete UserService.users i st)
  | CreateWithAuth e n r c now rnd f => drop_result (UserService.createWithAuth e n r c now rnd f st)
  | ClientCreate c d now f => drop_result (ClientService.create c d now f st)
  | ClientUpdate c i d now => ClientService.update c i d now st
  | ClientDelete c i => Ok (ClientService.delete c i st)
  | ProductCreate c d now f => drop_result (ProductServiceService.create c d now f st)
  | ProductUpdate c i d now => ProductServiceService.update c i d now st
  | ProductDelete c i => Ok (ProductServiceService.delete c i st)
  | UpdateMarginRules c d now => ProductServiceService.updateMarginRules c d now st
  | RebateCreate c d now f => drop_result (RebateService.create c d now f st)
  | RebateUpdate c i d now => RebateService.update c i d now st
  | QuoteCreate c d now f => drop_result (QuoteService.create c d now f st)
  | QuoteUpdate c i d now => QuoteService.update c i d now st
  | QuoteDelete c i => Ok (QuoteService.delete c i st)
  | GenerateQuoteNumber c now => drop_result (QuoteService.generateQuoteNumber c now st)
  | SeedInitialData s e a ad u now => DataSeedService.seedInitialData s e a ad u now st
  end.

Definition exec_all (cs : list call) (st : Store) : Store :=
  foldl (fun st c => match exec c st with Ok st' => st' | Err _ => st end) st cs.

(** ** No call creates a settings document

    The settings documents are only ever written with [updateDoc], which
    refuses a missing document; every document a call adds lands in a
    collection whose path is not a settings path. *)

Lemma list_ascii_app (s t : string) :
  String.list_ascii_of_string (s +:+ t) = String.list_ascii_of_string s ++ String.list_ascii_of_string t.
Proof. induction s as [|a s IH]; [done|]. exact (f_equal (cons a) IH). Qed.

(** Two paths whose reversed tails differ are different, whatever comes
    before the tails. *)
Lemma rev_tail_neq (s t : string) :
  (forall l1 l2, reverse (String.list_ascii_of_string s) ++ l1 <> reverse (String.list_ascii_of_string t) ++ l2) ->
  forall p q, p +:+ s <> q +:+ t.
Proof.
  intros H p q E. apply (f_equal (fun x => reverse (String.list_ascii_of_string x))) in E.
  rewrite !list_ascii_app, !reverse_app in E. exact (H _ _ E).
Qed.

Lemma string_app_assoc (a b c : string) : a +:+ (b +:+ c) = (a +:+ b) +:+ c.
Proof. induction a as [|x a IH]; [done|]. exact (f_equal (String x) IH). Qed.

Lemma company_path_not_settings (c c' sub : string) :
  sub ∈ ["clients"; "productsServices"; "rebates"; "quotes"] -> company_path c' sub <> settings_path c.
Proof.
  intros Hs. unfold company_path, settings_path.
  rewrite (string_app_assoc c' "/" sub), (string_app_assoc "companies/" (c' +:+ "/") sub),
    (string_app_assoc "companies/" c "/settings").
  apply rev_tail_neq. intros l1 l2.
  repeat (apply elem_of_cons in Hs as [->|Hs]; [cbn; discriminate|]). by apply not_elem_of_nil in Hs.
Qed.

Lemma updateDoc_absent coll id d st st' c i :
  updateDoc coll id d st = Ok st' -> getDoc st c i = None -> getDoc st' c i = None.
Proof.
  unfold updateDoc. destruct (check_defined d); simpl; [|done].
  destruct (getDoc st coll id) eqn:E; [|done]. intros [= <-] Hn.
  rewrite getDoc_put. case_decide; simplify_eq; congruence.
Qed.

Lemma addDoc_absent coll fresh d st st' id c i :
  addDoc coll fresh d st = Ok (st', id) -> coll <> c -> getDoc st c i = None -> getDoc st' c i = None.
Proof.
  intros (_ & -> & _)%addDoc_inv Hc Hn. rewrite getDoc_put. case_decide; simplify_eq; congruence.
Qed.

Lemma deleteDoc_absent coll id st c i : getDoc st c i = None -> getDoc (deleteDoc coll id st) c i = None.
Proof. intros Hn. rewrite getDoc_delete. by case_decide. Qed.

Lemma drop_result_inv {A} (r : result FireError (Store * A)) st' :
  drop_result r = Ok st' -> exists a, r = Ok (st', a).
Proof. destruct r as [[s a]|]; simpl; [intros [= <-]; by exists a|done]. Qed.

Lemma seed_absent s e a ad u now st st' c i :
  DataSeedService.seedInitialData s e a ad u now st = Ok st' -> getDoc st (settings_path c) i = None ->
  getDoc st' (settings_path c) i = None.
Proof.
  unfold DataSeedService.seedInitialData, DataSeedService.commit_batch.
  destruct (mapM _ _); simpl; [|done]. intros [= <-] Hn.
  cbn [DataSeedService.seed_writes foldl]. rewrite !getDoc_put.
  repeat case_decide; simplify_eq; unfold settings_path in *; simpl in *; try discriminate; done.
Qed.

(** Where the collection a call adds to is not a settings collection. *)
Ltac not_settings :=
  unfold ClientService.collectionPath, ProductServiceService.collectionPath, RebateService.collectionPath,
    QuoteService.collectionPath;
  first [ apply company_path_not_settings; set_solver
        | unfold settings_path, TradeService.trades, TradeService.quoteFields_path, TradeService.templates_path,
            CompanyService.companies, UserService.users; cbn; discriminate ].

Lemma exec_absent (k : call) (st st' : Store) (c : string) :
  exec k st = Ok st' -> getDoc st (settings_path c) "system" = None -> getDoc st' (settings_path c) "system" = None.
Proof.
  intros Hk Hn. destruct k; cbn [exec] in Hk;
    unfold TradeService.addQuoteField, TradeService.addTemplate,
      CompanyService.assignTrades, CompanyService.updateBusinessSettings, CompanyService.updateSystemSettings,
      UserService.createWithAuth, ClientService.create, ClientService.update, ClientService.delete,
      ProductServiceService.create, ProductServiceService.update, ProductServiceService.delete,
      ProductServiceService.updateMarginRules, RebateService.create, RebateService.update,
      QuoteService.create, QuoteService.update, QuoteService.delete in Hk;
    unfold Crud.create, Crud.update, Crud.delete in Hk.
  all: lazymatch type of Hk with
    | Ok _ = Ok _ => injection Hk as <-; by apply deleteDoc_absent
    | updateDoc _ _ _ _ = Ok _ => eapply updateDoc_absent; [exact Hk|exact Hn]
    | DataSeedService.seedInitialData _ _ _ _ _ _ _ = Ok _ => eapply seed_absent; [exact Hk|exact Hn]
    | drop_result (addDoc _ _ _ _) = Ok _ =>
        apply drop_result_inv in Hk as [? Hk]; eapply addDoc_absent; [exact Hk|not_settings|exact Hn]
    | _ => idtac
    end.
  apply drop_result_inv in Hk as [s Hk]. unfold QuoteService.generateQuoteNumber in Hk.
  destruct (QuoteService.read_counter _ _) as [[p n]|]; cbn in Hk; [|done].
  destruct (QuoteService.write_counter _ _ _ _) eqn:Hw; cbn in Hk; [|done]. injection Hk as <- _.
  by eapply updateDoc_absent.
Qed.

Lemma exec_all_absent (cs : list call) (st : Store) (c : string) :
  getDoc st (settings_path c) "system" = None -> getDoc (exec_all cs st) (settings_path c) "system" = None.
Proof.
  unfold exec_all. revert st. induction cs as [|k cs IH]; intros st Hn; simpl; [done|].
  apply IH. destruct (exec k st) eqn:E; [|done]. by eapply exec_absent.
Qed.

(** C14: No use of the services ever lets a company without system
    settings number a quote: no writing method creates
    [companies/<id>/settings/system] ([updateSystemSettings] uses
    [updateDoc], seeding writes no settings, company creation writes
    none), so after any sequence of service calls, whatever their
    outcome, [generateQuoteNumber] for such a company still fails. *)
Theorem quote_numbering_never_recovers (c : string) (cs : list call) (now : N) (st : Store) :
  getDoc st (settings_path c) "system" = None ->
  QuoteService.generateQuoteNumber c now (exec_all cs st) = Err (NoDocumentToUpdate (settings_path c) "system").
Proof. intros Hn. by apply generate_without_settings, exec_all_absent. Qed.

Lemma quote_numbering_never_recovers_witness :
  let cs := [CompanyCreate {["name" := FStr "New Co"]} 5 "newco";
             UpdateSystemSettings "newco" {["quote_number_prefix" := FStr "NC-"]} 6;
             SeedInitialData "solar" "electrical" "acme" "admin" "john" 7] in
  getDoc ∅ (settings_path "newco") "system" = None /\
  QuoteService.generateQuoteNumber "newco" 8 (exec_all cs ∅) = Err (NoDocumentToUpdate (settings_path "newco") "system").
Proof. split; [reflexivity|]. apply quote_numbering_never_recovers. reflexivity. Defined.

End StoreApi.
