(* ===== verification/Auth.v ===== *)
(** * Authentication: the demo auth service and the auth context

    [src/src/services/auth.service.ts] ([AuthService], static methods over
    the constant [DEMO_CREDENTIALS]) and
    [src/src/contexts/AuthContext.tsx] ([AuthProvider]: the [user] and
    [loading] state, the browser's [localStorage] entry [demo_user], and
    the toasts each handler shows).  Every handler of the provider is a
    function from that state (and the clock where the handler reads
    [new Date()]) to the next state and the settled value of its promise.
    [register] also writes the Firestore store of [DocStore]; the outcome
    of Firebase Authentication's [createUserWithEmailAndPassword] is an
    input.  The session user is a [SessionUser]: the fields of [User],
    whose two dates are [Date] objects after a login and, after a reload,
    the ISO strings that [JSON.parse(JSON.stringify(user))] leaves in
    their place ([json_roundtrip]). *)

From Stdlib Require Import Ascii.
From S2P Require Import Prelude JsString Types DocStore.
Import DocStore.

Inductive ToastKind := toast_success | toast_error | toast_loading.

#[export] Instance ToastKind_eq_dec : EqDecision ToastKind.
Proof. solve_decision. Defined.

Definition toast := (ToastKind * string)%type.

Definition role_str (r : Role) : string :=
  match r with global_app_admin => "global_app_admin" | trade_company_user => "trade_company_user" end.

(** A date field of a JavaScript object: a [Date], or the string
    [JSON.stringify] wrote for one. *)
Inductive JsDate := DateObj (t : timestamp) | DateText (s : string).

#[export] Instance JsDate_eq_dec : EqDecision JsDate.
Proof. solve_decision. Defined.

(** The [user] object the provider holds. *)
Module SessionUser.
Record t := mk {
    uid : string;
    email : string;
    name : string;
    role : Role;
    company_id : option string;
    created_at : JsDate;
    updated_at : JsDate }.
End SessionUser.

(** A [User] built in the code, with its [Date] fields. *)
Definition of_user (u : User.t) : SessionUser.t :=
  SessionUser.mk (User.uid u) (User.email u) (User.name u) (User.role u) (User.company_id u)
    (DateObj (User.created_at u)) (DateObj (User.updated_at u)).

(** [JSON.stringify] writes a [Date] as [toISOString()], a string as
    itself; [JSON.parse] reads both back as strings. *)
Definition json_date (d : JsDate) : JsDate :=
  match d with DateObj t => DateText (JsString.toISOString t) | DateText s => DateText s end.

(** [JSON.parse(JSON.stringify(u))]: strings and the role's string kept,
    an absent [company_id] stays absent, the dates become strings. *)
Definition json_roundtrip (u : SessionUser.t) : SessionUser.t :=
  SessionUser.mk (SessionUser.uid u) (SessionUser.email u) (SessionUser.name u) (SessionUser.role u)
    (SessionUser.company_id u) (json_date (SessionUser.created_at u)) (json_date (SessionUser.updated_at u)).

Module AuthService.

Definition admin_email := "admin@quotehub.com".
Definition company_email := "john@acmeelectrical.com".
Definition demo_password := "demo123".

(** The demo users of [DEMO_CREDENTIALS]; [t] is the [new Date()] of
    module load. *)
Definition admin_user (t : timestamp) : User.t :=
  User.mk "demo-admin-123" admin_email "Global Admin" global_app_admin None t t.

Definition company_user (t : timestamp) : User.t :=
  User.mk "demo-user-456" company_email "John Smith" trade_company_user (Some "acme-electrical") t t.

Inductive DemoType := demo_admin | demo_company.

Record credentials := mk_credentials {
  cred_email : string;
  cred_password : string;
  cred_user : User.t }.

Definition DEMO_CREDENTIALS (t : timestamp) (ty : DemoType) : credentials :=
  match ty with
  | demo_admin => mk_credentials admin_email demo_password (admin_user t)
  | demo_company => mk_credentials company_email demo_password (company_user t)
  end.

Definition invalid_credentials_msg :=
  "Invalid credentials. Use demo accounts: admin@quotehub.com or john@acmeelectrical.com with password: demo123".

(** [login]: the [catch] rethrows [new Error(error.message || 'Login
    failed')], which keeps the message. *)
Definition login (t : timestamp) (email password : string) : result string User.t :=
  let a := DEMO_CREDENTIALS t demo_admin in
  let c := DEMO_CREDENTIALS t demo_company in
  if (email === cred_email a) && (password === cred_password a) then Ok (cred_user a)
  else if (email === cred_email c) && (password === cred_password c) then Ok (cred_user c)
  else Err invalid_credentials_msg.

Definition loginWithDemo (t : timestamp) (ty : DemoType) : result string User.t :=
  let cr := DEMO_CREDENTIALS t ty in login t (cred_email cr) (cred_password cr).

(** [userData : Omit<User, 'uid' | 'created_at' | 'updated_at'>] *)
Record UserData := mk_user_data {
  ud_email : string;
  ud_name : string;
  ud_role : Role;
  ud_company_id : option string }.

(** [{ uid: 'new-user-' + Date.now(), email, ...userData, created_at,
    updated_at }]: the spread comes after [email], so the [email] field of
    [userData] replaces the argument. *)
Definition register (now : timestamp) (email password : string) (ud : UserData) : result string User.t :=
  Ok (User.mk ("new-user-" +:+ JsString.string_of_N now) (ud_email ud) (ud_name ud) (ud_role ud)
        (ud_company_id ud) now now).

Definition getCurrentUser : option User.t := None.

Definition getUserProfile (t : timestamp) (uid : string) : option User.t :=
  if uid === User.uid (cred_user (DEMO_CREDENTIALS t demo_admin)) then Some (cred_user (DEMO_CREDENTIALS t demo_admin))
  else if uid === User.uid (cred_user (DEMO_CREDENTIALS t demo_company)) then Some (cred_user (DEMO_CREDENTIALS t demo_company))
  else None.

Definition getDemoCredentials (t : timestamp) : (string * string) * (string * string) :=
  ((cred_email (DEMO_CREDENTIALS t demo_admin), cred_password (DEMO_CREDENTIALS t demo_admin)),
   (cred_email (DEMO_CREDENTIALS t demo_company), cred_password (DEMO_CREDENTIALS t demo_company))).

End AuthService.

Module AuthContext.
Import AuthService.

Record state := mk {
  user : option SessionUser.t;
  loading : bool;
  stored : option SessionUser.t;   (** the object whose [JSON.stringify] is [localStorage['demo_user']] *)
  toasts : list toast }.

(** [useState(null)], [useState(true)], and what the browser already
    stores. *)
Definition initial (stored : option SessionUser.t) : state := mk None true stored [].

Definition set_loading (b : bool) (st : state) : state := mk (user st) b (stored st) (toasts st).
Definition show (k : ToastKind) (m : string) (st : state) : state := mk (user st) (loading st) (stored st) (toasts st ++ [(k, m)]).
Definition set_user (u : option SessionUser.t) (st : state) : state := mk u (loading st) (stored st) (toasts st).
Definition set_stored (u : option SessionUser.t) (st : state) : state := mk (user st) (loading st) u (toasts st).

(** The [useEffect] of the provider's mount:
    [setUser(JSON.parse(localStorage.getItem('demo_user')))]. *)
Definition checkDemoUser (st : state) : state :=
  match stored st with
  | Some u => set_loading false (set_user (Some (json_roundtrip u)) st)
  | None => set_loading false st
  end.

(** The provider's own demo users. *)
Definition demoAdmin (now : timestamp) : User.t :=
  User.mk "demo-admin-123" "admin@quotehub.com" "Global Admin" global_app_admin None now now.

Definition demoUser (now : timestamp) : User.t :=
  User.mk "demo-user-456" "john@acmeelectrical.com" "John Smith" trade_company_user (Some "acme-electrical") now now.

Definition nl : string := String (ascii_of_nat 10) EmptyString.

Definition invalid_toast : string :=
  "Invalid credentials. Use demo accounts:" +:+ nl +:+ "- admin@quotehub.com" +:+ nl +:+
  "- john@acmeelectrical.com" +:+ nl +:+ "Password: demo123".

(** [login]: [setLoading(true)], then the two demo checks, then the
    invalid-credentials toast and [throw], whose [catch] shows the error's
    message again and rethrows; [finally] clears [loading]. *)
Definition login (now : timestamp) (email password : string) (st : state) : state * result string unit :=
  let st := set_loading true st in
  if (email === "admin@quotehub.com") && (password === "demo123") then
    (set_loading false (show toast_success "Successfully logged in as Global Admin"
                          (set_stored (Some (of_user (demoAdmin now))) (set_user (Some (of_user (demoAdmin now))) st))), Ok ())
  else if (email === "john@acmeelectrical.com") && (password === "demo123") then
    (set_loading false (show toast_success "Successfully logged in as Company User"
                          (set_stored (Some (of_user (demoUser now))) (set_user (Some (of_user (demoUser now))) st))), Ok ())
  else
    (set_loading false (show toast_error "Invalid demo credentials" (show toast_error invalid_toast st)),
     Err "Invalid demo credentials").

Definition demoUsers (now : timestamp) (ty : DemoType) : User.t :=
  match ty with demo_admin => demoAdmin now | demo_company => demoUser now end.

Definition loginWithDemo (now : timestamp) (ty : DemoType) (st : state) : state * result string unit :=
  let st := set_loading true st in
  let u := of_user (demoUsers now ty) in
  (set_loading false
     (show toast_success ("Successfully logged in as " +:+
                          match ty with demo_admin => "Global Admin" | demo_company => "Company User" end)
        (set_stored (Some u) (set_user (Some u) st))), Ok ()).

Definition logout (st : state) : state * result string unit :=
  (show toast_success "Successfully logged out" (set_stored None (set_user None st)), Ok ()).

(** [register]'s [userData : Partial<User>], the fields it reads. *)
Record PartialUser := mk_partial {
  pu_name : option string;
  pu_role : option Role;
  pu_company_id : option string }.

(** The [User] object [setDoc] writes: [company_id: userData.company_id]
    is [undefined] when absent; a [Date] is stored as a timestamp. *)
Definition user_doc (u : User.t) : Doc :=
  {[ "uid" := FStr (User.uid u); "email" := FStr (User.email u); "name" := FStr (User.name u);
     "role" := FStr (role_str (User.role u));
     "company_id" := match User.company_id u with Some c => FStr c | None => FUndefined end;
     "created_at" := FTime (User.created_at u); "updated_at" := FTime (User.updated_at u) ]}.

Definition fire_msg (e : FireError) : string :=
  match e with
  | UnsupportedUndefined f => "Function setDoc() called with invalid data. Unsupported field value: undefined (found in field " +:+ f +:+ ")"
  | NoDocumentToUpdate _ _ => "No document to update"
  | MalformedDocument _ _ => "Malformed document"
  | NotAString f => "Cannot read properties of " +:+ f
  end.

(** [register]: [fb] is the outcome of [createUserWithEmailAndPassword]
    (the new account's uid and email, or the error message). *)
Definition register (now : timestamp) (email password : string) (ud : PartialUser)
    (fb : result string (string * option string)) (db : Store) (st : state) : state * Store * result string unit :=
  let st := set_loading true st in
  match fb with
  | Err m => (set_loading false (show toast_error m st), db, Err m)
  | Ok (uid, fbemail) =>
      let nu := User.mk uid (JsString.opt_or_default fbemail email)
                  (JsString.opt_or_default (pu_name ud) (JsString.split_first "@" email))
                  (default trade_company_user (pu_role ud)) (pu_company_id ud) now now in
      match setDoc "users" uid (user_doc nu) db with
      | Ok db' => (set_loading false (show toast_success "Account created successfully" (set_user (Some (of_user nu)) st)), db', Ok ())
      | Err e => (set_loading false (show toast_error (fire_msg e) st), db, Err (fire_msg e))
      end
  end.

Definition isGlobalAdmin (st : state) : bool :=
  match user st with Some u => SessionUser.role u === global_app_admin | None => false end.

Definition isTradeCompanyUser (st : state) : bool :=
  match user st with Some u => SessionUser.role u === trade_company_user | None => false end.

(** ** Specification helpers *)

(** A user with its two timestamps replaced. *)
Definition restamp (now : timestamp) (u : User.t) : User.t :=
  User.mk (User.uid u) (User.email u) (User.name u) (User.role u) (User.company_id u) now now.

(** A reload of the page: a fresh provider over what the browser
    stores, after its mount effect. *)
Definition reload (st : state) : state := checkDemoUser (initial (stored st)).

(** ** Properties *)

Lemma login_Ok_cases now email password st st' :
  login now email password st = (st', Ok ()) ->
  (email = "admin@quotehub.com" /\ password = "demo123") \/
  (email = "john@acmeelectrical.com" /\ password = "demo123").
Proof. unfold login. repeat case_bool_decide; simpl; intros [=]; auto. Qed.

(** C11: the provider's [login] duplicates the service's credential check
    instead of calling it, and the two agree: the provider accepts exactly
    the credentials the service accepts, and logs in the service's user
    (up to the timestamps each stamps with its own [new Date()]); on
    refused credentials the session is unchanged. *)
Theorem login_agrees now t email password st :
  (login now email password st).2 =
    match AuthService.login t email password with Ok _ => Ok () | Err _ => Err "Invalid demo credentials" end /\
  user (login now email password st).1 =
    match AuthService.login t email password with Ok u => Some (of_user (restamp now u)) | Err _ => user st end.
Proof.
  unfold login, AuthService.login, DEMO_CREDENTIALS, admin_email, company_email, demo_password; simpl.
  destruct (bool_decide (email = "admin@quotehub.com")), (bool_decide (password = "demo123"));
  destruct (bool_decide (email = "john@acmeelectrical.com")); simpl; auto.
Qed.

Lemma login_Ok now email password st st' :
  login now email password st = (st', Ok ()) ->
  stored st' = user st' /\ loading st' = false /\ is_Some (user st').
Proof.
  unfold login. repeat case_match; intros [= <-]; simpl; eauto.
Qed.

Lemma loginWithDemo_session now ty st :
  stored (loginWithDemo now ty st).1 = user (loginWithDemo now ty st).1 /\
  user (loginWithDemo now ty st).1 = Some (of_user (demoUsers now ty)).
Proof. done. Qed.

(** C18: A demo session survives a reload only up to its dates: after a
    successful [login] at time [now], the session user has [Date] fields;
    a fresh provider over what the browser stores (after its mount
    effect, no longer loading) shows a user with the same id, email,
    name, role and company, so the role checks answer as before, but
    whose [created_at] and [updated_at] are the ISO strings of [now], not
    [Date]s; reloading again changes nothing more; after [logout] a
    reload shows nobody. *)
Theorem session_reload now email password st st' :
  login now email password st = (st', Ok ()) ->
  (exists u, user st' = Some u /\
     SessionUser.created_at u = DateObj now /\ SessionUser.updated_at u = DateObj now /\
     user (reload st') = Some (SessionUser.mk (SessionUser.uid u) (SessionUser.email u) (SessionUser.name u)
                                (SessionUser.role u) (SessionUser.company_id u)
                                (DateText (JsString.toISOString now)) (DateText (JsString.toISOString now)))) /\
  user (reload st') <> user st' /\
  loading (reload st') = false /\
  isGlobalAdmin (reload st') = isGlobalAdmin st' /\ isTradeCompanyUser (reload st') = isTradeCompanyUser st' /\
  user (reload (reload st')) = user (reload st') /\
  user (reload (logout st').1) = None.
Proof.
  unfold login. repeat case_bool_decide; simpl; intros [= <-]; cbn.
  all: split; [eexists; split; [reflexivity|repeat split]|repeat split]; discriminate.
Qed.

Lemma session_reload_witness :
  login 5%N "admin@quotehub.com" "demo123" (initial None) =
    ((login 5%N "admin@quotehub.com" "demo123" (initial None)).1, Ok ()) /\
  user (reload (login 5%N "admin@quotehub.com" "demo123" (initial None)).1) <>
    user (login 5%N "admin@quotehub.com" "demo123" (initial None)).1.
Proof.
  assert (H : login 5%N "admin@quotehub.com" "demo123" (initial None) =
                ((login 5%N "admin@quotehub.com" "demo123" (initial None)).1, Ok ())) by reflexivity.
  split; [exact H|]. exact (proj1 (proj2 (session_reload 5%N _ _ _ _ H))).
Defined.

(** a refused login leaves the session as it was and shows two error
    toasts: the list of demo accounts, then the message of the error the
    handler throws and catches itself. *)
Theorem login_refused now email password st :
  AuthService.login now email password = Err AuthService.invalid_credentials_msg ->
  login now email password st =
    (mk (user st) false (stored st)
        (toasts st ++ [(toast_error, invalid_toast); (toast_error, "Invalid demo credentials")]),
     Err "Invalid demo credentials").
Proof.
  unfold login, AuthService.login, DEMO_CREDENTIALS, admin_email, company_email, demo_password; simpl.
  repeat case_match; try discriminate. intros _. unfold show. simpl. by rewrite <- app_assoc.
Qed.

Lemma login_refused_witness :
  AuthService.login 5%N "admin@quotehub.com" "guess" = Err AuthService.invalid_credentials_msg /\
  toasts (login 5%N "admin@quotehub.com" "guess" (initial None)).1 =
    [(toast_error, invalid_toast); (toast_error, "Invalid demo credentials")].
Proof.
  assert (H : AuthService.login 5%N "admin@quotehub.com" "guess" = Err AuthService.invalid_credentials_msg)
    by reflexivity.
  split; [exact H|]. rewrite (login_refused 5%N _ _ (initial None) H). reflexivity.
Defined.

(** C16: [register] after Firebase has created the account: with a
    [company_id] it writes the user document under the new uid (name
    defaulting to the part of the email before [@], role to
    [trade_company_user]) and logs the user in without storing the
    session; without one, the [company_id: undefined] of the user object
    makes [setDoc] fail, the store and the session stay as they were, and
    the Firebase account is left without a profile. *)
Theorem register_spec now email password ud uid fbemail db st :
  let nu := User.mk uid (JsString.opt_or_default fbemail email)
              (JsString.opt_or_default (pu_name ud) (JsString.split_first "@" email))
              (default trade_company_user (pu_role ud)) (pu_company_id ud) now now in
  register now email password ud (Ok (uid, fbemail)) db st =
    match pu_company_id ud with
    | Some _ =>
        (mk (Some (of_user nu)) false (stored st) (toasts st ++ [(toast_success, "Account created successfully")]),
         put_doc "users" uid (user_doc nu) db, Ok ())
    | None =>
        (mk (user st) false (stored st) (toasts st ++ [(toast_error, fire_msg (UnsupportedUndefined "company_id"))]),
         db, Err (fire_msg (UnsupportedUndefined "company_id")))
    end.
Proof.
  intros nu. unfold register. fold nu. destruct (pu_company_id ud) as [c|] eqn:Hc.
  - unfold setDoc. rewrite (proj2 (check_defined_Ok (user_doc nu))); [done|].
    unfold user_doc. subst nu; simpl. repeat apply defined_insert; try done.
  - unfold setDoc. destruct (check_defined (user_doc nu)) as [[]|e] eqn:Hd; simpl.
    + exfalso. apply check_defined_Ok in Hd. apply (Hd "company_id" FUndefined); [|done].
      unfold user_doc. subst nu; simpl. by simplify_map_eq.
    + apply check_defined_Err in Hd as (k & -> & Hk). unfold user_doc in Hk. subst nu; simpl in Hk.
      rewrite !lookup_insert_Some, lookup_singleton_Some in Hk.
      assert (k = "company_id") as -> by naive_solver. done.
Qed.

End AuthContext.
