(* ===== verification/Routing.v ===== *)
(** * Routes, the route guard, the login page and the layouts' menus

    [src/src/App.tsx] (the route table given to [createBrowserRouter]),
    [src/src/components/auth/ProtectedRoute.tsx] (the guard's decision),
    [src/src/pages/auth/Login.tsx] (the form's state and [handleSubmit],
    the demo buttons) and the menus of
    [src/src/components/layout/AdminLayout.tsx] and [CompanyLayout.tsx]
    (which item is highlighted, [handleLogout]).  A URL is rendered as a
    page, a spinner, or a redirect ([<Navigate>]); [navigate] follows the
    redirects, with fuel, to the view the user ends on. *)

From Stdlib Require Import Ascii.
From S2P Require Import Prelude JsString Types DocStore Auth.

Module Routing.
Import AuthService AuthContext.

(** ** The route table *)

Inductive Page :=
  | LoginPage | AdminDashboard | TradeManagement | CompanyManagement | UserManagement | PlatformSettings
  | CompanyDashboard | BusinessSettingsPage | ProductsServicesPage | ClientsPage | QuotesPage
  | IntegrationsPage | NotFound.

#[export] Instance Page_eq_dec : EqDecision Page.
Proof. solve_decision. Defined.

Inductive Layout := AdminLayout | CompanyLayout.

#[export] Instance Layout_eq_dec : EqDecision Layout.
Proof. solve_decision. Defined.

(** What a guarded route renders inside its layout's [<Outlet />]. *)
Inductive Child := ChildPage (p : Page) | ChildNavigate (to : string).

Inductive Element :=
  | Public (p : Page)
  | Guarded (requiredRole : Role) (layout : Layout) (child : Child).

(** [pathname.split('/')] without the empty segments (leading, trailing
    and doubled slashes). *)
Definition segments (path : string) : list string :=
  List.filter (fun x => negb (x === EmptyString)) (JsString.split "/" path).

Definition admin_children : list (string * Page) :=
  [("trades", TradeManagement); ("companies", CompanyManagement); ("users", UserManagement);
   ("settings", PlatformSettings)].

Definition company_children : list (string * Page) :=
  [("dashboard", CompanyDashboard); ("business-settings", BusinessSettingsPage);
   ("products-services", ProductsServicesPage); ("clients", ClientsPage); ("quotes", QuotesPage);
   ("integrations", IntegrationsPage)].

Fixpoint assoc {A} (k : string) (l : list (string * A)) : option A :=
  match l with
  | [] => None
  | (k', a) :: l => if k === k' then Some a else assoc k l
  end.

(** The router's match (case-insensitive, as React Router's default):
    [/login]; [/admin] with its index, four children and its own [*];
    [/] with its index [<Navigate to="/dashboard">] and six children; the
    top-level [*]. *)
Definition route (path : string) : Element :=
  match map JsString.toLowerCase (segments path) with
  | [] => Guarded trade_company_user CompanyLayout (ChildNavigate "/dashboard")
  | [s] =>
      if s === "login" then Public LoginPage
      else if s === "admin" then Guarded global_app_admin AdminLayout (ChildPage AdminDashboard)
      else match assoc s company_children with
           | Some p => Guarded trade_company_user CompanyLayout (ChildPage p)
           | None => Public NotFound
           end
  | s :: rest =>
      if s === "admin" then
        match rest with
        | [c] => Guarded global_app_admin AdminLayout (ChildPage (default NotFound (assoc c admin_children)))
        | _ => Guarded global_app_admin AdminLayout (ChildPage NotFound)
        end
      else Public NotFound
  end.

(** ** [ProtectedRoute] *)

Inductive Guard := GSpinner | GRedirect (to : string) | GRender.

Definition ProtectedRoute (requiredRole : option Role) (redirectTo : string)
    (user : option SessionUser.t) (loading : bool) : Guard :=
  if loading then GSpinner else
  match user with
  | None => GRedirect redirectTo
  | Some u =>
      match requiredRole with
      | Some r =>
          if negb (SessionUser.role u === r)
          then GRedirect (if SessionUser.role u === global_app_admin then "/admin" else "/dashboard")
          else GRender
      | None => GRender
      end
  end.

(** ** Rendering a URL and following redirects *)

Inductive View := VSpinner | VPage (layout : option Layout) (p : Page).

#[export] Instance View_eq_dec : EqDecision View.
Proof. solve_decision. Defined.

Inductive Step := Show (v : View) | Go (to : string).

Definition render (ctx : AuthContext.state) (path : string) : Step :=
  match route path with
  | Public p => Show (VPage None p)
  | Guarded r l c =>
      match ProtectedRoute (Some r) "/login" (user ctx) (loading ctx) with
      | GSpinner => Show VSpinner
      | GRedirect to => Go to
      | GRender =>
          match c with
          | ChildPage p => Show (VPage (Some l) p)
          | ChildNavigate to => Go to
          end
      end
  end.

(** The view a URL ends on, and the URL it ends at. *)
Fixpoint navigate (fuel : nat) (ctx : AuthContext.state) (path : string) : option (View * string) :=
  match fuel with
  | O => None
  | S fuel' =>
      match render ctx path with
      | Show v => Some (v, path)
      | Go to => navigate fuel' ctx to
      end
  end.

(** ** The login page *)

Record form := mk_form { f_email : string; f_password : string }.

(** [setFormData({ ...formData, [e.target.name]: e.target.value })] for
    the form's two inputs. *)
Definition handleChange (name value : string) (f : form) : form :=
  if name === "email" then mk_form value (f_password f)
  else if name === "password" then mk_form (f_email f) value
  else f.

(** [handleSubmit]: the [setTimeout] callback reads [isGlobalAdmin] and
    [isTradeCompanyUser] from the closure of the render that created the
    handler, that is from the context before [login]. *)
Definition handleSubmit (now : timestamp) (f : form) (ctx : AuthContext.state)
    : AuthContext.state * option string :=
  if (f_email f === EmptyString) || (f_password f === EmptyString) then
    (show toast_error "Please fill in all fields" ctx, None)
  else
    let stale_admin := isGlobalAdmin ctx in
    let stale_company := isTradeCompanyUser ctx in
    match AuthContext.login now (f_email f) (f_password f) ctx with
    | (ctx', Ok _) => (ctx', Some (if stale_admin then "/admin" else if stale_company then "/dashboard" else "/"))
    | (ctx', Err _) => (ctx', None)
    end.

(** The two demo buttons. *)
Definition demo_button (now : timestamp) (ty : DemoType) (ctx : AuthContext.state)
    : AuthContext.state * option string :=
  match AuthContext.loginWithDemo now ty ctx with
  | (ctx', Ok _) => (ctx', Some (match ty with demo_admin => "/admin" | demo_company => "/dashboard" end))
  | (ctx', Err _) => (ctx', None)
  end.

(** ** The layouts' menus *)

Record MenuItem := mk_item { item_id : string; label : string; item_path : string }.

#[export] Instance MenuItem_eq_dec : EqDecision MenuItem.
Proof. solve_decision. Defined.

Definition admin_menuItems : list MenuItem :=
  [ mk_item "dashboard" "Dashboard" "/admin";
    mk_item "trades" "Trade Management" "/admin/trades";
    mk_item "companies" "Company Management" "/admin/companies";
    mk_item "users" "User Management" "/admin/users";
    mk_item "settings" "Platform Settings" "/admin/settings" ].

Definition company_menuItems : list MenuItem :=
  [ mk_item "dashboard" "Dashboard" "/dashboard";
    mk_item "business" "My Business Settings" "/business-settings";
    mk_item "products" "My Products & Services" "/products-services";
    mk_item "clients" "My Clients" "/clients";
    mk_item "quotes" "My Quotes" "/quotes";
    mk_item "integrations" "Integrations" "/integrations" ].

(** [location.pathname === item.path || (item.path !== root &&
    location.pathname.startsWith(item.path))], [root] being the layout's
    dashboard path. *)
Definition isActive (root pathname path : string) : bool :=
  (pathname === path) || (negb (path === root) && JsString.startsWith pathname path).

Definition active_items (root : string) (items : list MenuItem) (pathname : string) : list MenuItem :=
  List.filter (fun i => isActive root pathname (item_path i)) items.

(** [handleLogout]: [logout()], then [navigate('/login')]. *)
Definition handleLogout (ctx : AuthContext.state) : AuthContext.state * string :=
  ((AuthContext.logout ctx).1, "/login").

(** The layout's own state: [sidebarOpen] ([useState(false)]) and the
    URL its links navigate to.  The menu button opens the sidebar; the
    overlay and the close button close it; a rendered link closes it and
    goes to its item's path. *)
Record layout_state := mk_layout { sidebarOpen : bool; pathname : string }.

Inductive layout_event := OpenSidebar | CloseSidebar | ClickItem (i : MenuItem).

Definition layout_step (items : list MenuItem) (e : layout_event) (st : layout_state) : layout_state :=
  match e with
  | OpenSidebar => mk_layout true (pathname st)
  | CloseSidebar => mk_layout false (pathname st)
  | ClickItem i => if bool_decide (i ∈ items) then mk_layout false (item_path i) else st
  end.

(** The sidebar's footer: [user?.company_id || 'Not assigned']. *)
Definition company_label (u : option SessionUser.t) : string :=
  match u ≫= SessionUser.company_id with
  | Some c => JsString.or_default c "Not assigned"
  | None => "Not assigned"
  end.

(** ** Specification helpers *)

Definition layout_role (l : Layout) : Role :=
  match l with AdminLayout => global_app_admin | CompanyLayout => trade_company_user end.

(** Where a signed-in user of each role ends: the role's dashboard. *)
Definition home (r : Role) : View * string :=
  match r with
  | global_app_admin => (VPage (Some AdminLayout) AdminDashboard, "/admin")
  | trade_company_user => (VPage (Some CompanyLayout) CompanyDashboard, "/dashboard")
  end.

(** The conditions under which at most one item of a menu is active:
    distinct paths, and no path other than the root's is a prefix of
    another path or of the root. *)
Definition menu_ok (root : string) (items : list MenuItem) : Prop :=
  NoDup (item_path <$> items) /\
  Forall (fun a => Forall (fun b => a = b \/ a = root \/ b = root \/ String.prefix a b = false)
                     (item_path <$> items)) (item_path <$> items) /\
  Forall (fun a => a = root \/ String.prefix a root = false) (item_path <$> items).

(** ** Lemmas *)

Lemma route_guarded path r l c : route path = Guarded r l c ->
  r = layout_role l /\ (forall to, c = ChildNavigate to -> to = "/dashboard").
Proof.
  unfold route. repeat case_match; intros [= <- <- <-]; split; try done; by intros ? [= <-].
Qed.

Lemma render_redirect ctx path to : render ctx path = Go to ->
  to = "/login" \/ to = "/admin" \/ to = "/dashboard".
Proof.
  unfold render, ProtectedRoute. destruct (route path) as [p|r l c] eqn:Hr; [done|].
  destruct (route_guarded _ _ _ _ Hr) as [_ Hc].
  destruct (loading ctx); [done|]. destruct (user ctx) as [u|]; [|intros [= <-]; auto].
  case_bool_decide; simpl.
  - destruct c; intros [= <-]. right; right. by apply Hc.
  - case_bool_decide; intros [= <-]; auto.
Qed.

Lemma render_layout ctx path l p : render ctx path = Show (VPage (Some l) p) ->
  loading ctx = false /\ exists u, user ctx = Some u /\ SessionUser.role u = layout_role l.
Proof.
  unfold render, ProtectedRoute. destruct (route path) as [p'|r l' c] eqn:Hr; [done|].
  destruct (route_guarded _ _ _ _ Hr) as [-> _].
  destruct (loading ctx); [done|]. destruct (user ctx) as [u|]; [|done].
  case_bool_decide as Hrole; simpl; [|done]. destruct c; intros [= <- <-]. eauto.
Qed.

Lemma navigate_S fuel ctx path :
  navigate (S fuel) ctx path =
    match render ctx path with Show v => Some (v, path) | Go to => navigate fuel ctx to end.
Proof. done. Qed.

(** The three redirect targets settle within two more steps. *)
Lemma navigate_targets ctx to : to = "/login" \/ to = "/admin" \/ to = "/dashboard" ->
  exists v q, navigate 2 ctx to = Some (v, q).
Proof.
  intros Hto. destruct ctx as [[[uid em nm [|] co ca ua]|] [|] st ts];
    destruct Hto as [ -> | [ -> | -> ] ]; eexists _, _; reflexivity.
Qed.

Lemma isActive_true root pn a : isActive root pn a = true ->
  pn = a \/ (a <> root /\ String.prefix a pn = true).
Proof.
  unfold isActive, JsString.startsWith. intros [H|[H1 H2]%andb_true_iff]%orb_true_iff; qh_case; auto.
Qed.

Lemma active_paths_equal root items pn x y :
  menu_ok root items -> x ∈ active_items root items pn -> y ∈ active_items root items pn ->
  item_path x = item_path y.
Proof.
  intros (_ & H2 & H3) Hx Hy. unfold active_items in *.
  apply elem_of_filter_In in Hx as [Hx Hax], Hy as [Hy Hay].
  assert (Hpx : item_path x ∈ item_path <$> items) by (apply list_elem_of_fmap_2; done).
  assert (Hpy : item_path y ∈ item_path <$> items) by (apply list_elem_of_fmap_2; done).
  rewrite Forall_forall in H2, H3.
  pose proof (proj1 (Forall_forall _ _) (H2 _ Hpx) _ Hpy) as Hxy.
  pose proof (proj1 (Forall_forall _ _) (H2 _ Hpy) _ Hpx) as Hyx.
  destruct (isActive_true _ _ _ Hax) as [Ex|[Hxr Hxp]], (isActive_true _ _ _ Hay) as [Ey|[Hyr Hyp]].
  - congruence.
  - rewrite Ex in Hyp. destruct (H3 _ Hpy) as [?|Hyroot]; [done|].
    destruct Hyx as [?|[?|[Hxroot|?]]]; [done|done| |congruence].
    rewrite Hxroot in Hyp. congruence.
  - rewrite Ey in Hxp. destruct (H3 _ Hpx) as [?|Hxroot]; [done|].
    destruct Hxy as [?|[?|[Hyroot|?]]]; [done|done| |congruence].
    rewrite Hyroot in Hxp. congruence.
  - destruct (JsString.prefix_comparable _ _ _ Hxp Hyp) as [Hc|Hc].
    + destruct Hxy as [?|[?|[?|?]]]; congruence.
    + destruct Hyx as [?|[?|[?|?]]]; congruence.
Qed.

Lemma length_le_1 {A B} (f : A -> B) (l : list A) :
  NoDup (f <$> l) -> (forall x y, x ∈ l -> y ∈ l -> f x = f y) -> length l <= 1.
Proof.
  destruct l as [|x [|y l]]; csimpl; [lia|lia|]. intros Hnd Hall.
  apply NoDup_cons in Hnd as [Hn _]. exfalso. apply Hn. rewrite (Hall x y) by set_solver. set_solver.
Qed.

Lemma menu_ok_active root items pn : menu_ok root items -> length (active_items root items pn) <= 1.
Proof.
  intros Hok. apply (length_le_1 item_path).
  - destruct Hok as [Hnd _]. by apply NoDup_fmap_filter.
  - intros x y Hx Hy. by eapply active_paths_equal.
Qed.

Lemma string_append_nil_r (s : string) : s +:+ EmptyString = s.
Proof. induction s as [|a s IH]; [done|]. exact (f_equal (String a) IH). Qed.

Lemma menu_ok_nodup root items : menu_ok root items -> NoDup items.
Proof. intros [Hnd _]. by eapply NoDup_fmap_1. Qed.

(** In a menu whose paths are not prefixes of each other, the item of a
    path, and of any URL below a path other than the root, is the only
    one highlighted. *)
Lemma active_items_below root items i rest :
  menu_ok root items -> i ∈ items -> (item_path i = root -> rest = EmptyString) ->
  active_items root items (item_path i +:+ rest) = [i].
Proof.
  intros Hok Hi Hr.
  assert (Ha : i ∈ active_items root items (item_path i +:+ rest)).
  { apply elem_of_filter_In. split; [done|]. unfold isActive, JsString.startsWith.
    destruct (decide (item_path i = root)) as [E|E].
    - rewrite (Hr E), string_append_nil_r. by rewrite bool_decide_eq_true_2.
    - rewrite JsString.prefix_app, (bool_decide_eq_false_2 (item_path i = root) E). apply orb_true_r. }
  pose proof (menu_ok_active root items (item_path i +:+ rest) Hok) as Hl.
  destruct (active_items _ _ _) as [|j [|k l]] eqn:E; simpl in Hl; [by apply not_elem_of_nil in Ha|..|lia].
  by apply list_elem_of_singleton in Ha as ->.
Qed.

Lemma login_home_admin now st :
  navigate 3 (AuthContext.login now "admin@quotehub.com" "demo123" st).1 "/" = Some (home global_app_admin).
Proof. reflexivity. Qed.

Lemma login_home_company now st :
  navigate 3 (AuthContext.login now "john@acmeelectrical.com" "demo123" st).1 "/" = Some (home trade_company_user).
Proof. reflexivity. Qed.

Lemma admin_menu_ok : menu_ok "/admin" admin_menuItems.
Proof. split; [|split]; apply (bool_decide_unpack _); vm_compute; reflexivity. Qed.

Lemma company_menu_ok : menu_ok "/dashboard" company_menuItems.
Proof. split; [|split]; apply (bool_decide_unpack _); vm_compute; reflexivity. Qed.

(** ** Properties *)

(** C10: every URL settles: following the route table and the guard's
    redirects from any URL, in any session state, ends on a page or the
    spinner after at most two redirects. *)
Theorem navigate_total ctx path : exists v q, navigate 3 ctx path = Some (v, q).
Proof.
  rewrite navigate_S. destruct (render ctx path) as [v|to] eqn:Hr; [eauto|].
  apply navigate_targets. by eapply render_redirect.
Qed.

(** C9: the guard protects the layouts: whatever URL is visited and
    however many redirects are followed, a page inside the admin layout
    is shown only to a signed-in global administrator and a page inside
    the company layout only to a signed-in trade company user, once the
    session has loaded. *)
Theorem layout_requires_role fuel ctx path l p q :
  navigate fuel ctx path = Some (VPage (Some l) p, q) ->
  loading ctx = false /\ exists u, user ctx = Some u /\ SessionUser.role u = layout_role l.
Proof.
  revert path. induction fuel as [|fuel IH]; intros path; [done|].
  rewrite navigate_S. destruct (render ctx path) eqn:Hr.
  - intros [= -> _]. by eapply render_layout.
  - apply IH.
Qed.

Lemma layout_requires_role_witness :
  navigate 3 (AuthContext.login 5%N "admin@quotehub.com" "demo123" (initial None)).1 "/admin/trades" =
    Some (VPage (Some AdminLayout) TradeManagement, "/admin/trades") /\
  exists u, user (AuthContext.login 5%N "admin@quotehub.com" "demo123" (initial None)).1 = Some u /\
    SessionUser.role u = global_app_admin.
Proof.
  assert (H : navigate 3 (AuthContext.login 5%N "admin@quotehub.com" "demo123" (initial None)).1 "/admin/trades" =
                Some (VPage (Some AdminLayout) TradeManagement, "/admin/trades")) by reflexivity.
  split; [exact H|]. exact (proj2 (layout_requires_role _ _ _ _ _ _ H)).
Defined.

(** C17: the login form's redirect reads the role flags captured before
    the login, so from a signed-out session a successful submit always
    navigates to [/]; the guard of [/] then still lands each role on its
    own dashboard. *)
Theorem login_submit_lands_home now f ctx ctx' to :
  user ctx = None -> handleSubmit now f ctx = (ctx', Some to) ->
  to = "/" /\ exists u, user ctx' = Some u /\ navigate 3 ctx' to = Some (home (SessionUser.role u)).
Proof.
  intros Hu. unfold handleSubmit, isGlobalAdmin, isTradeCompanyUser. rewrite Hu.
  case_match; [intros [=]|].
  destruct (AuthContext.login now (f_email f) (f_password f) ctx) as [c [[]|e]] eqn:Hl; intros [= -> <-].
  split; [done|]. destruct (login_Ok_cases _ _ _ _ _ Hl) as [[He Hp]|[He Hp]]; rewrite He, Hp in Hl.
  - exists (of_user (demoAdmin now)). pose proof (login_home_admin now ctx) as Hn. rewrite Hl in Hn.
    split; [|exact Hn].
    assert (Hc : user (AuthContext.login now "admin@quotehub.com" "demo123" ctx).1 = Some (of_user (demoAdmin now))) by reflexivity.
    by rewrite Hl in Hc.
  - exists (of_user (demoUser now)). pose proof (login_home_company now ctx) as Hn. rewrite Hl in Hn.
    split; [|exact Hn].
    assert (Hc : user (AuthContext.login now "john@acmeelectrical.com" "demo123" ctx).1 = Some (of_user (demoUser now))) by reflexivity.
    by rewrite Hl in Hc.
Qed.

Lemma login_submit_lands_home_witness :
  user (initial None) = None /\
  handleSubmit 5%N (mk_form "admin@quotehub.com" "demo123") (initial None) =
    ((AuthContext.login 5%N "admin@quotehub.com" "demo123" (initial None)).1, Some "/") /\
  navigate 3 (AuthContext.login 5%N "admin@quotehub.com" "demo123" (initial None)).1 "/" =
    Some (VPage (Some AdminLayout) AdminDashboard, "/admin").
Proof.
  assert (H1 : user (initial None) = None) by reflexivity.
  assert (H2 : handleSubmit 5%N (mk_form "admin@quotehub.com" "demo123") (initial None) =
    ((AuthContext.login 5%N "admin@quotehub.com" "demo123" (initial None)).1, Some "/")) by reflexivity.
  split; [exact H1|]. split; [exact H2|].
  destruct (login_submit_lands_home _ _ _ _ _ H1 H2) as (_ & u & Hu & Hn).
  assert (Hu' : user (AuthContext.login 5%N "admin@quotehub.com" "demo123" (initial None)).1 = Some (of_user (demoAdmin 5%N)))
    by reflexivity.
  rewrite Hu' in Hu. injection Hu as <-. exact Hn.
Defined.

(** each layout's sidebar highlights at most one item, whatever the
    URL: no two menu paths are prefixes of one another, and the dashboard
    item is only highlighted on its own path. *)
Theorem menus_single_active pathname :
  length (active_items "/admin" admin_menuItems pathname) <= 1 /\
  length (active_items "/dashboard" company_menuItems pathname) <= 1.
Proof. split; apply menu_ok_active; [apply admin_menu_ok|apply company_menu_ok]. Qed.

(** Clicking a sidebar link closes the sidebar and highlights that link
    alone, in both layouts. *)
Theorem click_item_highlights (i : MenuItem) (st : layout_state) :
  (i ∈ admin_menuItems ->
   sidebarOpen (layout_step admin_menuItems (ClickItem i) st) = false /\
   active_items "/admin" admin_menuItems (pathname (layout_step admin_menuItems (ClickItem i) st)) = [i]) /\
  (i ∈ company_menuItems ->
   sidebarOpen (layout_step company_menuItems (ClickItem i) st) = false /\
   active_items "/dashboard" company_menuItems (pathname (layout_step company_menuItems (ClickItem i) st)) = [i]).
Proof.
  split; intros Hi; cbn [layout_step]; rewrite bool_decide_eq_true_2 by done; split; [done| |done|];
    cbn [pathname]; rewrite <-(string_append_nil_r (item_path i)); apply active_items_below; try done.
  - apply admin_menu_ok.
  - apply company_menu_ok.
Qed.

End Routing.
