(* ===== verification/UserManagement.v ===== *)
(** * The user management page

    [src/src/pages/admin/UserManagement.tsx]: the constant mock users and
    companies, the page's React state (search text, role and company
    filters, selected user ids, dialogs), the rows and stats it renders,
    and the handlers of its checkboxes and filters, with the page's
    events as an Inductive and [step]. *)

From Stdlib Require Import Ascii.
From S2P Require Import Prelude JsString Types Auth.

Module UserManagement.

Definition users : list User.t :=
  [ User.mk "admin1" "admin@quotehub.com" "Admin User" global_app_admin None
      (JsString.date_utc 2024 1 1) (JsString.date_utc 2024 6 1);
    User.mk "user1" "john@acmeelectrical.com" "John Smith" trade_company_user (Some "acme-electrical")
      (JsString.date_utc 2024 1 16) (JsString.date_utc 2024 6 1);
    User.mk "user2" "sarah@acmeelectrical.com" "Sarah Johnson" trade_company_user (Some "acme-electrical")
      (JsString.date_utc 2024 1 20) (JsString.date_utc 2024 5 20);
    User.mk "user3" "mike@solarpro.com" "Mike Wilson" trade_company_user (Some "solar-pro")
      (JsString.date_utc 2024 2 21) (JsString.date_utc 2024 5 15);
    User.mk "user4" "lisa@quickplumbing.com" "Lisa Brown" trade_company_user (Some "quick-plumbing")
      (JsString.date_utc 2024 3 11) (JsString.date_utc 2024 4 5) ].

Definition companies : list Company.t :=
  [ Company.mk "acme-electrical" "Acme Electrical Services" ["electrical"; "solar"] company_active "admin_user"
      (JsString.date_utc 2024 1 15) (JsString.date_utc 2024 6 1);
    Company.mk "solar-pro" "Solar Pro Solutions" ["solar"] company_active "admin_user"
      (JsString.date_utc 2024 2 20) (JsString.date_utc 2024 5 15);
    Company.mk "quick-plumbing" "Quick Plumbing Co." ["plumbing"] company_inactive "admin_user"
      (JsString.date_utc 2024 3 10) (JsString.date_utc 2024 4 5) ].

Record state := mk {
  searchTerm : string;
  roleFilter : string;
  companyFilter : string;
  selectedUsers : list string;
  isAddUserOpen : bool;
  isBulkActionOpen : bool }.

Definition initial : state := mk "" "all" "all" [] false false.

(** [!user.company_id]: [undefined] and [''] are falsy. *)
Definition no_company (u : User.t) : bool :=
  match User.company_id u with None => true | Some c => c === EmptyString end.

Definition matchesSearch (term : string) (u : User.t) : bool :=
  JsString.matches (User.name u) term || JsString.matches (User.email u) term.

Definition matchesRole (roleFilter : string) (u : User.t) : bool :=
  (roleFilter === "all") || (role_str (User.role u) === roleFilter).

Definition matchesCompany (companyFilter : string) (u : User.t) : bool :=
  (companyFilter === "all") || ((companyFilter === "none") && no_company u) ||
  (User.company_id u === Some companyFilter).

Definition filteredUsers (st : state) : list User.t :=
  List.filter (fun u => matchesSearch (searchTerm st) u && matchesRole (roleFilter st) u &&
                        matchesCompany (companyFilter st) u) users.

Definition getCompanyName (companyId : option string) : string :=
  match companyId with
  | None => "No Company"
  | Some c =>
      if c === EmptyString then "No Company" else
      match find (fun co => Company.company_id co === c) companies with
      | Some co => JsString.or_default (Company.name co) "Unknown Company"
      | None => "Unknown Company"
      end
  end.

(** The avatar: [user.name.split(' ').map(n => n[0]).join('')]. *)
Definition initials (name : string) : string :=
  JsString.join EmptyString (map JsString.first_char (JsString.split " " name)).

Definition role_label (r : Role) : string :=
  match r with global_app_admin => "Global Admin" | trade_company_user => "Company User" end.

Definition with_selected (sel : list string) (st : state) : state :=
  mk (searchTerm st) (roleFilter st) (companyFilter st) sel (isAddUserOpen st) (isBulkActionOpen st).

Definition handleSelectUser (userId : string) (st : state) : state :=
  with_selected (if bool_decide (userId ∈ selectedUsers st)
                 then List.filter (fun id => negb (id === userId)) (selectedUsers st)
                 else selectedUsers st ++ [userId]) st.

(** The header checkbox compares the lengths only. *)
Definition all_checked (st : state) : bool := length (selectedUsers st) =? length (filteredUsers st).

Definition handleSelectAll (st : state) : state :=
  with_selected (if all_checked st then [] else User.uid <$> filteredUsers st) st.

Definition row_checked (st : state) (uid : string) : bool := bool_decide (uid ∈ selectedUsers st).

(** The stats cards. *)
Definition total_users : nat := length users.
Definition global_admins : nat := length (List.filter (fun u => User.role u === global_app_admin) users).
Definition company_users : nat := length (List.filter (fun u => User.role u === trade_company_user) users).

(** [getRoleIcon] and [getRoleBadgeVariant], on the role's string. *)
Inductive RoleIcon := CrownYellow | UserCheckBlue | UserXGray.

Definition getRoleIcon (role : string) : RoleIcon :=
  if role === "global_app_admin" then CrownYellow
  else if role === "trade_company_user" then UserCheckBlue
  else UserXGray.

Definition getRoleBadgeVariant (role : string) : string :=
  if role === "global_app_admin" then "default"
  else if role === "trade_company_user" then "secondary"
  else "outline".

(** The role cell of a row: icon, badge variant, badge text. *)
Definition role_cell (u : User.t) : RoleIcon * string * string :=
  (getRoleIcon (role_str (User.role u)), getRoleBadgeVariant (role_str (User.role u)), role_label (User.role u)).

(** The add dialog's options: (value, text). *)
Definition add_role_options : list (string * string) :=
  [("trade_company_user", "Trade Company User"); ("global_app_admin", "Global App Admin")].

Definition add_company_options : list (string * string) :=
  ("none", "No Company") :: map (fun c => (Company.company_id c, Company.name c)) companies.

(** The "Bulk Actions (n)" button, rendered only while a user is
    selected, and the dialog's buttons, which have no handler. *)
Definition bulk_button (st : state) : option string :=
  if 0 <? length (selectedUsers st)
  then Some ("Bulk Actions (" +:+ JsString.string_of_N (N.of_nat (length (selectedUsers st))) +:+ ")")
  else None.

Definition bulk_actions : list string :=
  ["Send Password Reset Email"; "Change Role"; "Reassign Company"; "Export Selected Users"; "Delete Selected Users"].

(** The Recent User Activity card: (action, user, time). *)
Definition recent_activity : list (string * string * string) :=
  [ ("User created", "mike@solarpro.com", "2 hours ago");
    ("Role changed", "sarah@acmeelectrical.com", "4 hours ago");
    ("Password reset", "john@acmeelectrical.com", "1 day ago");
    ("Company assigned", "lisa@quickplumbing.com", "2 days ago") ].

(** The bulk dialog's text: [selected user{length !== 1 ? 's' : ''}]. *)
Definition bulk_label (st : state) : string :=
  "Perform actions on " +:+ JsString.string_of_N (N.of_nat (length (selectedUsers st))) +:+ " selected user" +:+
  (if length (selectedUsers st) =? 1 then EmptyString else "s").

Inductive event :=
  | SetSearch (s : string)
  | SetRole (r : string)
  | SetCompany (c : string)
  | ClickRow (i : nat)          (** the checkbox of the [i]-th listed user *)
  | ClickSelectAll
  | ClearFilters                (** the empty list's "Clear Filters" button *)
  | SetAddUserOpen (b : bool)
  | SetBulkOpen (b : bool)
  | ClickCreateUser.            (** the add dialog's "Create User": [setIsAddUserOpen(false)] *)

Definition step (e : event) (st : state) : state :=
  match e with
  | SetSearch s => mk s (roleFilter st) (companyFilter st) (selectedUsers st) (isAddUserOpen st) (isBulkActionOpen st)
  | SetRole r => mk (searchTerm st) r (companyFilter st) (selectedUsers st) (isAddUserOpen st) (isBulkActionOpen st)
  | SetCompany c => mk (searchTerm st) (roleFilter st) c (selectedUsers st) (isAddUserOpen st) (isBulkActionOpen st)
  | ClickRow i =>
      match filteredUsers st !! i with
      | Some u => handleSelectUser (User.uid u) st
      | None => st
      end
  | ClickSelectAll => handleSelectAll st
  | ClearFilters => mk EmptyString (roleFilter st) (companyFilter st) (selectedUsers st) (isAddUserOpen st) (isBulkActionOpen st)
  | SetAddUserOpen b => mk (searchTerm st) (roleFilter st) (companyFilter st) (selectedUsers st) b (isBulkActionOpen st)
  | SetBulkOpen b => mk (searchTerm st) (roleFilter st) (companyFilter st) (selectedUsers st) (isAddUserOpen st) b
  | ClickCreateUser => mk (searchTerm st) (roleFilter st) (companyFilter st) (selectedUsers st) false (isBulkActionOpen st)
  end.

Definition run (es : list event) (st : state) : state := foldl (fun st e => step e st) st es.

(** ** Specification helpers *)

(** The selection names distinct users of the page. *)
Definition sel_ok (st : state) : Prop :=
  NoDup (selectedUsers st) /\ selectedUsers st ⊆ User.uid <$> users.

(** ** Lemmas *)

Lemma users_uids_NoDup : NoDup (User.uid <$> users).
Proof. apply (bool_decide_unpack _). vm_compute. reflexivity. Qed.

Lemma filteredUsers_sub st : filteredUsers st ⊆ users.
Proof. intros u Hu. unfold filteredUsers in Hu. by apply elem_of_filter_In in Hu as [? _]. Qed.

Lemma filteredUsers_uids_NoDup st : NoDup (User.uid <$> filteredUsers st).
Proof. apply NoDup_fmap_filter, users_uids_NoDup. Qed.

Lemma with_selected_ok sel st : NoDup sel -> sel ⊆ User.uid <$> users -> sel_ok (with_selected sel st).
Proof. by split. Qed.

Lemma handleSelectUser_ok uid st : uid ∈ User.uid <$> users -> sel_ok st -> sel_ok (handleSelectUser uid st).
Proof.
  intros Hu [Hnd Hsub]. unfold handleSelectUser. case_bool_decide as Hin; apply with_selected_ok.
  - apply NoDup_ListNoDup, List.NoDup_filter, NoDup_ListNoDup, Hnd.
  - intros x [Hx _]%elem_of_filter_In. by apply Hsub.
  - apply NoDup_app. split; [done|]. split; [set_solver|]. apply NoDup_singleton.
  - set_solver.
Qed.

Lemma handleSelectAll_ok st : sel_ok st -> sel_ok (handleSelectAll st).
Proof.
  intros Hok. unfold handleSelectAll. destruct (all_checked st); apply with_selected_ok.
  - constructor.
  - set_solver.
  - apply filteredUsers_uids_NoDup.
  - intros x (u & -> & Hu)%list_elem_of_fmap. apply list_elem_of_fmap_2. by apply (filteredUsers_sub st).
Qed.

Lemma step_ok e st : sel_ok st -> sel_ok (step e st).
Proof.
  intros Hok. destruct e; simpl; try exact Hok.
  - destruct (filteredUsers st !! i) as [u|] eqn:Hi; [|done]. apply handleSelectUser_ok; [|done].
    apply list_elem_of_fmap_2, (filteredUsers_sub st). by eapply list_elem_of_lookup_2.
  - by apply handleSelectAll_ok.
Qed.

Lemma sel_ok_run (es : list event) : sel_ok (run es initial).
Proof.
  unfold run. apply (foldl_invariant sel_ok (fun _ => True)); [by apply Forall_true| |].
  - intros st e _ Hst. by apply step_ok.
  - split; [constructor|set_solver].
Qed.

(** ** Properties *)

(** C26: the selection of the user table always lists distinct users of
    the page, whatever the sequence of filter changes, row clicks and
    select-all clicks. *)
Theorem selection_invariant es : sel_ok (run es initial).
Proof. apply sel_ok_run. Qed.

(** when every selected user is listed (and the selection has no
    duplicates), the header checkbox, which only compares the number of
    selected and listed users, is checked exactly when every listed user
    is selected. *)
Theorem all_checked_sound st :
  NoDup (selectedUsers st) -> selectedUsers st ⊆ User.uid <$> filteredUsers st ->
  all_checked st = true <-> User.uid <$> filteredUsers st ⊆ selectedUsers st.
Proof.
  intros Hnd Hsub. unfold all_checked. rewrite Nat.eqb_eq.
  pose proof (filteredUsers_uids_NoDup st) as Hnd2.
  rewrite <- (length_fmap User.uid (filteredUsers st)).
  apply NoDup_ListNoDup in Hnd, Hnd2. split.
  - intros Hlen x Hx. apply list_elem_of_In.
    apply (NoDup_length_incl (l := selectedUsers st) (l' := User.uid <$> filteredUsers st) Hnd); [lia| |by apply list_elem_of_In].
    intros y Hy. apply list_elem_of_In, Hsub, list_elem_of_In, Hy.
  - intros Hsup. apply Nat.le_antisymm; apply NoDup_incl_length; try done;
      intros y Hy; apply list_elem_of_In; [apply Hsub|apply Hsup]; by apply list_elem_of_In.
Qed.

Lemma all_checked_sound_witness :
  NoDup (selectedUsers (run [SetRole "global_app_admin"; ClickRow 0] initial)) /\
  selectedUsers (run [SetRole "global_app_admin"; ClickRow 0] initial) ⊆
    User.uid <$> filteredUsers (run [SetRole "global_app_admin"; ClickRow 0] initial) /\
  all_checked (run [SetRole "global_app_admin"; ClickRow 0] initial) = true.
Proof.
  assert (H1 : NoDup (selectedUsers (run [SetRole "global_app_admin"; ClickRow 0] initial)))
    by (vm_compute; repeat constructor; set_solver).
  assert (H2 : selectedUsers (run [SetRole "global_app_admin"; ClickRow 0] initial) ⊆
                 User.uid <$> filteredUsers (run [SetRole "global_app_admin"; ClickRow 0] initial))
    by (vm_compute; set_solver).
  split; [exact H1|]. split; [exact H2|]. apply (all_checked_sound _ H1 H2). vm_compute. set_solver.
Defined.

(** C27: The header checkbox and "select all" compare the number of
    selected users with the number listed, not the users: after any
    sequence of events, when as many users are selected as are listed
    but a listed user is not selected, the checkbox shows checked, a
    click clears the whole selection instead of selecting that user, and
    the selection holds a user the filters hide. *)
Theorem select_all_length_only (es : list event) (u : User.t) :
  let st := run es initial in
  length (selectedUsers st) = length (filteredUsers st) ->
  u ∈ filteredUsers st -> row_checked st (User.uid u) = false ->
  all_checked st = true /\ selectedUsers (step ClickSelectAll st) = [] /\
  exists v, v ∈ selectedUsers st /\ v ∉ User.uid <$> filteredUsers st.
Proof.
  cbv zeta. intros Hlen Hu Hr. destruct (sel_ok_run es) as [Hnd _].
  assert (Ha : all_checked (run es initial) = true) by (apply Nat.eqb_eq, Hlen).
  split; [done|split; [change (step ClickSelectAll (run es initial)) with (handleSelectAll (run es initial)); unfold handleSelectAll; by rewrite Ha|]].
  destruct (decide (Exists (fun v => v ∉ User.uid <$> filteredUsers (run es initial))
                           (selectedUsers (run es initial)))) as [Hex|Hnex].
  - apply Exists_exists in Hex as (v & Hv & Hn). exists v. split; done.
  - exfalso. assert (Hsub : selectedUsers (run es initial) ⊆ User.uid <$> filteredUsers (run es initial)).
    { intros v Hv. destruct (decide (v ∈ User.uid <$> filteredUsers (run es initial))) as [|Hn]; [done|].
      exfalso. apply Hnex, Exists_exists. exists v. split; done. }
    apply (all_checked_sound _ Hnd Hsub) in Ha. unfold row_checked in Hr.
    apply bool_decide_eq_false in Hr. apply Hr, Ha, list_elem_of_fmap_2, Hu.
Qed.

Lemma select_all_length_only_witness :
  let st := run [ClickRow 1; SetRole "global_app_admin"] initial in
  (length (selectedUsers st) = length (filteredUsers st) /\
   User.mk "admin1" "admin@quotehub.com" "Admin User" global_app_admin None
     (JsString.date_utc 2024 1 1) (JsString.date_utc 2024 6 1) ∈ filteredUsers st /\
   row_checked st "admin1" = false) /\
  all_checked st = true /\ selectedUsers (step ClickSelectAll st) = [] /\
  exists v, v ∈ selectedUsers st /\ v ∉ User.uid <$> filteredUsers st.
Proof.
  cbv zeta. assert (Hin : User.mk "admin1" "admin@quotehub.com" "Admin User" global_app_admin None
     (JsString.date_utc 2024 1 1) (JsString.date_utc 2024 6 1) ∈ filteredUsers (run [ClickRow 1; SetRole "global_app_admin"] initial))
    by (vm_compute; left).
  split; [split; [vm_compute; reflexivity|split; [exact Hin|vm_compute; reflexivity]]|].
  exact (select_all_length_only [ClickRow 1; SetRole "global_app_admin"] _ ltac:(vm_compute; reflexivity) Hin
           ltac:(vm_compute; reflexivity)).
Defined.

(** "Clear Filters" under an empty list only clears the search text:
    with the role filter on global admins and the company filter on
    Acme, the list is empty, and stays empty after the button. *)
Theorem clear_filters_keeps_empty :
  let st := run [SetRole "global_app_admin"; SetCompany "acme-electrical"] initial in
  filteredUsers st = [] /\ filteredUsers (step ClearFilters st) = [].
Proof. vm_compute. split; reflexivity. Qed.

(** typing more characters into the search box never adds a row:
    every user listed after the search text is extended was listed
    before, whatever the other filters. *)
Theorem search_narrows st x :
  filteredUsers (step (SetSearch (searchTerm st +:+ x)) st) ⊆ filteredUsers st.
Proof.
  intros u Hu. unfold filteredUsers in *. apply elem_of_filter_In in Hu as [Hu Hm].
  apply elem_of_filter_In. split; [done|]. simpl in Hm.
  apply andb_true_iff in Hm as [Hm Hc]. apply andb_true_iff in Hm as [Hs Hr].
  rewrite Hr, Hc, !andb_true_r. unfold matchesSearch in *.
  apply orb_true_iff in Hs as [Hs|Hs]; apply orb_true_iff; [left|right]; by eapply JsString.matches_app_l.
Qed.

(** The role cell agrees with the role badge's text for both roles: the
    admin gets the crown and the default badge, a company user the check
    and the secondary badge; the grey fallback is never shown.  Every
    user the activity card names is a user of the page's list. *)
Lemma role_cells_and_activity :
  role_cell (User.mk "a" "e" "n" global_app_admin None 0%N 0%N) = (CrownYellow, "default", "Global Admin") /\
  role_cell (User.mk "a" "e" "n" trade_company_user None 0%N 0%N) = (UserCheckBlue, "secondary", "Company User") /\
  Forall (fun a => a.1.2 ∈ User.email <$> users) recent_activity.
Proof. split; [reflexivity|split; [reflexivity|]]. apply (bool_decide_unpack _). vm_compute. exact I. Qed.

(** The bulk button is on screen exactly when a user is selected, and it
    counts the selection. *)
Lemma bulk_button_spec (st : state) :
  (bulk_button st = None <-> selectedUsers st = []) /\
  (forall b, bulk_button st = Some b ->
   b = "Bulk Actions (" +:+ JsString.string_of_N (N.of_nat (length (selectedUsers st))) +:+ ")").
Proof.
  unfold bulk_button. destruct (selectedUsers st) as [|x xs]; simpl; [split; [done|discriminate]|].
  split; [split; discriminate|]. intros b Hb. injection Hb. intros E. exact (eq_sym E).
Qed.

End UserManagement.
