(* ===== verification/CompanyManagement.v ===== *)
(** * The company management page

    [src/src/pages/admin/CompanyManagement.tsx]: the constant mock
    companies, users and trades, the search and status filters, the
    companies table (trade badges, user counts), the users tab, the stats
    cards, the status icons and badges, and the add-company and
    assign-user dialogs, whose submit buttons only close the dialog. *)

From Stdlib Require Import Ascii QArith.
From S2P Require Import Prelude JsString Types Auth.

Definition status_str (s : CompanyStatus) : string :=
  match s with company_active => "active" | company_inactive => "inactive" end.

Module CompanyManagement.

Definition companies : list Company.t :=
  [ Company.mk "acme-electrical" "Acme Electrical Services" ["electrical"; "solar"] company_active "admin_user"
      (JsString.date_utc 2024 1 15) (JsString.date_utc 2024 6 1);
    Company.mk "solar-pro" "Solar Pro Solutions" ["solar"] company_active "admin_user"
      (JsString.date_utc 2024 2 20) (JsString.date_utc 2024 5 15);
    Company.mk "quick-plumbing" "Quick Plumbing Co." ["plumbing"] company_inactive "admin_user"
      (JsString.date_utc 2024 3 10) (JsString.date_utc 2024 4 5) ].

Definition users : list User.t :=
  [ User.mk "user1" "john@acmeelectrical.com" "John Smith" trade_company_user (Some "acme-electrical")
      (JsString.date_utc 2024 1 16) (JsString.date_utc 2024 6 1);
    User.mk "user2" "sarah@acmeelectrical.com" "Sarah Johnson" trade_company_user (Some "acme-electrical")
      (JsString.date_utc 2024 1 20) (JsString.date_utc 2024 5 20);
    User.mk "user3" "mike@solarpro.com" "Mike Wilson" trade_company_user (Some "solar-pro")
      (JsString.date_utc 2024 2 21) (JsString.date_utc 2024 5 15) ].

(** The trades, stamped with the render's [new Date()]. *)
Definition trades (now : timestamp) : list Trade.t :=
  [ Trade.mk "solar" "Solar Installation" "Solar panel installation and maintenance" true now now;
    Trade.mk "electrical" "Electrical Services" "General electrical work and repairs" true now now;
    Trade.mk "plumbing" "Plumbing Services" "Plumbing installation and repairs" true now now ].

Record state := mk {
  searchTerm : string;
  statusFilter : string;
  isAddCompanyOpen : bool;
  isAssignUserOpen : bool;
  selectedCompany : option Company.t }.

Definition initial : state := mk "" "all" false false None.

Definition filteredCompanies (st : state) : list Company.t :=
  List.filter (fun c => JsString.matches (Company.name c) (searchTerm st) &&
                        ((statusFilter st === "all") || (status_str (Company.status c) === statusFilter st)))
    companies.

Definition getCompanyUsers (companyId : string) : list User.t :=
  List.filter (fun u => User.company_id u === Some companyId) users.

Definition trade_name (now : timestamp) (tradeId : string) : string :=
  match find (fun t => Trade.trade_id t === tradeId) (trades now) with
  | Some t => JsString.or_default (Trade.name t) tradeId
  | None => tradeId
  end.

(** [getTradeNames]: [trade ? trade.name : id], joined with [', ']. *)
Definition getTradeNames (now : timestamp) (tradeIds : list string) : string :=
  JsString.join ", " (map (fun id => match find (fun t => Trade.trade_id t === id) (trades now) with
                                     | Some t => Trade.name t
                                     | None => id
                                     end) tradeIds).

(** A row of the companies table: name, trade badges
    ([trade?.name || tradeId]), number of users, status. *)
Definition company_row (now : timestamp) (c : Company.t) : string * list string * nat * string :=
  (Company.name c, map (trade_name now) (Company.assigned_trades c), length (getCompanyUsers (Company.company_id c)),
   status_str (Company.status c)).

(** A row of the users tab: the company is [companies.find(...)?.name ||
    'No Company']. *)
Definition user_company_name (u : User.t) : string :=
  match find (fun c => Some (Company.company_id c) === User.company_id u) companies with
  | Some c => JsString.or_default (Company.name c) "No Company"
  | None => "No Company"
  end.

(** The stats cards. *)
Definition active_count : nat := length (List.filter (fun c => Company.status c === company_active) companies).

Definition active_percent : Z :=
  JsString.math_round ((inject_Z (Z.of_nat active_count) / inject_Z (Z.of_nat (length companies))) * 100).

Definition avg_users : string :=
  JsString.toFixed (inject_Z (Z.of_nat (length users)) / inject_Z (Z.of_nat (length companies))) 1.

(** [getStatusIcon]: the icon and its colour; any other string falls to
    the grey cross. *)
Inductive StatusIcon := CheckCircleGreen | XCircleRed | ClockYellow | XCircleGray.

Definition getStatusIcon (status : string) : StatusIcon :=
  if status === "active" then CheckCircleGreen
  else if status === "inactive" then XCircleRed
  else if status === "pending" then ClockYellow
  else XCircleGray.

(** The status badge: [company.status === 'active' ? 'default' : 'secondary']. *)
Definition status_badge (c : Company.t) : string * StatusIcon * string :=
  (if Company.status c === company_active then "default" else "secondary",
   getStatusIcon (status_str (Company.status c)), status_str (Company.status c)).

(** The users tab's role badge:
    [user.role === 'trade_company_user' ? 'Company User' : user.role]. *)
Definition role_badge (r : Role) : string :=
  if r === trade_company_user then "Company User" else role_str r.

(** A row of the users tab: name, email, company, role badge. *)
Definition user_row (u : User.t) : string * string * string * string :=
  (User.name u, User.email u, user_company_name u, role_badge (User.role u)).

(** The status filter's options, and the add dialog's trade options. *)
Definition status_options : list string := ["all"; "active"; "inactive"; "pending"].

Definition add_dialog_trades (now : timestamp) : list (string * string) :=
  map (fun t => (Trade.trade_id t, Trade.name t)) (trades now).

(** The assign dialog's description. *)
Definition assign_description (st : state) : string :=
  match selectedCompany st with
  | Some c => "Add a user to " +:+ Company.name c
  | None => "Select a company first"
  end.

Inductive event :=
  | SetSearch (s : string)
  | SetStatus (s : string)
  | ClickAssign (i : nat)       (** the users button of the [i]-th listed company *)
  | SetAddOpen (b : bool)
  | SetAssignOpen (b : bool)
  | ClickCreateCompany           (** [onClick={() => setIsAddCompanyOpen(false)}] *)
  | ClickCreateUser.             (** [onClick={() => setIsAssignUserOpen(false)}] *)

Definition step (e : event) (st : state) : state :=
  match e with
  | SetSearch s => mk s (statusFilter st) (isAddCompanyOpen st) (isAssignUserOpen st) (selectedCompany st)
  | SetStatus f => mk (searchTerm st) f (isAddCompanyOpen st) (isAssignUserOpen st) (selectedCompany st)
  | ClickAssign i =>
      match filteredCompanies st !! i with
      | Some c => mk (searchTerm st) (statusFilter st) (isAddCompanyOpen st) true (Some c)
      | None => st
      end
  | SetAddOpen b => mk (searchTerm st) (statusFilter st) b (isAssignUserOpen st) (selectedCompany st)
  | SetAssignOpen b => mk (searchTerm st) (statusFilter st) (isAddCompanyOpen st) b (selectedCompany st)
  | ClickCreateCompany => mk (searchTerm st) (statusFilter st) false (isAssignUserOpen st) (selectedCompany st)
  | ClickCreateUser => mk (searchTerm st) (statusFilter st) (isAddCompanyOpen st) false (selectedCompany st)
  end.

Definition run (es : list event) (st : state) : state := foldl (fun st e => step e st) st es.

(** ** Lemmas *)

(** The two submit buttons close their dialog and change nothing else:
    the "Create Company" and "Create User" forms are uncontrolled inputs
    whose values are never read, so no company or user is added and the
    tables keep their rows. *)
Lemma create_buttons_discard (st : state) :
  step ClickCreateCompany st = step (SetAddOpen false) st /\
  step ClickCreateUser st = step (SetAssignOpen false) st /\
  filteredCompanies (step ClickCreateCompany st) = filteredCompanies st /\
  filteredCompanies (step ClickCreateUser st) = filteredCompanies st.
Proof. by repeat split. Qed.

(** Every mock company shows its status as the icon of that status, never
    the grey fallback; the users tab shows an admin's raw role string where
    the user management page shows "Global Admin". *)
Lemma status_badges_and_roles :
  Forall (fun c => (status_badge c).1.2 <> XCircleGray) companies /\
  map (fun u => (user_row u).2) users = ["Company User"; "Company User"; "Company User"] /\
  role_badge global_app_admin = "global_app_admin".
Proof. split; [repeat constructor; discriminate|split; reflexivity]. Qed.

End CompanyManagement.
