(* ===== verification/TradeManagement.v ===== *)
(** * The trade management page

    [src/src/pages/admin/TradeManagement.tsx]: the constant mock trades,
    quote fields and templates, the one search text shared by the three
    tabs, the trade selector, the rows and cards each tab draws, the Add
    Trade and Add Field dialogs, and the modal dialog that mounts the
    conversational flow builder ([FlowBuilderUI]) on a template.  A Radix
    dialog renders its content only while open: opening the builder
    mounts a fresh [ConversationalFlowBuilder], whose state starts from
    its [useState] initial nodes, and closing it unmounts that state.
    While the modal is open the page behind it takes no clicks. *)

From Stdlib Require Import Ascii.
From S2P Require Import Prelude JsString Types FlowBuilder FlowBuilderUI.

Module TradeManagement.

Definition trades : list Trade.t :=
  [ Trade.mk "solar" "Solar Installation" "Solar panel installation and maintenance services" true
      (JsString.date_utc 2024 1 15) (JsString.date_utc 2024 6 1);
    Trade.mk "electrical" "Electrical Services" "General electrical work and repairs" true
      (JsString.date_utc 2024 1 10) (JsString.date_utc 2024 5 20);
    Trade.mk "plumbing" "Plumbing Services" "Plumbing installation and repair services" false
      (JsString.date_utc 2024 2 1) (JsString.date_utc 2024 3 15) ].

Definition quoteFields (now : timestamp) : list QuoteField.t :=
  [ QuoteField.mk "customer_name" "Customer Name" dt_text "Customer Info" (Some "Full name of the customer")
      None true None now now;
    QuoteField.mk "project_location" "Project Location" dt_text "Project Details"
      (Some "Address where work will be performed") None true None now now;
    QuoteField.mk "roof_type" "Roof Type" dt_select "Solar Specific" (Some "Type of roof for solar installation")
      None false (Some ["Tile"; "Metal"; "Flat"; "Concrete"]) now now ].

Definition templates (now : timestamp) : list TradeTemplate.t :=
  [ TradeTemplate.mk "solar_basic" "Basic Solar Quote" standard_form true now now;
    TradeTemplate.mk "solar_conversation" "Solar Consultation Flow" conversational_flow true now now ].

Record state := mk {
  selectedTrade : string;
  searchTerm : string;
  isAddTradeOpen : bool;
  isAddFieldOpen : bool;
  isFlowBuilderOpen : bool;
  selectedTemplate : option TradeTemplate.t;
  builder : option FlowBuilder.state }.   (** the mounted builder's state, while the dialog is open *)

Definition initial : state := mk "solar" "" false false false None None.

Definition filteredTrades (st : state) : list Trade.t :=
  List.filter (fun t => JsString.matches (Trade.name t) (searchTerm st) ||
                        JsString.matches (Trade.description t) (searchTerm st)) trades.

Definition filteredFields (now : timestamp) (st : state) : list QuoteField.t :=
  List.filter (fun f => JsString.matches (QuoteField.name f) (searchTerm st) ||
                        JsString.matches (QuoteField.category f) (searchTerm st)) (quoteFields now).

Definition filteredTemplates (now : timestamp) (st : state) : list TradeTemplate.t :=
  List.filter (fun t => JsString.matches (TradeTemplate.name t) (searchTerm st)) (templates now).

(** The template card's badge and its "Edit Flow" button. *)
Definition template_badge (t : TradeTemplate.t) : string :=
  if TradeTemplate.type t === conversational_flow then "Flow" else "Form".

Definition has_edit_flow (t : TradeTemplate.t) : bool := TradeTemplate.type t === conversational_flow.

(** ** What the tabs draw *)

Definition data_type_str (d : DataType) : string :=
  match d with
  | dt_text => "text" | dt_number => "number" | dt_date => "date"
  | dt_boolean => "boolean" | dt_select => "select" | dt_multiselect => "multiselect"
  end.

(** A row of the trades table: name, description, status badge. *)
Definition trade_row (t : Trade.t) : string * string * string :=
  (Trade.name t, Trade.description t, if Trade.is_active t then "Active" else "Inactive").

(** A row of the quote fields table: name, data type, category, badge. *)
Definition field_row (f : QuoteField.t) : string * string * string * string :=
  (QuoteField.name f, data_type_str (QuoteField.dataType f), QuoteField.category f,
   if QuoteField.is_globally_mandatory f then "Required" else "Optional").

(** A template card: title, badge, description, whether it has "Edit Flow". *)
Definition template_card (t : TradeTemplate.t) : string * string * string * bool :=
  (TradeTemplate.name t, template_badge t,
   if TradeTemplate.type t === conversational_flow then "Interactive conversational flow"
   else "Standard form template", has_edit_flow t).

(** The trade selector's items: every trade, active or not. *)
Definition trade_options : list (string * string) := (fun t => (Trade.trade_id t, Trade.name t)) <$> trades.

(** The page's three tabs: (value, label). *)
Definition tabs : list (string * string) :=
  [("trades", "Trades List"); ("fields", "Quote Fields"); ("templates", "Templates & Flows")].

(** The Add Quote Field dialog's Data Type options: (value, text). *)
Definition data_type_options : list (string * string) :=
  [("text", "Text"); ("number", "Number"); ("date", "Date"); ("boolean", "Boolean");
   ("select", "Select"); ("multiselect", "Multi Select")].

(** The builder dialog's description. *)
Definition builder_description (st : state) : string :=
  match selectedTemplate st with
  | Some t => "Editing: " +:+ TradeTemplate.name t
  | None => "Create new conversational flow"
  end.

Inductive event :=
  | SetSearch (s : string)        (** any of the three tabs' search boxes *)
  | SelectTrade (t : string)      (** the trade selector of the fields and templates tabs *)
  | EditFlow (i : nat)            (** "Edit Flow" on the [i]-th listed template *)
  | SetAddTradeOpen (b : bool)    (** the trigger, Cancel, Create Trade, or closing the dialog *)
  | SetAddFieldOpen (b : bool)    (** the trigger, Cancel, Create Field, or closing the dialog *)
  | SetFlowBuilderOpen (b : bool) (** [onOpenChange] of the builder's dialog *)
  | CloseBuilder                  (** the builder's Cancel: [onClose] *)
  | Builder (e : FlowBuilderUI.ui_event).  (** an event inside the mounted builder *)

Definition with_flags (st : state) (trade : bool) (field : bool) : state :=
  mk (selectedTrade st) (searchTerm st) trade field (isFlowBuilderOpen st) (selectedTemplate st) (builder st).

(** [setIsFlowBuilderOpen(b)]: opening mounts a fresh builder, closing
    unmounts it. *)
Definition set_builder_open (b : bool) (st : state) : state :=
  mk (selectedTrade st) (searchTerm st) (isAddTradeOpen st) (isAddFieldOpen st) b (selectedTemplate st)
     (if b then (if isFlowBuilderOpen st then builder st else Some FlowBuilder.initial_state) else None).

Definition step (now : timestamp) (e : event) (st : state) : state :=
  match e with
  | SetSearch s =>
      if isFlowBuilderOpen st then st
      else mk (selectedTrade st) s (isAddTradeOpen st) (isAddFieldOpen st) (isFlowBuilderOpen st) (selectedTemplate st) (builder st)
  | SelectTrade t =>
      if isFlowBuilderOpen st then st
      else mk t (searchTerm st) (isAddTradeOpen st) (isAddFieldOpen st) (isFlowBuilderOpen st) (selectedTemplate st) (builder st)
  | EditFlow i =>
      if isFlowBuilderOpen st then st else
      match filteredTemplates now st !! i with
      | Some t =>
          if has_edit_flow t
          then set_builder_open true
                 (mk (selectedTrade st) (searchTerm st) (isAddTradeOpen st) (isAddFieldOpen st) false (Some t) (builder st))
          else st
      | None => st
      end
  | SetAddTradeOpen b => if isFlowBuilderOpen st then st else with_flags st b (isAddFieldOpen st)
  | SetAddFieldOpen b => if isFlowBuilderOpen st then st else with_flags st (isAddTradeOpen st) b
  | SetFlowBuilderOpen b => set_builder_open b st
  | CloseBuilder => if isFlowBuilderOpen st then set_builder_open false st else st
  | Builder e =>
      match builder st with
      | Some b => mk (selectedTrade st) (searchTerm st) (isAddTradeOpen st) (isAddFieldOpen st)
                     (isFlowBuilderOpen st) (selectedTemplate st) (Some (FlowBuilderUI.ui_step e b))
      | None => st
      end
  end.

Definition run (now : timestamp) (es : list event) (st : state) : state := foldl (fun st e => step now e st) st es.

(** The builder dialog is only ever opened on a conversational flow. *)
Definition template_ok (st : state) : Prop :=
  match selectedTemplate st with
  | Some t => TradeTemplate.type t = conversational_flow
  | None => True
  end.

Lemma step_template_ok now e st : template_ok st -> template_ok (step now e st).
Proof.
  intros Hst. destruct e; simpl; repeat case_match; simplify_eq/=; try done.
  match goal with H : has_edit_flow _ = true |- _ => unfold has_edit_flow in H; by apply bool_decide_eq_true in H end.
Qed.

(** "Edit Flow" is only offered on conversational-flow templates, so
    whatever the sequence of searches, trade selections and clicks, the
    template the builder dialog edits is a conversational flow. *)
Theorem flow_builder_template now es : template_ok (run now es initial).
Proof.
  unfold run. apply (foldl_invariant template_ok (fun _ => True)); [by apply Forall_true| |done].
  intros st e _ Hst. by apply step_template_ok.
Qed.

(** What the page shows around the dialog. *)
Definition page (st : state) :=
  (selectedTrade st, searchTerm st, isAddTradeOpen st, isAddFieldOpen st, isFlowBuilderOpen st, selectedTemplate st).

Lemma run_builder_page now es st :
  page (run now (Builder <$> es) st) = page st /\
  (is_Some (builder st) -> is_Some (builder (run now (Builder <$> es) st))).
Proof.
  unfold run. revert st. induction es as [|e es IH]; intros st; [done|].
  rewrite fmap_cons. cbn [foldl]. destruct (IH (step now (Builder e) st)) as [Hp Hs]. rewrite Hp.
  split; [unfold step; by destruct (builder st)|].
  intros [b Hb]. apply Hs. unfold step. rewrite Hb. by eexists.
Qed.

(** The trade selector filters nothing: the fields and templates listed do
    not depend on the selected trade. *)
Lemma selected_trade_unused now st t :
  filteredFields now (step now (SelectTrade t) st) = filteredFields now st /\
  filteredTemplates now (step now (SelectTrade t) st) = filteredTemplates now st.
Proof. simpl. by destruct (isFlowBuilderOpen st). Qed.

Lemma page_eq st st' :
  page st = page st' -> searchTerm st = searchTerm st' /\ isFlowBuilderOpen st = isFlowBuilderOpen st'.
Proof. unfold page. intros H. injection H. auto. Qed.

Lemma filteredTemplates_search now st st' :
  searchTerm st = searchTerm st' -> filteredTemplates now st = filteredTemplates now st'.
Proof. unfold filteredTemplates. by intros ->. Qed.

Lemma close_builder_spec now st :
  isFlowBuilderOpen st = true ->
  isFlowBuilderOpen (step now CloseBuilder st) = false /\ searchTerm (step now CloseBuilder st) = searchTerm st.
Proof. intros H. simpl. by rewrite H. Qed.

Lemma edit_flow_opens now st i t :
  isFlowBuilderOpen st = false -> filteredTemplates now st !! i = Some t -> has_edit_flow t = true ->
  isFlowBuilderOpen (step now (EditFlow i) st) = true /\
  builder (step now (EditFlow i) st) = Some FlowBuilder.initial_state /\
  selectedTemplate (step now (EditFlow i) st) = Some t /\
  searchTerm (step now (EditFlow i) st) = searchTerm st.
Proof. intros Ho Ht He. simpl. by rewrite Ho, Ht, He. Qed.

(** C25: The builder dialog never loads a template's flow and keeps no
    edit: "Edit Flow" on a listed conversational-flow template mounts the
    builder on its own demonstration nodes (only the toolbar title comes
    from the template), and after any interaction inside the builder,
    Cancel and a second "Edit Flow" show the demonstration nodes again. *)
Theorem builder_ignores_template now st es i t :
  isFlowBuilderOpen st = false -> filteredTemplates now st !! i = Some t -> has_edit_flow t = true ->
  let st1 := step now (EditFlow i) st in
  let st2 := run now ((Builder <$> es) ++ [CloseBuilder; EditFlow i]) st1 in
  builder st1 = Some FlowBuilder.initial_state /\
  FlowBuilderUI.toolbar_title (selectedTemplate st1) = TradeTemplate.name t /\
  builder st2 = Some FlowBuilder.initial_state.
Proof.
  intros Ho Ht He. destruct (edit_flow_opens now st i t Ho Ht He) as (Ho1 & Hb1 & Hs1 & Hq1).
  cbv zeta. split; [done|]. split; [by rewrite Hs1|].
  set (st1 := step now (EditFlow i) st) in *.
  unfold run. rewrite foldl_app. fold (run now (Builder <$> es) st1).
  destruct (run_builder_page now es st1) as [Hp _].
  set (st3 := run now (Builder <$> es) st1) in *.
  destruct (page_eq _ _ Hp) as [Hq3 Ho3]. rewrite Ho1 in Ho3. rewrite Hq1 in Hq3.
  destruct (close_builder_spec now st3 Ho3) as [Hc Hqc]. cbn [foldl].
  refine (proj1 (proj2 (edit_flow_opens now (step now CloseBuilder st3) i t Hc _ He))).
  by rewrite (filteredTemplates_search now _ st), Ht by congruence.
Qed.

Lemma builder_ignores_template_witness :
  let es := [FlowBuilderUI.DropPalette question (Some (300, 260)%Z) (Some (0, 0)%Z) 9; FlowBuilderUI.ClickAddAnswer 10] in
  (isFlowBuilderOpen initial = false /\ filteredTemplates 0%N initial !! 1 = Some (TradeTemplate.mk "solar_conversation"
     "Solar Consultation Flow" conversational_flow true 0%N 0%N) /\ has_edit_flow (TradeTemplate.mk "solar_conversation"
     "Solar Consultation Flow" conversational_flow true 0%N 0%N) = true) /\
  (let st1 := step 0%N (EditFlow 1) initial in
   let st2 := run 0%N ((Builder <$> es) ++ [CloseBuilder; EditFlow 1]) st1 in
   builder st1 = Some FlowBuilder.initial_state /\
   FlowBuilderUI.toolbar_title (selectedTemplate st1) = "Solar Consultation Flow" /\
   builder st2 = Some FlowBuilder.initial_state).
Proof.
  split; [split; [reflexivity|split; reflexivity]|].
  apply (builder_ignores_template 0%N initial _ 1 (TradeTemplate.mk "solar_conversation"
     "Solar Consultation Flow" conversational_flow true 0%N 0%N)); reflexivity.
Defined.

(** The Data Type select offers exactly the strings the fields table
    prints for the six data types, each once. *)
Lemma data_type_options_complete :
  map fst data_type_options = map data_type_str [dt_text; dt_number; dt_date; dt_boolean; dt_select; dt_multiselect] /\
  (forall d : DataType, data_type_str d ∈ map fst data_type_options) /\
  NoDup (map fst data_type_options).
Proof.
  split; [reflexivity|split].
  - intros []; cbn; set_solver.
  - apply (bool_decide_unpack _). vm_compute. exact I.
Qed.

End TradeManagement.
