(* ===== verification/ProductsServices.v ===== *)
(** * The products and services page

    [src/src/pages/company/ProductsServices.tsx]: the constant product
    catalogue, the page's React state (margin rules, search text, category
    and type filters, dialogs, the toasts it shows), the filtered table
    with the prices it prints, the stats cards, the add dialog's options,
    the Margin Rules tab's cards, and the handlers of the margin rule
    dialog, with the page's events as an Inductive and [step].
    Prices are exact rationals; the [number] of an edited margin is the
    value [parseFloat] returned (a [NaN] from an empty input is not
    modelled). *)

From Stdlib Require Import QArith Qround ZArith Lqa.
From S2P Require Import Prelude JsString Types Auth.

Module ProductsServices.

Definition products : list ProductService.t :=
  [ ProductService.mk "elec-001" "ELEC-WIRE-001" "Electrical Wire - 2.5mm"
      (Some "High-quality electrical wire suitable for residential installations")
      material "Electrical Supplies" (31 # 2) "meter" 25 true
      (JsString.date_utc 2024 1 15) (JsString.date_utc 2024 6 1);
    ProductService.mk "elec-002" "ELEC-OUTLET-001" "Power Outlet - Double GPO"
      (Some "Standard double power outlet with safety switch")
      material "Electrical Fittings" 45 "each" 30 true
      (JsString.date_utc 2024 1 20) (JsString.date_utc 2024 5 20);
    ProductService.mk "labor-001" "LAB-ELECTRICIAN" "Licensed Electrician Labor"
      (Some "Hourly rate for qualified electrician work")
      labour "Labor" 85 "hour" 40 true
      (JsString.date_utc 2024 2 1) (JsString.date_utc 2024 5 15);
    ProductService.mk "serv-001" "SERV-INSPECTION" "Electrical Safety Inspection"
      (Some "Comprehensive electrical safety inspection service")
      service "Inspection Services" 150 "each" 35 true
      (JsString.date_utc 2024 2 10) (JsString.date_utc 2024 4 20) ].

Definition initial_marginRules : list MarginRule.t :=
  [ MarginRule.mk "Electrical Supplies" 25;
    MarginRule.mk "Electrical Fittings" 30;
    MarginRule.mk "Labor" 40;
    MarginRule.mk "Inspection Services" 35;
    MarginRule.mk "Equipment" 20 ].

Record state := mk {
  marginRules : list MarginRule.t;
  searchTerm : string;
  categoryFilter : string;
  typeFilter : string;
  isAddProductOpen : bool;
  isEditMarginOpen : bool;
  toasts : list toast }.

Definition initial : state := mk initial_marginRules "" "all" "all" false false [].

Definition type_str (t : ProductType) : string :=
  match t with
  | material => "material" | labour => "labour"
  | service => "service" | equipment => "equipment"
  end.

Definition matchesSearch (term : string) (p : ProductService.t) : bool :=
  JsString.matches (ProductService.name p) term ||
  JsString.matches (ProductService.sku p) term ||
  JsString.opt_matches (ProductService.description p) term.

Definition matchesCategory (categoryFilter : string) (p : ProductService.t) : bool :=
  (categoryFilter === "all") || (ProductService.category p === categoryFilter).

Definition matchesType (typeFilter : string) (p : ProductService.t) : bool :=
  (typeFilter === "all") || (type_str (ProductService.type p) === typeFilter).

Definition filteredProducts (st : state) : list ProductService.t :=
  List.filter (fun p => matchesSearch (searchTerm st) p && matchesCategory (categoryFilter st) p &&
                        matchesType (typeFilter st) p && ProductService.is_active p) products.

(** [Array.from(new Set(xs))]: the distinct values, in the order of
    their first occurrence. *)
Fixpoint uniq (seen : list string) (xs : list string) : list string :=
  match xs with
  | [] => []
  | x :: xs => if bool_decide (x ∈ seen) then uniq seen xs else x :: uniq (x :: seen) xs
  end.

Definition categories : list string := uniq [] (ProductService.category <$> products).

Definition types : list string := ["material"; "labour"; "service"; "equipment"].

Definition getTypeColor (t : string) : string :=
  if t === "material" then "bg-blue-100 text-blue-800"
  else if t === "labour" then "bg-green-100 text-green-800"
  else if t === "service" then "bg-purple-100 text-purple-800"
  else if t === "equipment" then "bg-orange-100 text-orange-800"
  else "bg-gray-100 text-gray-800".

Definition calculateSellingPrice (baseCost marginPercentage : Q) : Q :=
  baseCost * (1 + marginPercentage / 100).

(** The cells of one table row. *)
Record row := mk_row {
  row_sku : string;
  row_name : string;
  row_type : string;
  row_category : string;
  row_cost : string;
  row_margin : Q;
  row_price : string;
  row_unit : string }.

Definition product_row (p : ProductService.t) : row :=
  mk_row (ProductService.sku p) (ProductService.name p) (type_str (ProductService.type p))
    (ProductService.category p) ("$" +:+ JsString.toFixed (ProductService.base_cost p) 2)
    (ProductService.default_margin_percentage p)
    ("$" +:+ JsString.toFixed (calculateSellingPrice (ProductService.base_cost p)
                                 (ProductService.default_margin_percentage p)) 2)
    (ProductService.unit_of_measure p).

Definition rows (st : state) : list row := product_row <$> filteredProducts st.

(** The stats cards. *)
Definition total_items : nat := length products.
Definition materials_count : nat :=
  length (List.filter (fun p => type_str (ProductService.type p) === "material") products).
Definition services_count : nat :=
  length (List.filter (fun p => (type_str (ProductService.type p) === "service") ||
                                (type_str (ProductService.type p) === "labour")) products).

(** [Math.round(sum / products.length)]; the division by an empty
    catalogue gives [NaN], here [None]. *)
Definition avg_margin (ps : list ProductService.t) : option Z :=
  match length ps with
  | O => None
  | n => Some (JsString.math_round
                 (foldl (fun s p => s + ProductService.default_margin_percentage p)%Q 0%Q ps
                  / inject_Z (Z.of_nat n))%Q)
  end.

(** The add dialog's selects: (value, text). *)
Definition add_type_options : list (string * string) :=
  [("material", "Material"); ("labour", "Labour"); ("service", "Service"); ("equipment", "Equipment")].

Definition unit_options : list (string * string) :=
  [("each", "Each"); ("meter", "Meter"); ("hour", "Hour"); ("day", "Day"); ("kg", "Kilogram"); ("litre", "Litre")].

(** A card of the Margin Rules tab: the category, its description
    [Default margin for ${rule.category.toLowerCase()} items], and the
    margin. *)
Definition margin_rule_card (r : MarginRule.t) : string * string * Q :=
  (MarginRule.category r,
   "Default margin for " +:+ JsString.toLowerCase (MarginRule.category r) +:+ " items",
   MarginRule.margin_percentage r).

(** The rule of a category, as the help text reads it. *)
Definition rule_for (rules : list MarginRule.t) (category : string) : option Q :=
  MarginRule.margin_percentage <$> find (fun r => MarginRule.category r === category) rules.

Definition set_rule_margin (newMargin : Q) (r : MarginRule.t) : MarginRule.t :=
  MarginRule.mk (MarginRule.category r) newMargin.

Definition handleUpdateMarginRule (category : string) (newMargin : Q) (st : state) : state :=
  mk (map_where (fun r => MarginRule.category r === category) (set_rule_margin newMargin)
        (marginRules st))
     (searchTerm st) (categoryFilter st) (typeFilter st) (isAddProductOpen st)
     (isEditMarginOpen st) (toasts st).

(** The [try] block never throws: the rules are not written anywhere. *)
Definition handleSaveMarginRules (st : state) : state :=
  mk (marginRules st) (searchTerm st) (categoryFilter st) (typeFilter st) (isAddProductOpen st)
     false (toasts st ++ [(toast_success, "Margin rules updated successfully")]).

Inductive event :=
  | SetSearch (s : string)
  | SetCategory (c : string)
  | SetType (t : string)
  | SetAddProductOpen (b : bool)
  | SetEditMarginOpen (b : bool)
  | EditMargin (category : string) (m : Q)
  | SaveMargins
  | ClearFilters
  | ClickAddProduct.            (** the dialog's "Add Product/Service": [setIsAddProductOpen(false)] *)

Definition step (e : event) (st : state) : state :=
  match e with
  | SetSearch s => mk (marginRules st) s (categoryFilter st) (typeFilter st)
                      (isAddProductOpen st) (isEditMarginOpen st) (toasts st)
  | SetCategory c => mk (marginRules st) (searchTerm st) c (typeFilter st)
                        (isAddProductOpen st) (isEditMarginOpen st) (toasts st)
  | SetType t => mk (marginRules st) (searchTerm st) (categoryFilter st) t
                    (isAddProductOpen st) (isEditMarginOpen st) (toasts st)
  | SetAddProductOpen b => mk (marginRules st) (searchTerm st) (categoryFilter st) (typeFilter st)
                              b (isEditMarginOpen st) (toasts st)
  | SetEditMarginOpen b => mk (marginRules st) (searchTerm st) (categoryFilter st) (typeFilter st)
                              (isAddProductOpen st) b (toasts st)
  | EditMargin c m => handleUpdateMarginRule c m st
  | SaveMargins => handleSaveMarginRules st
  (** The empty table's button: [setSearchTerm('')]. *)
  | ClearFilters => mk (marginRules st) "" (categoryFilter st) (typeFilter st)
                       (isAddProductOpen st) (isEditMarginOpen st) (toasts st)
  | ClickAddProduct => mk (marginRules st) (searchTerm st) (categoryFilter st) (typeFilter st)
                         false (isEditMarginOpen st) (toasts st)
  end.

Definition run (es : list event) (st : state) : state := foldl (fun s e => step e s) st es.

(** The margin a price realises on its cost, in percent of the price. *)
Definition realised_margin (cost price : Q) : Q := 100 * (price - cost) / price.

(** ** Lemmas *)

#[local] Open Scope Q_scope.

Lemma filteredProducts_sub (st : state) (p : ProductService.t) :
  p ∈ filteredProducts st -> p ∈ products /\ ProductService.is_active p = true.
Proof.
  unfold filteredProducts. rewrite elem_of_filter_In.
  intros [Hp Hf]. repeat rewrite andb_true_iff in Hf. tauto.
Qed.

Lemma rows_handleUpdateMarginRule (c : string) (m : Q) (st : state) :
  rows (handleUpdateMarginRule c m st) = rows st.
Proof. reflexivity. Qed.

Lemma elem_of_rules_update (c : string) (m : Q) (st : state) (r : MarginRule.t) :
  r ∈ marginRules (handleUpdateMarginRule c m st) <->
  exists r0, r0 ∈ marginRules st /\
    r = if MarginRule.category r0 === c then set_rule_margin m r0 else r0.
Proof. apply elem_of_map_where. Qed.

(** *** Claims *)

(** C36: The percentage the page stores as a product's "margin" is a
    markup on cost: a price [calculateSellingPrice b m] realises a margin
    of [100 m / (100 + m)] percent of the price, strictly less than the
    [m] percent the Margin column shows, for every positive cost and
    margin. *)
Theorem selling_price_is_markup (b m : Q) :
  (0 < b -> 0 < m ->
  realised_margin b (calculateSellingPrice b m) == 100 * m / (100 + m) /\
  realised_margin b (calculateSellingPrice b m) < m)%Q.
Proof.
  intros Hb Hm. unfold realised_margin, calculateSellingPrice.
  assert (Hs : ~ 100 + m == 0) by lra.
  assert (Hp : ~ b * (1 + m / 100) == 0).
  { apply Qnot_eq_sym, Qlt_not_eq. apply Qmult_lt_0_compat; [done|].
    apply Qlt_le_trans with 1; [done|]. assert (0 <= m / 100) by (apply Qle_shift_div_l; lra). lra. }
  assert (Heq : 100 * (b * (1 + m / 100) - b) / (b * (1 + m / 100)) == 100 * m / (100 + m)).
  { field. split; [done|]. intros Hb0. rewrite Hb0 in Hb. discriminate. }
  split; [done|]. rewrite Heq. apply Qlt_shift_div_r; [lra|]. nra.
Qed.

Lemma selling_price_is_markup_witness :
  ((0 < 31 # 2 /\ 0 < 25) /\
  realised_margin (31 # 2) (calculateSellingPrice (31 # 2) 25) == 100 * 25 / (100 + 25) /\
  realised_margin (31 # 2) (calculateSellingPrice (31 # 2) 25) < 25)%Q.
Proof. split; [split; reflexivity|]. apply (selling_price_is_markup (31 # 2) 25); reflexivity. Defined.

(** Editing a category's margin in the "Edit Margin Rules" dialog
    sets that category's rule to the typed value, keeps every other rule
    and the list of categories, and changes no price of the product table:
    the table prices every product with its own
    [default_margin_percentage], never with its category's rule. *)
Theorem edit_margin_rule_spec (c : string) (m : Q) (st : state) :
  let st' := step (EditMargin c m) st in
  MarginRule.category <$> marginRules st' = MarginRule.category <$> marginRules st /\
  (forall r, r ∈ marginRules st' -> MarginRule.category r = c -> MarginRule.margin_percentage r = m) /\
  (forall r, r ∈ marginRules st' -> MarginRule.category r <> c -> r ∈ marginRules st) /\
  rows st' = rows st.
Proof.
  cbn zeta. split; [|split; [|split]].
  - apply map_where_keys. done.
  - intros r Hr Hc. apply elem_of_rules_update in Hr as (r0 & _ & ->).
    case_bool_decide; [done|]. simpl in Hc. contradiction.
  - intros r Hr Hc. apply elem_of_rules_update in Hr as (r0 & Hr0 & ->).
    case_bool_decide; [|done]. simpl in Hc. contradiction.
  - apply rows_handleUpdateMarginRule.
Qed.

(** The help text says products inherit their category's margin.  The
    mock catalogue starts consistent with the initial rules, but an edited
    rule leaves the product's own margin, and so its price, as it was:
    after setting "Labor" to 50% the electrician is still priced at 40%. *)
Lemma rules_not_inherited :
  Forall (fun p => rule_for initial_marginRules (ProductService.category p) =
                   Some (ProductService.default_margin_percentage p)) products /\
  let st := run [SetEditMarginOpen true; EditMargin "Labor" 50; SaveMargins] initial in
  rule_for (marginRules st) "Labor" = Some 50 /\
  map row_price (rows st) = map row_price (rows initial) /\
  List.nth 2 (map row_margin (rows st)) 0 = 40.
Proof. split; [repeat constructor|cbn zeta; repeat split; vm_compute; reflexivity]. Qed.

End ProductsServices.
