(* ===== verification/Quotes.v ===== *)
(** * The quotes page

    [src/src/pages/company/Quotes.tsx]: the constant mock quotes, clients,
    trades and templates, the page's React state (search text, status and
    trade filters, the create dialog, its toasts), the filtered table with
    its cells, the stats cards, and the handlers of its buttons, with the
    page's events as an Inductive and [step].  The table filter reads
    [raw_data_fields.project_type], a field of type [any]: a value that is
    not a string makes [.toLowerCase()] throw, so the filter returns an
    [option].  [handleViewQuote] is composed with the router of [Routing].
    A local date-time string ([new Date('2024-06-01T09:15:00')]) is read in
    the browser's time zone; the model takes the zone UTC. *)

From Stdlib Require Import Ascii QArith Qround ZArith.
From S2P Require Import Prelude JsString Types Auth Routing.

Module Quotes.

Definition quotes : list Quote.t :=
  [ Quote.mk "quote-001" "ACE-000125" "client-001" "Smith Residence" calculated "electrical" "template-001"
      [("project_type", VStr "Electrical Panel Upgrade"); ("location", VStr "123 Main Street, Brisbane");
       ("urgency", VStr "standard")]
      [] None
      (Some (CalculatedSummary.mk 2850 0 2850 [] 0 2850 285 3135
               (CalculatedSummary.mk_margin_summary 2100 750 (357 # 10))))
      [] (JsString.date_time 2024 6 1 9 15) (JsString.date_time 2024 6 1 14 30) (Some (JsString.date_utc 2024 7 1));
    Quote.mk "quote-002" "ACE-000124" "client-003" "Wilson Family Home" exported "solar" "template-002"
      [("project_type", VStr "Solar Panel Installation"); ("location", VStr "789 Elm Street, Toowoomba");
       ("system_size", VStr "6.6kW")]
      [] None
      (Some (CalculatedSummary.mk 8500 500 8000
               [CalculatedSummary.mk_rebate_applied "solar-rebate" "Solar Rebate" 1200] 1200 6800 680 7480
               (CalculatedSummary.mk_margin_summary 5200 1600 (308 # 10))))
      [ExportEvent.mk "exp-001" (JsString.date_time 2024 5 30 16 45) "Make.com" export_success None]
      (JsString.date_time 2024 5 28 11 20) (JsString.date_time 2024 5 30 16 45) (Some (JsString.date_utc 2024 6 28));
    Quote.mk "quote-003" "ACE-000123" "client-002" "Johnson Commercial Building" draft "electrical" "template-001"
      [("project_type", VStr "Commercial Electrical Upgrade"); ("location", VStr "456 Business Blvd, Gold Coast")]
      [] None None
      [] (JsString.date_time 2024 5 25 13 10) (JsString.date_time 2024 5 25 13 10) (Some (JsString.date_utc 2024 6 25)) ].

(** The dialog's dropdowns, created with [new Date()] at [now]. *)
Definition clients (now : timestamp) : list Client.t :=
  [ Client.mk "client-001" "Smith Residence" (Some "john.smith@email.com") None
      "123 Main Street, Brisbane" None None None now now;
    Client.mk "client-002" "Johnson Commercial Building" (Some "sarah@johnsonprops.com") None
      "456 Business Blvd, Gold Coast" None None None now now;
    Client.mk "client-003" "Wilson Family Home" (Some "mike.wilson@email.com") None
      "789 Elm Street, Toowoomba" None None None now now ].

Definition trades (now : timestamp) : list Trade.t :=
  [ Trade.mk "electrical" "Electrical Services" "General electrical work" true now now;
    Trade.mk "solar" "Solar Installation" "Solar panel systems" true now now ].

Record state := mk {
  searchTerm : string;
  statusFilter : string;
  tradeFilter : string;
  isCreateQuoteOpen : bool;
  toasts : list toast }.

Definition initial : state := mk "" "all" "all" false [].

Definition templates (now : timestamp) : list TradeTemplate.t :=
  [ TradeTemplate.mk "template-001" "Standard Electrical Quote" standard_form true now now;
    TradeTemplate.mk "template-002" "Solar Consultation Flow" conversational_flow true now now ].

(** The second line of a template option in the dialog. *)
Definition template_kind_label (t : TradeTemplate.t) : string :=
  if bool_decide (TradeTemplate.type t = conversational_flow) then "Interactive Flow" else "Standard Form".

(** The dialog's client and trade options: (value, first line, second line). *)
Definition client_options (now : timestamp) : list (string * string * string) :=
  map (fun c => (Client.client_id c, Client.name c, Client.address c)) (clients now).

Definition dialog_trade_options (now : timestamp) : list (string * string) :=
  map (fun t => (Trade.trade_id t, Trade.name t)) (trades now).

(** The values of the status filter's [SelectItem]s. *)
Definition status_options : list string := ["all"; "draft"; "calculated"; "exported"; "accepted"; "rejected"].

(** The values of the trade filter's [SelectItem]s: ["all"], then one per trade. *)
Definition trade_options (now : timestamp) : list string := "all" :: map Trade.trade_id (trades now).

Definition status_str (s : QuoteStatus) : string :=
  match s with
  | draft => "draft" | calculated => "calculated" | exported => "exported"
  | accepted => "accepted" | rejected => "rejected"
  end.

(** [quote.raw_data_fields.project_type] *)
Definition project_type (q : Quote.t) : option JsValue := Routing.assoc "project_type" (Quote.raw_data_fields q).

(** [project_type?.toLowerCase().includes(term)]: [undefined] when the
    field is absent, a [TypeError] ([None]) when it is not a string. *)
Definition project_type_matches (q : Quote.t) (term : string) : option bool :=
  match project_type q with
  | None => Some false
  | Some (VStr s) => Some (JsString.matches s term)
  | Some _ => None
  end.

(** The [||] chain evaluates [project_type] only when the quote number and
    the customer name do not match. *)
Definition matchesSearch (term : string) (q : Quote.t) : option bool :=
  if JsString.matches (Quote.quote_number q) term || JsString.matches (Quote.customer_name q) term
  then Some true else project_type_matches q term.

Definition matchesStatus (statusFilter : string) (q : Quote.t) : bool :=
  (statusFilter === "all") || (status_str (Quote.status q) === statusFilter).

Definition matchesTrade (tradeFilter : string) (q : Quote.t) : bool :=
  (tradeFilter === "all") || (Quote.trade_id q === tradeFilter).

(** [quotes.filter(...)]: the first quote whose test throws aborts the
    render. *)
Fixpoint filterQuotes (st : state) (qs : list Quote.t) : option (list Quote.t) :=
  match qs with
  | [] => Some []
  | q :: qs =>
      match matchesSearch (searchTerm st) q with
      | None => None
      | Some b =>
          match filterQuotes st qs with
          | None => None
          | Some l => Some (if b && matchesStatus (statusFilter st) q && matchesTrade (tradeFilter st) q
                            then q :: l else l)
          end
      end
  end.

Definition filteredQuotes (st : state) : option (list Quote.t) := filterQuotes st quotes.

Definition getStatusColor (s : QuoteStatus) : string :=
  match s with
  | draft => "bg-yellow-100 text-yellow-800"
  | calculated => "bg-blue-100 text-blue-800"
  | exported => "bg-green-100 text-green-800"
  | accepted => "bg-green-100 text-green-800"
  | rejected => "bg-red-100 text-red-800"
  end.

Definition truthy (v : JsValue) : bool :=
  match v with
  | VStr s => negb (s === EmptyString)
  | VNum q => negb (Qeq_bool q 0)
  | VBool b => b
  end.

(** [project_type || 'Untitled Project'] *)
Definition project_label (q : Quote.t) : JsValue :=
  match project_type q with
  | Some v => if truthy v then v else VStr "Untitled Project"
  | None => VStr "Untitled Project"
  end.

(** [trades.find(t => t.trade_id === quote.trade_id)?.name || quote.trade_id] *)
Definition trade_label (now : timestamp) (q : Quote.t) : string :=
  match find (fun t => Trade.trade_id t === Quote.trade_id q) (trades now) with
  | Some t => JsString.or_default (Trade.name t) (Quote.trade_id q)
  | None => Quote.trade_id q
  end.

(** [overall_margin_percentage.toFixed(1)]% margin, or "Not calculated". *)
Definition amount_cell (q : Quote.t) : option (Q * string) :=
  match Quote.calculated_summary q with
  | Some cs => Some (CalculatedSummary.final_total_amount cs,
                     JsString.toFixed (CalculatedSummary.overall_margin_percentage
                                         (CalculatedSummary.margin cs)) 1 +:+ "% margin")
  | None => None
  end.

(** [Math.ceil((expires_at.getTime() - Date.now()) / (1000 * 60 * 60 * 24))] *)
Definition days_left (now : timestamp) (q : Quote.t) : option Z :=
  match Quote.expires_at q with
  | Some e => Some (JsString.math_ceil (inject_Z (Z.of_N e - Z.of_N now) / inject_Z 86400000))
  | None => None
  end.

(** The export button is rendered for calculated quotes only. *)
Definition can_export (q : Quote.t) : bool := bool_decide (Quote.status q = calculated).

(** The stats cards. *)
Definition total_quotes : nat := length quotes.

Definition pending_count : nat :=
  length (List.filter (fun q => (status_str (Quote.status q) === "draft") ||
                                (status_str (Quote.status q) === "calculated")) quotes).

(** [q.calculated_summary?.final_total_amount || 0] *)
Definition final_or_zero (q : Quote.t) : Q :=
  match Quote.calculated_summary q with Some cs => CalculatedSummary.final_total_amount cs | None => 0 end.

Definition total_value (qs : list Quote.t) : Q := foldl (fun s q => s + final_or_zero q)%Q 0%Q qs.

Definition margin_or_zero (q : Quote.t) : Q :=
  match Quote.calculated_summary q with
  | Some cs => CalculatedSummary.overall_margin_percentage (CalculatedSummary.margin cs)
  | None => 0
  end.

(** [Math.round(sum / calculated.length)], [NaN] ([None]) when no quote
    is calculated. *)
Definition avg_margin (qs : list Quote.t) : option Z :=
  let cs := List.filter (fun q => bool_decide (is_Some (Quote.calculated_summary q))) qs in
  match length cs with
  | O => None
  | n => Some (JsString.math_round (foldl (fun s q => s + margin_or_zero q)%Q 0%Q cs
                                    / inject_Z (Z.of_nat n))%Q)
  end.

(** [handleViewQuote]: [navigate(`/quotes/${quoteId}`)]. *)
Definition handleViewQuote (quoteId : string) : string := "/quotes/" +:+ quoteId.

(** [handleCreateQuote]: a toast and the dialog closed; its arguments are
    not used. *)
Definition handleCreateQuote (clientId tradeId templateId : string) (st : state) : state :=
  mk (searchTerm st) (statusFilter st) (tradeFilter st) false
     (toasts st ++ [(toast_success, "Creating new quote...")]).

(** [handleExportQuote]: the loading toast, then, two seconds later, the
    success toast; the awaited timer never rejects. *)
Definition handleExportQuote (quoteId : string) (st : state) : state :=
  mk (searchTerm st) (statusFilter st) (tradeFilter st) (isCreateQuoteOpen st)
     (toasts st ++ [(toast_loading, "Exporting quote..."); (toast_success, "Quote exported successfully")]).

Inductive event :=
  | SetSearch (s : string)
  | SetStatus (s : string)
  | SetTrade (t : string)
  | SetCreateOpen (b : bool)
  | ClickCreate
  | ClickExport (quoteId : string)
  | ClearFilters.

Definition step (e : event) (st : state) : state :=
  match e with
  | SetSearch s => mk s (statusFilter st) (tradeFilter st) (isCreateQuoteOpen st) (toasts st)
  | SetStatus s => mk (searchTerm st) s (tradeFilter st) (isCreateQuoteOpen st) (toasts st)
  | SetTrade t => mk (searchTerm st) (statusFilter st) t (isCreateQuoteOpen st) (toasts st)
  | SetCreateOpen b => mk (searchTerm st) (statusFilter st) (tradeFilter st) b (toasts st)
  (** The dialog's button: [handleCreateQuote('client-001', 'electrical', 'template-001')]. *)
  | ClickCreate => handleCreateQuote "client-001" "electrical" "template-001" st
  | ClickExport id => handleExportQuote id st
  | ClearFilters => mk "" (statusFilter st) (tradeFilter st) (isCreateQuoteOpen st) (toasts st)
  end.

Definition run (es : list event) (st : state) : state := foldl (fun s e => step e s) st es.

(** A quote whose [project_type] is absent or a string. *)
Definition project_type_ok (q : Quote.t) : Prop :=
  match project_type q with Some (VStr _) | None => True | Some _ => False end.

(** The table's empty state: [filteredQuotes.length === 0]. *)
Definition empty_state (st : state) : bool :=
  match filteredQuotes st with Some [] => true | _ => false end.

(** ** Lemmas *)

Lemma filter_nonempty_neq_nil (l : list string) :
  (exists x, x ∈ l /\ x <> EmptyString) ->
  List.filter (fun x => negb (x === EmptyString)) l <> [].
Proof.
  intros (x & Hx & Hne) Hnil.
  assert (Hf : x ∈ List.filter (fun x => negb (x === EmptyString)) l).
  { apply elem_of_filter_In. split; [done|]. by rewrite bool_decide_false. }
  rewrite Hnil in Hf. by apply not_elem_of_nil in Hf.
Qed.

(** The URL of a quote id that starts with a character other than [/]
    has the segments [quotes] and at least one more. *)
Lemma segments_view (a : ascii) (rest : string) :
  a <> "/"%char ->
  exists s1 l, Routing.segments (handleViewQuote (String a rest)) = "quotes" :: s1 :: l.
Proof.
  intros Ha.
  assert (Hsp : JsString.split "/" (handleViewQuote (String a rest)) =
                EmptyString :: "quotes" :: JsString.split_acc "/" rest (String a EmptyString)).
  { unfold handleViewQuote, JsString.split. simpl. rewrite bool_decide_false by done. reflexivity. }
  unfold Routing.segments. rewrite Hsp. cbn [List.filter].
  rewrite bool_decide_true, bool_decide_false by done. cbn [negb].
  destruct (List.filter (fun x => negb (x === EmptyString))
              (JsString.split_acc "/" rest (String a EmptyString))) as [|s1 l] eqn:E.
  - exfalso. revert E. apply filter_nonempty_neq_nil, JsString.split_acc_nonempty. done.
  - by exists s1, l.
Qed.

Lemma filterQuotes_cons (st : state) (q : Quote.t) (qs : list Quote.t) :
  filterQuotes st (q :: qs) =
    match matchesSearch (searchTerm st) q, filterQuotes st qs with
    | Some b, Some l => Some (if b && matchesStatus (statusFilter st) q && matchesTrade (tradeFilter st) q
                              then q :: l else l)
    | _, _ => None
    end.
Proof. simpl. by destruct (matchesSearch _ q), (filterQuotes st qs). Qed.

(** *** Claims *)

(** "View Quote" leads nowhere: for a quote id that starts with a
    character other than [/], the URL [/quotes/<id>] that
    [handleViewQuote] navigates to matches no route, and whoever is
    signed in the router shows the public 404 page there. *)
Theorem view_quote_not_found (ctx : AuthContext.state) (a : ascii) (rest : string) :
  a <> "/"%char ->
  Routing.navigate 1 ctx (handleViewQuote (String a rest)) =
    Some (Routing.VPage None Routing.NotFound, handleViewQuote (String a rest)).
Proof.
  intros Ha. destruct (segments_view a rest Ha) as (s1 & l & Hs).
  unfold Routing.navigate, Routing.render, Routing.route. rewrite Hs. reflexivity.
Qed.

Lemma view_quote_not_found_witness :
  "q"%char <> "/"%char /\
  Routing.navigate 1 (AuthContext.initial None) (handleViewQuote "quote-001") =
    Some (Routing.VPage None Routing.NotFound, handleViewQuote "quote-001").
Proof. split; [discriminate|]. apply (view_quote_not_found _ "q"%char "uote-001"). discriminate. Defined.

(** A quote whose [project_type] is absent or a string never makes the
    search test throw. *)
Lemma matchesSearch_total (term : string) (q : Quote.t) :
  project_type_ok q -> is_Some (matchesSearch term q).
Proof.
  unfold matchesSearch, project_type_matches, project_type_ok.
  destruct (_ || _); [by eexists|]. destruct (project_type q) as [[]|]; done || by eexists.
Qed.

(** A list of quotes none of which has the filtered status filters to
    nothing, whatever the search text. *)
Lemma filterQuotes_status_none (st : state) (qs : list Quote.t) :
  Forall (fun q => project_type_ok q /\ matchesStatus (statusFilter st) q = false) qs ->
  filterQuotes st qs = Some [].
Proof.
  induction 1 as [|q qs [Hp Hs] _ IH]; [done|]. rewrite filterQuotes_cons.
  destruct (matchesSearch_total (searchTerm st) q Hp) as [b ->]. by rewrite IH, Hs, andb_false_r.
Qed.

(** C12: The "Clear Filters" button of the quotes table's empty state
    clears the search text only: from any state whose status filter is a
    status no quote has (Accepted or Rejected), whatever the search text
    and the trade filter, the table is empty, and after the button the
    search is empty but both filters are as they were and the table is
    still empty, showing the same button again. *)
Theorem clear_filters_stays_empty (st : state) :
  statusFilter st ∈ ["accepted"; "rejected"] ->
  empty_state st = true /\
  searchTerm (step ClearFilters st) = "" /\
  statusFilter (step ClearFilters st) = statusFilter st /\ tradeFilter (step ClearFilters st) = tradeFilter st /\
  empty_state (step ClearFilters st) = true.
Proof.
  destruct st as [s f t o ts]; cbn [statusFilter tradeFilter searchTerm step].
  rewrite !elem_of_cons, elem_of_nil. intros [->|[->|[]]]; (split; [|split; [done|split; [done|split; [done|]]]]);
    unfold empty_state, filteredQuotes; rewrite filterQuotes_status_none; try reflexivity;
    unfold quotes; repeat constructor.
Qed.

Lemma clear_filters_stays_empty_witness :
  "accepted" ∈ ["accepted"; "rejected"] /\
  empty_state (run [SetSearch "ACE"; SetStatus "accepted"] initial) = true /\
  searchTerm (run [SetSearch "ACE"; SetStatus "accepted"; ClearFilters] initial) = "" /\
  statusFilter (run [SetSearch "ACE"; SetStatus "accepted"; ClearFilters] initial) = "accepted" /\
  tradeFilter (run [SetSearch "ACE"; SetStatus "accepted"; ClearFilters] initial) = "all" /\
  empty_state (run [SetSearch "ACE"; SetStatus "accepted"; ClearFilters] initial) = true.
Proof.
  split; [left|]. exact (clear_filters_stays_empty (run [SetSearch "ACE"; SetStatus "accepted"] initial)
                           ltac:(left)).
Defined.

(** Every option of the filters is a value the filter compares with: the
    status options are ["all"] and the five statuses, the trade options
    ["all"] and the trade ids; the dialog labels the standard template
    "Standard Form" and the flow "Interactive Flow"; every mock quote's
    client, trade and template are options of the dialog. *)
Lemma filter_options_cover (now : timestamp) :
  status_options = "all" :: map status_str [draft; calculated; exported; accepted; rejected] /\
  trade_options now = ["all"; "electrical"; "solar"] /\
  map template_kind_label (templates now) = ["Standard Form"; "Interactive Flow"] /\
  Forall (fun q => Quote.customer_id q ∈ map (fun o => o.1.1) (client_options now) /\
                   Quote.trade_id q ∈ map fst (dialog_trade_options now) /\
                   Quote.template_id q ∈ map TradeTemplate.template_id (templates now)) quotes.
Proof. repeat split; [reflexivity..|]. apply (bool_decide_unpack _). vm_compute. reflexivity. Qed.

(** [filterQuotes] is a filter that fails as soon as one test fails. *)
Lemma filterQuotes_filter (st : state) (qs : list Quote.t) :
  (filterQuotes st qs = None <-> exists q, q ∈ qs /\ matchesSearch (searchTerm st) q = None) /\
  (forall l, filterQuotes st qs = Some l ->
   forall q, q ∈ l <-> q ∈ qs /\ matchesSearch (searchTerm st) q = Some true /\
                      matchesStatus (statusFilter st) q = true /\ matchesTrade (tradeFilter st) q = true).
Proof.
  induction qs as [|q qs [IHn IHs]]; [split; [split; [done|intros (q & Hq & _); by apply not_elem_of_nil in Hq]|]|].
  { intros l [= <-] q. split; [intros Hq; by apply not_elem_of_nil in Hq|intros [Hq _]; by apply not_elem_of_nil in Hq]. }
  rewrite filterQuotes_cons. split.
  - destruct (matchesSearch _ q) as [b|] eqn:Eb.
    + destruct (filterQuotes st qs) eqn:Ef.
      * split; [done|]. intros (q' & [->|Hq']%elem_of_cons & Hn); [congruence|].
        discriminate (proj2 IHn (ex_intro _ q' (conj Hq' Hn))).
      * split; [intros _|done]. destruct (proj1 IHn eq_refl) as (q' & Hq' & Hn).
        exists q'. split; [apply elem_of_cons; by right|done].
    + split; [intros _; exists q; split; [apply elem_of_cons; by left|done]|done].
  - intros l Hl q'. destruct (matchesSearch _ q) as [b|] eqn:Eb; [|done].
    destruct (filterQuotes st qs) as [l0|] eqn:Ef; [|done]. injection Hl as <-.
    specialize (IHs l0 eq_refl q'). rewrite elem_of_cons.
    destruct b, (matchesStatus _ q) eqn:Es, (matchesTrade _ q) eqn:Et; simpl;
      rewrite ?elem_of_cons, IHs; split; intros; naive_solver congruence.
Qed.

Lemma matchesSearch_None (term : string) (q : Quote.t) :
  matchesSearch term q = None <->
  JsString.includes (JsString.toLowerCase (Quote.quote_number q)) (JsString.toLowerCase term) = false /\
  JsString.includes (JsString.toLowerCase (Quote.customer_name q)) (JsString.toLowerCase term) = false /\
  exists v, Routing.assoc "project_type" (Quote.raw_data_fields q) = Some v /\ forall s, v <> VStr s.
Proof.
  unfold matchesSearch, project_type_matches, project_type, JsString.matches.
  destruct (JsString.includes _ _), (JsString.includes _ _); simpl; try (split; [done|naive_solver]).
  destruct (Routing.assoc _ _) as [[s|n|b]|]; (split; [done|]) || split; try naive_solver.
Qed.

Lemma matchesSearch_true (term : string) (q : Quote.t) :
  matchesSearch term q = Some true <->
  JsString.includes (JsString.toLowerCase (Quote.quote_number q)) (JsString.toLowerCase term) = true \/
  JsString.includes (JsString.toLowerCase (Quote.customer_name q)) (JsString.toLowerCase term) = true \/
  exists s, Routing.assoc "project_type" (Quote.raw_data_fields q) = Some (VStr s) /\
            JsString.includes (JsString.toLowerCase s) (JsString.toLowerCase term) = true.
Proof.
  unfold matchesSearch, project_type_matches, project_type, JsString.matches.
  destruct (Routing.assoc _ _) as [[s|n|b]|];
    destruct (JsString.includes _ _), (JsString.includes _ _); simpl;
    split; intros H; try naive_solver.
  destruct H as [H|[H|(s' & Hs' & H)]]; [discriminate|discriminate|]. injection Hs' as ->. by rewrite H.
Qed.

Lemma matchesStatus_true (f : string) (q : Quote.t) :
  matchesStatus f q = true <-> f = "all" \/ status_str (Quote.status q) = f.
Proof. unfold matchesStatus. rewrite orb_true_iff, !bool_decide_eq_true. naive_solver. Qed.

Lemma matchesTrade_true (f : string) (q : Quote.t) :
  matchesTrade f q = true <-> f = "all" \/ Quote.trade_id q = f.
Proof. unfold matchesTrade. rewrite orb_true_iff, !bool_decide_eq_true. naive_solver. Qed.

(** C35: The quote table's filter throws exactly when some quote's search
    test throws: its number and its customer name do not contain the
    search text (both lowercased) and its [raw_data_fields.project_type]
    is present but not a string, so that [.toLowerCase()] is called on
    it.  Otherwise it keeps exactly the quotes whose number, customer
    name or string [project_type] contains the lowercased search text,
    whose status string is the status filter (or the filter is "all"),
    and whose trade id is the trade filter (or the filter is "all"). *)
Theorem filterQuotes_spec (st : state) (qs : list Quote.t) :
  (filterQuotes st qs = None <->
   exists q, q ∈ qs /\
     JsString.includes (JsString.toLowerCase (Quote.quote_number q)) (JsString.toLowerCase (searchTerm st)) = false /\
     JsString.includes (JsString.toLowerCase (Quote.customer_name q)) (JsString.toLowerCase (searchTerm st)) = false /\
     exists v, Routing.assoc "project_type" (Quote.raw_data_fields q) = Some v /\ forall s, v <> VStr s) /\
  (forall l, filterQuotes st qs = Some l -> forall q, q ∈ l <->
   q ∈ qs /\
   (JsString.includes (JsString.toLowerCase (Quote.quote_number q)) (JsString.toLowerCase (searchTerm st)) = true \/
    JsString.includes (JsString.toLowerCase (Quote.customer_name q)) (JsString.toLowerCase (searchTerm st)) = true \/
    exists s, Routing.assoc "project_type" (Quote.raw_data_fields q) = Some (VStr s) /\
              JsString.includes (JsString.toLowerCase s) (JsString.toLowerCase (searchTerm st)) = true) /\
   (statusFilter st = "all" \/ status_str (Quote.status q) = statusFilter st) /\
   (tradeFilter st = "all" \/ Quote.trade_id q = tradeFilter st)).
Proof.
  destruct (filterQuotes_filter st qs) as [Hn Hs]. split.
  - rewrite Hn. setoid_rewrite matchesSearch_None. done.
  - intros l Hl q. rewrite (Hs l Hl q), matchesSearch_true, matchesStatus_true, matchesTrade_true. done.
Qed.

End Quotes.
