(* ===== verification/Clients.v ===== *)
(** * The clients page

    [src/src/pages/company/Clients.tsx]: the constant mock clients, their
    mock quote counts and last quote dates, the page's React state (search
    text, the add dialog, the GoHighLevel connection flag, the last sync
    time, its toasts), the filtered table with its cells, the stats and
    integration cards, and the handlers of the GoHighLevel buttons, with
    the page's events as an Inductive and [step].  A button that the page
    does not render cannot be clicked: [step] ignores the click of the
    button the connection flag hides. *)

From Stdlib Require Import QArith Qround ZArith.
From S2P Require Import Prelude JsString Types Auth.

Module Clients.

Definition clients : list Client.t :=
  [ Client.mk "client-001" "Smith Residence" (Some "john.smith@email.com") (Some "+61 7 1234 5678")
      "123 Main Street, Brisbane, QLD 4000" (Some "John Smith") (Some "GHL-001")
      (Some "Regular customer, prefers morning appointments")
      (JsString.date_utc 2024 1 15) (JsString.date_utc 2024 6 1);
    Client.mk "client-002" "Johnson Commercial Building" (Some "sarah.johnson@johnsonprops.com")
      (Some "+61 7 2345 6789") "456 Business Blvd, Gold Coast, QLD 4217" (Some "Sarah Johnson")
      (Some "GHL-002") (Some "Commercial property manager, bulk electrical work")
      (JsString.date_utc 2024 2 20) (JsString.date_utc 2024 5 15);
    Client.mk "client-003" "Wilson Family Home" (Some "mike.wilson@email.com") (Some "+61 7 3456 7890")
      "789 Elm Street, Toowoomba, QLD 4350" (Some "Mike Wilson") None
      (Some "New construction, solar panel installation required")
      (JsString.date_utc 2024 3 10) (JsString.date_utc 2024 4 20);
    Client.mk "client-004" "Brown Apartments" (Some "lisa.brown@brownproperties.com")
      (Some "+61 7 4567 8901") "321 Oak Avenue, Cairns, QLD 4870" (Some "Lisa Brown")
      (Some "GHL-003") (Some "Multi-unit property, requires safety inspections")
      (JsString.date_utc 2024 4 5) (JsString.date_utc 2024 5 30) ].

Record state := mk {
  searchTerm : string;
  isAddClientOpen : bool;
  isGoHighLevelConnected : bool;
  lastSyncTime : timestamp;
  toasts : list toast }.

Definition initial : state :=
  mk "" false true (JsString.date_time 2024 6 1 10 30) [].

Definition matchesSearch (term : string) (c : Client.t) : bool :=
  JsString.matches (Client.name c) term || JsString.opt_matches (Client.email c) term ||
  JsString.opt_matches (Client.contact_person c) term || JsString.matches (Client.address c) term.

Definition filteredClients (st : state) : list Client.t :=
  List.filter (matchesSearch (searchTerm st)) clients.

(** [quoteCounts[clientId] || 0] *)
Definition getQuoteCount (clientId : string) : nat :=
  if clientId === "client-001" then 3
  else if clientId === "client-002" then 7
  else if clientId === "client-003" then 1
  else if clientId === "client-004" then 4
  else 0.

(** [lastQuotes[clientId]], [undefined] for an unknown client. *)
Definition getLastQuoteDate (clientId : string) : option timestamp :=
  if clientId === "client-001" then Some (JsString.date_utc 2024 5 20)
  else if clientId === "client-002" then Some (JsString.date_utc 2024 5 28)
  else if clientId === "client-003" then Some (JsString.date_utc 2024 5 10)
  else if clientId === "client-004" then Some (JsString.date_utc 2024 5 25)
  else None.

(** [Math.floor((Date.now() - lastQuote.getTime()) / (1000 * 60 * 60 * 24))] *)
Definition days_ago (now last : timestamp) : Z :=
  JsString.math_floor (inject_Z (Z.of_N now - Z.of_N last) / inject_Z 86400000).

(** The cells of one row: name, contact person, quote count, the last
    quote's "days ago" (or "No quotes"), and the CRM badge (or "Not
    synced"). *)
Record row := mk_row {
  row_name : string;
  row_contact : option string;
  row_quotes : nat;
  row_days_ago : option Z;
  row_crm : string }.

Definition client_row (now : timestamp) (c : Client.t) : row :=
  mk_row (Client.name c) (Client.contact_person c) (getQuoteCount (Client.client_id c))
    (match getLastQuoteDate (Client.client_id c) with Some d => Some (days_ago now d) | None => None end)
    (match Client.crm_id c with
     | Some id => if id === EmptyString then "Not synced" else id
     | None => "Not synced"
     end).

Definition rows (now : timestamp) (st : state) : list row := client_row now <$> filteredClients st.

(** [clients.filter(c => c.crm_id).length]: the CRM-linked clients of the
    stats and integration cards. *)
Definition crm_linked : nat :=
  length (List.filter (fun c => match Client.crm_id c with
                                | Some id => negb (id === EmptyString)
                                | None => false
                                end) clients).

(** The integration card's button: "Sync Now" when connected, "Connect
    to GoHighLevel" otherwise. *)
Inductive ghl_button := SyncNow | ConnectGHL.

Definition integration_button (st : state) : ghl_button :=
  if isGoHighLevelConnected st then SyncNow else ConnectGHL.

(** The stats cards: title, figure, caption.  "Active Quotes" and "Avg
    Projects" are literals of the JSX. *)
Definition stats_cards : list (string * string * string) :=
  [ ("Total Clients", JsString.string_of_N (N.of_nat (length clients)), "+2 this month");
    ("Active Quotes", "8", "Currently in progress");
    ("CRM Synced", JsString.string_of_N (N.of_nat crm_linked), "Linked to GoHighLevel");
    ("Avg Projects", "3.8", "Per client") ].

(** The integration card: badge variant and text, the synced count, and
    the location note shown while connected. *)
Definition ghl_card (st : state) : string * string * nat * option string :=
  (if isGoHighLevelConnected st then "default" else "secondary",
   if isGoHighLevelConnected st then "Connected" else "Disconnected",
   crm_linked,
   if isGoHighLevelConnected st then Some "Acme Electrical Services" else None).

Definition sync_message : string := "Successfully synced 5 clients from GoHighLevel".

(** [handleSyncGoHighLevel]: the loading toast, then the success toast
    two seconds later; nothing else changes, [lastSyncTime] included. *)
Definition handleSyncGoHighLevel (st : state) : state :=
  mk (searchTerm st) (isAddClientOpen st) (isGoHighLevelConnected st) (lastSyncTime st)
     (toasts st ++ [(toast_loading, "Syncing clients from GoHighLevel..."); (toast_success, sync_message)]).

Definition handleConnectGoHighLevel (st : state) : state :=
  mk (searchTerm st) (isAddClientOpen st) true (lastSyncTime st)
     (toasts st ++ [(toast_success, "Redirecting to GoHighLevel OAuth...")]).

Inductive event :=
  | SetSearch (s : string)
  | SetAddClientOpen (b : bool)
  | ClickIntegration (b : ghl_button)
  | ClearSearch
  | ClickAddClient.             (** the dialog's "Add Client": [setIsAddClientOpen(false)] *)

Definition step (e : event) (st : state) : state :=
  match e with
  | SetSearch s => mk s (isAddClientOpen st) (isGoHighLevelConnected st) (lastSyncTime st) (toasts st)
  | SetAddClientOpen b => mk (searchTerm st) b (isGoHighLevelConnected st) (lastSyncTime st) (toasts st)
  | ClickIntegration b =>
      match b, integration_button st with
      | SyncNow, SyncNow => handleSyncGoHighLevel st
      | ConnectGHL, ConnectGHL => handleConnectGoHighLevel st
      | _, _ => st
      end
  | ClearSearch => mk "" (isAddClientOpen st) (isGoHighLevelConnected st) (lastSyncTime st) (toasts st)
  | ClickAddClient => mk (searchTerm st) false (isGoHighLevelConnected st) (lastSyncTime st) (toasts st)
  end.

Definition run (es : list event) (st : state) : state := foldl (fun s e => step e s) st es.

(** ** Lemmas *)

Definition connected_since (t : timestamp) (st : state) : Prop :=
  isGoHighLevelConnected st = true /\ lastSyncTime st = t.

Lemma step_connected_since (t : timestamp) (e : event) (st : state) :
  connected_since t st -> connected_since t (step e st).
Proof.
  intros [Hc Ht]. unfold connected_since.
  destruct e as [| |[]| |]; simpl; unfold integration_button; rewrite ?Hc; simpl; split; done.
Qed.

(** The stats card's "Avg Projects" literal 3.8 is the mock quote counts'
    mean to one decimal (15 quotes over 4 clients); the "CRM Synced" card
    and the integration card count 3 linked clients while the sync toast
    announces 5. *)
Lemma clients_stats_figures :
  JsString.toFixed (inject_Z (Z.of_nat (sum_list ((fun c => getQuoteCount (Client.client_id c)) <$> clients))) /
                    inject_Z (Z.of_nat (length clients))) 1 = "3.8" /\
  crm_linked = 3 /\ (ghl_card initial).1.2 = crm_linked /\
  map (fun c => c.1.2) stats_cards = ["4"; "8"; "3"; "3.8"].
Proof. repeat split; vm_compute; reflexivity. Qed.

(** *** Claims *)

(** The page starts connected to GoHighLevel and no event
    disconnects it, so after any sequence of events the integration card
    still offers "Sync Now" (the "Connect to GoHighLevel" button and its
    handler are unreachable), and no sync ever moves the "Last Synced"
    time the card shows. *)
Theorem integration_always_sync_now (es : list event) :
  integration_button (run es initial) = SyncNow /\
  lastSyncTime (run es initial) = JsString.date_time 2024 6 1 10 30.
Proof.
  assert (H : connected_since (JsString.date_time 2024 6 1 10 30) (run es initial)).
  { unfold run. apply (foldl_invariant _ (fun _ => True)); [by apply Forall_true| |done].
    intros st e _. apply step_connected_since. }
  destruct H as [Hc Ht]. unfold integration_button. by rewrite Hc.
Qed.

End Clients.
