(* ===== verification/Integrations.v ===== *)
(** * The integrations page

    [src/src/pages/company/Integrations.tsx]: the page's four
    integrations with their connection status and last sync time, the
    configuration dialog's selection and its one shared [isConfigOpen]
    flag, the active tab, and the toasts.  The handlers [handleConnect],
    [handleDisconnect], [handleTest] and [handleSync] are modelled with
    their awaits: [handleTest] and [handleSync] show a loading toast and
    start a timer due 2000 or 3000 ms later; the rest of the handler runs
    when that timer fires, as a separate event, so that other clicks can
    come in between.  The page's clock ([Date.now()]) is part of the
    state: the user's clicks happen at the current time, [Wait] lets time
    pass up to the next due timer, and [Fire] runs the timer due first
    (the first set, among those due together), at its due time.  A click
    reaches a handler only when the active tab renders that button.  The
    configuration form's controlled inputs, the stats cards and the
    Webhooks tab's defaults are modelled too.  The icons are React nodes
    without behaviour and are left out. *)

From S2P Require Import Prelude JsString Types Auth.

Module Integrations.

Inductive Status := connected | disconnected | error.

#[export] Instance Status_eq_dec : EqDecision Status.
Proof. solve_decision. Defined.

Record Integration := mk_integration {
  id : string;
  name : string;
  description : string;
  status : Status;
  lastSync : option timestamp;
  features : list string;
  configurable : bool }.

Definition initial_integrations : list Integration :=
  [ mk_integration "gohighlevel" "GoHighLevel" "Sync clients and leads from your CRM system" connected
      (Some (JsString.date_time 2024 6 1 10 30)) ["Client Sync"; "Lead Import"; "Contact Management"] true;
    mk_integration "make" "Make.com" "Automate quote delivery and document generation" connected
      (Some (JsString.date_time 2024 6 1 9 15)) ["Quote Export"; "PDF Generation"; "Email Automation"] true;
    mk_integration "google-sheets" "Google Sheets" "Advanced rebate calculations and data export" error
      (Some (JsString.date_time 2024 5 30 14 20)) ["Rebate Rules"; "Data Export"; "Advanced Calculations"] true;
    mk_integration "email" "Email Service" "Send quotes and notifications via email" connected
      None ["Quote Delivery"; "Notifications"; "Customer Communication"] false ].

(** The [Tabs] of the page; Radix mounts the content of the active tab
    only. *)
Inductive Tab := TabAll | TabConnected | TabAvailable | TabWebhooks.

#[export] Instance Tab_eq_dec : EqDecision Tab.
Proof. solve_decision. Defined.

(** A timer started by an await: the rest of [handleTest] or of
    [handleSync] for an integration id, and the time it is due:
    [setTimeout(resolve, 2000)] for a test, [3000] for a sync. *)
Inductive Pending := PTest (i : string) | PSync (i : string).

Record timer := mk_timer { job : Pending; due : timestamp }.

Definition test_delay : N := 2000%N.
Definition sync_delay : N := 3000%N.

Record state := mk {
  integrations : list Integration;
  selectedIntegration : option Integration;
  isConfigOpen : bool;
  tab : Tab;
  pending : list timer;
  toasts : list toast;
  clock : timestamp }.   (** [Date.now()] *)

(** The clock starts at 0; [Wait] advances it to any time of mounting and
    beyond, so the reachable states cover every mount time. *)
Definition initial : state := mk initial_integrations None false TabAll [] [] 0%N.

Definition status_str (s : Status) : string :=
  match s with connected => "connected" | disconnected => "disconnected" | error => "error" end.

Definition getStatusColor (s : Status) : string :=
  match s with
  | connected => "bg-green-100 text-green-800"
  | error => "bg-yellow-100 text-yellow-800"
  | disconnected => "bg-red-100 text-red-800"
  end.

Definition is_connected (i : Integration) : bool := status i === connected.

Definition with_integrations (l : list Integration) (st : state) : state :=
  mk l (selectedIntegration st) (isConfigOpen st) (tab st) (pending st) (toasts st) (clock st).

Definition with_toast (t : toast) (st : state) : state :=
  mk (integrations st) (selectedIntegration st) (isConfigOpen st) (tab st) (pending st) (toasts st ++ [t]) (clock st).

Definition set_status (s : Status) (i : Integration) : Integration :=
  mk_integration (id i) (name i) (description i) s (lastSync i) (features i) (configurable i).

Definition set_lastSync (t : timestamp) (i : Integration) : Integration :=
  mk_integration (id i) (name i) (description i) (status i) (Some t) (features i) (configurable i).

(** [handleConnect]: status [connected] and [lastSync: new Date()]. *)
Definition handleConnect (integrationId : string) (st : state) : state :=
  with_toast (toast_success, "Integration connected successfully")
    (with_integrations (map_where (fun i => id i === integrationId)
                          (fun i => set_lastSync (clock st) (set_status connected i)) (integrations st)) st).

Definition handleDisconnect (integrationId : string) (st : state) : state :=
  with_toast (toast_success, "Integration disconnected")
    (with_integrations (map_where (fun i => id i === integrationId) (set_status disconnected)
                          (integrations st)) st).

Definition start_timer (p : Pending) (delay : N) (msg : string) (st : state) : state :=
  mk (integrations st) (selectedIntegration st) (isConfigOpen st) (tab st)
     (pending st ++ [mk_timer p (clock st + delay)%N]) (toasts st ++ [(toast_loading, msg)]) (clock st).

(** The first half of [handleTest] and [handleSync], up to the await. *)
Definition handleTest (integrationId : string) (st : state) : state :=
  start_timer (PTest integrationId) test_delay "Testing connection..." st.

Definition handleSync (integrationId : string) (st : state) : state :=
  start_timer (PSync integrationId) sync_delay "Syncing data..." st.

(** The second half, when the timer fires: the awaited promise never
    rejects.  The sync's [prev.map] stamps [lastSync] on the integration
    with that id in the list as it is then, whatever its status, with
    the time the timer fired. *)
Definition resume (p : Pending) (st : state) : state :=
  match p with
  | PTest _ => with_toast (toast_success, "Connection test successful") st
  | PSync i => with_toast (toast_success, "Data synced successfully")
                 (with_integrations (map_where (fun x => id x === i) (set_lastSync (clock st)) (integrations st)) st)
  end.

(** The timer the event loop runs next: the first of those with the
    earliest due time (timers due at the same time run in the order they
    were set), as its index and due time. *)
Fixpoint earliest (l : list timer) : option (nat * timestamp) :=
  match l with
  | [] => None
  | t :: l' =>
      match earliest l' with
      | Some (k, d) => if (d <? due t)%N then Some (S k, d) else Some (0, due t)
      | None => Some (0, due t)
      end
  end.

(** The buttons of one integration card. *)
Inductive Button :=
  | BTest (i : string) | BSync (i : string) | BConnect (i : string)
  | BConfigure (i : string)   (** the [DialogTrigger] of a configurable card *)
  | BSettings (i : string)    (** the gear of the Connected tab *)
  | BDisconnect (i : string).

#[export] Instance Button_eq_dec : EqDecision Button.
Proof. solve_decision. Defined.

Definition card_buttons_all (i : Integration) : list Button :=
  (if is_connected i then [BTest (id i); BSync (id i)] else [BConnect (id i)]) ++
  (if configurable i then [BConfigure (id i)] else []) ++
  (if is_connected i then [BDisconnect (id i)] else []).

Definition buttons (st : state) : list Button :=
  match tab st with
  | TabAll => integrations st ≫= card_buttons_all
  | TabConnected =>
      List.filter is_connected (integrations st) ≫= fun i => [BSync (id i); BSettings (id i)]
  | TabAvailable =>
      List.filter (fun i => negb (is_connected i)) (integrations st) ≫= fun i => [BConnect (id i)]
  | TabWebhooks => []
  end.

Definition find_integration (i : string) (st : state) : option Integration :=
  find (fun x => id x === i) (integrations st).

(** [setSelectedIntegration(integration)], and with it the dialog opened
    (the trigger's [onOpenChange(true)], or the explicit
    [setIsConfigOpen(true)] of the Connected tab). *)
Definition open_config (i : string) (st : state) : state :=
  mk (integrations st) (find_integration i st) true (tab st) (pending st) (toasts st) (clock st).

Definition press (b : Button) (st : state) : state :=
  match b with
  | BTest i => handleTest i st
  | BSync i => handleSync i st
  | BConnect i => handleConnect i st
  | BConfigure i | BSettings i => open_config i st
  | BDisconnect i => handleDisconnect i st
  end.

(** The user's events happen at the current time; [Wait dt] lets time
    pass, as long as no timer falls due meanwhile ([Fire] runs that timer
    first); [Fire] advances the clock to the earliest due time and runs
    the rest of that handler. *)
Inductive event :=
  | SetTab (t : Tab)
  | Click (b : Button)
  | Wait (dt : N)
  | Fire
  | SetConfigOpen (b : bool).             (** Cancel, Save Configuration, closing *)

Definition step (e : event) (st : state) : state :=
  match e with
  | SetTab t => mk (integrations st) (selectedIntegration st) (isConfigOpen st) t (pending st) (toasts st) (clock st)
  | Click b => if bool_decide (b ∈ buttons st) then press b st else st
  | Wait dt =>
      if forallb (fun t => (clock st + dt <=? due t)%N) (pending st)
      then mk (integrations st) (selectedIntegration st) (isConfigOpen st) (tab st) (pending st) (toasts st)
              (clock st + dt)%N
      else st
  | Fire =>
      match earliest (pending st) with
      | Some (k, d) =>
          match pending st !! k with
          | Some t => resume (job t) (mk (integrations st) (selectedIntegration st) (isConfigOpen st) (tab st)
                                         (delete k (pending st)) (toasts st) d)
          | None => st
          end
      | None => st
      end
  | SetConfigOpen b => mk (integrations st) (selectedIntegration st) b (tab st) (pending st) (toasts st) (clock st)
  end.

Definition run (es : list event) (st : state) : state := foldl (fun s e => step e s) st es.

(** The stats card: [integrations.filter(i => i.status === 'connected').length]
    of [integrations.length] available. *)
Definition connected_count (st : state) : nat := length (List.filter is_connected (integrations st)).

(** The four stats cards: title, figure, caption.  Only the first is
    computed; "2h ago", 15 and 98.5% are literals of the JSX. *)
Definition stats_cards (st : state) : list (string * string * string) :=
  [ ("Active Integrations", JsString.string_of_N (N.of_nat (connected_count st)),
     "of " +:+ JsString.string_of_N (N.of_nat (length (integrations st))) +:+ " available");
    ("Last Sync", "2h ago", "GoHighLevel clients");
    ("Auto Exports", "15", "This month");
    ("Success Rate", "98.5%", "Last 30 days") ].

(** The Webhooks tab: its inputs' default values and the events it lists. *)
Definition webhook_defaults : list (string * string) :=
  [("quote-webhook", "https://hook.make.com/abc123def456"); ("client-webhook", ""); ("webhook-secret", "")].

Definition webhook_events : list string :=
  ["quote.calculated"; "quote.exported"; "quote.accepted"; "client.created"; "client.updated"].

(** The dialogs that are open: every configurable card of the mounted All
    tab renders its own [Dialog open={isConfigOpen}], each titled
    [Configure {selectedIntegration?.name}]. *)
Definition open_dialogs (st : state) : list (string * option string) :=
  if (tab st === TabAll) && isConfigOpen st
  then (fun i => (id i, name <$> selectedIntegration st)) <$> List.filter configurable (integrations st)
  else [].

(** ** Lemmas *)

(** The toast the second half of a test or a sync posts. *)
Definition resume_toast (p : Pending) : list toast :=
  match p with
  | PTest _ => [(toast_success, "Connection test successful")]
  | PSync _ => [(toast_success, "Data synced successfully")]
  end.

(** ** The configuration form ([IntegrationConfig])

    Each configurable card's dialog renders an [IntegrationConfig] with
    its own [config] state, mounted while the dialog is open.  The form
    shows the inputs of its integration; three of them are controlled and
    update [config], the others are uncontrolled.  [enabled] and
    [syncInterval] have no input.  Save Configuration and Cancel only
    close the dialog ([SetConfigOpen false]): nothing reads [config]. *)

Record config := mk_config { apiKey : string; webhookUrl : string; enabled : bool; autoSync : bool; syncInterval : string }.

Definition initial_config : config := mk_config "" "" true false "15".

Inductive Field :=
  | FApiKey | FLocation | FAutoSync                 (** GoHighLevel *)
  | FWebhookUrl | FTemplate | FRetry                (** Make.com *)
  | FSheetsId | FServiceAccount | FRange.           (** Google Sheets *)

#[export] Instance Field_eq_dec : EqDecision Field.
Proof. solve_decision. Defined.

Definition config_form (integrationId : string) : list Field :=
  if integrationId === "gohighlevel" then [FApiKey; FLocation; FAutoSync]
  else if integrationId === "make" then [FWebhookUrl; FTemplate; FRetry]
  else if integrationId === "google-sheets" then [FSheetsId; FServiceAccount; FRange]
  else [].

(** The controlled inputs' change events. *)
Inductive config_event :=
  | TypeApiKey (v : string)
  | ToggleAutoSync (b : bool)
  | TypeWebhookUrl (v : string).

Definition config_field (e : config_event) : Field :=
  match e with TypeApiKey _ => FApiKey | ToggleAutoSync _ => FAutoSync | TypeWebhookUrl _ => FWebhookUrl end.

(** [setConfig(prev => ({ ...prev, k: v }))], for an input the form shows. *)
Definition config_step (integrationId : string) (e : config_event) (c : config) : config :=
  if bool_decide (config_field e ∈ config_form integrationId) then
    match e with
    | TypeApiKey v => mk_config v (webhookUrl c) (enabled c) (autoSync c) (syncInterval c)
    | ToggleAutoSync b => mk_config (apiKey c) (webhookUrl c) (enabled c) b (syncInterval c)
    | TypeWebhookUrl v => mk_config (apiKey c) v (enabled c) (autoSync c) (syncInterval c)
    end
  else c.

(** What no handler changes: the cards' ids, names, descriptions,
    features and configurable flags. *)
Definition card (i : Integration) : string * string * string * list string * bool :=
  (id i, name i, description i, features i, configurable i).

(** [earliest] finds a timer of the list, one that is due no later than
    any other. *)
Lemma earliest_spec (l : list timer) : l <> [] ->
  exists k t, earliest l = Some (k, due t) /\ l !! k = Some t /\ Forall (fun u => (due t <= due u)%N) l.
Proof.
  induction l as [|t l IH]; intros Hne; [done|]. simpl.
  destruct (decide (l = [])) as [->|Hl].
  - exists 0, t. split; [done|split; [done|]]. constructor; [lia|constructor].
  - destruct (IH Hl) as (k & u & Hk & Hu & Hmin). rewrite Hk. destruct (N.ltb_spec (due u) (due t)).
    + exists (S k), u. split; [done|split; [done|]]. constructor; [lia|done].
    + exists 0, t. split; [done|split; [done|]]. constructor; [lia|].
      eapply Forall_impl; [exact Hmin|]. intros v Hv; cbn in Hv; lia.
Qed.

(** A timer set after the others and due strictly before all of them is
    the next to run. *)
Lemma earliest_last (l : list timer) (t : timer) :
  Forall (fun u => (due t < due u)%N) l -> earliest (l ++ [t]) = Some (length l, due t).
Proof.
  induction 1 as [|u l Hu _ IH]; [done|]. simpl. rewrite IH.
  destruct (N.ltb_spec (due t) (due u)); [done|lia].
Qed.

Lemma resume_effect (p : Pending) (st : state) :
  pending (resume p st) = pending st /\ toasts (resume p st) = toasts st ++ resume_toast p /\
  clock (resume p st) = clock st.
Proof. by destruct p. Qed.

(** [Fire] runs a timer due no later than any other running timer, at its
    due time, and posts its toast. *)
Lemma fire_step (st : state) : pending st <> [] ->
  exists k t, pending st !! k = Some t /\ Forall (fun u => (due t <= due u)%N) (pending st) /\
    pending (step Fire st) = delete k (pending st) /\
    toasts (step Fire st) = toasts st ++ resume_toast (job t) /\ clock (step Fire st) = due t.
Proof.
  intros Hne. destruct (earliest_spec _ Hne) as (k & t & He & Hk & Hmin).
  exists k, t. split; [done|split; [done|]]. cbn [step]. rewrite He, Hk.
  destruct (resume_effect (job t) (mk (integrations st) (selectedIntegration st) (isConfigOpen st) (tab st)
                                      (delete k (pending st)) (toasts st) (due t))) as (H1 & H2 & H3).
  by rewrite H1, H2, H3.
Qed.

Lemma card_set_status (s : Status) (i : Integration) : card (set_status s i) = card i.
Proof. done. Qed.

Lemma card_set_lastSync (t : timestamp) (i : Integration) : card (set_lastSync t i) = card i.
Proof. done. Qed.

Lemma cards_step (e : event) (st : state) :
  map card (integrations (step e st)) = map card (integrations st).
Proof.
  destruct e as [t|b|dt| |b]; simpl.
  - done.
  - case_bool_decide; [|done]. destruct b; simpl; try done; by apply map_where_keys.
  - by destruct (forallb _ _).
  - destruct (earliest _) as [[k d]|]; [|done].
    destruct (pending st !! k) as [[[i|i] d']|]; simpl; [done| |done]. by apply map_where_keys.
  - done.
Qed.

Lemma reachable_cards (st : state) :
  reachable step initial st -> map card (integrations st) = map card initial_integrations.
Proof.
  apply (reachable_inv step initial (fun s => map card (integrations s) = map card initial_integrations));
    [done|]. intros e s _ IH. by rewrite cards_step.
Qed.

Lemma configurable_of_cards (l l' : list Integration) :
  map card l = map card l' -> length (List.filter configurable l) = length (List.filter configurable l').
Proof.
  revert l'; induction l as [|x l IH]; intros [|y l'] H; try discriminate; [done|].
  simpl in H. injection H as Hxy Hl.
  assert (configurable x = configurable y) as Hc by (unfold card in Hxy; congruence).
  simpl. rewrite Hc. destruct (configurable y); simpl; by rewrite (IH l').
Qed.

Lemma buttons_connected (st : state) (x : Integration) :
  tab st = TabAll -> x ∈ integrations st -> is_connected x = true ->
  BSync (id x) ∈ buttons st /\ BDisconnect (id x) ∈ buttons st.
Proof.
  intros Ht Hx Hc. unfold buttons. rewrite Ht.
  split; apply list_elem_of_bind; exists x; (split; [|done]); unfold card_buttons_all; rewrite Hc; set_solver.
Qed.

Lemma step_click (b : Button) (st : state) :
  b ∈ buttons st -> step (Click b) st = press b st.
Proof. intros Hb. simpl. by rewrite bool_decide_true. Qed.

Lemma buttons_start_timer (p : Pending) (delay : N) (msg : string) (st : state) :
  buttons (start_timer p delay msg st) = buttons st.
Proof. reflexivity. Qed.

Lemma step_wait (st : state) (dt : N) :
  Forall (fun t => (clock st + dt <= due t)%N) (pending st) ->
  step (Wait dt) st =
    mk (integrations st) (selectedIntegration st) (isConfigOpen st) (tab st) (pending st) (toasts st) (clock st + dt)%N.
Proof.
  intros H. cbn [step]. replace (forallb _ _) with true; [done|]. symmetry. apply forallb_forall.
  intros t Ht. apply (proj2 (list_elem_of_In _ _)) in Ht. rewrite Forall_forall in H. apply N.leb_le, H, Ht.
Qed.

Lemma elem_of_map_where_id (f : Integration -> Integration) (i : string) (l : list Integration) (y : Integration) :
  (forall x, id (f x) = id x) ->
  y ∈ map_where (fun x => id x === i) f l -> id y = i -> exists x, x ∈ l /\ id x = i /\ y = f x.
Proof.
  intros Hf Hy Hi. apply elem_of_map_where in Hy as (x & Hx & ->).
  case_bool_decide as E; [by exists x|]. contradiction.
Qed.

(** *** Claims *)

(** C28: Interleaving on the integrations page: when "Sync Now" is
    clicked on a connected integration and "Disconnect" is clicked on it
    before the sync's three-second timer fires (any timers already running
    being due later), the sync still completes: when its timer fires the
    integration ends disconnected with its last sync stamped at the
    timer's due time, three seconds after the click, and the last toast
    says "Data synced successfully". *)
Theorem sync_lands_after_disconnect (st : state) (x : Integration) (dt : N) :
  tab st = TabAll -> x ∈ integrations st -> is_connected x = true ->
  Forall (fun t => (clock st + sync_delay < due t)%N) (pending st) -> (dt <= sync_delay)%N ->
  let st' := run [Click (BSync (id x)); Wait dt; Click (BDisconnect (id x)); Fire] st in
  (forall y, y ∈ integrations st' -> id y = id x ->
             status y = disconnected /\ lastSync y = Some (clock st + sync_delay)%N) /\
  last (toasts st') = Some (toast_success, "Data synced successfully").
Proof.
  intros Ht Hx Hc Hlate Hdt. destruct (buttons_connected st x Ht Hx Hc) as [Hs Hd].
  unfold run. cbn [foldl]. rewrite (step_click (BSync (id x)) st) by done.
  rewrite step_wait.
  2:{ cbn. apply Forall_app; split; [|constructor; [cbn; lia|constructor]].
      eapply Forall_impl; [exact Hlate|]. intros t Hlt; cbn in Hlt; cbn; lia. }
  rewrite (step_click (BDisconnect (id x))) by done.
  cbn [step press handleSync handleDisconnect start_timer with_toast with_integrations pending clock].
  rewrite earliest_last by (eapply Forall_impl; [exact Hlate|]; intros t Hlt; cbn in Hlt; cbn; lia).
  rewrite lookup_app_r, Nat.sub_diag by done. cbn. split.
  - intros y Hy Hi.
    apply elem_of_map_where_id in Hy as (y1 & Hy1 & _ & ->); [|done|done].
    apply elem_of_map_where_id in Hy1 as (y0 & _ & _ & ->); [|done|done]. done.
  - by rewrite last_snoc.
Qed.

Lemma sync_lands_after_disconnect_witness :
  let x := mk_integration "gohighlevel" "GoHighLevel" "Sync clients and leads from your CRM system" connected
      (Some (JsString.date_time 2024 6 1 10 30)) ["Client Sync"; "Lead Import"; "Contact Management"] true in
  (tab initial = TabAll /\ x ∈ integrations initial /\ is_connected x = true /\
   Forall (fun t => (clock initial + sync_delay < due t)%N) (pending initial) /\ (1000 <= sync_delay)%N) /\
  let st' := run [Click (BSync (id x)); Wait 1000; Click (BDisconnect (id x)); Fire] initial in
  (forall y, y ∈ integrations st' -> id y = id x ->
             status y = disconnected /\ lastSync y = Some (clock initial + sync_delay)%N) /\
  last (toasts st') = Some (toast_success, "Data synced successfully").
Proof.
  cbv zeta. split; [split; [reflexivity|split; [left|split; [reflexivity|split; [constructor|vm_compute; discriminate]]]]|].
  apply sync_lands_after_disconnect; [reflexivity|left|reflexivity|constructor|vm_compute; discriminate].
Defined.

(** C32: In every state the page can reach, it lists the same four
    integrations in the same order (ids, names, descriptions, features
    and configurable flags never change), and the "Connected" card's count
    is bounded by the four integrations it is shown against. *)
Theorem integrations_cards_invariant (st : state) :
  reachable step initial st ->
  map card (integrations st) = map card initial_integrations /\
  connected_count st <= length (integrations st) /\ length (integrations st) = 4.
Proof.
  intros Hr. pose proof (reachable_cards st Hr) as Hc. split; [done|].
  unfold connected_count. split; [apply filter_length_le|].
  rewrite <-(length_map card), Hc. done.
Qed.

Lemma integrations_cards_invariant_witness :
  reachable step initial (run [Click (BConnect "google-sheets")] initial) /\
  map card (integrations (run [Click (BConnect "google-sheets")] initial)) = map card initial_integrations /\
  connected_count (run [Click (BConnect "google-sheets")] initial) <=
    length (integrations (run [Click (BConnect "google-sheets")] initial)) /\
  length (integrations (run [Click (BConnect "google-sheets")] initial)) = 4.
Proof.
  assert (H : reachable step initial (run [Click (BConnect "google-sheets")] initial)) by apply reachable_run.
  split; [exact H|]. apply integrations_cards_invariant. exact H.
Defined.

(** C33: The configuration dialogs share one [isConfigOpen] flag: from any
    reachable state, clicking the gear of one configurable card on the All
    tab opens the dialog of every configurable card at once, three
    dialogs, each titled with the one selected integration. *)
Theorem configure_opens_every_dialog (st : state) (i : string) :
  reachable step initial st -> tab st = TabAll -> BConfigure i ∈ buttons st ->
  let st' := step (Click (BConfigure i)) st in
  length (open_dialogs st') = 3 /\
  Forall (fun d => d.2 = name <$> find_integration i st) (open_dialogs st').
Proof.
  intros Hr Ht Hb. simpl. rewrite bool_decide_true by done.
  unfold open_dialogs; simpl. rewrite Ht. simpl. split.
  - rewrite length_fmap. rewrite (configurable_of_cards _ initial_integrations); [done|].
    by apply reachable_cards.
  - apply Forall_fmap, Forall_forall. done.
Qed.

Lemma configure_opens_every_dialog_witness :
  (reachable step initial initial /\ tab initial = TabAll /\ BConfigure "make" ∈ buttons initial) /\
  length (open_dialogs (step (Click (BConfigure "make")) initial)) = 3 /\
  Forall (fun d => d.2 = name <$> find_integration "make" initial)
    (open_dialogs (step (Click (BConfigure "make")) initial)).
Proof.
  assert (Hb : BConfigure "make" ∈ buttons initial).
  { apply (bool_decide_unpack (BConfigure "make" ∈ buttons initial)). vm_compute. reflexivity. }
  split; [split; [constructor|split; [reflexivity|exact Hb]]|].
  apply (configure_opens_every_dialog initial "make"); [constructor|reflexivity|exact Hb].
Defined.

(** C31: Every test and sync the page starts completes without further
    input, whatever happens in between: letting the running timers fire
    (the event loop runs the one due first, as many times as timers are
    running) leaves none running, posts exactly one success toast per
    timer (the awaited timers never reject, so no failure toast can
    appear), and by then every timer has come due. *)
Theorem timers_eventually_resolve (st : state) :
  let st' := run (replicate (length (pending st)) Fire) st in
  pending st' = [] /\
  (exists posted, toasts st' = toasts st ++ posted /\
                  posted ≡ₚ pending st ≫= (fun t => resume_toast (job t))) /\
  Forall (fun t => (due t <= clock st')%N) (pending st).
Proof.
  cbv zeta. remember (length (pending st)) as n eqn:Hn. revert st Hn.
  induction n as [|n IH]; intros st Hn.
  - destruct (pending st) eqn:E; [|discriminate]. split; [done|split; [|constructor]].
    exists []. split; [by rewrite app_nil_r|done].
  - assert (Hne : pending st <> []) by (intros E; rewrite E in Hn; discriminate).
    destruct (fire_step st Hne) as (k & t & Hk & Hmin & Hp & Ht & Hc).
    assert (Hn' : n = length (pending (step Fire st))).
    { rewrite Hp, length_delete by (eexists; exact Hk). lia. }
    unfold run in *. cbn [replicate foldl].
    destruct (IH (step Fire st) Hn') as (H1 & (posted & Hpost & Hperm) & H3).
    split; [done|split].
    + exists (resume_toast (job t) ++ posted). split; [by rewrite Hpost, Ht, app_assoc|].
      rewrite (delete_Permutation (pending st) k t Hk). csimpl. by rewrite Hperm, Hp.
    + apply Forall_forall. intros u Hu. rewrite (delete_Permutation (pending st) k t Hk) in Hu.
      rewrite Forall_forall in H3, Hmin. apply elem_of_cons in Hu as [->|Hu]; [|apply H3; by rewrite Hp].
      destruct (pending (step Fire st)) as [|v vs] eqn:Ev.
      * destruct n; [|discriminate]. cbn [foldl replicate]. rewrite Hc. lia.
      * transitivity (due v); [|apply H3; left]. apply Hmin.
        rewrite (delete_Permutation (pending st) k t Hk). right. rewrite <-Hp. left.
Qed.

(** The timers run by due time, not in the order they were set: a test
    clicked half a second after a sync lands first. *)
Lemma test_overtakes_sync :
  let st := run [Click (BSync "gohighlevel"); Wait 500; Click (BTest "gohighlevel"); Fire] initial in
  last (toasts st) = Some (toast_success, "Connection test successful") /\
  map job (pending st) = [PSync "gohighlevel"] /\ clock st = 2500%N.
Proof. vm_compute. repeat split. Qed.

(** Whatever is typed into a configuration form, [enabled] and
    [syncInterval] keep their initial values (no input edits them), and
    only the GoHighLevel form ever sets an API key. *)
Lemma config_step_keeps (i : string) (e : config_event) (c : config) :
  enabled (config_step i e c) = enabled c /\ syncInterval (config_step i e c) = syncInterval c /\
  (i <> "gohighlevel" -> apiKey (config_step i e c) = apiKey c).
Proof.
  destruct e as [v|b|v]; unfold config_step; (case_bool_decide as Hf; [|repeat split; auto]);
    cbn [enabled syncInterval apiKey]; (split; [done|split; [done|]]); intros Hi; try done.
  exfalso. unfold config_form in Hf. repeat case_bool_decide; simplify_eq; set_solver.
Qed.

(** Whatever is typed into a configuration form, [enabled] and
    [syncInterval] keep their initial values (no input edits them), and
    only the GoHighLevel form ever sets an API key. *)
Lemma config_untouched (i : string) (es : list config_event) :
  let c := foldl (fun c e => config_step i e c) initial_config es in
  enabled c = true /\ syncInterval c = "15" /\ (i <> "gohighlevel" -> apiKey c = "").
Proof.
  assert (Hall : forall es c,
    enabled (foldl (fun c e => config_step i e c) c es) = enabled c /\
    syncInterval (foldl (fun c e => config_step i e c) c es) = syncInterval c /\
    (i <> "gohighlevel" -> apiKey (foldl (fun c e => config_step i e c) c es) = apiKey c)).
  { induction es0 as [|e es0 IH]; intros c; simpl; [repeat split; auto|].
    destruct (IH (config_step i e c)) as (H1 & H2 & H3). destruct (config_step_keeps i e c) as (G1 & G2 & G3).
    split; [congruence|]. split; [congruence|]. intros Hi. rewrite H3, G3 by done. done. }
  cbv zeta. destruct (Hall es initial_config) as (H1 & H2 & H3). split; [exact H1|]. split; [exact H2|].
  intros Hi. rewrite H3 by done. reflexivity.
Qed.

Lemma length_List_filter_le {A} (f : A -> bool) (l : list A) : length (List.filter f l) <= length l.
Proof. induction l as [|x l IH]; simpl; [lia|destruct (f x); simpl; lia]. Qed.

(** The Active Integrations card never counts more integrations than it
    says are available, in every reachable state, and the Last Sync card
    reads "2h ago" whatever the syncs did. *)
Lemma stats_cards_bounded (st : state) :
  reachable step initial st ->
  connected_count st <= length initial_integrations /\
  length (integrations st) = length initial_integrations /\
  List.nth 1 (stats_cards st) ("", "", "") = ("Last Sync", "2h ago", "GoHighLevel clients").
Proof.
  intros Hr. pose proof (f_equal length (reachable_cards st Hr)) as Hl. rewrite !length_map in Hl.
  split; [|by split]. unfold connected_count. rewrite <-Hl. apply length_List_filter_le.
Qed.

End Integrations.
