(* ===== verification/BusinessSettings.v ===== *)
(** * The business settings page

    [src/src/pages/company/BusinessSettings.tsx]: the company's business
    details and system settings held in React state, the two tabs with
    their controlled inputs, the preview card, and the two save handlers.
    A save sets [isLoading], awaits a one-second timer and then shows its
    toast and clears [isLoading] in its [finally]; the timer firing is a
    separate event.  Nothing is written to Firestore (the service calls
    are commented out).  The number inputs go through [parseInt] (the
    next quote number, modelled from its definition) and [parseFloat]
    (the tax rate, whose result is the event's value; [NaN] is [None]). *)

From Stdlib Require Import Ascii QArith ZArith.
From S2P Require Import Prelude JsString Types Auth DocStore.

Module BusinessSettings.

Record business := mk_business {
  business_name : string;
  abn : string;
  logo_url : string;
  address : string;
  phone : string;
  email : string;
  website : string;
  terms_and_conditions : string }.

(** The fields [handleBusinessChange] is called with. *)
Inductive BField := BName | BAbn | BLogo | BAddress | BPhone | BEmail | BWebsite | BTerms.

Record system := mk_system {
  quote_number_prefix : string;
  next_quote_number : option Z;     (** [parseInt]'s result; [NaN] is [None] *)
  date_format : string;
  currency_symbol : string;
  tax_rate : option Q;              (** [parseFloat]'s result; [NaN] is [None] *)
  tax_name : string }.

(** The values [handleSystemChange] is called with, one per input. *)
Inductive SChange :=
  | SPrefix (s : string)
  | SNext (n : option Z)
  | SDateFormat (s : string)
  | SCurrency (s : string)
  | STaxName (s : string)
  | STaxRate (q : option Q).

Inductive Tab := TabBusiness | TabSystem.

#[export] Instance Tab_eq_dec : EqDecision Tab.
Proof. solve_decision. Defined.

(** The running save of one of the two buttons. *)
Inductive Save := SaveBusiness | SaveSystem.

Record state := mk {
  isLoading : bool;
  businessSettings : business;
  systemSettings : system;
  tab : Tab;
  pending : list Save;
  toasts : list toast }.

Definition initial_business : business :=
  mk_business "Acme Electrical Services" "12 345 678 901" "" "123 Main Street, Brisbane, QLD 4000"
    "+61 7 1234 5678" "info@acmeelectrical.com" "https://www.acmeelectrical.com"
    "Payment is due within 30 days of invoice date. A 10% GST will be added to all services unless otherwise stated. All work is guaranteed for 12 months from completion date.".

Definition initial_system : system := mk_system "ACE-" (Some 1001%Z) "DD/MM/YYYY" "AUD" (Some 10%Q) "GST".

Definition initial : state := mk false initial_business initial_system TabBusiness [] [].

(** [setBusinessSettings(prev => ({ ...prev, [field]: value }))] *)
Definition handleBusinessChange (f : BField) (v : string) (b : business) : business :=
  match f with
  | BName => mk_business v (abn b) (logo_url b) (address b) (phone b) (email b) (website b) (terms_and_conditions b)
  | BAbn => mk_business (business_name b) v (logo_url b) (address b) (phone b) (email b) (website b) (terms_and_conditions b)
  | BLogo => mk_business (business_name b) (abn b) v (address b) (phone b) (email b) (website b) (terms_and_conditions b)
  | BAddress => mk_business (business_name b) (abn b) (logo_url b) v (phone b) (email b) (website b) (terms_and_conditions b)
  | BPhone => mk_business (business_name b) (abn b) (logo_url b) (address b) v (email b) (website b) (terms_and_conditions b)
  | BEmail => mk_business (business_name b) (abn b) (logo_url b) (address b) (phone b) v (website b) (terms_and_conditions b)
  | BWebsite => mk_business (business_name b) (abn b) (logo_url b) (address b) (phone b) (email b) v (terms_and_conditions b)
  | BTerms => mk_business (business_name b) (abn b) (logo_url b) (address b) (phone b) (email b) (website b) v
  end.

(** [setSystemSettings(prev => ({ ...prev, [field]: value }))] *)
Definition handleSystemChange (c : SChange) (s : system) : system :=
  match c with
  | SPrefix v => mk_system v (next_quote_number s) (date_format s) (currency_symbol s) (tax_rate s) (tax_name s)
  | SNext v => mk_system (quote_number_prefix s) v (date_format s) (currency_symbol s) (tax_rate s) (tax_name s)
  | SDateFormat v => mk_system (quote_number_prefix s) (next_quote_number s) v (currency_symbol s) (tax_rate s) (tax_name s)
  | SCurrency v => mk_system (quote_number_prefix s) (next_quote_number s) (date_format s) v (tax_rate s) (tax_name s)
  | STaxName v => mk_system (quote_number_prefix s) (next_quote_number s) (date_format s) (currency_symbol s) (tax_rate s) v
  | STaxRate v => mk_system (quote_number_prefix s) (next_quote_number s) (date_format s) (currency_symbol s) v (tax_name s)
  end.

(** The first half of [handleSaveBusinessSettings] and
    [handleSaveSystemSettings]: [setIsLoading(true)] and the timer. *)
Definition start_save (k : Save) (st : state) : state :=
  mk true (businessSettings st) (systemSettings st) (tab st) (pending st ++ [k]) (toasts st).

Definition save_message (k : Save) : string :=
  match k with
  | SaveBusiness => "Business settings saved successfully"
  | SaveSystem => "System settings saved successfully"
  end.

(** The second half: the toast of the [try], then the [finally]. *)
Definition finish_save (k : Save) (st : state) : state :=
  mk false (businessSettings st) (systemSettings st) (tab st) (pending st)
     (toasts st ++ [(toast_success, save_message k)]).

(** Each tab's save button: its text and its [disabled] flag; the
    outline button beside it ("Reset Changes", "Reset to Defaults") has
    no handler. *)
Definition save_button (k : Save) (st : state) : string * bool :=
  (if isLoading st then "Saving..."
   else match k with SaveBusiness => "Save Business Settings" | SaveSystem => "Save System Settings" end,
   isLoading st).

(** [String(n)] of the number input's value. *)
Definition string_of_num (n : option Z) : string :=
  match n with Some z => JsString.string_of_Z z | None => "NaN" end.

(** The preview's "Next Quote Number":
    [prefix + String(next_quote_number).padStart(6, '0')]. *)
Definition next_quote_preview (s : system) : string :=
  quote_number_prefix s +:+ JsString.padStart (string_of_num (next_quote_number s)) 6 "0"%char.

Definition date_preview (s : system) : string :=
  if date_format s === "DD/MM/YYYY" then "31/12/2024"
  else if date_format s === "MM/DD/YYYY" then "12/31/2024"
  else if date_format s === "YYYY-MM-DD" then "2024-12-31"
  else "31 Dec 2024".

Inductive event :=
  | SetTab (t : Tab)
  | EditBusiness (f : BField) (v : string)
  | EditSystem (c : SChange)
  | TypeNextNumber (text : string)      (** [parseInt(e.target.value)] *)
  | ClickSave (k : Save)
  | Fire (i : nat).                     (** the [i]-th running save's timer fires *)

Definition tab_of (k : Save) : Tab := match k with SaveBusiness => TabBusiness | SaveSystem => TabSystem end.

Definition step (e : event) (st : state) : state :=
  match e with
  | SetTab t => mk (isLoading st) (businessSettings st) (systemSettings st) t (pending st) (toasts st)
  | EditBusiness f v =>
      if tab st === TabBusiness
      then mk (isLoading st) (handleBusinessChange f v (businessSettings st)) (systemSettings st) (tab st)
              (pending st) (toasts st)
      else st
  | EditSystem c =>
      if tab st === TabSystem
      then mk (isLoading st) (businessSettings st) (handleSystemChange c (systemSettings st)) (tab st)
              (pending st) (toasts st)
      else st
  | TypeNextNumber text =>
      if tab st === TabSystem
      then mk (isLoading st) (businessSettings st)
              (handleSystemChange (SNext (JsString.parseInt text)) (systemSettings st)) (tab st)
              (pending st) (toasts st)
      else st
  (** [disabled={isLoading}]; each button is on its own tab. *)
  | ClickSave k => if (tab st === tab_of k) && negb (isLoading st) then start_save k st else st
  | Fire i =>
      match pending st !! i with
      | Some k => finish_save k (mk (isLoading st) (businessSettings st) (systemSettings st) (tab st)
                                   (delete i (pending st)) (toasts st))
      | None => st
      end
  end.

Definition run (es : list event) (st : state) : state := foldl (fun s e => step e s) st es.

(** ** Lemmas *)

Definition single_flight (st : state) : Prop :=
  length (pending st) <= 1 /\ (isLoading st = true <-> pending st <> []).

Lemma single_flight_step (e : event) (st : state) :
  single_flight st -> single_flight (step e st).
Proof.
  intros [Hlen Hload]. unfold single_flight.
  destruct e as [t|f v|c|text|k|i]; simpl.
  - done.
  - by case_bool_decide.
  - by case_bool_decide.
  - by case_bool_decide.
  - destruct (bool_decide _ && negb (isLoading st)) eqn:E; [|done]. unfold start_save; simpl.
    apply andb_true_iff in E as [_ El%negb_true_iff]. rewrite El in Hload.
    destruct (pending st) as [|p ps]; [|discriminate (proj2 Hload ltac:(done))].
    simpl. split; [lia|]. split; [intros _; discriminate|done].
  - destruct (pending st !! i) as [k|] eqn:Ei; [|done]. simpl.
    destruct (pending st) as [|p [|p' ps]]; simpl in *; [done| |lia].
    destruct i as [|i]; [|simpl in Ei; discriminate]. simpl. split; [lia|]. split; [discriminate|done].
Qed.

(** *** Claims *)

(** The input of the next quote number is a controlled input whose
    text is [String(next_quote_number)] and whose [onChange] parses the
    text back with [parseInt]: the change event of the text the input
    shows leaves the page state as it is, for every integer. *)
Theorem next_number_input_roundtrip (st : state) (z : Z) :
  tab st = TabSystem -> next_quote_number (systemSettings st) = Some z ->
  step (TypeNextNumber (string_of_num (next_quote_number (systemSettings st)))) st = st.
Proof.
  intros Ht Hn. rewrite Hn. simpl. rewrite bool_decide_true by done.
  rewrite JsString.parseInt_string_of_Z.
  destruct st as [l b [p n d c r tn] t ps ts]; simpl in *. by subst.
Qed.

Lemma next_number_input_roundtrip_witness :
  let st := step (SetTab TabSystem) initial in
  (tab st = TabSystem /\ next_quote_number (systemSettings st) = Some 1001%Z) /\
  step (TypeNextNumber (string_of_num (next_quote_number (systemSettings st)))) st = st.
Proof.
  split; [split; reflexivity|]. apply (next_number_input_roundtrip _ 1001%Z); reflexivity.
Defined.

(** The preview's "Next Quote Number" is formatted the way
    [QuoteService.generateQuoteNumber] formats the quote numbers it
    issues: for every non-negative number typed, the preview is exactly
    [quote_number prefix n] of [DocStore]; the number typed is never
    saved, so the numbers issued do not follow it. *)
Theorem preview_matches_generated (s : system) (z : Z) :
  next_quote_number s = Some z -> (0 <= z)%Z ->
  next_quote_preview s = DocStore.quote_number (quote_number_prefix s) (Z.to_N z).
Proof.
  intros Hn Hz. unfold next_quote_preview, DocStore.quote_number. rewrite Hn. simpl.
  unfold JsString.string_of_Z. by rewrite (proj2 (Z.ltb_ge z 0) Hz).
Qed.

Lemma preview_matches_generated_witness :
  (next_quote_number initial_system = Some 1001%Z /\ (0 <= 1001)%Z) /\
  next_quote_preview initial_system = DocStore.quote_number "ACE-" 1001%N.
Proof. split; [split; [reflexivity|lia]|]. apply (preview_matches_generated initial_system 1001%Z); [reflexivity|lia]. Defined.

(** Clearing the number input gives [parseInt('') = NaN], which the
    preview prints as the quote number [<prefix>000NaN]. *)
Lemma preview_after_clearing (st : state) :
  tab st = TabSystem ->
  next_quote_preview (systemSettings (step (TypeNextNumber "") st)) =
    quote_number_prefix (systemSettings st) +:+ "000NaN".
Proof. intros Ht. simpl. by rewrite bool_decide_true. Qed.

Lemma reachable_single_flight (st : state) : reachable step initial st -> single_flight st.
Proof.
  apply (reachable_inv step initial single_flight).
  - split; [simpl; lia|]. split; [discriminate|done].
  - intros e s _. apply single_flight_step.
Qed.

(** The toast a completed save posts. *)
Definition save_toast (k : Save) : list toast := [(toast_success, save_message k)].

Lemma fire_pops_save : forall st k ks, pending st = k :: ks ->
  pending (step (Fire 0) st) = ks /\ toasts (step (Fire 0) st) = toasts st ++ save_toast k.
Proof. intros st k ks Hp. unfold step. rewrite Hp. done. Qed.

(** C29: The two save buttons are disabled while a save runs: in every
    state the page can reach at most one save is in flight, and the
    buttons are disabled ([isLoading]) exactly while one is. *)
Theorem save_single_flight (st : state) :
  reachable step initial st ->
  length (pending st) <= 1 /\ (isLoading st = true <-> pending st <> []).
Proof. apply reachable_single_flight. Qed.

Lemma save_single_flight_witness :
  let st := run [ClickSave SaveBusiness; ClickSave SaveBusiness; Fire 0; ClickSave SaveBusiness] initial in
  reachable step initial st /\
  length (pending st) <= 1 /\ (isLoading st = true <-> pending st <> []).
Proof.
  assert (H : reachable step initial
                (run [ClickSave SaveBusiness; ClickSave SaveBusiness; Fire 0; ClickSave SaveBusiness] initial))
    by apply reachable_run.
  split; [exact H|]. apply save_single_flight. exact H.
Defined.

(** C30: Every save the page starts completes without further input: from
    any reachable state, letting the running timers fire (the oldest
    first, as many times as saves are running) leaves no save running,
    re-enables the save buttons, and posts each save's success toast in
    the order the saves were started. *)
Theorem save_eventually_completes (st : state) :
  reachable step initial st ->
  let st' := run (replicate (length (pending st)) (Fire 0)) st in
  isLoading st' = false /\ pending st' = [] /\ toasts st' = toasts st ++ (pending st ≫= save_toast).
Proof.
  intros Hr. unfold run.
  destruct (drain_fifo step (Fire 0) pending toasts save_toast fire_pops_save st) as [Hp Ht].
  split; [|done]. destruct (reachable_single_flight _ (reachable_foldl step initial st (replicate (length (pending st)) (Fire 0)) Hr)) as [_ Hl].
  destruct (isLoading _); [|done]. by destruct (proj1 Hl eq_refl).
Qed.

Lemma save_eventually_completes_witness :
  let st := run [SetTab TabSystem; ClickSave SaveSystem] initial in
  reachable step initial st /\
  (let st' := run (replicate (length (pending st)) (Fire 0)) st in
   isLoading st' = false /\ pending st' = [] /\ toasts st' = toasts st ++ (pending st ≫= save_toast)).
Proof.
  assert (H : reachable step initial (run [SetTab TabSystem; ClickSave SaveSystem] initial)) by apply reachable_run.
  split; [exact H|]. exact (save_eventually_completes _ H).
Defined.

(** Starting a save turns both tabs' buttons into a disabled "Saving...",
    and finishing it restores both labels and enables them. *)
Lemma save_button_cycle (k k' : Save) (st : state) :
  save_button k' (start_save k st) = ("Saving...", true) /\
  (save_button k' (finish_save k st)).2 = false /\
  (save_button k' (finish_save k st)).1 <> "Saving...".
Proof. repeat split; destruct k'; cbn; discriminate. Qed.

End BusinessSettings.
