(* ===== verification/Dashboards.v ===== *)
(** * The two dashboards

    [src/src/pages/admin/AdminDashboard.tsx] and
    [src/src/pages/company/Dashboard.tsx]: constant metrics and activity
    lists, the admin metric cards and system status, the derived "Quotes Accepted" figure, the status colours of
    the recent quotes, and the [<Link>] targets of their quick actions.
    The pages hold no state; what they do is send the user to those
    links, which are composed here with the router of [Routing]. *)

From Stdlib Require Import Ascii QArith ZArith.
From S2P Require Import Prelude JsString Types Auth Routing.

Module AdminDashboard.

Record metrics_t := mk_metrics {
  totalCompanies : nat;
  totalUsers : nat;
  activeTrades : nat;
  monthlyGrowth : nat }.

Definition metrics : metrics_t := mk_metrics 12 48 5 15.

Record activity := mk_activity { act_id : nat; action : string; company : string; time : string }.

Definition recentActivity : list activity :=
  [ mk_activity 1 "New company registered" "Acme Electrical" "2 hours ago";
    mk_activity 2 "User created" "Solar Pro Solutions" "4 hours ago";
    mk_activity 3 "Quote template updated" "System" "1 day ago";
    mk_activity 4 "New trade added" "System" "2 days ago" ].

(** The Quick Actions card's links. *)
Definition quick_links : list string :=
  ["/admin/companies/new"; "/admin/trades/new"; "/admin/users/new"; "/admin/analytics"].

(** The four metric cards: title, figure and caption. *)
Definition metric_cards (m : metrics_t) : list (string * string * string) :=
  [ ("Total Companies", JsString.string_of_N (N.of_nat (totalCompanies m)), "+2 this month");
    ("Total Users", JsString.string_of_N (N.of_nat (totalUsers m)), "+8 this month");
    ("Active Trades", JsString.string_of_N (N.of_nat (activeTrades m)), "Solar, Electrical, Plumbing, HVAC, Roofing");
    ("Monthly Growth", JsString.string_of_N (N.of_nat (monthlyGrowth m)) +:+ "%", "↑ 3% from last month") ].

(** The System Status card: three green indicators. *)
Definition system_status : list string :=
  ["All Systems Operational"; "Database Performance: Good"; "API Response Time: 120ms"].

End AdminDashboard.

Module CompanyDashboard.

Record metrics_t := mk_metrics {
  totalQuotes : nat;
  quotesThisMonth : nat;
  totalRevenue : Q;
  revenueThisMonth : Q;
  conversionRate : Q;
  avgQuoteValue : Q }.

Definition metrics : metrics_t := mk_metrics 24 8 125000 35000 68 5200.

Record recent_quote := mk_recent { rq_id : string; client : string; value : Q; status : string; date : string }.

Definition recentQuotes : list recent_quote :=
  [ mk_recent "Q-2024-001" "ABC Construction" 8500 "pending" "2024-07-01";
    mk_recent "Q-2024-002" "Home Renovations Inc" 12000 "accepted" "2024-06-30";
    mk_recent "Q-2024-003" "Solar Solutions Co" 15500 "draft" "2024-06-29";
    mk_recent "Q-2024-004" "Green Energy Ltd" 9200 "exported" "2024-06-28" ].

Definition getStatusColor (s : string) : string :=
  if s === "accepted" then "bg-green-100 text-green-800"
  else if s === "pending" then "bg-yellow-100 text-yellow-800"
  else if s === "exported" then "bg-blue-100 text-blue-800"
  else if s === "draft" then "bg-gray-100 text-gray-800"
  else "bg-gray-100 text-gray-800".

(** "Quotes Accepted":
    [Math.round(metrics.quotesThisMonth * metrics.conversionRate / 100)]. *)
Definition quotes_accepted (m : metrics_t) : Z :=
  JsString.math_round (inject_Z (Z.of_nat (quotesThisMonth m)) * conversionRate m / 100).

(** The header's "New Quote" button, the Quick Actions card, and the
    recent quotes' "View All Quotes". *)
Definition quick_links : list string :=
  ["/quotes/new"; "/quotes/new"; "/clients/new"; "/products-services"; "/business-settings"; "/quotes"].

End CompanyDashboard.

(** The strings of [Quote['status']]. *)
Definition quote_status_strs : list string := ["draft"; "calculated"; "exported"; "accepted"; "rejected"].

(** ** Where the quick actions lead *)

Lemma render_signed_in (ctx : AuthContext.state) (u : SessionUser.t) (path : string) :
  AuthContext.user ctx = Some u -> AuthContext.loading ctx = false ->
  Routing.render ctx path =
    match Routing.route path with
    | Routing.Public p => Routing.Show (Routing.VPage None p)
    | Routing.Guarded r l c =>
        if negb (SessionUser.role u === r)
        then Routing.Go (if SessionUser.role u === global_app_admin then "/admin" else "/dashboard")
        else match c with
             | Routing.ChildPage p => Routing.Show (Routing.VPage (Some l) p)
             | Routing.ChildNavigate to => Routing.Go to
             end
    end.
Proof.
  intros Hu Hl. unfold Routing.render, Routing.ProtectedRoute. rewrite Hu, Hl.
  destruct (Routing.route path); [done|]. by destruct (negb _).
Qed.

(** C34: The dashboards' quick actions mostly lead nowhere: for a
    signed-in global admin every link of the admin dashboard's Quick
    Actions shows the admin layout's 404 page; for a signed-in company
    user "New Quote" (twice) and "Add Client" show the public 404 page,
    and only "Products & Services", "Business Settings" and "View All
    Quotes" reach a page. *)
Theorem dashboard_quick_links (ctx : AuthContext.state) (u : SessionUser.t) :
  AuthContext.user ctx = Some u -> AuthContext.loading ctx = false ->
  (SessionUser.role u = global_app_admin ->
   Forall (fun l => Routing.navigate 1 ctx l = Some (Routing.VPage (Some Routing.AdminLayout) Routing.NotFound, l))
     AdminDashboard.quick_links) /\
  (SessionUser.role u = trade_company_user ->
   (fun l => fst <$> Routing.navigate 1 ctx l) <$> CompanyDashboard.quick_links =
     [Some (Routing.VPage None Routing.NotFound); Some (Routing.VPage None Routing.NotFound);
      Some (Routing.VPage None Routing.NotFound);
      Some (Routing.VPage (Some Routing.CompanyLayout) Routing.ProductsServicesPage);
      Some (Routing.VPage (Some Routing.CompanyLayout) Routing.BusinessSettingsPage);
      Some (Routing.VPage (Some Routing.CompanyLayout) Routing.QuotesPage)]).
Proof.
  intros Hu Hl. split; intros Hr.
  - repeat constructor; simpl; rewrite (render_signed_in ctx u _ Hu Hl), Hr; reflexivity.
  - simpl. rewrite !(render_signed_in ctx u _ Hu Hl), Hr. reflexivity.
Qed.

Lemma dashboard_quick_links_witness :
  let ctx := AuthContext.checkDemoUser (AuthContext.initial (Some (of_user (AuthContext.demoAdmin 7%N)))) in
  (AuthContext.user ctx = Some (json_roundtrip (of_user (AuthContext.demoAdmin 7%N))) /\ AuthContext.loading ctx = false) /\
  Forall (fun l => Routing.navigate 1 ctx l = Some (Routing.VPage (Some Routing.AdminLayout) Routing.NotFound, l))
    AdminDashboard.quick_links.
Proof.
  split; [split; reflexivity|].
  apply (dashboard_quick_links _ (json_roundtrip (of_user (AuthContext.demoAdmin 7%N)))); reflexivity.
Defined.

(** The admin dashboard's figures are its metrics, and the Active Trades
    caption names as many trades as the card counts. *)
Lemma admin_cards_consistent :
  map (fun c => c.1.2) (AdminDashboard.metric_cards AdminDashboard.metrics) = ["12"; "48"; "5"; "15%"] /\
  length (JsString.split ","%char (List.nth 2 (AdminDashboard.metric_cards AdminDashboard.metrics) ("", "", "")).2) =
    AdminDashboard.activeTrades AdminDashboard.metrics.
Proof. split; vm_compute; reflexivity. Qed.
