(* ===== verification/PlatformSettings.v ===== *)
(** * The platform settings page

    [src/src/pages/admin/PlatformSettings.tsx]: the constant system status
    of the Monitoring tab, the status icon and colour functions, the
    Integration Status list of the Integrations tab, and the page's one
    piece of state, [isLoading], set by [handleSaveSettings] around a
    two-second timer.  The form inputs are uncontrolled ([defaultValue])
    and are read by no handler, so they carry no state of the page. *)

From Stdlib Require Import ZArith.
From S2P Require Import Prelude JsString Types Auth.

Module PlatformSettings.

Record status_entry := mk_status { se_name : string; se_status : string; se_detail : string }.

(** [systemStatus]: each entry's status and the detail the Monitoring tab
    prints next to it. *)
Definition systemStatus : list status_entry :=
  [ mk_status "database" "healthy" "12ms";
    mk_status "api" "healthy" "120ms";
    mk_status "storage" "healthy" "68% used";
    mk_status "memory" "warning" "85% used";
    mk_status "cpu" "healthy" "42% used" ].

Inductive Icon := CheckGreen | AlertYellow | XRed | CheckGray.

#[export] Instance Icon_eq_dec : EqDecision Icon.
Proof. solve_decision. Defined.

Definition getStatusIcon (status : string) : Icon :=
  if status === "healthy" then CheckGreen
  else if status === "warning" then AlertYellow
  else if status === "error" then XRed
  else CheckGray.

Definition getStatusColor (status : string) : string :=
  if status === "healthy" then "text-green-600 bg-green-100"
  else if status === "warning" then "text-yellow-600 bg-yellow-100"
  else if status === "error" then "text-red-600 bg-red-100"
  else "text-gray-600 bg-gray-100".

Record integration_row := mk_row { ir_name : string; ir_status : string; ir_lastTest : string }.

Definition integration_status : list integration_row :=
  [ mk_row "SendGrid Email" "connected" "2 minutes ago";
    mk_row "Make.com Webhook" "connected" "5 minutes ago";
    mk_row "Google Sheets API" "warning" "1 hour ago";
    mk_row "GoHighLevel API" "disconnected" "2 days ago" ].

(** What a row of the Integration Status card shows: icon, badge colour,
    badge text. *)
Definition render_row (r : integration_row) : Icon * string * string :=
  (getStatusIcon (ir_status r), getStatusColor (ir_status r), ir_status r).

Inductive Tab := TabGeneral | TabSecurity | TabIntegrations | TabNotifications | TabMonitoring.

#[export] Instance Tab_eq_dec : EqDecision Tab.
Proof. solve_decision. Defined.

Record state := mk { isLoading : bool; tab : Tab; timers : nat }.

Definition initial : state := mk false TabGeneral 0.

Inductive event :=
  | SetTab (t : Tab)
  | ClickSave                (** the General tab's "Save Settings", [disabled={isLoading}] *)
  | Fire.                    (** the oldest running timer fires *)

(** [handleSaveSettings] sets [isLoading], awaits the timer, and clears
    [isLoading]; it has no [try], and the timer never rejects. *)
Definition step (e : event) (st : state) : state :=
  match e with
  | SetTab t => mk (isLoading st) t (timers st)
  | ClickSave => if (tab st === TabGeneral) && negb (isLoading st) then mk true (tab st) (S (timers st)) else st
  | Fire => match timers st with O => st | S n => mk false (tab st) n end
  end.

(** ** The settings forms

    Every input of the General, Security and Integrations tabs is
    uncontrolled: it shows its [defaultValue] (or [defaultChecked], or
    only a placeholder) and no handler reads it. *)

Inductive Control :=
  | TextInput (default : string)
  | NumberInput (default : Z)
  | Placeholder (hint : string)              (** an input with no default, only a placeholder *)
  | Toggle (checked : bool)                  (** a [Switch] *)
  | Choice (default : string) (options : list (string * string)).  (** value, label *)

Definition timezones : list (string * string) :=
  [("UTC", "UTC"); ("America/New_York", "Eastern Time"); ("America/Chicago", "Central Time");
   ("America/Denver", "Mountain Time"); ("America/Los_Angeles", "Pacific Time"); ("Australia/Sydney", "Sydney")].

Definition currencies : list (string * string) :=
  [("USD", "USD ($)"); ("EUR", "EUR (€)"); ("GBP", "GBP (£)"); ("AUD", "AUD (A$)"); ("CAD", "CAD (C$)")].

(** General: Application Settings, Feature Flags, Default Quote Settings. *)
Definition general_controls : list (string * Control) :=
  [("app-name", TextInput "Quote Generation Hub"); ("app-url", TextInput "https://app.quotehub.com");
   ("company-name", TextInput "QuoteHub Technologies"); ("support-email", TextInput "support@quotehub.com");
   ("timezone", Choice "UTC" timezones);
   ("registration", Toggle true); ("api-access", Toggle true); ("analytics", Toggle true);
   ("maintenance", Toggle false); ("beta-features", Toggle false);
   ("quote-prefix", TextInput "QH-"); ("currency", Choice "USD" currencies); ("tax-rate", NumberInput 10%Z)].

(** Security: Authentication, Data Protection, API Security. *)
Definition security_controls : list (string * Control) :=
  [("session-timeout", NumberInput 120%Z); ("max-attempts", NumberInput 5%Z); ("lockout-duration", NumberInput 30%Z);
   ("mfa-required", Toggle false); ("strong-passwords", Toggle true);
   ("encryption-key", NumberInput 90%Z); ("backup-retention", NumberInput 30%Z);
   ("audit-logging", Toggle true); ("data-encryption", Toggle true); ("gdpr-compliance", Toggle true);
   ("rate-limit", NumberInput 1000%Z); ("api-key-expiry", NumberInput 365%Z)].

(** Integrations: Email Service and External APIs. *)
Definition integration_controls : list (string * Control) :=
  [("smtp-provider", Choice "sendgrid" [("sendgrid", "SendGrid"); ("mailgun", "Mailgun");
                                         ("aws-ses", "AWS SES"); ("custom", "Custom SMTP")]);
   ("from-email", TextInput "noreply@quotehub.com"); ("from-name", TextInput "Quote Hub");
   ("email-notifications", Toggle true);
   ("ghl-webhook", Placeholder "https://your-webhook-url.com"); ("make-webhook", Placeholder "https://hook.make.com/...");
   ("google-sheets", Placeholder "Enter API key"); ("webhook-retry", Toggle true)].

(** A row of the Notifications tab: label, email and push switches' defaults, description. *)
Record notification := mk_notification { n_label : string; n_email : bool; n_push : bool; n_description : string }.

Definition user_events : list notification :=
  [ mk_notification "New user registration" true false "When a new user registers";
    mk_notification "User login attempts" false true "Failed login attempts";
    mk_notification "Password changes" true false "When users change passwords";
    mk_notification "Profile updates" false false "When users update profiles" ].

Definition system_events : list notification :=
  [ mk_notification "System errors" true true "Critical system errors";
    mk_notification "Performance alerts" true false "Performance degradation alerts";
    mk_notification "Backup completion" false false "Daily backup status";
    mk_notification "Security alerts" true true "Security-related events" ].

(** ** The Monitoring tab *)

(** System Health: each entry's icon and the detail printed beside it. *)
Definition health_rows : list (string * Icon * string) :=
  (fun e => (se_name e, getStatusIcon (se_status e), se_detail e)) <$> systemStatus.

(** Resource Usage: the percentage printed and the [Progress] value. *)
Definition usage : list (string * Z) := [("Storage", 68%Z); ("Memory", 85%Z); ("CPU", 42%Z)].

Inductive EventIcon := EvXCircle | EvAlert | EvCheck | EvClock.

(** Recent System Events: the four [event.type === ...] guards draw at
    most one icon; another type draws none. *)
Definition event_icon (type : string) : option EventIcon :=
  if type === "error" then Some EvXCircle
  else if type === "warning" then Some EvAlert
  else if type === "success" then Some EvCheck
  else if type === "info" then Some EvClock
  else None.

Definition recent_events : list (string * string * string) :=
  [ ("info", "Daily backup completed successfully", "2 hours ago");
    ("warning", "Memory usage exceeded 80% threshold", "4 hours ago");
    ("success", "System maintenance completed", "1 day ago");
    ("info", "New integration configured: SendGrid", "2 days ago");
    ("error", "Failed webhook delivery to Make.com", "3 days ago") ].

(** The General tab's save button: its label while a save runs. *)
Definition save_label (st : state) : string := if isLoading st then "Saving..." else "Save Settings".

(** ** The status badges *)

(** The Integration Status card draws a disconnected integration exactly
    like a connected one (the grey check mark and the grey badge), since
    the status functions know only [healthy], [warning] and [error]. *)
Lemma disconnected_drawn_as_connected :
  (render_row (mk_row "GoHighLevel API" "disconnected" "2 days ago")).1 =
    (render_row (mk_row "SendGrid Email" "connected" "2 minutes ago")).1 /\
  Forall (fun r => (render_row r).1.1 <> XRed) integration_status.
Proof. split; [reflexivity|]. repeat constructor; discriminate. Qed.

(** At most one save runs, and the button is disabled exactly while it does. *)
Definition one_save (st : state) : Prop := (timers st <= 1)%nat /\ (isLoading st = true <-> timers st = 1%nat).

Lemma one_save_step e st : one_save st -> one_save (step e st).
Proof.
  intros [Hle Hl]. destruct e as [t| |]; simpl; [split; [exact Hle|exact Hl]| |].
  - destruct (bool_decide _ && negb _) eqn:E; [|done]. apply andb_true_iff in E as [_ E%negb_true_iff].
    simpl. destruct (timers st) as [|[|]]; [|rewrite (proj2 Hl eq_refl) in E; discriminate|exfalso; lia].
    unfold one_save; simpl. split; [lia|split; intros; reflexivity].
  - destruct (timers st) as [|n] eqn:Et; [unfold one_save; rewrite Et; split; [lia|exact Hl]|]. unfold one_save; simpl. split; [lia|]. split; [discriminate|lia].
Qed.

(** The save always finishes: from a reachable state the running timers
    alone bring the button back to "Save Settings". *)
Lemma platform_save_completes st :
  reachable step initial st -> save_label (foldl (fun s e => step e s) st (replicate (timers st) Fire)) = "Save Settings".
Proof.
  intros Hr. assert (Hs : one_save st) by (apply (reachable_inv step initial one_save); [split; [simpl; lia|done]|
    intros e s' _; apply one_save_step|done]).
  destruct Hs as [Hle Hl]. unfold save_label.
  destruct (timers st) as [|[|]] eqn:Et; simpl; [|by rewrite Et|exfalso; lia].
  destruct (isLoading st) eqn:El; [|done]. discriminate (proj1 Hl eq_refl).
Qed.

End PlatformSettings.
